(** * Receive-side RTP state machine: a shallow embedding of
      [modules/rtp_rtcp/source/rtp_receiver.cc]

    Every C++ integer is a [Z] together with the wrap-around of its declared
    width; arrays are lists; the receiver object is a record that is threaded
    through the member functions; host callbacks are collected, in call order,
    in a list of [Callback] values.  The collaborators that live outside this
    translation unit (clock, media strategy, RTCP module) answer through the
    record [Env], one record per call, so that every theorem quantified over
    [Env] holds for every implementation of those collaborators. *)

From Stdlib Require Import ZArith List Bool Lia String.
Import ListNotations.
Local Open Scope Z_scope.

(** ** Fixed-width integers *)

Module Int.

(** [WebRtc_UWord8], [WebRtc_UWord16], [WebRtc_UWord32]. *)
Definition u8 (x : Z) : Z := x mod 2 ^ 8.
Definition u16 (x : Z) : Z := x mod 2 ^ 16.
Definition u32 (x : Z) : Z := x mod 2 ^ 32.

(** [WebRtc_Word8], [WebRtc_Word32]: two's complement. *)
Definition s8 (x : Z) : Z := (x + 2 ^ 7) mod 2 ^ 8 - 2 ^ 7.
Definition s32 (x : Z) : Z := (x + 2 ^ 31) mod 2 ^ 32 - 2 ^ 31.

(** [abs] from <stdlib.h> on a 32-bit [int].  At [INT_MIN] the C standard
    leaves the result undefined; two's-complement machines return [INT_MIN],
    which is what the wrap-around gives. *)
Definition abs32 (x : Z) : Z := s32 (Z.abs x).

(** [x << 4] and [x >> 4] on a [WebRtc_Word32]; the right shift of a
    negative value is arithmetic. *)
Definition shl4 (x : Z) : Z := s32 (Z.shiftl x 4).
Definition sar4 (x : Z) : Z := Z.shiftr x 4.

Definition INT32_MIN : Z := - 2 ^ 31.

End Int.
Import Int.

(** ** Constants of [rtp_rtcp_defines.h] and [rtp_rtcp_config.h] *)

(** Modelled from the spec: the header that declares [kRtpCsrcSize] is not in
    the tree; the spec bounds the CSRC count by 15. *)
Definition kRtpCsrcSize : Z := 15.

(** Modelled from the spec: the header that declares
    [kDefaultMaxReorderingThreshold] is not in the tree; the spec gives the
    default reordering threshold as 50. *)
Definition kDefaultMaxReorderingThreshold : Z := 50.

(** Modelled from the spec: the header that declares [kDefaultVideoFrequency]
    is not in the tree; the spec speaks of 90 kHz video. *)
Definition kDefaultVideoFrequency : Z := 90000.

Inductive NACKMethod := kNackOff | kNackRtcp.

Inductive RtpRtcpPacketType := kPacketRtp | kPacketKeepAlive.

Inductive RTPAliveType := kRtpDead | kRtpNoRtp | kRtpAlive.

Inductive RtpVideoCodecTypes := kRtpNoVideo | kRtpFecVideo | kRtpVp8Video.

Definition NACKMethod_eqb (a b : NACKMethod) : bool :=
  match a, b with
  | kNackOff, kNackOff | kNackRtcp, kNackRtcp => true
  | _, _ => false
  end.

Definition RtpVideoCodecTypes_eqb (a b : RtpVideoCodecTypes) : bool :=
  match a, b with
  | kRtpNoVideo, kRtpNoVideo | kRtpFecVideo, kRtpFecVideo
  | kRtpVp8Video, kRtpVp8Video => true
  | _, _ => false
  end.

(** ** The parsed header handed to the receiver ([WebRtcRTPHeader]) *)

Record WebRtcRTPHeader := {
  payloadType : Z;               (* header.payloadType, u8 *)
  sequenceNumber : Z;            (* header.sequenceNumber, u16 *)
  timestamp : Z;                 (* header.timestamp, u32 *)
  ssrc : Z;                      (* header.ssrc, u32 *)
  numCSRCs : Z;                  (* header.numCSRCs, u8 *)
  arrOfCSRCs : list Z;           (* header.arrOfCSRCs[kRtpCsrcSize] *)
  paddingLength : Z;             (* header.paddingLength, u8 *)
  headerLength : Z;              (* header.headerLength, u16 *)
  transmissionTimeOffset : Z;    (* extension.transmissionTimeOffset, s32 *)
  numEnergy : Z;                 (* type.Audio.numEnergy, u8 *)
  arrOfEnergy : list Z           (* type.Audio.arrOfEnergy[kRtpCsrcSize] *)
}.

(** The three header fields the RTX step overwrites. *)
Definition rtx_rewrite (new_ssrc new_seq new_len : Z) (h : WebRtcRTPHeader)
  : WebRtcRTPHeader :=
  {| payloadType := payloadType h;
     sequenceNumber := new_seq;
     timestamp := timestamp h;
     ssrc := new_ssrc;
     numCSRCs := numCSRCs h;
     arrOfCSRCs := arrOfCSRCs h;
     paddingLength := paddingLength h;
     headerLength := new_len;
     transmissionTimeOffset := transmissionTimeOffset h;
     numEnergy := numEnergy h;
     arrOfEnergy := arrOfEnergy h |}.

(** ** Payload descriptors ([ModuleRTPUtility::Payload]) *)

(** [PayloadUnion] is a C union of an audio and a video record; the code reads
    a member only on the side that the [audio] flag of the descriptor selects,
    so the union is a tagged sum here. *)
Inductive PayloadUnion :=
| Audio (frequency channels rate : Z)
| Video (videoCodecType : RtpVideoCodecTypes) (maxRate : Z).

Record Payload := {
  name : String.string;
  audio : bool;
  typeSpecific : PayloadUnion
}.

Definition Audio_frequency (u : PayloadUnion) : Z :=
  match u with Audio f _ _ => f | Video _ _ => 0 end.
Definition Audio_channels (u : PayloadUnion) : Z :=
  match u with Audio _ c _ => c | Video _ _ => 0 end.
Definition Audio_rate (u : PayloadUnion) : Z :=
  match u with Audio _ _ r => r | Video _ _ => 0 end.
Definition Video_videoCodecType (u : PayloadUnion) : RtpVideoCodecTypes :=
  match u with Video c _ => c | Audio _ _ _ => kRtpNoVideo end.

(** ** The payload registry *)

(** Modelled from the spec: [rtp_payload_registry.cc] is not in the tree.  The
    spec describes the registry as a map from payload-type numbers to payload
    descriptors that remembers the last received payload type and, apart from
    it, the last received media payload type; -1 stands for "none". *)
Record RTPPayloadRegistry := {
  payload_type_map_ : list (Z * Payload);
  red_payload_type_ : Z;
  last_received_payload_type_ : Z;
  last_received_media_payload_type_ : Z
}.

Module Registry.

(** Modelled from the spec: lookup of a descriptor; [None] is the non-zero
    return of the C++ function. *)
Fixpoint PayloadTypeToPayload (m : list (Z * Payload)) (pt : Z)
    : option Payload :=
    match m with
    | [] => None
    | (k, p) :: m' => if k =? pt then Some p else PayloadTypeToPayload m' pt
    end.

Definition set_last_received_payload_type (pt : Z) (g : RTPPayloadRegistry)
    : RTPPayloadRegistry :=
    {| payload_type_map_ := payload_type_map_ g;
       red_payload_type_ := red_payload_type_ g;
       last_received_payload_type_ := pt;
       last_received_media_payload_type_ :=
         last_received_media_payload_type_ g |}.

(** Modelled from the spec: "reset last received payload type". *)
Definition ResetLastReceivedPayloadTypes (g : RTPPayloadRegistry)
    : RTPPayloadRegistry :=
    {| payload_type_map_ := payload_type_map_ g;
       red_payload_type_ := red_payload_type_ g;
       last_received_payload_type_ := -1;
       last_received_media_payload_type_ := -1 |}.

(** Modelled from the spec: reports whether the media payload type is the
    one remembered, and remembers the new one otherwise. *)
Definition ReportMediaPayloadType (pt : Z) (g : RTPPayloadRegistry)
    : bool * RTPPayloadRegistry :=
    if last_received_media_payload_type_ g =? pt then (true, g)
    else (false,
          {| payload_type_map_ := payload_type_map_ g;
             red_payload_type_ := red_payload_type_ g;
             last_received_payload_type_ := last_received_payload_type_ g;
             last_received_media_payload_type_ := pt |}).

(** Modelled from the spec: registration binds a payload-type number to a
    descriptor, deregistration removes the binding. *)
Definition RegisterReceivePayload (pt : Z) (p : Payload)
                                    (g : RTPPayloadRegistry)
    : RTPPayloadRegistry :=
    {| payload_type_map_ := (pt, p) :: payload_type_map_ g;
       red_payload_type_ := red_payload_type_ g;
       last_received_payload_type_ := last_received_payload_type_ g;
       last_received_media_payload_type_ :=
         last_received_media_payload_type_ g |}.

Definition DeRegisterReceivePayload (pt : Z) (g : RTPPayloadRegistry)
    : RTPPayloadRegistry :=
    {| payload_type_map_ :=
         filter (fun kp => negb (fst kp =? pt)) (payload_type_map_ g);
       red_payload_type_ := red_payload_type_ g;
       last_received_payload_type_ := last_received_payload_type_ g;
       last_received_media_payload_type_ :=
         last_received_media_payload_type_ g |}.

Definition empty : RTPPayloadRegistry :=
    {| payload_type_map_ := [];
       red_payload_type_ := -1;
       last_received_payload_type_ := -1;
       last_received_media_payload_type_ := -1 |}.

End Registry.

(** ** Collaborators outside the translation unit *)

(** The answers of the media strategy ([RTPReceiverStrategy], audio or video
    variant) during one call.  Nothing is assumed about them. *)
Record RTPReceiverStrategy := {
  GetFrequencyHz : Z;
  ShouldReportCsrcChanges : Z -> bool;
  (* payload type, caller's specific payload |->
     specific payload, should_reset_statistics, should_discard_changes *)
  CheckPayloadChanged_strategy : Z -> PayloadUnion -> PayloadUnion * bool * bool;
  (* header, specific payload, is_red, packet, packet_length, now,
     is_first_packet |-> return code *)
  ParseRtpPacket :
    WebRtcRTPHeader -> PayloadUnion -> bool -> list Z -> Z -> Z -> bool -> Z;
  (* payload type, name, specific payload |-> return code *)
  InvokeOnInitializeDecoder_ret : Z -> String.string -> PayloadUnion -> Z;
  ProcessDeadOrAlive_strategy : Z -> RTPAliveType
}.

(** Everything the receiver asks of the outside world during one ingress
    call: the media strategy, the clock at each place where it is read, the
    minimum round-trip time of the RTCP module, and the floating-point
    estimate [(int)((2 * sqrt(jitter)) / frequency_khz)] of
    [RetransmitOfOldPacket], which is taken as given. *)
Record Env := {
  rtp_media_receiver_ : RTPReceiverStrategy;
  now_parse_ms : Z;        (* clock_->TimeInMilliseconds(), argument of ParseRtpPacket *)
  now_retransmit_ms : Z;   (* ... in RetransmitOfOldPacket *)
  now_rtp : Z;             (* GetCurrentRTP(clock_, frequency_hz), u32 *)
  now_receive_ms : Z;      (* ... stored in last_receive_time_ *)
  now_frame_ms : Z;        (* ... stored in last_received_frame_time_ms_ *)
  min_rtt : Z;             (* rtp_rtcp_.RTT(ssrc_, NULL, NULL, &min_rtt, NULL) *)
  jitter_delay_ms : Z -> Z -> Z
}.

(** ** Host callbacks, in the order in which they are made *)

Inductive Callback :=
| OnReceivedPacket (packet_type : RtpRtcpPacketType)
| SetRemoteSSRC (new_ssrc : Z)
| OnIncomingSSRCChanged (new_ssrc : Z)
| OnInitializeDecoder (payload_type : Z) (payload_name : String.string)
                      (frequency channels rate : Z)
| InvokeOnInitializeDecoder (payload_type : Z) (payload_name : String.string)
                            (specific_payload : PayloadUnion)
| OnIncomingCSRCChanged (csrc : Z) (added : bool)
| OnPacketTimeout
| OnPeriodicDeadOrAlive (alive : RTPAliveType).

(** ** The receiver object *)

(** The member widths come from the class declaration, which is not in the
    tree; they are the ones of the spec's data model and of the accessors'
    return types: sequence numbers are u16, counters, timestamps and jitter
    values u32, [received_packet_oh_] u16, [last_report_fraction_lost_] u8,
    the two millisecond times signed 64-bit.  [last_media_specific_payload_]
    is the one piece of state of the media strategy that the receiver
    reads back ([Set]/[GetLastMediaSpecificPayload]). *)
Record RTPReceiver := {
  rtp_payload_registry_ : RTPPayloadRegistry;
  last_media_specific_payload_ : PayloadUnion;
  last_receive_time_ : Z;
  last_received_payload_length_ : Z;
  packet_timeout_ms_ : Z;
  ssrc_ : Z;
  num_csrcs_ : Z;
  current_remote_csrc_ : list Z;
  num_energy_ : Z;
  current_remote_energy_ : list Z;
  use_ssrc_filter_ : bool;
  ssrc_filter_ : Z;
  jitter_q4_ : Z;
  jitter_max_q4_ : Z;
  cumulative_loss_ : Z;
  jitter_q4_transmission_time_offset_ : Z;
  local_time_last_received_timestamp_ : Z;
  last_received_frame_time_ms_ : Z;
  last_received_timestamp_ : Z;
  last_received_sequence_number_ : Z;
  last_received_transmission_time_offset_ : Z;
  received_seq_first_ : Z;
  received_seq_max_ : Z;
  received_seq_wraps_ : Z;
  received_packet_oh_ : Z;
  received_byte_count_ : Z;
  received_old_packet_count_ : Z;
  received_inorder_packet_count_ : Z;
  last_report_inorder_packets_ : Z;
  last_report_old_packets_ : Z;
  last_report_seq_max_ : Z;
  last_report_fraction_lost_ : Z;
  last_report_cumulative_lost_ : Z;
  last_report_extended_high_seq_num_ : Z;
  last_report_jitter_ : Z;
  last_report_jitter_transmission_time_offset_ : Z;
  nack_method_ : NACKMethod;
  max_reordering_threshold_ : Z;
  rtx_ : bool;
  ssrc_rtx_ : Z
}.

(** Assignment to one member. *)

Definition set_rtp_payload_registry_ (v : RTPPayloadRegistry) (r : RTPReceiver)
  : RTPReceiver :=
  {| rtp_payload_registry_ := v;
     last_media_specific_payload_ := last_media_specific_payload_ r;
     last_receive_time_ := last_receive_time_ r;
     last_received_payload_length_ := last_received_payload_length_ r;
     packet_timeout_ms_ := packet_timeout_ms_ r; ssrc_ := ssrc_ r;
     num_csrcs_ := num_csrcs_ r;
     current_remote_csrc_ := current_remote_csrc_ r;
     num_energy_ := num_energy_ r;
     current_remote_energy_ := current_remote_energy_ r;
     use_ssrc_filter_ := use_ssrc_filter_ r; ssrc_filter_ := ssrc_filter_ r;
     jitter_q4_ := jitter_q4_ r; jitter_max_q4_ := jitter_max_q4_ r;
     cumulative_loss_ := cumulative_loss_ r;
     jitter_q4_transmission_time_offset_ := jitter_q4_transmission_time_offset_ r;
     local_time_last_received_timestamp_ := local_time_last_received_timestamp_ r;
     last_received_frame_time_ms_ := last_received_frame_time_ms_ r;
     last_received_timestamp_ := last_received_timestamp_ r;
     last_received_sequence_number_ := last_received_sequence_number_ r;
     last_received_transmission_time_offset_ := last_received_transmission_time_offset_ r;
     received_seq_first_ := received_seq_first_ r;
     received_seq_max_ := received_seq_max_ r;
     received_seq_wraps_ := received_seq_wraps_ r;
     received_packet_oh_ := received_packet_oh_ r;
     received_byte_count_ := received_byte_count_ r;
     received_old_packet_count_ := received_old_packet_count_ r;
     received_inorder_packet_count_ := received_inorder_packet_count_ r;
     last_report_inorder_packets_ := last_report_inorder_packets_ r;
     last_report_old_packets_ := last_report_old_packets_ r;
     last_report_seq_max_ := last_report_seq_max_ r;
     last_report_fraction_lost_ := last_report_fraction_lost_ r;
     last_report_cumulative_lost_ := last_report_cumulative_lost_ r;
     last_report_extended_high_seq_num_ := last_report_extended_high_seq_num_ r;
     last_report_jitter_ := last_report_jitter_ r;
     last_report_jitter_transmission_time_offset_ := last_report_jitter_transmission_time_offset_ r;
     nack_method_ := nack_method_ r;
     max_reordering_threshold_ := max_reordering_threshold_ r; rtx_ := rtx_ r;
     ssrc_rtx_ := ssrc_rtx_ r |}.

Definition set_last_media_specific_payload_ (v : PayloadUnion) (r : RTPReceiver)
  : RTPReceiver :=
  {| rtp_payload_registry_ := rtp_payload_registry_ r;
     last_media_specific_payload_ := v;
     last_receive_time_ := last_receive_time_ r;
     last_received_payload_length_ := last_received_payload_length_ r;
     packet_timeout_ms_ := packet_timeout_ms_ r; ssrc_ := ssrc_ r;
     num_csrcs_ := num_csrcs_ r;
     current_remote_csrc_ := current_remote_csrc_ r;
     num_energy_ := num_energy_ r;
     current_remote_energy_ := current_remote_energy_ r;
     use_ssrc_filter_ := use_ssrc_filter_ r; ssrc_filter_ := ssrc_filter_ r;
     jitter_q4_ := jitter_q4_ r; jitter_max_q4_ := jitter_max_q4_ r;
     cumulative_loss_ := cumulative_loss_ r;
     jitter_q4_transmission_time_offset_ := jitter_q4_transmission_time_offset_ r;
     local_time_last_received_timestamp_ := local_time_last_received_timestamp_ r;
     last_received_frame_time_ms_ := last_received_frame_time_ms_ r;
     last_received_timestamp_ := last_received_timestamp_ r;
     last_received_sequence_number_ := last_received_sequence_number_ r;
     last_received_transmission_time_offset_ := last_received_transmission_time_offset_ r;
     received_seq_first_ := received_seq_first_ r;
     received_seq_max_ := received_seq_max_ r;
     received_seq_wraps_ := received_seq_wraps_ r;
     received_packet_oh_ := received_packet_oh_ r;
     received_byte_count_ := received_byte_count_ r;
     received_old_packet_count_ := received_old_packet_count_ r;
     received_inorder_packet_count_ := received_inorder_packet_count_ r;
     last_report_inorder_packets_ := last_report_inorder_packets_ r;
     last_report_old_packets_ := last_report_old_packets_ r;
     last_report_seq_max_ := last_report_seq_max_ r;
     last_report_fraction_lost_ := last_report_fraction_lost_ r;
     last_report_cumulative_lost_ := last_report_cumulative_lost_ r;
     last_report_extended_high_seq_num_ := last_report_extended_high_seq_num_ r;
     last_report_jitter_ := last_report_jitter_ r;
     last_report_jitter_transmission_time_offset_ := last_report_jitter_transmission_time_offset_ r;
     nack_method_ := nack_method_ r;
     max_reordering_threshold_ := max_reordering_threshold_ r; rtx_ := rtx_ r;
     ssrc_rtx_ := ssrc_rtx_ r |}.

Definition set_last_receive_time_ (v : Z) (r : RTPReceiver)
  : RTPReceiver :=
  {| rtp_payload_registry_ := rtp_payload_registry_ r;
     last_media_specific_payload_ := last_media_specific_payload_ r;
     last_receive_time_ := v;
     last_received_payload_length_ := last_received_payload_length_ r;
     packet_timeout_ms_ := packet_timeout_ms_ r; ssrc_ := ssrc_ r;
     num_csrcs_ := num_csrcs_ r;
     current_remote_csrc_ := current_remote_csrc_ r;
     num_energy_ := num_energy_ r;
     current_remote_energy_ := current_remote_energy_ r;
     use_ssrc_filter_ := use_ssrc_filter_ r; ssrc_filter_ := ssrc_filter_ r;
     jitter_q4_ := jitter_q4_ r; jitter_max_q4_ := jitter_max_q4_ r;
     cumulative_loss_ := cumulative_loss_ r;
     jitter_q4_transmission_time_offset_ := jitter_q4_transmission_time_offset_ r;
     local_time_last_received_timestamp_ := local_time_last_received_timestamp_ r;
     last_received_frame_time_ms_ := last_received_frame_time_ms_ r;
     last_received_timestamp_ := last_received_timestamp_ r;
     last_received_sequence_number_ := last_received_sequence_number_ r;
     last_received_transmission_time_offset_ := last_received_transmission_time_offset_ r;
     received_seq_first_ := received_seq_first_ r;
     received_seq_max_ := received_seq_max_ r;
     received_seq_wraps_ := received_seq_wraps_ r;
     received_packet_oh_ := received_packet_oh_ r;
     received_byte_count_ := received_byte_count_ r;
     received_old_packet_count_ := received_old_packet_count_ r;
     received_inorder_packet_count_ := received_inorder_packet_count_ r;
     last_report_inorder_packets_ := last_report_inorder_packets_ r;
     last_report_old_packets_ := last_report_old_packets_ r;
     last_report_seq_max_ := last_report_seq_max_ r;
     last_report_fraction_lost_ := last_report_fraction_lost_ r;
     last_report_cumulative_lost_ := last_report_cumulative_lost_ r;
     last_report_extended_high_seq_num_ := last_report_extended_high_seq_num_ r;
     last_report_jitter_ := last_report_jitter_ r;
     last_report_jitter_transmission_time_offset_ := last_report_jitter_transmission_time_offset_ r;
     nack_method_ := nack_method_ r;
     max_reordering_threshold_ := max_reordering_threshold_ r; rtx_ := rtx_ r;
     ssrc_rtx_ := ssrc_rtx_ r |}.

Definition set_last_received_payload_length_ (v : Z) (r : RTPReceiver)
  : RTPReceiver :=
  {| rtp_payload_registry_ := rtp_payload_registry_ r;
     last_media_specific_payload_ := last_media_specific_payload_ r;
     last_receive_time_ := last_receive_time_ r;
     last_received_payload_length_ := v;
     packet_timeout_ms_ := packet_timeout_ms_ r; ssrc_ := ssrc_ r;
     num_csrcs_ := num_csrcs_ r;
     current_remote_csrc_ := current_remote_csrc_ r;
     num_energy_ := num_energy_ r;
     current_remote_energy_ := current_remote_energy_ r;
     use_ssrc_filter_ := use_ssrc_filter_ r; ssrc_filter_ := ssrc_filter_ r;
     jitter_q4_ := jitter_q4_ r; jitter_max_q4_ := jitter_max_q4_ r;
     cumulative_loss_ := cumulative_loss_ r;
     jitter_q4_transmission_time_offset_ := jitter_q4_transmission_time_offset_ r;
     local_time_last_received_timestamp_ := local_time_last_received_timestamp_ r;
     last_received_frame_time_ms_ := last_received_frame_time_ms_ r;
     last_received_timestamp_ := last_received_timestamp_ r;
     last_received_sequence_number_ := last_received_sequence_number_ r;
     last_received_transmission_time_offset_ := last_received_transmission_time_offset_ r;
     received_seq_first_ := received_seq_first_ r;
     received_seq_max_ := received_seq_max_ r;
     received_seq_wraps_ := received_seq_wraps_ r;
     received_packet_oh_ := received_packet_oh_ r;
     received_byte_count_ := received_byte_count_ r;
     received_old_packet_count_ := received_old_packet_count_ r;
     received_inorder_packet_count_ := received_inorder_packet_count_ r;
     last_report_inorder_packets_ := last_report_inorder_packets_ r;
     last_report_old_packets_ := last_report_old_packets_ r;
     last_report_seq_max_ := last_report_seq_max_ r;
     last_report_fraction_lost_ := last_report_fraction_lost_ r;
     last_report_cumulative_lost_ := last_report_cumulative_lost_ r;
     last_report_extended_high_seq_num_ := last_report_extended_high_seq_num_ r;
     last_report_jitter_ := last_report_jitter_ r;
     last_report_jitter_transmission_time_offset_ := last_report_jitter_transmission_time_offset_ r;
     nack_method_ := nack_method_ r;
     max_reordering_threshold_ := max_reordering_threshold_ r; rtx_ := rtx_ r;
     ssrc_rtx_ := ssrc_rtx_ r |}.

Definition set_packet_timeout_ms_ (v : Z) (r : RTPReceiver)
  : RTPReceiver :=
  {| rtp_payload_registry_ := rtp_payload_registry_ r;
     last_media_specific_payload_ := last_media_specific_payload_ r;
     last_receive_time_ := last_receive_time_ r;
     last_received_payload_length_ := last_received_payload_length_ r;
     packet_timeout_ms_ := v; ssrc_ := ssrc_ r; num_csrcs_ := num_csrcs_ r;
     current_remote_csrc_ := current_remote_csrc_ r;
     num_energy_ := num_energy_ r;
     current_remote_energy_ := current_remote_energy_ r;
     use_ssrc_filter_ := use_ssrc_filter_ r; ssrc_filter_ := ssrc_filter_ r;
     jitter_q4_ := jitter_q4_ r; jitter_max_q4_ := jitter_max_q4_ r;
     cumulative_loss_ := cumulative_loss_ r;
     jitter_q4_transmission_time_offset_ := jitter_q4_transmission_time_offset_ r;
     local_time_last_received_timestamp_ := local_time_last_received_timestamp_ r;
     last_received_frame_time_ms_ := last_received_frame_time_ms_ r;
     last_received_timestamp_ := last_received_timestamp_ r;
     last_received_sequence_number_ := last_received_sequence_number_ r;
     last_received_transmission_time_offset_ := last_received_transmission_time_offset_ r;
     received_seq_first_ := received_seq_first_ r;
     received_seq_max_ := received_seq_max_ r;
     received_seq_wraps_ := received_seq_wraps_ r;
     received_packet_oh_ := received_packet_oh_ r;
     received_byte_count_ := received_byte_count_ r;
     received_old_packet_count_ := received_old_packet_count_ r;
     received_inorder_packet_count_ := received_inorder_packet_count_ r;
     last_report_inorder_packets_ := last_report_inorder_packets_ r;
     last_report_old_packets_ := last_report_old_packets_ r;
     last_report_seq_max_ := last_report_seq_max_ r;
     last_report_fraction_lost_ := last_report_fraction_lost_ r;
     last_report_cumulative_lost_ := last_report_cumulative_lost_ r;
     last_report_extended_high_seq_num_ := last_report_extended_high_seq_num_ r;
     last_report_jitter_ := last_report_jitter_ r;
     last_report_jitter_transmission_time_offset_ := last_report_jitter_transmission_time_offset_ r;
     nack_method_ := nack_method_ r;
     max_reordering_threshold_ := max_reordering_threshold_ r; rtx_ := rtx_ r;
     ssrc_rtx_ := ssrc_rtx_ r |}.

Definition set_ssrc_ (v : Z) (r : RTPReceiver)
  : RTPReceiver :=
  {| rtp_payload_registry_ := rtp_payload_registry_ r;
     last_media_specific_payload_ := last_media_specific_payload_ r;
     last_receive_time_ := last_receive_time_ r;
     last_received_payload_length_ := last_received_payload_length_ r;
     packet_timeout_ms_ := packet_timeout_ms_ r; ssrc_ := v;
     num_csrcs_ := num_csrcs_ r;
     current_remote_csrc_ := current_remote_csrc_ r;
     num_energy_ := num_energy_ r;
     current_remote_energy_ := current_remote_energy_ r;
     use_ssrc_filter_ := use_ssrc_filter_ r; ssrc_filter_ := ssrc_filter_ r;
     jitter_q4_ := jitter_q4_ r; jitter_max_q4_ := jitter_max_q4_ r;
     cumulative_loss_ := cumulative_loss_ r;
     jitter_q4_transmission_time_offset_ := jitter_q4_transmission_time_offset_ r;
     local_time_last_received_timestamp_ := local_time_last_received_timestamp_ r;
     last_received_frame_time_ms_ := last_received_frame_time_ms_ r;
     last_received_timestamp_ := last_received_timestamp_ r;
     last_received_sequence_number_ := last_received_sequence_number_ r;
     last_received_transmission_time_offset_ := last_received_transmission_time_offset_ r;
     received_seq_first_ := received_seq_first_ r;
     received_seq_max_ := received_seq_max_ r;
     received_seq_wraps_ := received_seq_wraps_ r;
     received_packet_oh_ := received_packet_oh_ r;
     received_byte_count_ := received_byte_count_ r;
     received_old_packet_count_ := received_old_packet_count_ r;
     received_inorder_packet_count_ := received_inorder_packet_count_ r;
     last_report_inorder_packets_ := last_report_inorder_packets_ r;
     last_report_old_packets_ := last_report_old_packets_ r;
     last_report_seq_max_ := last_report_seq_max_ r;
     last_report_fraction_lost_ := last_report_fraction_lost_ r;
     last_report_cumulative_lost_ := last_report_cumulative_lost_ r;
     last_report_extended_high_seq_num_ := last_report_extended_high_seq_num_ r;
     last_report_jitter_ := last_report_jitter_ r;
     last_report_jitter_transmission_time_offset_ := last_report_jitter_transmission_time_offset_ r;
     nack_method_ := nack_method_ r;
     max_reordering_threshold_ := max_reordering_threshold_ r; rtx_ := rtx_ r;
     ssrc_rtx_ := ssrc_rtx_ r |}.

Definition set_num_csrcs_ (v : Z) (r : RTPReceiver)
  : RTPReceiver :=
  {| rtp_payload_registry_ := rtp_payload_registry_ r;
     last_media_specific_payload_ := last_media_specific_payload_ r;
     last_receive_time_ := last_receive_time_ r;
     last_received_payload_length_ := last_received_payload_length_ r;
     packet_timeout_ms_ := packet_timeout_ms_ r; ssrc_ := ssrc_ r;
     num_csrcs_ := v; current_remote_csrc_ := current_remote_csrc_ r;
     num_energy_ := num_energy_ r;
     current_remote_energy_ := current_remote_energy_ r;
     use_ssrc_filter_ := use_ssrc_filter_ r; ssrc_filter_ := ssrc_filter_ r;
     jitter_q4_ := jitter_q4_ r; jitter_max_q4_ := jitter_max_q4_ r;
     cumulative_loss_ := cumulative_loss_ r;
     jitter_q4_transmission_time_offset_ := jitter_q4_transmission_time_offset_ r;
     local_time_last_received_timestamp_ := local_time_last_received_timestamp_ r;
     last_received_frame_time_ms_ := last_received_frame_time_ms_ r;
     last_received_timestamp_ := last_received_timestamp_ r;
     last_received_sequence_number_ := last_received_sequence_number_ r;
     last_received_transmission_time_offset_ := last_received_transmission_time_offset_ r;
     received_seq_first_ := received_seq_first_ r;
     received_seq_max_ := received_seq_max_ r;
     received_seq_wraps_ := received_seq_wraps_ r;
     received_packet_oh_ := received_packet_oh_ r;
     received_byte_count_ := received_byte_count_ r;
     received_old_packet_count_ := received_old_packet_count_ r;
     received_inorder_packet_count_ := received_inorder_packet_count_ r;
     last_report_inorder_packets_ := last_report_inorder_packets_ r;
     last_report_old_packets_ := last_report_old_packets_ r;
     last_report_seq_max_ := last_report_seq_max_ r;
     last_report_fraction_lost_ := last_report_fraction_lost_ r;
     last_report_cumulative_lost_ := last_report_cumulative_lost_ r;
     last_report_extended_high_seq_num_ := last_report_extended_high_seq_num_ r;
     last_report_jitter_ := last_report_jitter_ r;
     last_report_jitter_transmission_time_offset_ := last_report_jitter_transmission_time_offset_ r;
     nack_method_ := nack_method_ r;
     max_reordering_threshold_ := max_reordering_threshold_ r; rtx_ := rtx_ r;
     ssrc_rtx_ := ssrc_rtx_ r |}.

Definition set_current_remote_csrc_ (v : list Z) (r : RTPReceiver)
  : RTPReceiver :=
  {| rtp_payload_registry_ := rtp_payload_registry_ r;
     last_media_specific_payload_ := last_media_specific_payload_ r;
     last_receive_time_ := last_receive_time_ r;
     last_received_payload_length_ := last_received_payload_length_ r;
     packet_timeout_ms_ := packet_timeout_ms_ r; ssrc_ := ssrc_ r;
     num_csrcs_ := num_csrcs_ r; current_remote_csrc_ := v;
     num_energy_ := num_energy_ r;
     current_remote_energy_ := current_remote_energy_ r;
     use_ssrc_filter_ := use_ssrc_filter_ r; ssrc_filter_ := ssrc_filter_ r;
     jitter_q4_ := jitter_q4_ r; jitter_max_q4_ := jitter_max_q4_ r;
     cumulative_loss_ := cumulative_loss_ r;
     jitter_q4_transmission_time_offset_ := jitter_q4_transmission_time_offset_ r;
     local_time_last_received_timestamp_ := local_time_last_received_timestamp_ r;
     last_received_frame_time_ms_ := last_received_frame_time_ms_ r;
     last_received_timestamp_ := last_received_timestamp_ r;
     last_received_sequence_number_ := last_received_sequence_number_ r;
     last_received_transmission_time_offset_ := last_received_transmission_time_offset_ r;
     received_seq_first_ := received_seq_first_ r;
     received_seq_max_ := received_seq_max_ r;
     received_seq_wraps_ := received_seq_wraps_ r;
     received_packet_oh_ := received_packet_oh_ r;
     received_byte_count_ := received_byte_count_ r;
     received_old_packet_count_ := received_old_packet_count_ r;
     received_inorder_packet_count_ := received_inorder_packet_count_ r;
     last_report_inorder_packets_ := last_report_inorder_packets_ r;
     last_report_old_packets_ := last_report_old_packets_ r;
     last_report_seq_max_ := last_report_seq_max_ r;
     last_report_fraction_lost_ := last_report_fraction_lost_ r;
     last_report_cumulative_lost_ := last_report_cumulative_lost_ r;
     last_report_extended_high_seq_num_ := last_report_extended_high_seq_num_ r;
     last_report_jitter_ := last_report_jitter_ r;
     last_report_jitter_transmission_time_offset_ := last_report_jitter_transmission_time_offset_ r;
     nack_method_ := nack_method_ r;
     max_reordering_threshold_ := max_reordering_threshold_ r; rtx_ := rtx_ r;
     ssrc_rtx_ := ssrc_rtx_ r |}.

Definition set_num_energy_ (v : Z) (r : RTPReceiver)
  : RTPReceiver :=
  {| rtp_payload_registry_ := rtp_payload_registry_ r;
     last_media_specific_payload_ := last_media_specific_payload_ r;
     last_receive_time_ := last_receive_time_ r;
     last_received_payload_length_ := last_received_payload_length_ r;
     packet_timeout_ms_ := packet_timeout_ms_ r; ssrc_ := ssrc_ r;
     num_csrcs_ := num_csrcs_ r;
     current_remote_csrc_ := current_remote_csrc_ r; num_energy_ := v;
     current_remote_energy_ := current_remote_energy_ r;
     use_ssrc_filter_ := use_ssrc_filter_ r; ssrc_filter_ := ssrc_filter_ r;
     jitter_q4_ := jitter_q4_ r; jitter_max_q4_ := jitter_max_q4_ r;
     cumulative_loss_ := cumulative_loss_ r;
     jitter_q4_transmission_time_offset_ := jitter_q4_transmission_time_offset_ r;
     local_time_last_received_timestamp_ := local_time_last_received_timestamp_ r;
     last_received_frame_time_ms_ := last_received_frame_time_ms_ r;
     last_received_timestamp_ := last_received_timestamp_ r;
     last_received_sequence_number_ := last_received_sequence_number_ r;
     last_received_transmission_time_offset_ := last_received_transmission_time_offset_ r;
     received_seq_first_ := received_seq_first_ r;
     received_seq_max_ := received_seq_max_ r;
     received_seq_wraps_ := received_seq_wraps_ r;
     received_packet_oh_ := received_packet_oh_ r;
     received_byte_count_ := received_byte_count_ r;
     received_old_packet_count_ := received_old_packet_count_ r;
     received_inorder_packet_count_ := received_inorder_packet_count_ r;
     last_report_inorder_packets_ := last_report_inorder_packets_ r;
     last_report_old_packets_ := last_report_old_packets_ r;
     last_report_seq_max_ := last_report_seq_max_ r;
     last_report_fraction_lost_ := last_report_fraction_lost_ r;
     last_report_cumulative_lost_ := last_report_cumulative_lost_ r;
     last_report_extended_high_seq_num_ := last_report_extended_high_seq_num_ r;
     last_report_jitter_ := last_report_jitter_ r;
     last_report_jitter_transmission_time_offset_ := last_report_jitter_transmission_time_offset_ r;
     nack_method_ := nack_method_ r;
     max_reordering_threshold_ := max_reordering_threshold_ r; rtx_ := rtx_ r;
     ssrc_rtx_ := ssrc_rtx_ r |}.

Definition set_current_remote_energy_ (v : list Z) (r : RTPReceiver)
  : RTPReceiver :=
  {| rtp_payload_registry_ := rtp_payload_registry_ r;
     last_media_specific_payload_ := last_media_specific_payload_ r;
     last_receive_time_ := last_receive_time_ r;
     last_received_payload_length_ := last_received_payload_length_ r;
     packet_timeout_ms_ := packet_timeout_ms_ r; ssrc_ := ssrc_ r;
     num_csrcs_ := num_csrcs_ r;
     current_remote_csrc_ := current_remote_csrc_ r;
     num_energy_ := num_energy_ r; current_remote_energy_ := v;
     use_ssrc_filter_ := use_ssrc_filter_ r; ssrc_filter_ := ssrc_filter_ r;
     jitter_q4_ := jitter_q4_ r; jitter_max_q4_ := jitter_max_q4_ r;
     cumulative_loss_ := cumulative_loss_ r;
     jitter_q4_transmission_time_offset_ := jitter_q4_transmission_time_offset_ r;
     local_time_last_received_timestamp_ := local_time_last_received_timestamp_ r;
     last_received_frame_time_ms_ := last_received_frame_time_ms_ r;
     last_received_timestamp_ := last_received_timestamp_ r;
     last_received_sequence_number_ := last_received_sequence_number_ r;
     last_received_transmission_time_offset_ := last_received_transmission_time_offset_ r;
     received_seq_first_ := received_seq_first_ r;
     received_seq_max_ := received_seq_max_ r;
     received_seq_wraps_ := received_seq_wraps_ r;
     received_packet_oh_ := received_packet_oh_ r;
     received_byte_count_ := received_byte_count_ r;
     received_old_packet_count_ := received_old_packet_count_ r;
     received_inorder_packet_count_ := received_inorder_packet_count_ r;
     last_report_inorder_packets_ := last_report_inorder_packets_ r;
     last_report_old_packets_ := last_report_old_packets_ r;
     last_report_seq_max_ := last_report_seq_max_ r;
     last_report_fraction_lost_ := last_report_fraction_lost_ r;
     last_report_cumulative_lost_ := last_report_cumulative_lost_ r;
     last_report_extended_high_seq_num_ := last_report_extended_high_seq_num_ r;
     last_report_jitter_ := last_report_jitter_ r;
     last_report_jitter_transmission_time_offset_ := last_report_jitter_transmission_time_offset_ r;
     nack_method_ := nack_method_ r;
     max_reordering_threshold_ := max_reordering_threshold_ r; rtx_ := rtx_ r;
     ssrc_rtx_ := ssrc_rtx_ r |}.

Definition set_use_ssrc_filter_ (v : bool) (r : RTPReceiver)
  : RTPReceiver :=
  {| rtp_payload_registry_ := rtp_payload_registry_ r;
     last_media_specific_payload_ := last_media_specific_payload_ r;
     last_receive_time_ := last_receive_time_ r;
     last_received_payload_length_ := last_received_payload_length_ r;
     packet_timeout_ms_ := packet_timeout_ms_ r; ssrc_ := ssrc_ r;
     num_csrcs_ := num_csrcs_ r;
     current_remote_csrc_ := current_remote_csrc_ r;
     num_energy_ := num_energy_ r;
     current_remote_energy_ := current_remote_energy_ r;
     use_ssrc_filter_ := v; ssrc_filter_ := ssrc_filter_ r;
     jitter_q4_ := jitter_q4_ r; jitter_max_q4_ := jitter_max_q4_ r;
     cumulative_loss_ := cumulative_loss_ r;
     jitter_q4_transmission_time_offset_ := jitter_q4_transmission_time_offset_ r;
     local_time_last_received_timestamp_ := local_time_last_received_timestamp_ r;
     last_received_frame_time_ms_ := last_received_frame_time_ms_ r;
     last_received_timestamp_ := last_received_timestamp_ r;
     last_received_sequence_number_ := last_received_sequence_number_ r;
     last_received_transmission_time_offset_ := last_received_transmission_time_offset_ r;
     received_seq_first_ := received_seq_first_ r;
     received_seq_max_ := received_seq_max_ r;
     received_seq_wraps_ := received_seq_wraps_ r;
     received_packet_oh_ := received_packet_oh_ r;
     received_byte_count_ := received_byte_count_ r;
     received_old_packet_count_ := received_old_packet_count_ r;
     received_inorder_packet_count_ := received_inorder_packet_count_ r;
     last_report_inorder_packets_ := last_report_inorder_packets_ r;
     last_report_old_packets_ := last_report_old_packets_ r;
     last_report_seq_max_ := last_report_seq_max_ r;
     last_report_fraction_lost_ := last_report_fraction_lost_ r;
     last_report_cumulative_lost_ := last_report_cumulative_lost_ r;
     last_report_extended_high_seq_num_ := last_report_extended_high_seq_num_ r;
     last_report_jitter_ := last_report_jitter_ r;
     last_report_jitter_transmission_time_offset_ := last_report_jitter_transmission_time_offset_ r;
     nack_method_ := nack_method_ r;
     max_reordering_threshold_ := max_reordering_threshold_ r; rtx_ := rtx_ r;
     ssrc_rtx_ := ssrc_rtx_ r |}.

Definition set_ssrc_filter_ (v : Z) (r : RTPReceiver)
  : RTPReceiver :=
  {| rtp_payload_registry_ := rtp_payload_registry_ r;
     last_media_specific_payload_ := last_media_specific_payload_ r;
     last_receive_time_ := last_receive_time_ r;
     last_received_payload_length_ := last_received_payload_length_ r;
     packet_timeout_ms_ := packet_timeout_ms_ r; ssrc_ := ssrc_ r;
     num_csrcs_ := num_csrcs_ r;
     current_remote_csrc_ := current_remote_csrc_ r;
     num_energy_ := num_energy_ r;
     current_remote_energy_ := current_remote_energy_ r;
     use_ssrc_filter_ := use_ssrc_filter_ r; ssrc_filter_ := v;
     jitter_q4_ := jitter_q4_ r; jitter_max_q4_ := jitter_max_q4_ r;
     cumulative_loss_ := cumulative_loss_ r;
     jitter_q4_transmission_time_offset_ := jitter_q4_transmission_time_offset_ r;
     local_time_last_received_timestamp_ := local_time_last_received_timestamp_ r;
     last_received_frame_time_ms_ := last_received_frame_time_ms_ r;
     last_received_timestamp_ := last_received_timestamp_ r;
     last_received_sequence_number_ := last_received_sequence_number_ r;
     last_received_transmission_time_offset_ := last_received_transmission_time_offset_ r;
     received_seq_first_ := received_seq_first_ r;
     received_seq_max_ := received_seq_max_ r;
     received_seq_wraps_ := received_seq_wraps_ r;
     received_packet_oh_ := received_packet_oh_ r;
     received_byte_count_ := received_byte_count_ r;
     received_old_packet_count_ := received_old_packet_count_ r;
     received_inorder_packet_count_ := received_inorder_packet_count_ r;
     last_report_inorder_packets_ := last_report_inorder_packets_ r;
     last_report_old_packets_ := last_report_old_packets_ r;
     last_report_seq_max_ := last_report_seq_max_ r;
     last_report_fraction_lost_ := last_report_fraction_lost_ r;
     last_report_cumulative_lost_ := last_report_cumulative_lost_ r;
     last_report_extended_high_seq_num_ := last_report_extended_high_seq_num_ r;
     last_report_jitter_ := last_report_jitter_ r;
     last_report_jitter_transmission_time_offset_ := last_report_jitter_transmission_time_offset_ r;
     nack_method_ := nack_method_ r;
     max_reordering_threshold_ := max_reordering_threshold_ r; rtx_ := rtx_ r;
     ssrc_rtx_ := ssrc_rtx_ r |}.

Definition set_jitter_q4_ (v : Z) (r : RTPReceiver)
  : RTPReceiver :=
  {| rtp_payload_registry_ := rtp_payload_registry_ r;
     last_media_specific_payload_ := last_media_specific_payload_ r;
     last_receive_time_ := last_receive_time_ r;
     last_received_payload_length_ := last_received_payload_length_ r;
     packet_timeout_ms_ := packet_timeout_ms_ r; ssrc_ := ssrc_ r;
     num_csrcs_ := num_csrcs_ r;
     current_remote_csrc_ := current_remote_csrc_ r;
     num_energy_ := num_energy_ r;
     current_remote_energy_ := current_remote_energy_ r;
     use_ssrc_filter_ := use_ssrc_filter_ r; ssrc_filter_ := ssrc_filter_ r;
     jitter_q4_ := v; jitter_max_q4_ := jitter_max_q4_ r;
     cumulative_loss_ := cumulative_loss_ r;
     jitter_q4_transmission_time_offset_ := jitter_q4_transmission_time_offset_ r;
     local_time_last_received_timestamp_ := local_time_last_received_timestamp_ r;
     last_received_frame_time_ms_ := last_received_frame_time_ms_ r;
     last_received_timestamp_ := last_received_timestamp_ r;
     last_received_sequence_number_ := last_received_sequence_number_ r;
     last_received_transmission_time_offset_ := last_received_transmission_time_offset_ r;
     received_seq_first_ := received_seq_first_ r;
     received_seq_max_ := received_seq_max_ r;
     received_seq_wraps_ := received_seq_wraps_ r;
     received_packet_oh_ := received_packet_oh_ r;
     received_byte_count_ := received_byte_count_ r;
     received_old_packet_count_ := received_old_packet_count_ r;
     received_inorder_packet_count_ := received_inorder_packet_count_ r;
     last_report_inorder_packets_ := last_report_inorder_packets_ r;
     last_report_old_packets_ := last_report_old_packets_ r;
     last_report_seq_max_ := last_report_seq_max_ r;
     last_report_fraction_lost_ := last_report_fraction_lost_ r;
     last_report_cumulative_lost_ := last_report_cumulative_lost_ r;
     last_report_extended_high_seq_num_ := last_report_extended_high_seq_num_ r;
     last_report_jitter_ := last_report_jitter_ r;
     last_report_jitter_transmission_time_offset_ := last_report_jitter_transmission_time_offset_ r;
     nack_method_ := nack_method_ r;
     max_reordering_threshold_ := max_reordering_threshold_ r; rtx_ := rtx_ r;
     ssrc_rtx_ := ssrc_rtx_ r |}.

Definition set_jitter_max_q4_ (v : Z) (r : RTPReceiver)
  : RTPReceiver :=
  {| rtp_payload_registry_ := rtp_payload_registry_ r;
     last_media_specific_payload_ := last_media_specific_payload_ r;
     last_receive_time_ := last_receive_time_ r;
     last_received_payload_length_ := last_received_payload_length_ r;
     packet_timeout_ms_ := packet_timeout_ms_ r; ssrc_ := ssrc_ r;
     num_csrcs_ := num_csrcs_ r;
     current_remote_csrc_ := current_remote_csrc_ r;
     num_energy_ := num_energy_ r;
     current_remote_energy_ := current_remote_energy_ r;
     use_ssrc_filter_ := use_ssrc_filter_ r; ssrc_filter_ := ssrc_filter_ r;
     jitter_q4_ := jitter_q4_ r; jitter_max_q4_ := v;
     cumulative_loss_ := cumulative_loss_ r;
     jitter_q4_transmission_time_offset_ := jitter_q4_transmission_time_offset_ r;
     local_time_last_received_timestamp_ := local_time_last_received_timestamp_ r;
     last_received_frame_time_ms_ := last_received_frame_time_ms_ r;
     last_received_timestamp_ := last_received_timestamp_ r;
     last_received_sequence_number_ := last_received_sequence_number_ r;
     last_received_transmission_time_offset_ := last_received_transmission_time_offset_ r;
     received_seq_first_ := received_seq_first_ r;
     received_seq_max_ := received_seq_max_ r;
     received_seq_wraps_ := received_seq_wraps_ r;
     received_packet_oh_ := received_packet_oh_ r;
     received_byte_count_ := received_byte_count_ r;
     received_old_packet_count_ := received_old_packet_count_ r;
     received_inorder_packet_count_ := received_inorder_packet_count_ r;
     last_report_inorder_packets_ := last_report_inorder_packets_ r;
     last_report_old_packets_ := last_report_old_packets_ r;
     last_report_seq_max_ := last_report_seq_max_ r;
     last_report_fraction_lost_ := last_report_fraction_lost_ r;
     last_report_cumulative_lost_ := last_report_cumulative_lost_ r;
     last_report_extended_high_seq_num_ := last_report_extended_high_seq_num_ r;
     last_report_jitter_ := last_report_jitter_ r;
     last_report_jitter_transmission_time_offset_ := last_report_jitter_transmission_time_offset_ r;
     nack_method_ := nack_method_ r;
     max_reordering_threshold_ := max_reordering_threshold_ r; rtx_ := rtx_ r;
     ssrc_rtx_ := ssrc_rtx_ r |}.

Definition set_cumulative_loss_ (v : Z) (r : RTPReceiver)
  : RTPReceiver :=
  {| rtp_payload_registry_ := rtp_payload_registry_ r;
     last_media_specific_payload_ := last_media_specific_payload_ r;
     last_receive_time_ := last_receive_time_ r;
     last_received_payload_length_ := last_received_payload_length_ r;
     packet_timeout_ms_ := packet_timeout_ms_ r; ssrc_ := ssrc_ r;
     num_csrcs_ := num_csrcs_ r;
     current_remote_csrc_ := current_remote_csrc_ r;
     num_energy_ := num_energy_ r;
     current_remote_energy_ := current_remote_energy_ r;
     use_ssrc_filter_ := use_ssrc_filter_ r; ssrc_filter_ := ssrc_filter_ r;
     jitter_q4_ := jitter_q4_ r; jitter_max_q4_ := jitter_max_q4_ r;
     cumulative_loss_ := v;
     jitter_q4_transmission_time_offset_ := jitter_q4_transmission_time_offset_ r;
     local_time_last_received_timestamp_ := local_time_last_received_timestamp_ r;
     last_received_frame_time_ms_ := last_received_frame_time_ms_ r;
     last_received_timestamp_ := last_received_timestamp_ r;
     last_received_sequence_number_ := last_received_sequence_number_ r;
     last_received_transmission_time_offset_ := last_received_transmission_time_offset_ r;
     received_seq_first_ := received_seq_first_ r;
     received_seq_max_ := received_seq_max_ r;
     received_seq_wraps_ := received_seq_wraps_ r;
     received_packet_oh_ := received_packet_oh_ r;
     received_byte_count_ := received_byte_count_ r;
     received_old_packet_count_ := received_old_packet_count_ r;
     received_inorder_packet_count_ := received_inorder_packet_count_ r;
     last_report_inorder_packets_ := last_report_inorder_packets_ r;
     last_report_old_packets_ := last_report_old_packets_ r;
     last_report_seq_max_ := last_report_seq_max_ r;
     last_report_fraction_lost_ := last_report_fraction_lost_ r;
     last_report_cumulative_lost_ := last_report_cumulative_lost_ r;
     last_report_extended_high_seq_num_ := last_report_extended_high_seq_num_ r;
     last_report_jitter_ := last_report_jitter_ r;
     last_report_jitter_transmission_time_offset_ := last_report_jitter_transmission_time_offset_ r;
     nack_method_ := nack_method_ r;
     max_reordering_threshold_ := max_reordering_threshold_ r; rtx_ := rtx_ r;
     ssrc_rtx_ := ssrc_rtx_ r |}.

Definition set_jitter_q4_transmission_time_offset_ (v : Z) (r : RTPReceiver)
  : RTPReceiver :=
  {| rtp_payload_registry_ := rtp_payload_registry_ r;
     last_media_specific_payload_ := last_media_specific_payload_ r;
     last_receive_time_ := last_receive_time_ r;
     last_received_payload_length_ := last_received_payload_length_ r;
     packet_timeout_ms_ := packet_timeout_ms_ r; ssrc_ := ssrc_ r;
     num_csrcs_ := num_csrcs_ r;
     current_remote_csrc_ := current_remote_csrc_ r;
     num_energy_ := num_energy_ r;
     current_remote_energy_ := current_remote_energy_ r;
     use_ssrc_filter_ := use_ssrc_filter_ r; ssrc_filter_ := ssrc_filter_ r;
     jitter_q4_ := jitter_q4_ r; jitter_max_q4_ := jitter_max_q4_ r;
     cumulative_loss_ := cumulative_loss_ r;
     jitter_q4_transmission_time_offset_ := v;
     local_time_last_received_timestamp_ := local_time_last_received_timestamp_ r;
     last_received_frame_time_ms_ := last_received_frame_time_ms_ r;
     last_received_timestamp_ := last_received_timestamp_ r;
     last_received_sequence_number_ := last_received_sequence_number_ r;
     last_received_transmission_time_offset_ := last_received_transmission_time_offset_ r;
     received_seq_first_ := received_seq_first_ r;
     received_seq_max_ := received_seq_max_ r;
     received_seq_wraps_ := received_seq_wraps_ r;
     received_packet_oh_ := received_packet_oh_ r;
     received_byte_count_ := received_byte_count_ r;
     received_old_packet_count_ := received_old_packet_count_ r;
     received_inorder_packet_count_ := received_inorder_packet_count_ r;
     last_report_inorder_packets_ := last_report_inorder_packets_ r;
     last_report_old_packets_ := last_report_old_packets_ r;
     last_report_seq_max_ := last_report_seq_max_ r;
     last_report_fraction_lost_ := last_report_fraction_lost_ r;
     last_report_cumulative_lost_ := last_report_cumulative_lost_ r;
     last_report_extended_high_seq_num_ := last_report_extended_high_seq_num_ r;
     last_report_jitter_ := last_report_jitter_ r;
     last_report_jitter_transmission_time_offset_ := last_report_jitter_transmission_time_offset_ r;
     nack_method_ := nack_method_ r;
     max_reordering_threshold_ := max_reordering_threshold_ r; rtx_ := rtx_ r;
     ssrc_rtx_ := ssrc_rtx_ r |}.

Definition set_local_time_last_received_timestamp_ (v : Z) (r : RTPReceiver)
  : RTPReceiver :=
  {| rtp_payload_registry_ := rtp_payload_registry_ r;
     last_media_specific_payload_ := last_media_specific_payload_ r;
     last_receive_time_ := last_receive_time_ r;
     last_received_payload_length_ := last_received_payload_length_ r;
     packet_timeout_ms_ := packet_timeout_ms_ r; ssrc_ := ssrc_ r;
     num_csrcs_ := num_csrcs_ r;
     current_remote_csrc_ := current_remote_csrc_ r;
     num_energy_ := num_energy_ r;
     current_remote_energy_ := current_remote_energy_ r;
     use_ssrc_filter_ := use_ssrc_filter_ r; ssrc_filter_ := ssrc_filter_ r;
     jitter_q4_ := jitter_q4_ r; jitter_max_q4_ := jitter_max_q4_ r;
     cumulative_loss_ := cumulative_loss_ r;
     jitter_q4_transmission_time_offset_ := jitter_q4_transmission_time_offset_ r;
     local_time_last_received_timestamp_ := v;
     last_received_frame_time_ms_ := last_received_frame_time_ms_ r;
     last_received_timestamp_ := last_received_timestamp_ r;
     last_received_sequence_number_ := last_received_sequence_number_ r;
     last_received_transmission_time_offset_ := last_received_transmission_time_offset_ r;
     received_seq_first_ := received_seq_first_ r;
     received_seq_max_ := received_seq_max_ r;
     received_seq_wraps_ := received_seq_wraps_ r;
     received_packet_oh_ := received_packet_oh_ r;
     received_byte_count_ := received_byte_count_ r;
     received_old_packet_count_ := received_old_packet_count_ r;
     received_inorder_packet_count_ := received_inorder_packet_count_ r;
     last_report_inorder_packets_ := last_report_inorder_packets_ r;
     last_report_old_packets_ := last_report_old_packets_ r;
     last_report_seq_max_ := last_report_seq_max_ r;
     last_report_fraction_lost_ := last_report_fraction_lost_ r;
     last_report_cumulative_lost_ := last_report_cumulative_lost_ r;
     last_report_extended_high_seq_num_ := last_report_extended_high_seq_num_ r;
     last_report_jitter_ := last_report_jitter_ r;
     last_report_jitter_transmission_time_offset_ := last_report_jitter_transmission_time_offset_ r;
     nack_method_ := nack_method_ r;
     max_reordering_threshold_ := max_reordering_threshold_ r; rtx_ := rtx_ r;
     ssrc_rtx_ := ssrc_rtx_ r |}.

Definition set_last_received_frame_time_ms_ (v : Z) (r : RTPReceiver)
  : RTPReceiver :=
  {| rtp_payload_registry_ := rtp_payload_registry_ r;
     last_media_specific_payload_ := last_media_specific_payload_ r;
     last_receive_time_ := last_receive_time_ r;
     last_received_payload_length_ := last_received_payload_length_ r;
     packet_timeout_ms_ := packet_timeout_ms_ r; ssrc_ := ssrc_ r;
     num_csrcs_ := num_csrcs_ r;
     current_remote_csrc_ := current_remote_csrc_ r;
     num_energy_ := num_energy_ r;
     current_remote_energy_ := current_remote_energy_ r;
     use_ssrc_filter_ := use_ssrc_filter_ r; ssrc_filter_ := ssrc_filter_ r;
     jitter_q4_ := jitter_q4_ r; jitter_max_q4_ := jitter_max_q4_ r;
     cumulative_loss_ := cumulative_loss_ r;
     jitter_q4_transmission_time_offset_ := jitter_q4_transmission_time_offset_ r;
     local_time_last_received_timestamp_ := local_time_last_received_timestamp_ r;
     last_received_frame_time_ms_ := v;
     last_received_timestamp_ := last_received_timestamp_ r;
     last_received_sequence_number_ := last_received_sequence_number_ r;
     last_received_transmission_time_offset_ := last_received_transmission_time_offset_ r;
     received_seq_first_ := received_seq_first_ r;
     received_seq_max_ := received_seq_max_ r;
     received_seq_wraps_ := received_seq_wraps_ r;
     received_packet_oh_ := received_packet_oh_ r;
     received_byte_count_ := received_byte_count_ r;
     received_old_packet_count_ := received_old_packet_count_ r;
     received_inorder_packet_count_ := received_inorder_packet_count_ r;
     last_report_inorder_packets_ := last_report_inorder_packets_ r;
     last_report_old_packets_ := last_report_old_packets_ r;
     last_report_seq_max_ := last_report_seq_max_ r;
     last_report_fraction_lost_ := last_report_fraction_lost_ r;
     last_report_cumulative_lost_ := last_report_cumulative_lost_ r;
     last_report_extended_high_seq_num_ := last_report_extended_high_seq_num_ r;
     last_report_jitter_ := last_report_jitter_ r;
     last_report_jitter_transmission_time_offset_ := last_report_jitter_transmission_time_offset_ r;
     nack_method_ := nack_method_ r;
     max_reordering_threshold_ := max_reordering_threshold_ r; rtx_ := rtx_ r;
     ssrc_rtx_ := ssrc_rtx_ r |}.

Definition set_last_received_timestamp_ (v : Z) (r : RTPReceiver)
  : RTPReceiver :=
  {| rtp_payload_registry_ := rtp_payload_registry_ r;
     last_media_specific_payload_ := last_media_specific_payload_ r;
     last_receive_time_ := last_receive_time_ r;
     last_received_payload_length_ := last_received_payload_length_ r;
     packet_timeout_ms_ := packet_timeout_ms_ r; ssrc_ := ssrc_ r;
     num_csrcs_ := num_csrcs_ r;
     current_remote_csrc_ := current_remote_csrc_ r;
     num_energy_ := num_energy_ r;
     current_remote_energy_ := current_remote_energy_ r;
     use_ssrc_filter_ := use_ssrc_filter_ r; ssrc_filter_ := ssrc_filter_ r;
     jitter_q4_ := jitter_q4_ r; jitter_max_q4_ := jitter_max_q4_ r;
     cumulative_loss_ := cumulative_loss_ r;
     jitter_q4_transmission_time_offset_ := jitter_q4_transmission_time_offset_ r;
     local_time_last_received_timestamp_ := local_time_last_received_timestamp_ r;
     last_received_frame_time_ms_ := last_received_frame_time_ms_ r;
     last_received_timestamp_ := v;
     last_received_sequence_number_ := last_received_sequence_number_ r;
     last_received_transmission_time_offset_ := last_received_transmission_time_offset_ r;
     received_seq_first_ := received_seq_first_ r;
     received_seq_max_ := received_seq_max_ r;
     received_seq_wraps_ := received_seq_wraps_ r;
     received_packet_oh_ := received_packet_oh_ r;
     received_byte_count_ := received_byte_count_ r;
     received_old_packet_count_ := received_old_packet_count_ r;
     received_inorder_packet_count_ := received_inorder_packet_count_ r;
     last_report_inorder_packets_ := last_report_inorder_packets_ r;
     last_report_old_packets_ := last_report_old_packets_ r;
     last_report_seq_max_ := last_report_seq_max_ r;
     last_report_fraction_lost_ := last_report_fraction_lost_ r;
     last_report_cumulative_lost_ := last_report_cumulative_lost_ r;
     last_report_extended_high_seq_num_ := last_report_extended_high_seq_num_ r;
     last_report_jitter_ := last_report_jitter_ r;
     last_report_jitter_transmission_time_offset_ := last_report_jitter_transmission_time_offset_ r;
     nack_method_ := nack_method_ r;
     max_reordering_threshold_ := max_reordering_threshold_ r; rtx_ := rtx_ r;
     ssrc_rtx_ := ssrc_rtx_ r |}.

Definition set_last_received_sequence_number_ (v : Z) (r : RTPReceiver)
  : RTPReceiver :=
  {| rtp_payload_registry_ := rtp_payload_registry_ r;
     last_media_specific_payload_ := last_media_specific_payload_ r;
     last_receive_time_ := last_receive_time_ r;
     last_received_payload_length_ := last_received_payload_length_ r;
     packet_timeout_ms_ := packet_timeout_ms_ r; ssrc_ := ssrc_ r;
     num_csrcs_ := num_csrcs_ r;
     current_remote_csrc_ := current_remote_csrc_ r;
     num_energy_ := num_energy_ r;
     current_remote_energy_ := current_remote_energy_ r;
     use_ssrc_filter_ := use_ssrc_filter_ r; ssrc_filter_ := ssrc_filter_ r;
     jitter_q4_ := jitter_q4_ r; jitter_max_q4_ := jitter_max_q4_ r;
     cumulative_loss_ := cumulative_loss_ r;
     jitter_q4_transmission_time_offset_ := jitter_q4_transmission_time_offset_ r;
     local_time_last_received_timestamp_ := local_time_last_received_timestamp_ r;
     last_received_frame_time_ms_ := last_received_frame_time_ms_ r;
     last_received_timestamp_ := last_received_timestamp_ r;
     last_received_sequence_number_ := v;
     last_received_transmission_time_offset_ := last_received_transmission_time_offset_ r;
     received_seq_first_ := received_seq_first_ r;
     received_seq_max_ := received_seq_max_ r;
     received_seq_wraps_ := received_seq_wraps_ r;
     received_packet_oh_ := received_packet_oh_ r;
     received_byte_count_ := received_byte_count_ r;
     received_old_packet_count_ := received_old_packet_count_ r;
     received_inorder_packet_count_ := received_inorder_packet_count_ r;
     last_report_inorder_packets_ := last_report_inorder_packets_ r;
     last_report_old_packets_ := last_report_old_packets_ r;
     last_report_seq_max_ := last_report_seq_max_ r;
     last_report_fraction_lost_ := last_report_fraction_lost_ r;
     last_report_cumulative_lost_ := last_report_cumulative_lost_ r;
     last_report_extended_high_seq_num_ := last_report_extended_high_seq_num_ r;
     last_report_jitter_ := last_report_jitter_ r;
     last_report_jitter_transmission_time_offset_ := last_report_jitter_transmission_time_offset_ r;
     nack_method_ := nack_method_ r;
     max_reordering_threshold_ := max_reordering_threshold_ r; rtx_ := rtx_ r;
     ssrc_rtx_ := ssrc_rtx_ r |}.

Definition set_last_received_transmission_time_offset_ (v : Z) (r : RTPReceiver)
  : RTPReceiver :=
  {| rtp_payload_registry_ := rtp_payload_registry_ r;
     last_media_specific_payload_ := last_media_specific_payload_ r;
     last_receive_time_ := last_receive_time_ r;
     last_received_payload_length_ := last_received_payload_length_ r;
     packet_timeout_ms_ := packet_timeout_ms_ r; ssrc_ := ssrc_ r;
     num_csrcs_ := num_csrcs_ r;
     current_remote_csrc_ := current_remote_csrc_ r;
     num_energy_ := num_energy_ r;
     current_remote_energy_ := current_remote_energy_ r;
     use_ssrc_filter_ := use_ssrc_filter_ r; ssrc_filter_ := ssrc_filter_ r;
     jitter_q4_ := jitter_q4_ r; jitter_max_q4_ := jitter_max_q4_ r;
     cumulative_loss_ := cumulative_loss_ r;
     jitter_q4_transmission_time_offset_ := jitter_q4_transmission_time_offset_ r;
     local_time_last_received_timestamp_ := local_time_last_received_timestamp_ r;
     last_received_frame_time_ms_ := last_received_frame_time_ms_ r;
     last_received_timestamp_ := last_received_timestamp_ r;
     last_received_sequence_number_ := last_received_sequence_number_ r;
     last_received_transmission_time_offset_ := v;
     received_seq_first_ := received_seq_first_ r;
     received_seq_max_ := received_seq_max_ r;
     received_seq_wraps_ := received_seq_wraps_ r;
     received_packet_oh_ := received_packet_oh_ r;
     received_byte_count_ := received_byte_count_ r;
     received_old_packet_count_ := received_old_packet_count_ r;
     received_inorder_packet_count_ := received_inorder_packet_count_ r;
     last_report_inorder_packets_ := last_report_inorder_packets_ r;
     last_report_old_packets_ := last_report_old_packets_ r;
     last_report_seq_max_ := last_report_seq_max_ r;
     last_report_fraction_lost_ := last_report_fraction_lost_ r;
     last_report_cumulative_lost_ := last_report_cumulative_lost_ r;
     last_report_extended_high_seq_num_ := last_report_extended_high_seq_num_ r;
     last_report_jitter_ := last_report_jitter_ r;
     last_report_jitter_transmission_time_offset_ := last_report_jitter_transmission_time_offset_ r;
     nack_method_ := nack_method_ r;
     max_reordering_threshold_ := max_reordering_threshold_ r; rtx_ := rtx_ r;
     ssrc_rtx_ := ssrc_rtx_ r |}.

Definition set_received_seq_first_ (v : Z) (r : RTPReceiver)
  : RTPReceiver :=
  {| rtp_payload_registry_ := rtp_payload_registry_ r;
     last_media_specific_payload_ := last_media_specific_payload_ r;
     last_receive_time_ := last_receive_time_ r;
     last_received_payload_length_ := last_received_payload_length_ r;
     packet_timeout_ms_ := packet_timeout_ms_ r; ssrc_ := ssrc_ r;
     num_csrcs_ := num_csrcs_ r;
     current_remote_csrc_ := current_remote_csrc_ r;
     num_energy_ := num_energy_ r;
     current_remote_energy_ := current_remote_energy_ r;
     use_ssrc_filter_ := use_ssrc_filter_ r; ssrc_filter_ := ssrc_filter_ r;
     jitter_q4_ := jitter_q4_ r; jitter_max_q4_ := jitter_max_q4_ r;
     cumulative_loss_ := cumulative_loss_ r;
     jitter_q4_transmission_time_offset_ := jitter_q4_transmission_time_offset_ r;
     local_time_last_received_timestamp_ := local_time_last_received_timestamp_ r;
     last_received_frame_time_ms_ := last_received_frame_time_ms_ r;
     last_received_timestamp_ := last_received_timestamp_ r;
     last_received_sequence_number_ := last_received_sequence_number_ r;
     last_received_transmission_time_offset_ := last_received_transmission_time_offset_ r;
     received_seq_first_ := v; received_seq_max_ := received_seq_max_ r;
     received_seq_wraps_ := received_seq_wraps_ r;
     received_packet_oh_ := received_packet_oh_ r;
     received_byte_count_ := received_byte_count_ r;
     received_old_packet_count_ := received_old_packet_count_ r;
     received_inorder_packet_count_ := received_inorder_packet_count_ r;
     last_report_inorder_packets_ := last_report_inorder_packets_ r;
     last_report_old_packets_ := last_report_old_packets_ r;
     last_report_seq_max_ := last_report_seq_max_ r;
     last_report_fraction_lost_ := last_report_fraction_lost_ r;
     last_report_cumulative_lost_ := last_report_cumulative_lost_ r;
     last_report_extended_high_seq_num_ := last_report_extended_high_seq_num_ r;
     last_report_jitter_ := last_report_jitter_ r;
     last_report_jitter_transmission_time_offset_ := last_report_jitter_transmission_time_offset_ r;
     nack_method_ := nack_method_ r;
     max_reordering_threshold_ := max_reordering_threshold_ r; rtx_ := rtx_ r;
     ssrc_rtx_ := ssrc_rtx_ r |}.

Definition set_received_seq_max_ (v : Z) (r : RTPReceiver)
  : RTPReceiver :=
  {| rtp_payload_registry_ := rtp_payload_registry_ r;
     last_media_specific_payload_ := last_media_specific_payload_ r;
     last_receive_time_ := last_receive_time_ r;
     last_received_payload_length_ := last_received_payload_length_ r;
     packet_timeout_ms_ := packet_timeout_ms_ r; ssrc_ := ssrc_ r;
     num_csrcs_ := num_csrcs_ r;
     current_remote_csrc_ := current_remote_csrc_ r;
     num_energy_ := num_energy_ r;
     current_remote_energy_ := current_remote_energy_ r;
     use_ssrc_filter_ := use_ssrc_filter_ r; ssrc_filter_ := ssrc_filter_ r;
     jitter_q4_ := jitter_q4_ r; jitter_max_q4_ := jitter_max_q4_ r;
     cumulative_loss_ := cumulative_loss_ r;
     jitter_q4_transmission_time_offset_ := jitter_q4_transmission_time_offset_ r;
     local_time_last_received_timestamp_ := local_time_last_received_timestamp_ r;
     last_received_frame_time_ms_ := last_received_frame_time_ms_ r;
     last_received_timestamp_ := last_received_timestamp_ r;
     last_received_sequence_number_ := last_received_sequence_number_ r;
     last_received_transmission_time_offset_ := last_received_transmission_time_offset_ r;
     received_seq_first_ := received_seq_first_ r; received_seq_max_ := v;
     received_seq_wraps_ := received_seq_wraps_ r;
     received_packet_oh_ := received_packet_oh_ r;
     received_byte_count_ := received_byte_count_ r;
     received_old_packet_count_ := received_old_packet_count_ r;
     received_inorder_packet_count_ := received_inorder_packet_count_ r;
     last_report_inorder_packets_ := last_report_inorder_packets_ r;
     last_report_old_packets_ := last_report_old_packets_ r;
     last_report_seq_max_ := last_report_seq_max_ r;
     last_report_fraction_lost_ := last_report_fraction_lost_ r;
     last_report_cumulative_lost_ := last_report_cumulative_lost_ r;
     last_report_extended_high_seq_num_ := last_report_extended_high_seq_num_ r;
     last_report_jitter_ := last_report_jitter_ r;
     last_report_jitter_transmission_time_offset_ := last_report_jitter_transmission_time_offset_ r;
     nack_method_ := nack_method_ r;
     max_reordering_threshold_ := max_reordering_threshold_ r; rtx_ := rtx_ r;
     ssrc_rtx_ := ssrc_rtx_ r |}.

Definition set_received_seq_wraps_ (v : Z) (r : RTPReceiver)
  : RTPReceiver :=
  {| rtp_payload_registry_ := rtp_payload_registry_ r;
     last_media_specific_payload_ := last_media_specific_payload_ r;
     last_receive_time_ := last_receive_time_ r;
     last_received_payload_length_ := last_received_payload_length_ r;
     packet_timeout_ms_ := packet_timeout_ms_ r; ssrc_ := ssrc_ r;
     num_csrcs_ := num_csrcs_ r;
     current_remote_csrc_ := current_remote_csrc_ r;
     num_energy_ := num_energy_ r;
     current_remote_energy_ := current_remote_energy_ r;
     use_ssrc_filter_ := use_ssrc_filter_ r; ssrc_filter_ := ssrc_filter_ r;
     jitter_q4_ := jitter_q4_ r; jitter_max_q4_ := jitter_max_q4_ r;
     cumulative_loss_ := cumulative_loss_ r;
     jitter_q4_transmission_time_offset_ := jitter_q4_transmission_time_offset_ r;
     local_time_last_received_timestamp_ := local_time_last_received_timestamp_ r;
     last_received_frame_time_ms_ := last_received_frame_time_ms_ r;
     last_received_timestamp_ := last_received_timestamp_ r;
     last_received_sequence_number_ := last_received_sequence_number_ r;
     last_received_transmission_time_offset_ := last_received_transmission_time_offset_ r;
     received_seq_first_ := received_seq_first_ r;
     received_seq_max_ := received_seq_max_ r; received_seq_wraps_ := v;
     received_packet_oh_ := received_packet_oh_ r;
     received_byte_count_ := received_byte_count_ r;
     received_old_packet_count_ := received_old_packet_count_ r;
     received_inorder_packet_count_ := received_inorder_packet_count_ r;
     last_report_inorder_packets_ := last_report_inorder_packets_ r;
     last_report_old_packets_ := last_report_old_packets_ r;
     last_report_seq_max_ := last_report_seq_max_ r;
     last_report_fraction_lost_ := last_report_fraction_lost_ r;
     last_report_cumulative_lost_ := last_report_cumulative_lost_ r;
     last_report_extended_high_seq_num_ := last_report_extended_high_seq_num_ r;
     last_report_jitter_ := last_report_jitter_ r;
     last_report_jitter_transmission_time_offset_ := last_report_jitter_transmission_time_offset_ r;
     nack_method_ := nack_method_ r;
     max_reordering_threshold_ := max_reordering_threshold_ r; rtx_ := rtx_ r;
     ssrc_rtx_ := ssrc_rtx_ r |}.

Definition set_received_packet_oh_ (v : Z) (r : RTPReceiver)
  : RTPReceiver :=
  {| rtp_payload_registry_ := rtp_payload_registry_ r;
     last_media_specific_payload_ := last_media_specific_payload_ r;
     last_receive_time_ := last_receive_time_ r;
     last_received_payload_length_ := last_received_payload_length_ r;
     packet_timeout_ms_ := packet_timeout_ms_ r; ssrc_ := ssrc_ r;
     num_csrcs_ := num_csrcs_ r;
     current_remote_csrc_ := current_remote_csrc_ r;
     num_energy_ := num_energy_ r;
     current_remote_energy_ := current_remote_energy_ r;
     use_ssrc_filter_ := use_ssrc_filter_ r; ssrc_filter_ := ssrc_filter_ r;
     jitter_q4_ := jitter_q4_ r; jitter_max_q4_ := jitter_max_q4_ r;
     cumulative_loss_ := cumulative_loss_ r;
     jitter_q4_transmission_time_offset_ := jitter_q4_transmission_time_offset_ r;
     local_time_last_received_timestamp_ := local_time_last_received_timestamp_ r;
     last_received_frame_time_ms_ := last_received_frame_time_ms_ r;
     last_received_timestamp_ := last_received_timestamp_ r;
     last_received_sequence_number_ := last_received_sequence_number_ r;
     last_received_transmission_time_offset_ := last_received_transmission_time_offset_ r;
     received_seq_first_ := received_seq_first_ r;
     received_seq_max_ := received_seq_max_ r;
     received_seq_wraps_ := received_seq_wraps_ r; received_packet_oh_ := v;
     received_byte_count_ := received_byte_count_ r;
     received_old_packet_count_ := received_old_packet_count_ r;
     received_inorder_packet_count_ := received_inorder_packet_count_ r;
     last_report_inorder_packets_ := last_report_inorder_packets_ r;
     last_report_old_packets_ := last_report_old_packets_ r;
     last_report_seq_max_ := last_report_seq_max_ r;
     last_report_fraction_lost_ := last_report_fraction_lost_ r;
     last_report_cumulative_lost_ := last_report_cumulative_lost_ r;
     last_report_extended_high_seq_num_ := last_report_extended_high_seq_num_ r;
     last_report_jitter_ := last_report_jitter_ r;
     last_report_jitter_transmission_time_offset_ := last_report_jitter_transmission_time_offset_ r;
     nack_method_ := nack_method_ r;
     max_reordering_threshold_ := max_reordering_threshold_ r; rtx_ := rtx_ r;
     ssrc_rtx_ := ssrc_rtx_ r |}.

Definition set_received_byte_count_ (v : Z) (r : RTPReceiver)
  : RTPReceiver :=
  {| rtp_payload_registry_ := rtp_payload_registry_ r;
     last_media_specific_payload_ := last_media_specific_payload_ r;
     last_receive_time_ := last_receive_time_ r;
     last_received_payload_length_ := last_received_payload_length_ r;
     packet_timeout_ms_ := packet_timeout_ms_ r; ssrc_ := ssrc_ r;
     num_csrcs_ := num_csrcs_ r;
     current_remote_csrc_ := current_remote_csrc_ r;
     num_energy_ := num_energy_ r;
     current_remote_energy_ := current_remote_energy_ r;
     use_ssrc_filter_ := use_ssrc_filter_ r; ssrc_filter_ := ssrc_filter_ r;
     jitter_q4_ := jitter_q4_ r; jitter_max_q4_ := jitter_max_q4_ r;
     cumulative_loss_ := cumulative_loss_ r;
     jitter_q4_transmission_time_offset_ := jitter_q4_transmission_time_offset_ r;
     local_time_last_received_timestamp_ := local_time_last_received_timestamp_ r;
     last_received_frame_time_ms_ := last_received_frame_time_ms_ r;
     last_received_timestamp_ := last_received_timestamp_ r;
     last_received_sequence_number_ := last_received_sequence_number_ r;
     last_received_transmission_time_offset_ := last_received_transmission_time_offset_ r;
     received_seq_first_ := received_seq_first_ r;
     received_seq_max_ := received_seq_max_ r;
     received_seq_wraps_ := received_seq_wraps_ r;
     received_packet_oh_ := received_packet_oh_ r; received_byte_count_ := v;
     received_old_packet_count_ := received_old_packet_count_ r;
     received_inorder_packet_count_ := received_inorder_packet_count_ r;
     last_report_inorder_packets_ := last_report_inorder_packets_ r;
     last_report_old_packets_ := last_report_old_packets_ r;
     last_report_seq_max_ := last_report_seq_max_ r;
     last_report_fraction_lost_ := last_report_fraction_lost_ r;
     last_report_cumulative_lost_ := last_report_cumulative_lost_ r;
     last_report_extended_high_seq_num_ := last_report_extended_high_seq_num_ r;
     last_report_jitter_ := last_report_jitter_ r;
     last_report_jitter_transmission_time_offset_ := last_report_jitter_transmission_time_offset_ r;
     nack_method_ := nack_method_ r;
     max_reordering_threshold_ := max_reordering_threshold_ r; rtx_ := rtx_ r;
     ssrc_rtx_ := ssrc_rtx_ r |}.

Definition set_received_old_packet_count_ (v : Z) (r : RTPReceiver)
  : RTPReceiver :=
  {| rtp_payload_registry_ := rtp_payload_registry_ r;
     last_media_specific_payload_ := last_media_specific_payload_ r;
     last_receive_time_ := last_receive_time_ r;
     last_received_payload_length_ := last_received_payload_length_ r;
     packet_timeout_ms_ := packet_timeout_ms_ r; ssrc_ := ssrc_ r;
     num_csrcs_ := num_csrcs_ r;
     current_remote_csrc_ := current_remote_csrc_ r;
     num_energy_ := num_energy_ r;
     current_remote_energy_ := current_remote_energy_ r;
     use_ssrc_filter_ := use_ssrc_filter_ r; ssrc_filter_ := ssrc_filter_ r;
     jitter_q4_ := jitter_q4_ r; jitter_max_q4_ := jitter_max_q4_ r;
     cumulative_loss_ := cumulative_loss_ r;
     jitter_q4_transmission_time_offset_ := jitter_q4_transmission_time_offset_ r;
     local_time_last_received_timestamp_ := local_time_last_received_timestamp_ r;
     last_received_frame_time_ms_ := last_received_frame_time_ms_ r;
     last_received_timestamp_ := last_received_timestamp_ r;
     last_received_sequence_number_ := last_received_sequence_number_ r;
     last_received_transmission_time_offset_ := last_received_transmission_time_offset_ r;
     received_seq_first_ := received_seq_first_ r;
     received_seq_max_ := received_seq_max_ r;
     received_seq_wraps_ := received_seq_wraps_ r;
     received_packet_oh_ := received_packet_oh_ r;
     received_byte_count_ := received_byte_count_ r;
     received_old_packet_count_ := v;
     received_inorder_packet_count_ := received_inorder_packet_count_ r;
     last_report_inorder_packets_ := last_report_inorder_packets_ r;
     last_report_old_packets_ := last_report_old_packets_ r;
     last_report_seq_max_ := last_report_seq_max_ r;
     last_report_fraction_lost_ := last_report_fraction_lost_ r;
     last_report_cumulative_lost_ := last_report_cumulative_lost_ r;
     last_report_extended_high_seq_num_ := last_report_extended_high_seq_num_ r;
     last_report_jitter_ := last_report_jitter_ r;
     last_report_jitter_transmission_time_offset_ := last_report_jitter_transmission_time_offset_ r;
     nack_method_ := nack_method_ r;
     max_reordering_threshold_ := max_reordering_threshold_ r; rtx_ := rtx_ r;
     ssrc_rtx_ := ssrc_rtx_ r |}.

Definition set_received_inorder_packet_count_ (v : Z) (r : RTPReceiver)
  : RTPReceiver :=
  {| rtp_payload_registry_ := rtp_payload_registry_ r;
     last_media_specific_payload_ := last_media_specific_payload_ r;
     last_receive_time_ := last_receive_time_ r;
     last_received_payload_length_ := last_received_payload_length_ r;
     packet_timeout_ms_ := packet_timeout_ms_ r; ssrc_ := ssrc_ r;
     num_csrcs_ := num_csrcs_ r;
     current_remote_csrc_ := current_remote_csrc_ r;
     num_energy_ := num_energy_ r;
     current_remote_energy_ := current_remote_energy_ r;
     use_ssrc_filter_ := use_ssrc_filter_ r; ssrc_filter_ := ssrc_filter_ r;
     jitter_q4_ := jitter_q4_ r; jitter_max_q4_ := jitter_max_q4_ r;
     cumulative_loss_ := cumulative_loss_ r;
     jitter_q4_transmission_time_offset_ := jitter_q4_transmission_time_offset_ r;
     local_time_last_received_timestamp_ := local_time_last_received_timestamp_ r;
     last_received_frame_time_ms_ := last_received_frame_time_ms_ r;
     last_received_timestamp_ := last_received_timestamp_ r;
     last_received_sequence_number_ := last_received_sequence_number_ r;
     last_received_transmission_time_offset_ := last_received_transmission_time_offset_ r;
     received_seq_first_ := received_seq_first_ r;
     received_seq_max_ := received_seq_max_ r;
     received_seq_wraps_ := received_seq_wraps_ r;
     received_packet_oh_ := received_packet_oh_ r;
     received_byte_count_ := received_byte_count_ r;
     received_old_packet_count_ := received_old_packet_count_ r;
     received_inorder_packet_count_ := v;
     last_report_inorder_packets_ := last_report_inorder_packets_ r;
     last_report_old_packets_ := last_report_old_packets_ r;
     last_report_seq_max_ := last_report_seq_max_ r;
     last_report_fraction_lost_ := last_report_fraction_lost_ r;
     last_report_cumulative_lost_ := last_report_cumulative_lost_ r;
     last_report_extended_high_seq_num_ := last_report_extended_high_seq_num_ r;
     last_report_jitter_ := last_report_jitter_ r;
     last_report_jitter_transmission_time_offset_ := last_report_jitter_transmission_time_offset_ r;
     nack_method_ := nack_method_ r;
     max_reordering_threshold_ := max_reordering_threshold_ r; rtx_ := rtx_ r;
     ssrc_rtx_ := ssrc_rtx_ r |}.

Definition set_last_report_inorder_packets_ (v : Z) (r : RTPReceiver)
  : RTPReceiver :=
  {| rtp_payload_registry_ := rtp_payload_registry_ r;
     last_media_specific_payload_ := last_media_specific_payload_ r;
     last_receive_time_ := last_receive_time_ r;
     last_received_payload_length_ := last_received_payload_length_ r;
     packet_timeout_ms_ := packet_timeout_ms_ r; ssrc_ := ssrc_ r;
     num_csrcs_ := num_csrcs_ r;
     current_remote_csrc_ := current_remote_csrc_ r;
     num_energy_ := num_energy_ r;
     current_remote_energy_ := current_remote_energy_ r;
     use_ssrc_filter_ := use_ssrc_filter_ r; ssrc_filter_ := ssrc_filter_ r;
     jitter_q4_ := jitter_q4_ r; jitter_max_q4_ := jitter_max_q4_ r;
     cumulative_loss_ := cumulative_loss_ r;
     jitter_q4_transmission_time_offset_ := jitter_q4_transmission_time_offset_ r;
     local_time_last_received_timestamp_ := local_time_last_received_timestamp_ r;
     last_received_frame_time_ms_ := last_received_frame_time_ms_ r;
     last_received_timestamp_ := last_received_timestamp_ r;
     last_received_sequence_number_ := last_received_sequence_number_ r;
     last_received_transmission_time_offset_ := last_received_transmission_time_offset_ r;
     received_seq_first_ := received_seq_first_ r;
     received_seq_max_ := received_seq_max_ r;
     received_seq_wraps_ := received_seq_wraps_ r;
     received_packet_oh_ := received_packet_oh_ r;
     received_byte_count_ := received_byte_count_ r;
     received_old_packet_count_ := received_old_packet_count_ r;
     received_inorder_packet_count_ := received_inorder_packet_count_ r;
     last_report_inorder_packets_ := v;
     last_report_old_packets_ := last_report_old_packets_ r;
     last_report_seq_max_ := last_report_seq_max_ r;
     last_report_fraction_lost_ := last_report_fraction_lost_ r;
     last_report_cumulative_lost_ := last_report_cumulative_lost_ r;
     last_report_extended_high_seq_num_ := last_report_extended_high_seq_num_ r;
     last_report_jitter_ := last_report_jitter_ r;
     last_report_jitter_transmission_time_offset_ := last_report_jitter_transmission_time_offset_ r;
     nack_method_ := nack_method_ r;
     max_reordering_threshold_ := max_reordering_threshold_ r; rtx_ := rtx_ r;
     ssrc_rtx_ := ssrc_rtx_ r |}.

Definition set_last_report_old_packets_ (v : Z) (r : RTPReceiver)
  : RTPReceiver :=
  {| rtp_payload_registry_ := rtp_payload_registry_ r;
     last_media_specific_payload_ := last_media_specific_payload_ r;
     last_receive_time_ := last_receive_time_ r;
     last_received_payload_length_ := last_received_payload_length_ r;
     packet_timeout_ms_ := packet_timeout_ms_ r; ssrc_ := ssrc_ r;
     num_csrcs_ := num_csrcs_ r;
     current_remote_csrc_ := current_remote_csrc_ r;
     num_energy_ := num_energy_ r;
     current_remote_energy_ := current_remote_energy_ r;
     use_ssrc_filter_ := use_ssrc_filter_ r; ssrc_filter_ := ssrc_filter_ r;
     jitter_q4_ := jitter_q4_ r; jitter_max_q4_ := jitter_max_q4_ r;
     cumulative_loss_ := cumulative_loss_ r;
     jitter_q4_transmission_time_offset_ := jitter_q4_transmission_time_offset_ r;
     local_time_last_received_timestamp_ := local_time_last_received_timestamp_ r;
     last_received_frame_time_ms_ := last_received_frame_time_ms_ r;
     last_received_timestamp_ := last_received_timestamp_ r;
     last_received_sequence_number_ := last_received_sequence_number_ r;
     last_received_transmission_time_offset_ := last_received_transmission_time_offset_ r;
     received_seq_first_ := received_seq_first_ r;
     received_seq_max_ := received_seq_max_ r;
     received_seq_wraps_ := received_seq_wraps_ r;
     received_packet_oh_ := received_packet_oh_ r;
     received_byte_count_ := received_byte_count_ r;
     received_old_packet_count_ := received_old_packet_count_ r;
     received_inorder_packet_count_ := received_inorder_packet_count_ r;
     last_report_inorder_packets_ := last_report_inorder_packets_ r;
     last_report_old_packets_ := v;
     last_report_seq_max_ := last_report_seq_max_ r;
     last_report_fraction_lost_ := last_report_fraction_lost_ r;
     last_report_cumulative_lost_ := last_report_cumulative_lost_ r;
     last_report_extended_high_seq_num_ := last_report_extended_high_seq_num_ r;
     last_report_jitter_ := last_report_jitter_ r;
     last_report_jitter_transmission_time_offset_ := last_report_jitter_transmission_time_offset_ r;
     nack_method_ := nack_method_ r;
     max_reordering_threshold_ := max_reordering_threshold_ r; rtx_ := rtx_ r;
     ssrc_rtx_ := ssrc_rtx_ r |}.

Definition set_last_report_seq_max_ (v : Z) (r : RTPReceiver)
  : RTPReceiver :=
  {| rtp_payload_registry_ := rtp_payload_registry_ r;
     last_media_specific_payload_ := last_media_specific_payload_ r;
     last_receive_time_ := last_receive_time_ r;
     last_received_payload_length_ := last_received_payload_length_ r;
     packet_timeout_ms_ := packet_timeout_ms_ r; ssrc_ := ssrc_ r;
     num_csrcs_ := num_csrcs_ r;
     current_remote_csrc_ := current_remote_csrc_ r;
     num_energy_ := num_energy_ r;
     current_remote_energy_ := current_remote_energy_ r;
     use_ssrc_filter_ := use_ssrc_filter_ r; ssrc_filter_ := ssrc_filter_ r;
     jitter_q4_ := jitter_q4_ r; jitter_max_q4_ := jitter_max_q4_ r;
     cumulative_loss_ := cumulative_loss_ r;
     jitter_q4_transmission_time_offset_ := jitter_q4_transmission_time_offset_ r;
     local_time_last_received_timestamp_ := local_time_last_received_timestamp_ r;
     last_received_frame_time_ms_ := last_received_frame_time_ms_ r;
     last_received_timestamp_ := last_received_timestamp_ r;
     last_received_sequence_number_ := last_received_sequence_number_ r;
     last_received_transmission_time_offset_ := last_received_transmission_time_offset_ r;
     received_seq_first_ := received_seq_first_ r;
     received_seq_max_ := received_seq_max_ r;
     received_seq_wraps_ := received_seq_wraps_ r;
     received_packet_oh_ := received_packet_oh_ r;
     received_byte_count_ := received_byte_count_ r;
     received_old_packet_count_ := received_old_packet_count_ r;
     received_inorder_packet_count_ := received_inorder_packet_count_ r;
     last_report_inorder_packets_ := last_report_inorder_packets_ r;
     last_report_old_packets_ := last_report_old_packets_ r;
     last_report_seq_max_ := v;
     last_report_fraction_lost_ := last_report_fraction_lost_ r;
     last_report_cumulative_lost_ := last_report_cumulative_lost_ r;
     last_report_extended_high_seq_num_ := last_report_extended_high_seq_num_ r;
     last_report_jitter_ := last_report_jitter_ r;
     last_report_jitter_transmission_time_offset_ := last_report_jitter_transmission_time_offset_ r;
     nack_method_ := nack_method_ r;
     max_reordering_threshold_ := max_reordering_threshold_ r; rtx_ := rtx_ r;
     ssrc_rtx_ := ssrc_rtx_ r |}.

Definition set_last_report_fraction_lost_ (v : Z) (r : RTPReceiver)
  : RTPReceiver :=
  {| rtp_payload_registry_ := rtp_payload_registry_ r;
     last_media_specific_payload_ := last_media_specific_payload_ r;
     last_receive_time_ := last_receive_time_ r;
     last_received_payload_length_ := last_received_payload_length_ r;
     packet_timeout_ms_ := packet_timeout_ms_ r; ssrc_ := ssrc_ r;
     num_csrcs_ := num_csrcs_ r;
     current_remote_csrc_ := current_remote_csrc_ r;
     num_energy_ := num_energy_ r;
     current_remote_energy_ := current_remote_energy_ r;
     use_ssrc_filter_ := use_ssrc_filter_ r; ssrc_filter_ := ssrc_filter_ r;
     jitter_q4_ := jitter_q4_ r; jitter_max_q4_ := jitter_max_q4_ r;
     cumulative_loss_ := cumulative_loss_ r;
     jitter_q4_transmission_time_offset_ := jitter_q4_transmission_time_offset_ r;
     local_time_last_received_timestamp_ := local_time_last_received_timestamp_ r;
     last_received_frame_time_ms_ := last_received_frame_time_ms_ r;
     last_received_timestamp_ := last_received_timestamp_ r;
     last_received_sequence_number_ := last_received_sequence_number_ r;
     last_received_transmission_time_offset_ := last_received_transmission_time_offset_ r;
     received_seq_first_ := received_seq_first_ r;
     received_seq_max_ := received_seq_max_ r;
     received_seq_wraps_ := received_seq_wraps_ r;
     received_packet_oh_ := received_packet_oh_ r;
     received_byte_count_ := received_byte_count_ r;
     received_old_packet_count_ := received_old_packet_count_ r;
     received_inorder_packet_count_ := received_inorder_packet_count_ r;
     last_report_inorder_packets_ := last_report_inorder_packets_ r;
     last_report_old_packets_ := last_report_old_packets_ r;
     last_report_seq_max_ := last_report_seq_max_ r;
     last_report_fraction_lost_ := v;
     last_report_cumulative_lost_ := last_report_cumulative_lost_ r;
     last_report_extended_high_seq_num_ := last_report_extended_high_seq_num_ r;
     last_report_jitter_ := last_report_jitter_ r;
     last_report_jitter_transmission_time_offset_ := last_report_jitter_transmission_time_offset_ r;
     nack_method_ := nack_method_ r;
     max_reordering_threshold_ := max_reordering_threshold_ r; rtx_ := rtx_ r;
     ssrc_rtx_ := ssrc_rtx_ r |}.

Definition set_last_report_cumulative_lost_ (v : Z) (r : RTPReceiver)
  : RTPReceiver :=
  {| rtp_payload_registry_ := rtp_payload_registry_ r;
     last_media_specific_payload_ := last_media_specific_payload_ r;
     last_receive_time_ := last_receive_time_ r;
     last_received_payload_length_ := last_received_payload_length_ r;
     packet_timeout_ms_ := packet_timeout_ms_ r; ssrc_ := ssrc_ r;
     num_csrcs_ := num_csrcs_ r;
     current_remote_csrc_ := current_remote_csrc_ r;
     num_energy_ := num_energy_ r;
     current_remote_energy_ := current_remote_energy_ r;
     use_ssrc_filter_ := use_ssrc_filter_ r; ssrc_filter_ := ssrc_filter_ r;
     jitter_q4_ := jitter_q4_ r; jitter_max_q4_ := jitter_max_q4_ r;
     cumulative_loss_ := cumulative_loss_ r;
     jitter_q4_transmission_time_offset_ := jitter_q4_transmission_time_offset_ r;
     local_time_last_received_timestamp_ := local_time_last_received_timestamp_ r;
     last_received_frame_time_ms_ := last_received_frame_time_ms_ r;
     last_received_timestamp_ := last_received_timestamp_ r;
     last_received_sequence_number_ := last_received_sequence_number_ r;
     last_received_transmission_time_offset_ := last_received_transmission_time_offset_ r;
     received_seq_first_ := received_seq_first_ r;
     received_seq_max_ := received_seq_max_ r;
     received_seq_wraps_ := received_seq_wraps_ r;
     received_packet_oh_ := received_packet_oh_ r;
     received_byte_count_ := received_byte_count_ r;
     received_old_packet_count_ := received_old_packet_count_ r;
     received_inorder_packet_count_ := received_inorder_packet_count_ r;
     last_report_inorder_packets_ := last_report_inorder_packets_ r;
     last_report_old_packets_ := last_report_old_packets_ r;
     last_report_seq_max_ := last_report_seq_max_ r;
     last_report_fraction_lost_ := last_report_fraction_lost_ r;
     last_report_cumulative_lost_ := v;
     last_report_extended_high_seq_num_ := last_report_extended_high_seq_num_ r;
     last_report_jitter_ := last_report_jitter_ r;
     last_report_jitter_transmission_time_offset_ := last_report_jitter_transmission_time_offset_ r;
     nack_method_ := nack_method_ r;
     max_reordering_threshold_ := max_reordering_threshold_ r; rtx_ := rtx_ r;
     ssrc_rtx_ := ssrc_rtx_ r |}.

Definition set_last_report_extended_high_seq_num_ (v : Z) (r : RTPReceiver)
  : RTPReceiver :=
  {| rtp_payload_registry_ := rtp_payload_registry_ r;
     last_media_specific_payload_ := last_media_specific_payload_ r;
     last_receive_time_ := last_receive_time_ r;
     last_received_payload_length_ := last_received_payload_length_ r;
     packet_timeout_ms_ := packet_timeout_ms_ r; ssrc_ := ssrc_ r;
     num_csrcs_ := num_csrcs_ r;
     current_remote_csrc_ := current_remote_csrc_ r;
     num_energy_ := num_energy_ r;
     current_remote_energy_ := current_remote_energy_ r;
     use_ssrc_filter_ := use_ssrc_filter_ r; ssrc_filter_ := ssrc_filter_ r;
     jitter_q4_ := jitter_q4_ r; jitter_max_q4_ := jitter_max_q4_ r;
     cumulative_loss_ := cumulative_loss_ r;
     jitter_q4_transmission_time_offset_ := jitter_q4_transmission_time_offset_ r;
     local_time_last_received_timestamp_ := local_time_last_received_timestamp_ r;
     last_received_frame_time_ms_ := last_received_frame_time_ms_ r;
     last_received_timestamp_ := last_received_timestamp_ r;
     last_received_sequence_number_ := last_received_sequence_number_ r;
     last_received_transmission_time_offset_ := last_received_transmission_time_offset_ r;
     received_seq_first_ := received_seq_first_ r;
     received_seq_max_ := received_seq_max_ r;
     received_seq_wraps_ := received_seq_wraps_ r;
     received_packet_oh_ := received_packet_oh_ r;
     received_byte_count_ := received_byte_count_ r;
     received_old_packet_count_ := received_old_packet_count_ r;
     received_inorder_packet_count_ := received_inorder_packet_count_ r;
     last_report_inorder_packets_ := last_report_inorder_packets_ r;
     last_report_old_packets_ := last_report_old_packets_ r;
     last_report_seq_max_ := last_report_seq_max_ r;
     last_report_fraction_lost_ := last_report_fraction_lost_ r;
     last_report_cumulative_lost_ := last_report_cumulative_lost_ r;
     last_report_extended_high_seq_num_ := v;
     last_report_jitter_ := last_report_jitter_ r;
     last_report_jitter_transmission_time_offset_ := last_report_jitter_transmission_time_offset_ r;
     nack_method_ := nack_method_ r;
     max_reordering_threshold_ := max_reordering_threshold_ r; rtx_ := rtx_ r;
     ssrc_rtx_ := ssrc_rtx_ r |}.

Definition set_last_report_jitter_ (v : Z) (r : RTPReceiver)
  : RTPReceiver :=
  {| rtp_payload_registry_ := rtp_payload_registry_ r;
     last_media_specific_payload_ := last_media_specific_payload_ r;
     last_receive_time_ := last_receive_time_ r;
     last_received_payload_length_ := last_received_payload_length_ r;
     packet_timeout_ms_ := packet_timeout_ms_ r; ssrc_ := ssrc_ r;
     num_csrcs_ := num_csrcs_ r;
     current_remote_csrc_ := current_remote_csrc_ r;
     num_energy_ := num_energy_ r;
     current_remote_energy_ := current_remote_energy_ r;
     use_ssrc_filter_ := use_ssrc_filter_ r; ssrc_filter_ := ssrc_filter_ r;
     jitter_q4_ := jitter_q4_ r; jitter_max_q4_ := jitter_max_q4_ r;
     cumulative_loss_ := cumulative_loss_ r;
     jitter_q4_transmission_time_offset_ := jitter_q4_transmission_time_offset_ r;
     local_time_last_received_timestamp_ := local_time_last_received_timestamp_ r;
     last_received_frame_time_ms_ := last_received_frame_time_ms_ r;
     last_received_timestamp_ := last_received_timestamp_ r;
     last_received_sequence_number_ := last_received_sequence_number_ r;
     last_received_transmission_time_offset_ := last_received_transmission_time_offset_ r;
     received_seq_first_ := received_seq_first_ r;
     received_seq_max_ := received_seq_max_ r;
     received_seq_wraps_ := received_seq_wraps_ r;
     received_packet_oh_ := received_packet_oh_ r;
     received_byte_count_ := received_byte_count_ r;
     received_old_packet_count_ := received_old_packet_count_ r;
     received_inorder_packet_count_ := received_inorder_packet_count_ r;
     last_report_inorder_packets_ := last_report_inorder_packets_ r;
     last_report_old_packets_ := last_report_old_packets_ r;
     last_report_seq_max_ := last_report_seq_max_ r;
     last_report_fraction_lost_ := last_report_fraction_lost_ r;
     last_report_cumulative_lost_ := last_report_cumulative_lost_ r;
     last_report_extended_high_seq_num_ := last_report_extended_high_seq_num_ r;
     last_report_jitter_ := v;
     last_report_jitter_transmission_time_offset_ := last_report_jitter_transmission_time_offset_ r;
     nack_method_ := nack_method_ r;
     max_reordering_threshold_ := max_reordering_threshold_ r; rtx_ := rtx_ r;
     ssrc_rtx_ := ssrc_rtx_ r |}.

Definition set_last_report_jitter_transmission_time_offset_ (v : Z) (r : RTPReceiver)
  : RTPReceiver :=
  {| rtp_payload_registry_ := rtp_payload_registry_ r;
     last_media_specific_payload_ := last_media_specific_payload_ r;
     last_receive_time_ := last_receive_time_ r;
     last_received_payload_length_ := last_received_payload_length_ r;
     packet_timeout_ms_ := packet_timeout_ms_ r; ssrc_ := ssrc_ r;
     num_csrcs_ := num_csrcs_ r;
     current_remote_csrc_ := current_remote_csrc_ r;
     num_energy_ := num_energy_ r;
     current_remote_energy_ := current_remote_energy_ r;
     use_ssrc_filter_ := use_ssrc_filter_ r; ssrc_filter_ := ssrc_filter_ r;
     jitter_q4_ := jitter_q4_ r; jitter_max_q4_ := jitter_max_q4_ r;
     cumulative_loss_ := cumulative_loss_ r;
     jitter_q4_transmission_time_offset_ := jitter_q4_transmission_time_offset_ r;
     local_time_last_received_timestamp_ := local_time_last_received_timestamp_ r;
     last_received_frame_time_ms_ := last_received_frame_time_ms_ r;
     last_received_timestamp_ := last_received_timestamp_ r;
     last_received_sequence_number_ := last_received_sequence_number_ r;
     last_received_transmission_time_offset_ := last_received_transmission_time_offset_ r;
     received_seq_first_ := received_seq_first_ r;
     received_seq_max_ := received_seq_max_ r;
     received_seq_wraps_ := received_seq_wraps_ r;
     received_packet_oh_ := received_packet_oh_ r;
     received_byte_count_ := received_byte_count_ r;
     received_old_packet_count_ := received_old_packet_count_ r;
     received_inorder_packet_count_ := received_inorder_packet_count_ r;
     last_report_inorder_packets_ := last_report_inorder_packets_ r;
     last_report_old_packets_ := last_report_old_packets_ r;
     last_report_seq_max_ := last_report_seq_max_ r;
     last_report_fraction_lost_ := last_report_fraction_lost_ r;
     last_report_cumulative_lost_ := last_report_cumulative_lost_ r;
     last_report_extended_high_seq_num_ := last_report_extended_high_seq_num_ r;
     last_report_jitter_ := last_report_jitter_ r;
     last_report_jitter_transmission_time_offset_ := v;
     nack_method_ := nack_method_ r;
     max_reordering_threshold_ := max_reordering_threshold_ r; rtx_ := rtx_ r;
     ssrc_rtx_ := ssrc_rtx_ r |}.

Definition set_nack_method_ (v : NACKMethod) (r : RTPReceiver)
  : RTPReceiver :=
  {| rtp_payload_registry_ := rtp_payload_registry_ r;
     last_media_specific_payload_ := last_media_specific_payload_ r;
     last_receive_time_ := last_receive_time_ r;
     last_received_payload_length_ := last_received_payload_length_ r;
     packet_timeout_ms_ := packet_timeout_ms_ r; ssrc_ := ssrc_ r;
     num_csrcs_ := num_csrcs_ r;
     current_remote_csrc_ := current_remote_csrc_ r;
     num_energy_ := num_energy_ r;
     current_remote_energy_ := current_remote_energy_ r;
     use_ssrc_filter_ := use_ssrc_filter_ r; ssrc_filter_ := ssrc_filter_ r;
     jitter_q4_ := jitter_q4_ r; jitter_max_q4_ := jitter_max_q4_ r;
     cumulative_loss_ := cumulative_loss_ r;
     jitter_q4_transmission_time_offset_ := jitter_q4_transmission_time_offset_ r;
     local_time_last_received_timestamp_ := local_time_last_received_timestamp_ r;
     last_received_frame_time_ms_ := last_received_frame_time_ms_ r;
     last_received_timestamp_ := last_received_timestamp_ r;
     last_received_sequence_number_ := last_received_sequence_number_ r;
     last_received_transmission_time_offset_ := last_received_transmission_time_offset_ r;
     received_seq_first_ := received_seq_first_ r;
     received_seq_max_ := received_seq_max_ r;
     received_seq_wraps_ := received_seq_wraps_ r;
     received_packet_oh_ := received_packet_oh_ r;
     received_byte_count_ := received_byte_count_ r;
     received_old_packet_count_ := received_old_packet_count_ r;
     received_inorder_packet_count_ := received_inorder_packet_count_ r;
     last_report_inorder_packets_ := last_report_inorder_packets_ r;
     last_report_old_packets_ := last_report_old_packets_ r;
     last_report_seq_max_ := last_report_seq_max_ r;
     last_report_fraction_lost_ := last_report_fraction_lost_ r;
     last_report_cumulative_lost_ := last_report_cumulative_lost_ r;
     last_report_extended_high_seq_num_ := last_report_extended_high_seq_num_ r;
     last_report_jitter_ := last_report_jitter_ r;
     last_report_jitter_transmission_time_offset_ := last_report_jitter_transmission_time_offset_ r;
     nack_method_ := v;
     max_reordering_threshold_ := max_reordering_threshold_ r; rtx_ := rtx_ r;
     ssrc_rtx_ := ssrc_rtx_ r |}.

Definition set_max_reordering_threshold_ (v : Z) (r : RTPReceiver)
  : RTPReceiver :=
  {| rtp_payload_registry_ := rtp_payload_registry_ r;
     last_media_specific_payload_ := last_media_specific_payload_ r;
     last_receive_time_ := last_receive_time_ r;
     last_received_payload_length_ := last_received_payload_length_ r;
     packet_timeout_ms_ := packet_timeout_ms_ r; ssrc_ := ssrc_ r;
     num_csrcs_ := num_csrcs_ r;
     current_remote_csrc_ := current_remote_csrc_ r;
     num_energy_ := num_energy_ r;
     current_remote_energy_ := current_remote_energy_ r;
     use_ssrc_filter_ := use_ssrc_filter_ r; ssrc_filter_ := ssrc_filter_ r;
     jitter_q4_ := jitter_q4_ r; jitter_max_q4_ := jitter_max_q4_ r;
     cumulative_loss_ := cumulative_loss_ r;
     jitter_q4_transmission_time_offset_ := jitter_q4_transmission_time_offset_ r;
     local_time_last_received_timestamp_ := local_time_last_received_timestamp_ r;
     last_received_frame_time_ms_ := last_received_frame_time_ms_ r;
     last_received_timestamp_ := last_received_timestamp_ r;
     last_received_sequence_number_ := last_received_sequence_number_ r;
     last_received_transmission_time_offset_ := last_received_transmission_time_offset_ r;
     received_seq_first_ := received_seq_first_ r;
     received_seq_max_ := received_seq_max_ r;
     received_seq_wraps_ := received_seq_wraps_ r;
     received_packet_oh_ := received_packet_oh_ r;
     received_byte_count_ := received_byte_count_ r;
     received_old_packet_count_ := received_old_packet_count_ r;
     received_inorder_packet_count_ := received_inorder_packet_count_ r;
     last_report_inorder_packets_ := last_report_inorder_packets_ r;
     last_report_old_packets_ := last_report_old_packets_ r;
     last_report_seq_max_ := last_report_seq_max_ r;
     last_report_fraction_lost_ := last_report_fraction_lost_ r;
     last_report_cumulative_lost_ := last_report_cumulative_lost_ r;
     last_report_extended_high_seq_num_ := last_report_extended_high_seq_num_ r;
     last_report_jitter_ := last_report_jitter_ r;
     last_report_jitter_transmission_time_offset_ := last_report_jitter_transmission_time_offset_ r;
     nack_method_ := nack_method_ r; max_reordering_threshold_ := v;
     rtx_ := rtx_ r; ssrc_rtx_ := ssrc_rtx_ r |}.

Definition set_rtx_ (v : bool) (r : RTPReceiver)
  : RTPReceiver :=
  {| rtp_payload_registry_ := rtp_payload_registry_ r;
     last_media_specific_payload_ := last_media_specific_payload_ r;
     last_receive_time_ := last_receive_time_ r;
     last_received_payload_length_ := last_received_payload_length_ r;
     packet_timeout_ms_ := packet_timeout_ms_ r; ssrc_ := ssrc_ r;
     num_csrcs_ := num_csrcs_ r;
     current_remote_csrc_ := current_remote_csrc_ r;
     num_energy_ := num_energy_ r;
     current_remote_energy_ := current_remote_energy_ r;
     use_ssrc_filter_ := use_ssrc_filter_ r; ssrc_filter_ := ssrc_filter_ r;
     jitter_q4_ := jitter_q4_ r; jitter_max_q4_ := jitter_max_q4_ r;
     cumulative_loss_ := cumulative_loss_ r;
     jitter_q4_transmission_time_offset_ := jitter_q4_transmission_time_offset_ r;
     local_time_last_received_timestamp_ := local_time_last_received_timestamp_ r;
     last_received_frame_time_ms_ := last_received_frame_time_ms_ r;
     last_received_timestamp_ := last_received_timestamp_ r;
     last_received_sequence_number_ := last_received_sequence_number_ r;
     last_received_transmission_time_offset_ := last_received_transmission_time_offset_ r;
     received_seq_first_ := received_seq_first_ r;
     received_seq_max_ := received_seq_max_ r;
     received_seq_wraps_ := received_seq_wraps_ r;
     received_packet_oh_ := received_packet_oh_ r;
     received_byte_count_ := received_byte_count_ r;
     received_old_packet_count_ := received_old_packet_count_ r;
     received_inorder_packet_count_ := received_inorder_packet_count_ r;
     last_report_inorder_packets_ := last_report_inorder_packets_ r;
     last_report_old_packets_ := last_report_old_packets_ r;
     last_report_seq_max_ := last_report_seq_max_ r;
     last_report_fraction_lost_ := last_report_fraction_lost_ r;
     last_report_cumulative_lost_ := last_report_cumulative_lost_ r;
     last_report_extended_high_seq_num_ := last_report_extended_high_seq_num_ r;
     last_report_jitter_ := last_report_jitter_ r;
     last_report_jitter_transmission_time_offset_ := last_report_jitter_transmission_time_offset_ r;
     nack_method_ := nack_method_ r;
     max_reordering_threshold_ := max_reordering_threshold_ r; rtx_ := v;
     ssrc_rtx_ := ssrc_rtx_ r |}.

Definition set_ssrc_rtx_ (v : Z) (r : RTPReceiver)
  : RTPReceiver :=
  {| rtp_payload_registry_ := rtp_payload_registry_ r;
     last_media_specific_payload_ := last_media_specific_payload_ r;
     last_receive_time_ := last_receive_time_ r;
     last_received_payload_length_ := last_received_payload_length_ r;
     packet_timeout_ms_ := packet_timeout_ms_ r; ssrc_ := ssrc_ r;
     num_csrcs_ := num_csrcs_ r;
     current_remote_csrc_ := current_remote_csrc_ r;
     num_energy_ := num_energy_ r;
     current_remote_energy_ := current_remote_energy_ r;
     use_ssrc_filter_ := use_ssrc_filter_ r; ssrc_filter_ := ssrc_filter_ r;
     jitter_q4_ := jitter_q4_ r; jitter_max_q4_ := jitter_max_q4_ r;
     cumulative_loss_ := cumulative_loss_ r;
     jitter_q4_transmission_time_offset_ := jitter_q4_transmission_time_offset_ r;
     local_time_last_received_timestamp_ := local_time_last_received_timestamp_ r;
     last_received_frame_time_ms_ := last_received_frame_time_ms_ r;
     last_received_timestamp_ := last_received_timestamp_ r;
     last_received_sequence_number_ := last_received_sequence_number_ r;
     last_received_transmission_time_offset_ := last_received_transmission_time_offset_ r;
     received_seq_first_ := received_seq_first_ r;
     received_seq_max_ := received_seq_max_ r;
     received_seq_wraps_ := received_seq_wraps_ r;
     received_packet_oh_ := received_packet_oh_ r;
     received_byte_count_ := received_byte_count_ r;
     received_old_packet_count_ := received_old_packet_count_ r;
     received_inorder_packet_count_ := received_inorder_packet_count_ r;
     last_report_inorder_packets_ := last_report_inorder_packets_ r;
     last_report_old_packets_ := last_report_old_packets_ r;
     last_report_seq_max_ := last_report_seq_max_ r;
     last_report_fraction_lost_ := last_report_fraction_lost_ r;
     last_report_cumulative_lost_ := last_report_cumulative_lost_ r;
     last_report_extended_high_seq_num_ := last_report_extended_high_seq_num_ r;
     last_report_jitter_ := last_report_jitter_ r;
     last_report_jitter_transmission_time_offset_ := last_report_jitter_transmission_time_offset_ r;
     nack_method_ := nack_method_ r;
     max_reordering_threshold_ := max_reordering_threshold_ r; rtx_ := rtx_ r;
     ssrc_rtx_ := v |}.

(** [memcpy(dst, src, n)] on arrays modelled as lists: the first [n] cells of
    [dst] are replaced by those of [src]. *)
Definition memcpy (dst src : list Z) (n : Z) : list Z :=
  firstn (Z.to_nat n) src ++ skipn (Z.to_nat n) dst.

(** ** Construction and destruction *)

(** [RTPReceiver::RTPReceiver].  The registry object is handed in by the
    owner. *)
Definition RTPReceiver_new (registry : RTPPayloadRegistry) : RTPReceiver :=
  {| rtp_payload_registry_ := registry;
     last_media_specific_payload_ := Audio 0 0 0;
     last_receive_time_ := 0;
     last_received_payload_length_ := 0;
     packet_timeout_ms_ := 0;
     ssrc_ := 0;
     num_csrcs_ := 0;
     current_remote_csrc_ := repeat 0 (Z.to_nat kRtpCsrcSize);
     num_energy_ := 0;
     current_remote_energy_ := repeat 0 (Z.to_nat kRtpCsrcSize);
     use_ssrc_filter_ := false;
     ssrc_filter_ := 0;
     jitter_q4_ := 0;
     jitter_max_q4_ := 0;
     cumulative_loss_ := 0;
     jitter_q4_transmission_time_offset_ := 0;
     local_time_last_received_timestamp_ := 0;
     last_received_frame_time_ms_ := 0;
     last_received_timestamp_ := 0;
     last_received_sequence_number_ := 0;
     last_received_transmission_time_offset_ := 0;
     received_seq_first_ := 0;
     received_seq_max_ := 0;
     received_seq_wraps_ := 0;
     received_packet_oh_ := 12;
     received_byte_count_ := 0;
     received_old_packet_count_ := 0;
     received_inorder_packet_count_ := 0;
     last_report_inorder_packets_ := 0;
     last_report_old_packets_ := 0;
     last_report_seq_max_ := 0;
     last_report_fraction_lost_ := 0;
     last_report_cumulative_lost_ := 0;
     last_report_extended_high_seq_num_ := 0;
     last_report_jitter_ := 0;
     last_report_jitter_transmission_time_offset_ := 0;
     nack_method_ := kNackOff;
     max_reordering_threshold_ := kDefaultMaxReorderingThreshold;
     rtx_ := false;
     ssrc_rtx_ := 0 |}.

(** The CSRC entries the receiver currently tracks:
    [current_remote_csrc_[0 .. num_csrcs_)]. *)
Definition tracked_csrcs (r : RTPReceiver) : list Z :=
  firstn (Z.to_nat (num_csrcs_ r)) (current_remote_csrc_ r).

(** [RTPReceiver::~RTPReceiver]: the callbacks of the destructor. *)
Definition RTPReceiver_delete (r : RTPReceiver) : list Callback :=
  map (fun csrc => OnIncomingCSRCChanged csrc false) (tracked_csrcs r).

(** ** Small member functions *)

Definition REDPayloadType (r : RTPReceiver) (payload_type : Z) : bool :=
  red_payload_type_ (rtp_payload_registry_ r) =? payload_type.

Definition SetPacketTimeout (timeout_ms : Z) (r : RTPReceiver) : RTPReceiver :=
  set_packet_timeout_ms_ timeout_ms r.

Definition HaveNotReceivedPackets (r : RTPReceiver) : bool :=
  last_receive_time_ r =? 0.

(** [RTPReceiver::PacketTimeout]; [now] is the clock reading. *)
Definition PacketTimeout (now : Z) (r : RTPReceiver)
  : RTPReceiver * list Callback :=
  if packet_timeout_ms_ r =? 0 then (r, [])
  else if HaveNotReceivedPackets r then (r, [])
  else if now - last_receive_time_ r >? packet_timeout_ms_ r then
    let r := set_last_receive_time_ 0 r in
    let r := set_rtp_payload_registry_
               (Registry.ResetLastReceivedPayloadTypes
                  (rtp_payload_registry_ r)) r in
    (r, [OnPacketTimeout])
  else (r, []).

(** [RTPReceiver::ProcessDeadOrAlive]. *)
Definition ProcessDeadOrAlive (media : RTPReceiverStrategy)
                              (rtcp_alive : bool) (now : Z) (r : RTPReceiver)
  : list Callback :=
  let alive :=
    if last_receive_time_ r + 1000 >? now then kRtpAlive
    else if rtcp_alive then
      ProcessDeadOrAlive_strategy media (last_received_payload_length_ r)
    else kRtpDead in
  [OnPeriodicDeadOrAlive alive].

Definition PacketOHReceived (r : RTPReceiver) : Z := received_packet_oh_ r.
Definition PacketCountReceived (r : RTPReceiver) : Z :=
  received_inorder_packet_count_ r.
Definition ByteCountReceived (r : RTPReceiver) : Z := received_byte_count_ r.

(** [RTPReceiver::RegisterReceivePayload] and [DeRegisterReceivePayload] hand
    the call to the registry, whose methods are not in the tree:
    [registry_call] is what the method does to the registry object (for
    instance [Registry.RegisterReceivePayload 0 p]); nothing is assumed
    about it. *)
Definition RegisterReceivePayload
           (registry_call : RTPPayloadRegistry -> RTPPayloadRegistry)
           (r : RTPReceiver) : RTPReceiver :=
  set_rtp_payload_registry_ (registry_call (rtp_payload_registry_ r)) r.

Definition DeRegisterReceivePayload
           (registry_call : RTPPayloadRegistry -> RTPPayloadRegistry)
           (r : RTPReceiver) : RTPReceiver :=
  set_rtp_payload_registry_ (registry_call (rtp_payload_registry_ r)) r.

(** [RTPReceiver::SetNACKStatus]. *)
Definition SetNACKStatus (method : NACKMethod) (max_reordering_threshold : Z)
                         (r : RTPReceiver) : Z * RTPReceiver :=
  if max_reordering_threshold <? 0 then (-1, r)
  else
    let r :=
      if NACKMethod_eqb method kNackRtcp
      then set_max_reordering_threshold_ max_reordering_threshold r
      else set_max_reordering_threshold_ kDefaultMaxReorderingThreshold r in
    (0, set_nack_method_ method r).

Definition SetRTXStatus (enable : bool) (ssrc : Z) (r : RTPReceiver)
  : RTPReceiver :=
  set_ssrc_rtx_ ssrc (set_rtx_ enable r).

Definition SetSSRCFilter (enable : bool) (allowed_ssrc : Z) (r : RTPReceiver)
  : RTPReceiver :=
  let r := set_use_ssrc_filter_ enable r in
  if enable then set_ssrc_filter_ allowed_ssrc r else set_ssrc_filter_ 0 r.

(** [RTPReceiver::CSRCs]: the return value and the caller's array after the
    call. *)
Definition CSRCs (array_of_csrcs : list Z) (r : RTPReceiver) : Z * list Z :=
  (num_csrcs_ r,
   if num_csrcs_ r >? 0
   then memcpy array_of_csrcs (current_remote_csrc_ r) (num_csrcs_ r)
   else array_of_csrcs).

(** [RTPReceiver::Energy]: the return value and the caller's array after the
    call.  The byte count of the copy is [sizeof(WebRtc_UWord8)*num_csrcs_]. *)
Definition Energy (array_of_energy : list Z) (r : RTPReceiver) : Z * list Z :=
  (num_energy_ r,
   if num_energy_ r >? 0
   then memcpy array_of_energy (current_remote_energy_ r) (num_csrcs_ r)
   else array_of_energy).

Definition SequenceNumber (r : RTPReceiver) : Z :=
  last_received_sequence_number_ r.
Definition TimeStamp (r : RTPReceiver) : Z := last_received_timestamp_ r.

Definition NACK (r : RTPReceiver) : NACKMethod := nack_method_ r.

(** [RTPReceiver::RTXStatus]: [*enable] and [*ssrc] after the call. *)
Definition RTXStatus (r : RTPReceiver) : bool * Z := (rtx_ r, ssrc_rtx_ r).

Definition SSRC (r : RTPReceiver) : Z := ssrc_ r.

(** [RTPReceiver::SSRCFilter]: the return code and the caller's
    [allowed_ssrc] after the call. *)
Definition SSRCFilter (allowed_ssrc : Z) (r : RTPReceiver) : Z * Z :=
  if use_ssrc_filter_ r then (0, ssrc_filter_ r) else (-1, allowed_ssrc).

(** [RTPReceiver::EstimatedRemoteTimeStamp]: the return code and the caller's
    [timestamp] after the call; [now] is the reading
    [GetCurrentRTP(clock_, frequency_hz)], a [WebRtc_UWord32]. *)
Definition EstimatedRemoteTimeStamp (now : Z) (timestamp : Z) (r : RTPReceiver)
  : Z * Z :=
  if local_time_last_received_timestamp_ r =? 0 then (-1, timestamp)
  else
    let diff := u32 (now - local_time_last_received_timestamp_ r) in
    (0, u32 (last_received_timestamp_ r + diff)).

(** ** Statistics reset *)

(** [RTPReceiver::ResetStatistics]. *)
Definition ResetStatistics (r : RTPReceiver) : RTPReceiver :=
  let r := set_last_report_inorder_packets_ 0 r in
  let r := set_last_report_old_packets_ 0 r in
  let r := set_last_report_seq_max_ 0 r in
  let r := set_last_report_fraction_lost_ 0 r in
  let r := set_last_report_cumulative_lost_ 0 r in
  let r := set_last_report_extended_high_seq_num_ 0 r in
  let r := set_last_report_jitter_ 0 r in
  let r := set_last_report_jitter_transmission_time_offset_ 0 r in
  let r := set_jitter_q4_ 0 r in
  let r := set_jitter_max_q4_ 0 r in
  let r := set_cumulative_loss_ 0 r in
  let r := set_jitter_q4_transmission_time_offset_ 0 r in
  let r := set_received_seq_wraps_ 0 r in
  let r := set_received_seq_max_ 0 r in
  let r := set_received_seq_first_ 0 r in
  let r := set_received_byte_count_ 0 r in
  let r := set_received_old_packet_count_ 0 r in
  set_received_inorder_packet_count_ 0 r.

(** [RTPReceiver::ResetDataCounters]. *)
Definition ResetDataCounters (r : RTPReceiver) : RTPReceiver :=
  let r := set_received_byte_count_ 0 r in
  let r := set_received_old_packet_count_ 0 r in
  let r := set_received_inorder_packet_count_ 0 r in
  set_last_report_inorder_packets_ 0 r.

(** ** Ordering and retransmission *)

(** [RTPReceiver::InOrderPacket].  The subtraction
    [received_seq_max_ - max_reordering_threshold_] is done on [int]. *)
Definition InOrderPacket (r : RTPReceiver) (sequence_number : Z) : bool :=
  if received_seq_max_ r >=? sequence_number then
    if negb ((received_seq_max_ r >? 0xff00) && (sequence_number <? 0x0ff))
    then
      if received_seq_max_ r - max_reordering_threshold_ r >? sequence_number
      then true    (* restart of the remote side *)
      else false   (* retransmit of a packet we already have *)
    else true
  else
    if (sequence_number >? 0xff00) && (received_seq_max_ r <? 0x0ff) then
      if received_seq_max_ r - max_reordering_threshold_ r >? sequence_number
      then true
      else false
    else true.

(** [RTPReceiver::RetransmitOfOldPacket].  The timestamp difference is cast to
    [WebRtc_Word32] and divided by the unsigned [frequency_khz], hence
    divided as an unsigned value; a zero [frequency_khz] is undefined in C++
    and yields 0 here.  The floating-point branch is [jitter_delay_ms]. *)
Definition RetransmitOfOldPacket (e : Env) (r : RTPReceiver)
                                 (sequence_number rtp_time_stamp : Z) : bool :=
  if InOrderPacket r sequence_number then false
  else
    let frequency_khz := GetFrequencyHz (rtp_media_receiver_ e) / 1000 in
    let time_diff_ms := now_retransmit_ms e - last_receive_time_ r in
    let rtp_time_stamp_diff_ms :=
      s32 (u32 (rtp_time_stamp - last_received_timestamp_ r) / frequency_khz) in
    let max_delay_ms :=
      if min_rtt e =? 0 then
        let d := jitter_delay_ms e (Z.shiftr (jitter_q4_ r) 4) frequency_khz in
        if d =? 0 then 1 else d
      else min_rtt e / 3 + 1 in
    time_diff_ms >? rtp_time_stamp_diff_ms + max_delay_ms.

(** ** Per-packet statistics *)

(** The interarrival difference of [UpdateStatistics], as it is stored in the
    [WebRtc_Word32] [time_diff_samples] before [abs] is applied: unsigned
    32-bit arithmetic converted to a signed value. *)
Definition time_diff_samples (RTPtime : Z) (rtp_header : WebRtcRTPHeader)
                             (r : RTPReceiver) : Z :=
  s32 ((RTPtime - local_time_last_received_timestamp_ r) -
       (timestamp rtp_header - last_received_timestamp_ r)).

Definition time_diff_samples_ext (RTPtime : Z) (rtp_header : WebRtcRTPHeader)
                                 (r : RTPReceiver) : Z :=
  s32 ((RTPtime - local_time_last_received_timestamp_ r) -
       ((timestamp rtp_header + transmissionTimeOffset rtp_header) -
        (last_received_timestamp_ r +
         last_received_transmission_time_offset_ r))).

(** The guarded Q4 filter step that [UpdateStatistics] applies to
    [jitter_q4_] and to [jitter_q4_transmission_time_offset_]:
    [if (d < 450000) { Word32 diff = (d << 4) - jitter; jitter += (diff + 8) >> 4; }]
    with [jitter] a [WebRtc_UWord32]. *)
Definition jitter_update (d jitter : Z) : Z :=
  if d <? 450000 then
    let jitter_diff_q4 := s32 (shl4 d - jitter) in
    u32 (jitter + sar4 (s32 (jitter_diff_q4 + 8)))
  else jitter.

(** [RTPReceiver::UpdateStatistics].  [Bitrate::Update] belongs to the base
    class and touches none of the members modelled here. *)
Definition UpdateStatistics (e : Env) (rtp_header : WebRtcRTPHeader)
                            (bytes : Z) (old_packet : bool) (r : RTPReceiver)
  : RTPReceiver :=
  let r := set_received_byte_count_ (u32 (received_byte_count_ r + bytes)) r in
  if (received_seq_max_ r =? 0) && (received_seq_wraps_ r =? 0) then
    (* This is the first received report. *)
    let r := set_received_seq_first_ (sequenceNumber rtp_header) r in
    let r := set_received_seq_max_ (sequenceNumber rtp_header) r in
    let r := set_received_inorder_packet_count_ 1 r in
    set_local_time_last_received_timestamp_ (now_rtp e) r
  else
    let r :=
      if InOrderPacket r (sequenceNumber rtp_header) then
        let RTPtime := now_rtp e in
        let r := set_received_inorder_packet_count_
                   (u32 (received_inorder_packet_count_ r + 1)) r in
        let seq_diff := sequenceNumber rtp_header - received_seq_max_ r in
        let r := if seq_diff <? 0
                 then set_received_seq_wraps_ (u32 (received_seq_wraps_ r + 1)) r
                 else r in
        let r := set_received_seq_max_ (sequenceNumber rtp_header) r in
        let r :=
          if negb (timestamp rtp_header =? last_received_timestamp_ r)
             && (received_inorder_packet_count_ r >? 1)
          then
            let d := abs32 (time_diff_samples RTPtime rtp_header r) in
            let r := set_jitter_q4_ (jitter_update d (jitter_q4_ r)) r in
            let d_ext := abs32 (time_diff_samples_ext RTPtime rtp_header r) in
            set_jitter_q4_transmission_time_offset_
              (jitter_update d_ext (jitter_q4_transmission_time_offset_ r)) r
          else r in
        set_local_time_last_received_timestamp_ RTPtime r
      else if old_packet then
        set_received_old_packet_count_
          (u32 (received_old_packet_count_ r + 1)) r
      else
        set_received_inorder_packet_count_
          (u32 (received_inorder_packet_count_ r + 1)) r in
    let packet_oh := u16 (headerLength rtp_header + paddingLength rtp_header) in
    set_received_packet_oh_
      (u16 (Z.shiftr (15 * received_packet_oh_ r + packet_oh) 4)) r.

(** ** Identity changes *)

(** [RTPReceiver::CheckSSRCChanged].  The [return] inside the critical section
    (payload type not in the registry) leaves the function before [ssrc_] is
    stored and before any callback is made.  [payload_name] is the registry
    name (the [strncpy] bound [RTP_PAYLOAD_NAME_SIZE] is not modelled). *)
Definition CheckSSRCChanged (rtp_header : WebRtcRTPHeader) (r : RTPReceiver)
  : RTPReceiver * list Callback :=
  let last_received_payload_type :=
    last_received_payload_type_ (rtp_payload_registry_ r) in
  if negb (ssrc_ r =? ssrc rtp_header)
     || ((last_received_payload_type =? -1) && (ssrc_ r =? 0))
  then
    let old_ssrc := ssrc_ r in
    let r := ResetStatistics r in
    let r := set_last_received_timestamp_ 0 r in
    let r := set_last_received_sequence_number_ 0 r in
    let r := set_last_received_transmission_time_offset_ 0 r in
    let r := set_last_received_frame_time_ms_ 0 r in
    let new_ssrc_callbacks :=
      [SetRemoteSSRC (ssrc rtp_header);
       OnIncomingSSRCChanged (ssrc rtp_header)] in
    if negb (old_ssrc =? 0)
       && (payloadType rtp_header =? last_received_payload_type)
    then
      match Registry.PayloadTypeToPayload
              (payload_type_map_ (rtp_payload_registry_ r))
              (payloadType rtp_header) with
      | None => (r, [])
      | Some payload =>
          let '(frequency, channels, rate) :=
            if audio payload
            then (Audio_frequency (typeSpecific payload),
                  Audio_channels (typeSpecific payload),
                  Audio_rate (typeSpecific payload))
            else (kDefaultVideoFrequency, 1, 0) in
          (set_ssrc_ (ssrc rtp_header) r,
           new_ssrc_callbacks ++
           [OnInitializeDecoder (payloadType rtp_header) (name payload)
                                frequency channels rate])
      end
    else (set_ssrc_ (ssrc rtp_header) r, new_ssrc_callbacks)
  else (r, []).

Definition VideoCodecType (r : RTPReceiver) : RtpVideoCodecTypes :=
  Video_videoCodecType (last_media_specific_payload_ r).

(** [RTPReceiver::CheckPayloadChanged].  Result: return code, [is_red],
    [*specific_payload], receiver, callbacks. *)
Definition CheckPayloadChanged (e : Env) (rtp_header : WebRtcRTPHeader)
                               (first_payload_byte : Z) (is_red : bool)
                               (specific_payload : PayloadUnion)
                               (r : RTPReceiver)
  : Z * bool * PayloadUnion * RTPReceiver * list Callback :=
  let media := rtp_media_receiver_ e in
  let payload_type := payloadType rtp_header in
  let last_received_payload_type :=
    last_received_payload_type_ (rtp_payload_registry_ r) in
  if negb (payload_type =? last_received_payload_type) then
    (* after the RED unwrapping: [None] when the function has returned *)
    let red :=
      if REDPayloadType r payload_type then
        let payload_type := Z.land first_payload_byte 0x7f in
        if REDPayloadType r payload_type then
          inl (-1, true, specific_payload)
        else if payload_type =? last_received_payload_type then
          inl (0, true, last_media_specific_payload_ r)
        else inr (payload_type, true)
      else inr (payload_type, is_red) in
    match red with
    | inl (ret, is_red, specific_payload) =>
        (ret, is_red, specific_payload, r, [])
    | inr (payload_type, is_red) =>
        let '(specific_payload, should_reset_statistics,
              should_discard_changes) :=
          CheckPayloadChanged_strategy media payload_type specific_payload in
        let r := if should_reset_statistics then ResetStatistics r else r in
        if should_discard_changes then (0, false, specific_payload, r, [])
        else
          match Registry.PayloadTypeToPayload
                  (payload_type_map_ (rtp_payload_registry_ r))
                  payload_type with
          | None => (-1, is_red, specific_payload, r, [])
          | Some payload =>
              let r := set_rtp_payload_registry_
                         (Registry.set_last_received_payload_type payload_type
                            (rtp_payload_registry_ r)) r in
              let r := set_last_media_specific_payload_
                         (typeSpecific payload) r in
              let specific_payload := last_media_specific_payload_ r in
              let '(re_initialize_decoder, r) :=
                if negb (audio payload) then
                  if RtpVideoCodecTypes_eqb (VideoCodecType r) kRtpFecVideo
                  then (false, r)
                  else
                    let '(media_type_unchanged, g) :=
                      Registry.ReportMediaPayloadType payload_type
                        (rtp_payload_registry_ r) in
                    let r := set_rtp_payload_registry_ g r in
                    if media_type_unchanged then (false, r) else (true, r)
                else (true, r) in
              let r := if re_initialize_decoder then ResetStatistics r
                       else r in
              if re_initialize_decoder then
                let ret :=
                  if InvokeOnInitializeDecoder_ret media payload_type
                       (name payload) specific_payload =? -1
                  then -1 else 0 in
                (ret, is_red, specific_payload, r,
                 [InvokeOnInitializeDecoder payload_type (name payload)
                                            specific_payload])
              else (0, is_red, specific_payload, r, [])
          end
    end
  else (0, false, last_media_specific_payload_ r, r, []).

(** ** Contributing sources *)

Definition found_match (csrc : Z) (l : list Z) : bool := existsb (Z.eqb csrc) l.

(** One of the two scans of [CheckCSRC]: the entries of [l] that are not in
    [others] and not 0, in array order. *)
Definition unmatched (l others : list Z) : list Z :=
  filter (fun csrc => negb (found_match csrc others) && negb (csrc =? 0)) l.

(** [RTPReceiver::CheckCSRC].  The header arrays are read up to the count the
    header declares. *)
Definition CheckCSRC (e : Env) (rtp_header : WebRtcRTPHeader) (r : RTPReceiver)
  : RTPReceiver * list Callback :=
  if negb (ShouldReportCsrcChanges (rtp_media_receiver_ e)
             (payloadType rtp_header))
  then (r, [])
  else
    let r := set_num_energy_ (numEnergy rtp_header) r in
    let r :=
      if (numEnergy rtp_header >? 0) && (numEnergy rtp_header <=? kRtpCsrcSize)
      then set_current_remote_energy_
             (memcpy (current_remote_energy_ r) (arrOfEnergy rtp_header)
                     (numEnergy rtp_header)) r
      else r in
    let old_num_csrcs := num_csrcs_ r in
    let old_remote_csrc := tracked_csrcs r in
    let num_csrcs := numCSRCs rtp_header in
    let r :=
      if (num_csrcs >? 0) && (num_csrcs <=? kRtpCsrcSize)
      then set_current_remote_csrc_
             (memcpy (current_remote_csrc_ r) (arrOfCSRCs rtp_header)
                     num_csrcs) r
      else r in
    if (num_csrcs >? 0) || (old_num_csrcs >? 0) then
      let num_csrcs_diff := num_csrcs - old_num_csrcs in
      let r := set_num_csrcs_ num_csrcs r in
      let new_remote_csrc :=
        firstn (Z.to_nat num_csrcs) (arrOfCSRCs rtp_header) in
      let added := unmatched new_remote_csrc old_remote_csrc in
      let removed := unmatched old_remote_csrc new_remote_csrc in
      let have_called_callback :=
        negb (Nat.eqb (List.length added + List.length removed) 0) in
      (r,
       map (fun csrc => OnIncomingCSRCChanged csrc true) added ++
       map (fun csrc => OnIncomingCSRCChanged csrc false) removed ++
       (if have_called_callback then []
        else if num_csrcs_diff >? 0 then [OnIncomingCSRCChanged 0 true]
        else if num_csrcs_diff <? 0 then [OnIncomingCSRCChanged 0 false]
        else []))
    else (r, []).

(** ** Ingress *)

(** Modelled from the spec: [ModuleRTPUtility::GetPayloadDataLength] is not in
    the tree; the spec gives the body length as
    [packet_length - padding_length - header_length], here as the
    [WebRtc_UWord16] the caller stores it in. *)
Definition GetPayloadDataLength (rtp_header : WebRtcRTPHeader)
                                (packet_length : Z) : Z :=
  u16 (packet_length - paddingLength rtp_header - headerLength rtp_header).

(** What an ingress call leaves behind: the return code, the header (the
    caller's object, which the RTX step rewrites in place), the receiver, and
    the callbacks made. *)
Record Ingress := {
  ret : Z;
  header_after : WebRtcRTPHeader;
  receiver_after : RTPReceiver;
  callbacks : list Callback
}.

(** [RTPReceiver::IncomingRTPPacket].  [packet] is the byte buffer; a read
    past its end yields 0.  The media strategy's parser is taken to leave the
    header fields modelled here as they are. *)
Definition IncomingRTPPacket (e : Env) (rtp_header : WebRtcRTPHeader)
                             (packet : list Z) (packet_length : Z)
                             (r : RTPReceiver) : Ingress :=
  let length := packet_length - paddingLength rtp_header in
  if length - headerLength rtp_header <? 0 then
    {| ret := -1; header_after := rtp_header; receiver_after := r;
       callbacks := [] |}
  else
    let rtx_result :=
      if rtx_ r && (ssrc_rtx_ r =? ssrc rtp_header) then
        if headerLength rtp_header + 2 >? packet_length then None
        else
          Some (rtx_rewrite
                  (ssrc_ r)
                  (u16 (Z.shiftl
                          (nth (Z.to_nat (headerLength rtp_header)) packet 0) 8
                        + nth (Z.to_nat (1 + headerLength rtp_header)) packet 0))
                  (u16 (headerLength rtp_header + 2))
                  rtp_header)
      else Some rtp_header in
    match rtx_result with
    | None =>
        {| ret := -1; header_after := rtp_header; receiver_after := r;
           callbacks := [] |}
    | Some rtp_header =>
        if use_ssrc_filter_ r && negb (ssrc rtp_header =? ssrc_filter_ r) then
          {| ret := -1; header_after := rtp_header; receiver_after := r;
             callbacks := [] |}
        else
          let c1 :=
            if last_receive_time_ r =? 0 then
              if length - headerLength rtp_header =? 0
              then [OnReceivedPacket kPacketKeepAlive]
              else [OnReceivedPacket kPacketRtp]
            else [] in
          let first_payload_byte :=
            if length >? 0
            then s8 (nth (Z.to_nat (headerLength rtp_header)) packet 0)
            else 0 in
          let '(r, c2) := CheckSSRCChanged rtp_header r in
          let '(code, is_red, specific_payload, r, c3) :=
            CheckPayloadChanged e rtp_header first_payload_byte false
                                (Audio 0 0 0) r in
          if code =? -1 then
            {| ret := if length - headerLength rtp_header =? 0 then 0 else -1;
               header_after := rtp_header; receiver_after := r;
               callbacks := c1 ++ c2 ++ c3 |}
          else
            let '(r, c4) := CheckCSRC e rtp_header r in
            let payload_data_length :=
              GetPayloadDataLength rtp_header packet_length in
            let is_first_packet_in_frame :=
              (SequenceNumber r + 1 =? sequenceNumber rtp_header)
              && negb (TimeStamp r =? timestamp rtp_header) in
            let is_first_packet :=
              is_first_packet_in_frame || HaveNotReceivedPackets r in
            let ret_val :=
              ParseRtpPacket (rtp_media_receiver_ e) rtp_header
                specific_payload is_red packet packet_length (now_parse_ms e)
                is_first_packet in
            if ret_val <? 0 then
              {| ret := ret_val; header_after := rtp_header;
                 receiver_after := r; callbacks := c1 ++ c2 ++ c3 ++ c4 |}
            else
              let old_packet :=
                RetransmitOfOldPacket e r (sequenceNumber rtp_header)
                                      (timestamp rtp_header) in
              let r := UpdateStatistics e rtp_header payload_data_length
                                        old_packet r in
              let r := set_last_receive_time_ (now_receive_ms e) r in
              let r := set_last_received_payload_length_
                         payload_data_length r in
              let r :=
                if negb old_packet then
                  let r :=
                    if negb (last_received_timestamp_ r
                             =? timestamp rtp_header)
                    then
                      let r := set_last_received_timestamp_
                                 (timestamp rtp_header) r in
                      set_last_received_frame_time_ms_ (now_frame_ms e) r
                    else r in
                  let r := set_last_received_sequence_number_
                             (sequenceNumber rtp_header) r in
                  set_last_received_transmission_time_offset_
                    (transmissionTimeOffset rtp_header) r
                else r in
              {| ret := ret_val; header_after := rtp_header;
                 receiver_after := r; callbacks := c1 ++ c2 ++ c3 ++ c4 |}
    end.

(** ** Receiver reports *)

(** The caller's variables behind the eight out-pointers of [Statistics],
    taken to be non-null. *)
Record Report := {
  fraction_lost : Z;
  cum_lost : Z;
  ext_max : Z;
  jitter : Z;
  max_jitter : Z;
  jitter_transmission_time_offset : Z;
  missing : Z
}.

(** The first step of a resetting report: before the first report
    [last_report_seq_max_] is set to [received_seq_first_ - 1] (a
    [WebRtc_UWord16]). *)
Definition first_report_init (r : RTPReceiver) : RTPReceiver :=
  if last_report_inorder_packets_ r =? 0
  then set_last_report_seq_max_ (u16 (received_seq_first_ r - 1)) r
  else r.

(** The local [exp_since_last] of [Statistics] once both statements that
    assign it have run. *)
Definition exp_since_last (r : RTPReceiver) : Z :=
  let exp_since_last :=
    u16 (received_seq_max_ r - last_report_seq_max_ r) in
  if last_report_seq_max_ r >? received_seq_max_ r then 0
  else exp_since_last.

(** The local [rec_since_last] of [Statistics]. *)
Definition rec_since_last (r : RTPReceiver) : Z :=
  let rec_since_last :=
    u32 (received_inorder_packet_count_ r - last_report_inorder_packets_ r) in
  if NACKMethod_eqb (nack_method_ r) kNackOff then
    let old_packets :=
      u32 (received_old_packet_count_ r - last_report_old_packets_ r) in
    u32 (rec_since_last + old_packets)
  else rec_since_last.

(** [RTPReceiver::Statistics] (the overload with [missing]). *)
Definition Statistics (out : Report) (reset : bool) (r : RTPReceiver)
  : Z * Report * RTPReceiver :=
  if (received_seq_first_ r =? 0) && (received_byte_count_ r =? 0) then
    (-1, out, r)
  else if negb reset then
    if last_report_inorder_packets_ r =? 0 then (-1, out, r)
    else
      (0,
       {| fraction_lost := last_report_fraction_lost_ r;
          cum_lost := last_report_cumulative_lost_ r;
          ext_max := last_report_extended_high_seq_num_ r;
          jitter := last_report_jitter_ r;
          max_jitter := Z.shiftr (jitter_max_q4_ r) 4;
          jitter_transmission_time_offset :=
            last_report_jitter_transmission_time_offset_ r;
          missing := missing out |},
       r)
  else
    let r := first_report_init r in
    let exp_since_last := exp_since_last r in
    let rec_since_last := rec_since_last r in
    let missing :=
      if exp_since_last >? rec_since_last
      then exp_since_last - rec_since_last else 0 in
    let local_fraction_lost :=
      if exp_since_last =? 0 then 0
      else u8 ((255 * missing) / exp_since_last) in
    let r := set_cumulative_loss_ (u32 (cumulative_loss_ r + missing)) r in
    let r := if jitter_q4_ r >? jitter_max_q4_ r
             then set_jitter_max_q4_ (jitter_q4_ r) r else r in
    let extended_high :=
      u32 (Z.shiftl (received_seq_wraps_ r) 16 + received_seq_max_ r) in
    let out :=
      {| fraction_lost := local_fraction_lost;
         cum_lost := cumulative_loss_ r;
         ext_max := extended_high;
         jitter := Z.shiftr (jitter_q4_ r) 4;
         max_jitter := Z.shiftr (jitter_max_q4_ r) 4;
         jitter_transmission_time_offset :=
           Z.shiftr (jitter_q4_transmission_time_offset_ r) 4;
         missing := missing |} in
    (* Store this report. *)
    let r := set_last_report_fraction_lost_ local_fraction_lost r in
    let r := set_last_report_cumulative_lost_ (cumulative_loss_ r) r in
    let r := set_last_report_extended_high_seq_num_ extended_high r in
    let r := set_last_report_jitter_ (Z.shiftr (jitter_q4_ r) 4) r in
    let r := set_last_report_jitter_transmission_time_offset_
               (Z.shiftr (jitter_q4_transmission_time_offset_ r) 4) r in
    let r := set_last_report_inorder_packets_
               (received_inorder_packet_count_ r) r in
    let r := set_last_report_old_packets_ (received_old_packet_count_ r) r in
    let r := set_last_report_seq_max_ (received_seq_max_ r) r in
    (0, out, r).

(** [RTPReceiver::DataCounters]. *)
Definition DataCounters (r : RTPReceiver) : Z * Z :=
  (received_byte_count_ r,
   u32 (received_old_packet_count_ r + received_inorder_packet_count_ r)).

(** ** Lifetimes *)

(** The calls a host can make on a receiver between construction and
    destruction, each with what the outside world answers during it. *)
Inductive Call :=
| CallIncomingRTPPacket (e : Env) (rtp_header : WebRtcRTPHeader)
                        (packet : list Z) (packet_length : Z)
| CallPacketTimeout (now : Z)
| CallStatistics (out : Report) (reset : bool)
| CallResetStatistics
| CallResetDataCounters
| CallSetPacketTimeout (timeout_ms : Z)
| CallSetNACKStatus (method : NACKMethod) (max_reordering_threshold : Z)
| CallSetRTXStatus (enable : bool) (ssrc : Z)
| CallSetSSRCFilter (enable : bool) (allowed_ssrc : Z)
| CallRegisterReceivePayload
    (registry_call : RTPPayloadRegistry -> RTPPayloadRegistry)
| CallDeRegisterReceivePayload
    (registry_call : RTPPayloadRegistry -> RTPPayloadRegistry).

(** One call: the receiver after it and the callbacks it made. *)
Definition call (c : Call) (r : RTPReceiver) : RTPReceiver * list Callback :=
  match c with
  | CallIncomingRTPPacket e rtp_header packet packet_length =>
      let i := IncomingRTPPacket e rtp_header packet packet_length r in
      (receiver_after i, callbacks i)
  | CallPacketTimeout now => PacketTimeout now r
  | CallStatistics out reset => (snd (Statistics out reset r), [])
  | CallResetStatistics => (ResetStatistics r, [])
  | CallResetDataCounters => (ResetDataCounters r, [])
  | CallSetPacketTimeout timeout_ms => (SetPacketTimeout timeout_ms r, [])
  | CallSetNACKStatus method max_reordering_threshold =>
      (snd (SetNACKStatus method max_reordering_threshold r), [])
  | CallSetRTXStatus enable ssrc => (SetRTXStatus enable ssrc r, [])
  | CallSetSSRCFilter enable allowed_ssrc =>
      (SetSSRCFilter enable allowed_ssrc r, [])
  | CallRegisterReceivePayload registry_call =>
      (RegisterReceivePayload registry_call r, [])
  | CallDeRegisterReceivePayload registry_call =>
      (DeRegisterReceivePayload registry_call r, [])
  end.

(** A sequence of calls, oldest first. *)
Fixpoint run (cs : list Call) (r : RTPReceiver)
  : RTPReceiver * list Callback :=
  match cs with
  | [] => (r, [])
  | c :: cs' =>
      let '(r1, t1) := call c r in
      let '(r2, t2) := run cs' r1 in
      (r2, t1 ++ t2)
  end.

(** A whole lifetime: construction, calls, destruction; the result is every
    callback made, in order. *)
Definition lifetime (registry : RTPPayloadRegistry) (cs : list Call)
  : list Callback :=
  let '(r, t) := run cs (RTPReceiver_new registry) in
  t ++ RTPReceiver_delete r.

(** The states a receiver can be in. *)
Definition reachable (r : RTPReceiver) : Prop :=
  exists registry cs, fst (run cs (RTPReceiver_new registry)) = r.

(** ** Concrete collaborators and packets used in the examples below *)

Module Example.

(** An audio strategy at 8 kHz that accepts every packet and reports CSRC
    changes. *)
Definition audio_strategy : RTPReceiverStrategy :=
  {| GetFrequencyHz := 8000;
     ShouldReportCsrcChanges := fun _ => true;
     CheckPayloadChanged_strategy := fun _ specific => (specific, false, false);
     ParseRtpPacket := fun _ _ _ _ _ _ _ => 0;
     InvokeOnInitializeDecoder_ret := fun _ _ _ => 0;
     ProcessDeadOrAlive_strategy := fun _ => kRtpAlive |}.

(** The outside world at wall time [ms]: one clock reading for the whole
    call, the RTP clock at 8 samples per millisecond, no RTT measurement. *)
Definition env_at (ms : Z) : Env :=
  {| rtp_media_receiver_ := audio_strategy;
     now_parse_ms := ms;
     now_retransmit_ms := ms;
     now_rtp := u32 (8 * ms);
     now_receive_ms := ms;
     now_frame_ms := ms;
     min_rtt := 0;
     jitter_delay_ms := fun jitter frequency_khz =>
                          2 * Z.sqrt jitter / frequency_khz |}.

Definition pcmu : Payload :=
  {| name := "PCMU"%string; audio := true; typeSpecific := Audio 8000 1 64000 |}.

(** A registry in which payload type 0 is bound to PCMU. *)
Definition registry : RTPPayloadRegistry :=
  Registry.RegisterReceivePayload 0 pcmu Registry.empty.

(** A header without padding that lists the given CSRCs after the 12 fixed
    bytes. *)
Definition header_with_csrcs (new_ssrc seq ts : Z) (csrcs : list Z)
  : WebRtcRTPHeader :=
  {| payloadType := 0;
     sequenceNumber := seq;
     timestamp := ts;
     ssrc := new_ssrc;
     numCSRCs := Z.of_nat (List.length csrcs);
     arrOfCSRCs :=
       csrcs ++ repeat 0 (Z.to_nat kRtpCsrcSize - List.length csrcs);
     paddingLength := 0;
     headerLength := 12 + 4 * Z.of_nat (List.length csrcs);
     transmissionTimeOffset := 0;
     numEnergy := 0;
     arrOfEnergy := repeat 0 (Z.to_nat kRtpCsrcSize) |}.

Definition header (new_ssrc seq ts : Z) : WebRtcRTPHeader :=
  header_with_csrcs new_ssrc seq ts [].

(** A 172-byte packet: 12 header bytes and 160 payload bytes. *)
Definition packet : list Z := repeat 0 172.

(** Ingress of a packet of stream 1 at wall time [ms]. *)
Definition ingest (ms seq ts : Z) : Call :=
  CallIncomingRTPPacket (env_at ms) (header 1 seq ts) packet 172.

Definition no_report : Report :=
  {| fraction_lost := 0; cum_lost := 0; ext_max := 0; jitter := 0;
     max_jitter := 0; jitter_transmission_time_offset := 0; missing := 0 |}.

(** A retransmission of stream 1 on the RTX stream 9: RTX sequence number 7,
    original sequence number 0x0064 in the two bytes after the 12-byte
    header. *)
Definition rtx_header (padding : Z) : WebRtcRTPHeader :=
  {| payloadType := 0;
     sequenceNumber := 7;
     timestamp := 1000;
     ssrc := 9;
     numCSRCs := 0;
     arrOfCSRCs := repeat 0 (Z.to_nat kRtpCsrcSize);
     paddingLength := padding;
     headerLength := 12;
     transmissionTimeOffset := 0;
     numEnergy := 0;
     arrOfEnergy := repeat 0 (Z.to_nat kRtpCsrcSize) |}.

Definition rtx_packet : list Z := repeat 0 12 ++ [0x00; 0x64] ++ repeat 0 158.

(** A receiver of stream 1 on which RTX over stream 9 has been switched on. *)
Definition rtx_receiver : RTPReceiver :=
  fst (run [ingest 1000 99 840; CallSetRTXStatus true 9]
           (RTPReceiver_new registry)).

(** A receiver of stream 1 with payload type 0 bound, after payload type 0
    has been deregistered. *)
Definition deregistered_receiver : RTPReceiver :=
  fst (run [ingest 1000 100 1000;
            CallDeRegisterReceivePayload (Registry.DeRegisterReceivePayload 0)]
           (RTPReceiver_new registry)).

(** Ingress of a packet of stream 1 that lists the given CSRCs. *)
Definition ingest_with_csrcs (ms seq ts : Z) (csrcs : list Z) : Call :=
  CallIncomingRTPPacket (env_at ms) (header_with_csrcs 1 seq ts csrcs)
                        packet 172.

End Example.

(** ** Vocabulary of the properties *)

(** The guard of the bootstrap branch of [UpdateStatistics]. *)
Definition bootstrap (r : RTPReceiver) : bool :=
  (received_seq_max_ r =? 0) && (received_seq_wraps_ r =? 0).

(** The guard under which [Statistics] answers at all. *)
Definition packets_received (r : RTPReceiver) : bool :=
  negb ((received_seq_first_ r =? 0) && (received_byte_count_ r =? 0)).

(** One statistics update per element, oldest first. *)
Definition update_all (steps : list (Env * WebRtcRTPHeader * Z * bool))
                      (r : RTPReceiver) : RTPReceiver :=
  fold_left (fun r '(e, rtp_header, bytes, old_packet) =>
               UpdateStatistics e rtp_header bytes old_packet r)
            steps r.

Definition sequence_numbers (steps : list (Env * WebRtcRTPHeader * Z * bool))
  : list Z :=
  map (fun '(_, rtp_header, _, _) => sequenceNumber rtp_header) steps.

(** The receiver after a sequence of calls on a fresh receiver. *)
Definition after (registry : RTPPayloadRegistry) (cs : list Call)
  : RTPReceiver :=
  fst (run cs (RTPReceiver_new registry)).

(** The trigger of SSRC-change detection. *)
Definition ssrc_changed (rtp_header : WebRtcRTPHeader) (r : RTPReceiver)
  : bool :=
  negb (ssrc_ r =? ssrc rtp_header)
  || ((last_received_payload_type_ (rtp_payload_registry_ r) =? -1)
      && (ssrc_ r =? 0)).

(** What the detection step does to the receiver before it stores the new
    SSRC. *)
Definition ssrc_change_reset (r : RTPReceiver) : RTPReceiver :=
  set_last_received_frame_time_ms_ 0
    (set_last_received_transmission_time_offset_ 0
       (set_last_received_sequence_number_ 0
          (set_last_received_timestamp_ 0 (ResetStatistics r)))).

(** A restart of the same stream (old SSRC non-zero, payload type equal to
    the last bound one) whose payload type the registry does not resolve. *)
Definition restart_unresolvable (rtp_header : WebRtcRTPHeader)
                                (r : RTPReceiver) : bool :=
  negb (ssrc_ r =? 0)
  && (payloadType rtp_header
      =? last_received_payload_type_ (rtp_payload_registry_ r))
  && match Registry.PayloadTypeToPayload
             (payload_type_map_ (rtp_payload_registry_ r))
             (payloadType rtp_header) with
     | None => true
     | Some _ => false
     end.

(** The values a report carries ([missing] is a by-product of the
    computation, not part of the report). *)
Definition report_values (a : Report) : list Z :=
  [fraction_lost a; cum_lost a; ext_max a; jitter a; max_jitter a;
   jitter_transmission_time_offset a].

Definition same_values (a b : Report) : Prop :=
  report_values a = report_values b.

(** The last-report snapshot the receiver holds: the values a call with
    [reset = false] hands out. *)
Definition stored_report (r : RTPReceiver) : list Z :=
  [last_report_fraction_lost_ r; last_report_cumulative_lost_ r;
   last_report_extended_high_seq_num_ r; last_report_jitter_ r;
   Z.shiftr (jitter_max_q4_ r) 4;
   last_report_jitter_transmission_time_offset_ r].

(** Every call but a report with [reset = true]. *)
Definition not_resetting_report (c : Call) : Prop :=
  match c with
  | CallStatistics _ true => False
  | _ => True
  end.

(** The snapshot of [r] is still there in [r'], or [r'] holds no report. *)
Definition report_kept (r r' : RTPReceiver) : Prop :=
  stored_report r' = stored_report r \/ last_report_inorder_packets_ r' = 0.

(** [n] consecutive calls of [Statistics] with [reset = false], each on the
    caller's variables as the call before left them: the return codes and
    variables after each call, and the receiver at the end. *)
Fixpoint Statistics_again (n : nat) (out : Report) (r : RTPReceiver)
  : list (Z * Report) * RTPReceiver :=
  match n with
  | O => ([], r)
  | S n' =>
      let '(code, out', r') := Statistics out false r in
      let '(rest, r'') := Statistics_again n' out' r' in
      ((code, out') :: rest, r'')
  end.

(** The receiver and the callbacks in the result of [CheckPayloadChanged]. *)
Definition payload_check_receiver
  (x : Z * bool * PayloadUnion * RTPReceiver * list Callback) : RTPReceiver :=
  let '(_, _, _, r, _) := x in r.

Definition payload_check_callbacks
  (x : Z * bool * PayloadUnion * RTPReceiver * list Callback)
  : list Callback :=
  let '(_, _, _, _, c) := x in c.

(** [r] with the registry and the strategy's last payload of [r']: all that
    a payload check changes apart from a statistics reset. *)
Definition rebind (r' r : RTPReceiver) : RTPReceiver :=
  set_rtp_payload_registry_ (rtp_payload_registry_ r')
    (set_last_media_specific_payload_ (last_media_specific_payload_ r') r).

(** [r] with the CSRC and energy members of [r']: all that [CheckCSRC]
    changes. *)
Definition retrack (r' r : RTPReceiver) : RTPReceiver :=
  set_num_csrcs_ (num_csrcs_ r')
    (set_current_remote_csrc_ (current_remote_csrc_ r')
       (set_current_remote_energy_ (current_remote_energy_ r')
          (set_num_energy_ (num_energy_ r') r))).

(** The assignments with which [IncomingRTPPacket] ends, after
    [UpdateStatistics]. *)
Definition record_reception (e : Env) (rtp_header : WebRtcRTPHeader)
                            (packet_length : Z) (old_packet : bool)
                            (r : RTPReceiver) : RTPReceiver :=
  let r := set_last_receive_time_ (now_receive_ms e) r in
  let r := set_last_received_payload_length_
             (GetPayloadDataLength rtp_header packet_length) r in
  if negb old_packet then
    let r :=
      if negb (last_received_timestamp_ r =? timestamp rtp_header) then
        let r := set_last_received_timestamp_ (timestamp rtp_header) r in
        set_last_received_frame_time_ms_ (now_frame_ms e) r
      else r in
    let r := set_last_received_sequence_number_
               (sequenceNumber rtp_header) r in
    set_last_received_transmission_time_offset_
      (transmissionTimeOffset rtp_header) r
  else r.

(** The largest value the Q4 jitter members take: 16 times the largest
    difference that passes the 450000 guard. *)
Definition jitter_q4_max : Z := 16 * 449999.

Definition jitter_bounded (r : RTPReceiver) : Prop :=
  0 <= jitter_q4_ r <= jitter_q4_max /\
  0 <= jitter_q4_transmission_time_offset_ r <= jitter_q4_max.

(** The filter step as the spec writes it, on unbounded integers:
    [jitter + (((d << 4) - jitter + 8) >> 4)] unless [d >= 450000]. *)
Definition jitter_filter_spec (d jitter : Z) : Z :=
  if 450000 <=? d then jitter
  else jitter + Z.shiftr (Z.shiftl d 4 - jitter + 8) 4.

(** The sequence, timestamp and jitter counters of the receiver. *)
Definition counters (r : RTPReceiver) : list Z :=
  [received_seq_first_ r; received_seq_max_ r; received_seq_wraps_ r;
   received_inorder_packet_count_ r; received_old_packet_count_ r;
   received_byte_count_ r; jitter_q4_ r; jitter_max_q4_ r;
   jitter_q4_transmission_time_offset_ r; cumulative_loss_ r;
   last_received_timestamp_ r; last_received_sequence_number_ r;
   last_received_transmission_time_offset_ r; last_received_frame_time_ms_ r].

Definition counters_zero (r : RTPReceiver) : Prop :=
  counters r = [0; 0; 0; 0; 0; 0; 0; 0; 0; 0; 0; 0; 0; 0].

(** A call after which an idle receiver has seen no packet: an ingress call
    whose clock does not read 0 where [last_receive_time_] is stored, a
    timeout check that does not fire, or any other call. *)
Definition call_without_timeout (c : Call) (r : RTPReceiver) : Prop :=
  match c with
  | CallIncomingRTPPacket e _ _ _ => now_receive_ms e <> 0
  | CallPacketTimeout now => snd (PacketTimeout now r) = []
  | _ => True
  end.

(** The states reached by such calls. *)
Inductive reachable_without_timeout : RTPReceiver -> Prop :=
| without_timeout_new (registry : RTPPayloadRegistry) :
    reachable_without_timeout (RTPReceiver_new registry)
| without_timeout_call (c : Call) (r : RTPReceiver) :
    reachable_without_timeout r ->
    call_without_timeout c r ->
    reachable_without_timeout (fst (call c r)).

(** A trace in which every [OnIncomingCSRCChanged (csrc, true)] with a
    non-zero [csrc] is followed by [OnIncomingCSRCChanged (csrc, false)],
    or else [csrc] satisfies [pending]. *)
Fixpoint paired_or (pending : Z -> Prop) (t : list Callback) : Prop :=
  match t with
  | [] => True
  | OnIncomingCSRCChanged csrc true :: t' =>
      (csrc <> 0 ->
       In (OnIncomingCSRCChanged csrc false) t' \/ pending csrc) /\
      paired_or pending t'
  | _ :: t' => paired_or pending t'
  end.

(** A trace without any [OnIncomingCSRCChanged (_, true)]. *)
Definition no_csrc_added (t : list Callback) : Prop :=
  Forall (fun ev => match ev with
                    | OnIncomingCSRCChanged _ true => False
                    | _ => True
                    end) t.

(** What a step from [r] to [r'] with callbacks [t] owes to the pairing of
    CSRC callbacks: its own additions are tracked afterwards or removed
    later in [t], and what was tracked before is still tracked or removed
    in [t]. *)
Definition csrc_step (r r' : RTPReceiver) (t : list Callback) : Prop :=
  paired_or (fun csrc => In csrc (tracked_csrcs r')) t /\
  forall csrc, csrc <> 0 -> In csrc (tracked_csrcs r) ->
               In (OnIncomingCSRCChanged csrc false) t \/
               In csrc (tracked_csrcs r').

(** The CSRC list of a header fits its array. *)
Definition csrcs_well_formed (rtp_header : WebRtcRTPHeader) : Prop :=
  0 <= numCSRCs rtp_header <= kRtpCsrcSize /\
  numCSRCs rtp_header <= Z.of_nat (List.length (arrOfCSRCs rtp_header)).

Definition call_well_formed (c : Call) : Prop :=
  match c with
  | CallIncomingRTPPacket _ rtp_header _ _ => csrcs_well_formed rtp_header
  | _ => True
  end.

(** The CSRC callbacks of a trace, in order. *)
Definition csrc_callbacks (t : list Callback) : list (Z * bool) :=
  flat_map (fun ev => match ev with
                      | OnIncomingCSRCChanged csrc added => [(csrc, added)]
                      | _ => []
                      end) t.

(** The settings of the receiver: what the host configures through
    [SetNACKStatus], [SetSSRCFilter], [SetRTXStatus] and [SetPacketTimeout]. *)
Definition configuration (r : RTPReceiver)
  : NACKMethod * Z * bool * Z * bool * Z * Z :=
  (nack_method_ r, max_reordering_threshold_ r, use_ssrc_filter_ r,
   ssrc_filter_ r, rtx_ r, ssrc_rtx_ r, packet_timeout_ms_ r).

(** The calls that are setters. *)
Definition is_setter (c : Call) : bool :=
  match c with
  | CallSetPacketTimeout _ | CallSetNACKStatus _ _ | CallSetRTXStatus _ _
  | CallSetSSRCFilter _ _ => true
  | _ => false
  end.

(** What the constructor and the setters keep true of the settings. *)
Definition configuration_consistent (r : RTPReceiver) : Prop :=
  0 <= max_reordering_threshold_ r /\
  (nack_method_ r = kNackOff ->
   max_reordering_threshold_ r = kDefaultMaxReorderingThreshold) /\
  (use_ssrc_filter_ r = false -> ssrc_filter_ r = 0).

(** The wrap-around zone of [InOrderPacket]: the highest sequence number is
    in the last 255 of the cycle and the packet's in the first 255. *)
Definition wrap_zone (seq_max sequence_number : Z) : Prop :=
  0xff00 < seq_max /\ sequence_number < 0x0ff.

(** The stored report never shows more jitter than the stored maximum. *)
Definition report_jitter_consistent (r : RTPReceiver) : Prop :=
  last_report_jitter_ r <= Z.shiftr (jitter_max_q4_ r) 4.

(** The firing condition of [PacketTimeout]. *)
Definition timeout_due (now : Z) (r : RTPReceiver) : bool :=
  negb (packet_timeout_ms_ r =? 0) && negb (last_receive_time_ r =? 0)
  && (now - last_receive_time_ r >? packet_timeout_ms_ r).

(** The packet belongs to the RTX stream of an RTX-enabled receiver. *)
Definition on_rtx_stream (rtp_header : WebRtcRTPHeader) (r : RTPReceiver)
  : bool :=
  rtx_ r && (ssrc_rtx_ r =? ssrc rtp_header).

(** A packet that passes the checks at the head of [IncomingRTPPacket]
    as it is: long enough for its header and padding, not of the RTX stream,
    and let through by the SSRC filter. *)
Definition passes_checks (rtp_header : WebRtcRTPHeader) (packet_length : Z)
                         (r : RTPReceiver) : Prop :=
  0 <= packet_length - paddingLength rtp_header - headerLength rtp_header /\
  on_rtx_stream rtp_header r = false /\
  (use_ssrc_filter_ r = true -> ssrc rtp_header = ssrc_filter_ r).

Definition is_OnReceivedPacket (ev : Callback) : bool :=
  match ev with
  | OnReceivedPacket _ => true
  | _ => false
  end.

(** The members that only a recorded reception writes. *)
Definition reception_record (r : RTPReceiver) : list Z :=
  [last_receive_time_ r; last_received_payload_length_ r;
   received_packet_oh_ r; local_time_last_received_timestamp_ r].

(** The outside world of [Example.env_at] with a parser that returns the
    number of bytes it was handed. *)
Definition env_parsing_at (ms : Z) : Env :=
  {| rtp_media_receiver_ :=
       {| GetFrequencyHz := 8000;
          ShouldReportCsrcChanges := fun _ => true;
          CheckPayloadChanged_strategy :=
            fun _ specific => (specific, false, false);
          ParseRtpPacket := fun _ _ _ _ packet_length _ _ => packet_length;
          InvokeOnInitializeDecoder_ret := fun _ _ _ => 0;
          ProcessDeadOrAlive_strategy := fun _ => kRtpAlive |};
     now_parse_ms := ms;
     now_retransmit_ms := ms;
     now_rtp := u32 (8 * ms);
     now_receive_ms := ms;
     now_frame_ms := ms;
     min_rtt := 0;
     jitter_delay_ms := fun jitter frequency_khz =>
                          2 * Z.sqrt jitter / frequency_khz |}.

(** The callbacks that the SSRC-change step can make for a header. *)
Definition ssrc_change_callbacks (new_ssrc : Z) (t : list Callback) : Prop :=
  t = [] \/
  t = [SetRemoteSSRC new_ssrc; OnIncomingSSRCChanged new_ssrc] \/
  exists payload_type payload_name frequency channels rate,
    t = [SetRemoteSSRC new_ssrc; OnIncomingSSRCChanged new_ssrc;
         OnInitializeDecoder payload_type payload_name frequency channels
                             rate].

Definition is_OnIncomingCSRCChanged (ev : Callback) : bool :=
  match ev with
  | OnIncomingCSRCChanged _ _ => true
  | _ => false
  end.

(** The packet type that [OnReceivedPacket] announces. *)
Definition announced_type (rtp_header : WebRtcRTPHeader) (packet_length : Z)
  : RtpRtcpPacketType :=
  if packet_length - paddingLength rtp_header - headerLength rtp_header =? 0
  then kPacketKeepAlive else kPacketRtp.

(** The payload type a packet resolves to: for a RED packet the type in the
    low seven bits of the first payload byte, else the type of the header. *)
Definition resolved_payload_type (rtp_header : WebRtcRTPHeader)
                                 (first_payload_byte : Z) (r : RTPReceiver)
  : Z :=
  if REDPayloadType r (payloadType rtp_header)
  then Z.land first_payload_byte 0x7f
  else payloadType rtp_header.

(** A packet of the stream and payload type the receiver is bound to, which
    passes the checks at the head of [IncomingRTPPacket]. *)
Definition of_current_stream (rtp_header : WebRtcRTPHeader)
                             (packet_length : Z) (r : RTPReceiver) : Prop :=
  passes_checks rtp_header packet_length r /\
  ssrc_changed rtp_header r = false /\
  payloadType rtp_header
  = last_received_payload_type_ (rtp_payload_registry_ r).

(** The members that the bootstrap branch of [UpdateStatistics] and the
    resets write: the sequence state and the data counters. *)
Definition stream_statistics (r : RTPReceiver) : list Z :=
  [received_seq_first_ r; received_seq_max_ r; received_seq_wraps_ r;
   received_inorder_packet_count_ r; received_old_packet_count_ r;
   received_byte_count_ r; jitter_q4_ r;
   jitter_q4_transmission_time_offset_ r; cumulative_loss_ r;
   last_report_inorder_packets_ r].

(** ** Proof support *)

#[local] Arguments u8 : simpl never.
#[local] Arguments u16 : simpl never.
#[local] Arguments u32 : simpl never.
#[local] Arguments s8 : simpl never.
#[local] Arguments s32 : simpl never.
#[local] Arguments abs32 : simpl never.
#[local] Arguments shl4 : simpl never.
#[local] Arguments sar4 : simpl never.
#[local] Arguments jitter_update : simpl never.
#[local] Arguments time_diff_samples : simpl never.
#[local] Arguments time_diff_samples_ext : simpl never.
#[local] Arguments InOrderPacket : simpl never.
#[local] Arguments UpdateStatistics : simpl never.
#[local] Arguments RetransmitOfOldPacket : simpl never.
#[local] Arguments ResetStatistics : simpl never.
#[local] Arguments CheckSSRCChanged : simpl never.
#[local] Arguments CheckPayloadChanged : simpl never.
#[local] Arguments CheckCSRC : simpl never.
#[local] Arguments GetPayloadDataLength : simpl never.
#[local] Arguments IncomingRTPPacket : simpl never.
#[local] Arguments Statistics : simpl never.
#[local] Arguments rtx_rewrite : simpl never.
#[local] Arguments Z.add : simpl never.
#[local] Arguments Z.sub : simpl never.
#[local] Arguments Z.mul : simpl never.
#[local] Arguments Z.div : simpl never.
#[local] Arguments Z.modulo : simpl never.
#[local] Arguments Z.shiftl : simpl never.
#[local] Arguments Z.shiftr : simpl never.
#[local] Arguments Z.pow : simpl never.

#[local] Arguments Z.land : simpl never.
#[local] Arguments record_reception : simpl never.

(** Case analysis on every [match], innermost discriminee first. *)
Ltac split_matches :=
  repeat (simpl in *;
          match goal with
          | |- context [match ?c with _ => _ end] =>
              lazymatch c with
              | context [match _ with _ => _ end] => fail
              | _ => destruct c eqn:?
              end
          end).

(** Normal form of a receiver built from member assignments. *)
Ltac receiver_normalize :=
  cbv [rtp_payload_registry_ last_media_specific_payload_ last_receive_time_
       last_received_payload_length_ packet_timeout_ms_ ssrc_ num_csrcs_
       current_remote_csrc_ num_energy_ current_remote_energy_
       use_ssrc_filter_ ssrc_filter_ jitter_q4_ jitter_max_q4_
       cumulative_loss_ jitter_q4_transmission_time_offset_
       local_time_last_received_timestamp_ last_received_frame_time_ms_
       last_received_timestamp_ last_received_sequence_number_
       last_received_transmission_time_offset_ received_seq_first_
       received_seq_max_ received_seq_wraps_ received_packet_oh_
       received_byte_count_ received_old_packet_count_
       received_inorder_packet_count_ last_report_inorder_packets_
       last_report_old_packets_ last_report_seq_max_
       last_report_fraction_lost_ last_report_cumulative_lost_
       last_report_extended_high_seq_num_ last_report_jitter_
       last_report_jitter_transmission_time_offset_ nack_method_
       max_reordering_threshold_ rtx_ ssrc_rtx_ set_rtp_payload_registry_
       set_last_media_specific_payload_ set_last_receive_time_
       set_last_received_payload_length_ set_packet_timeout_ms_ set_ssrc_
       set_num_csrcs_ set_current_remote_csrc_ set_num_energy_
       set_current_remote_energy_ set_use_ssrc_filter_ set_ssrc_filter_
       set_jitter_q4_ set_jitter_max_q4_ set_cumulative_loss_
       set_jitter_q4_transmission_time_offset_
       set_local_time_last_received_timestamp_
       set_last_received_frame_time_ms_ set_last_received_timestamp_
       set_last_received_sequence_number_
       set_last_received_transmission_time_offset_ set_received_seq_first_
       set_received_seq_max_ set_received_seq_wraps_ set_received_packet_oh_
       set_received_byte_count_ set_received_old_packet_count_
       set_received_inorder_packet_count_ set_last_report_inorder_packets_
       set_last_report_old_packets_ set_last_report_seq_max_
       set_last_report_fraction_lost_ set_last_report_cumulative_lost_
       set_last_report_extended_high_seq_num_ set_last_report_jitter_
       set_last_report_jitter_transmission_time_offset_ set_nack_method_
       set_max_reordering_threshold_ set_rtx_ set_ssrc_rtx_ ResetStatistics
       ResetDataCounters].

(** Equality of receivers built from member assignments on [r]. *)
Ltac receiver_eq r := destruct r; receiver_normalize; reflexivity.

(** Case analysis on every [if], innermost condition first, simplifying the
    member accesses in between. *)
Ltac split_ifs :=
  repeat (simpl in *;
          match goal with
          | |- context [if ?c then _ else _] =>
              lazymatch c with
              | context [if _ then _ else _] => fail
              | _ => destruct c eqn:?
              end
          end).

(** Rewriting with the conditions that a case analysis has decided. *)
Ltac use_conditions :=
  repeat match goal with
         | H : ?c = true |- context [?c] => rewrite H
         | H : ?c = false |- context [?c] => rewrite H
         end.

(** *** Fixed-width arithmetic *)

Lemma u16_small (x : Z) : 0 <= x < 2 ^ 16 -> u16 x = x.
Proof. intros H. unfold u16. apply Z.mod_small. exact H. Qed.

Lemma u32_small (x : Z) : 0 <= x < 2 ^ 32 -> u32 x = x.
Proof. intros H. unfold u32. apply Z.mod_small. exact H. Qed.

Lemma u8_small (x : Z) : 0 <= x < 2 ^ 8 -> u8 x = x.
Proof. intros H. unfold u8. apply Z.mod_small. exact H. Qed.

Lemma s32_small (x : Z) : - 2 ^ 31 <= x < 2 ^ 31 -> s32 x = x.
Proof. intros H. unfold s32. rewrite Z.mod_small; lia. Qed.

Lemma u16_range (x : Z) : 0 <= u16 x < 2 ^ 16.
Proof. unfold u16. apply Z.mod_pos_bound. lia. Qed.

Lemma u32_range (x : Z) : 0 <= u32 x < 2 ^ 32.
Proof. unfold u32. apply Z.mod_pos_bound. lia. Qed.

(** *** [memcpy] *)

Lemma nth_memcpy_beyond (dst src : list Z) (n : Z) (i : nat) (d : Z) :
  0 <= n <= Z.of_nat (List.length src) ->
  (Z.to_nat n <= i)%nat ->
  nth i (memcpy dst src n) d = nth i dst d.
Proof.
  intros Hn Hi. unfold memcpy.
  assert (Hlen : List.length (firstn (Z.to_nat n) src) = Z.to_nat n)
    by (rewrite firstn_length_le; lia).
  rewrite app_nth2 by lia. rewrite Hlen, nth_skipn. f_equal. lia.
Qed.

Lemma nth_memcpy_within (dst src : list Z) (n : Z) (i : nat) (d : Z) :
  0 <= n <= Z.of_nat (List.length src) ->
  (i < Z.to_nat n)%nat ->
  nth i (memcpy dst src n) d = nth i src d.
Proof.
  intros Hn Hi. unfold memcpy.
  assert (Hlen : List.length (firstn (Z.to_nat n) src) = Z.to_nat n)
    by (rewrite firstn_length_le; lia).
  rewrite app_nth1 by lia.
  rewrite <- (firstn_skipn (Z.to_nat n) src) at 2.
  rewrite app_nth1 by lia. reflexivity.
Qed.

Lemma firstn_memcpy (dst src : list Z) (n : Z) :
  0 <= n <= Z.of_nat (List.length src) ->
  firstn (Z.to_nat n) (memcpy dst src n) = firstn (Z.to_nat n) src.
Proof.
  intros Hn. unfold memcpy.
  assert (Hlen : List.length (firstn (Z.to_nat n) src) = Z.to_nat n)
    by (rewrite firstn_length_le; lia).
  rewrite firstn_app, Hlen, Nat.sub_diag, firstn_firstn, Nat.min_id.
  simpl. apply app_nil_r.
Qed.

Lemma length_memcpy (dst src : list Z) (n : Z) :
  0 <= n <= Z.of_nat (List.length src) ->
  n <= Z.of_nat (List.length dst) ->
  List.length (memcpy dst src n) = List.length dst.
Proof.
  intros Hn Hd. unfold memcpy.
  rewrite length_app, firstn_length_le, length_skipn by lia. lia.
Qed.

(** ** The [Energy] accessor *)

(** C10.  [Energy] always returns [num_energy_]; when [num_energy_ > 0] it
    writes the first [num_csrcs_] cells of the caller's array, and no other:
    each cell at an index below [num_csrcs_] becomes the stored energy value
    at that index, and each cell at an index from [num_csrcs_] on, so also
    every index in [[num_csrcs_, num_energy_)] when
    [num_energy_ > num_csrcs_], keeps the value it had before the call.
    When [num_energy_] is 0 the caller's array is not written at all.  (The
    stored array has [kRtpCsrcSize] cells and [num_csrcs_] does not exceed
    that.) *)
Theorem Energy_copies_num_csrcs_cells
        (array_of_energy : list Z) (r : RTPReceiver) :
  fst (Energy array_of_energy r) = num_energy_ r /\
  (0 < num_energy_ r ->
   0 <= num_csrcs_ r <= Z.of_nat (List.length (current_remote_energy_ r)) ->
   forall (i : nat) (d : Z),
     (Z.of_nat i < num_csrcs_ r ->
      nth i (snd (Energy array_of_energy r)) d
      = nth i (current_remote_energy_ r) d) /\
     (num_csrcs_ r <= Z.of_nat i ->
      nth i (snd (Energy array_of_energy r)) d = nth i array_of_energy d)) /\
  (num_energy_ r <= 0 -> snd (Energy array_of_energy r) = array_of_energy).
Proof.
  unfold Energy; cbn [fst snd]. split; [reflexivity |]. split.
  - intros P Hn i d. assert (E : (num_energy_ r >? 0) = true) by lia.
    rewrite E. split.
    + intros Hi. apply nth_memcpy_within; lia.
    + intros Hi. apply nth_memcpy_beyond; lia.
  - intros P. assert (E : (num_energy_ r >? 0) = false) by lia.
    rewrite E. reflexivity.
Qed.

Lemma Energy_copies_num_csrcs_cells_witness :
  let r := set_num_energy_ 3
             (set_num_csrcs_ 1
                (set_current_remote_energy_ [10; 20; 30; 0; 0; 0; 0; 0; 0; 0;
                                             0; 0; 0; 0; 0]
                   (RTPReceiver_new Registry.empty))) in
  let caller := [91; 92; 93; 94; 95; 96; 97; 98; 99; 100; 101; 102; 103; 104;
                 105] in
  fst (Energy caller r) = 3 /\
  nth 0 (snd (Energy caller r)) 0 = 10 /\
  nth 1 (snd (Energy caller r)) 0 = 92 /\
  nth 2 (snd (Energy caller r)) 0 = 93.
Proof.
  intros r caller.
  assert (H0 : 0 < num_energy_ r) by (vm_compute; reflexivity).
  assert (H1 : 0 <= num_csrcs_ r
               <= Z.of_nat (List.length (current_remote_energy_ r)))
    by (vm_compute; split; discriminate).
  destruct (Energy_copies_num_csrcs_cells caller r) as (A & B & _).
  pose proof (proj1 (B H0 H1 0%nat 0) ltac:(vm_compute; reflexivity)) as C0.
  pose proof (proj2 (B H0 H1 1%nat 0) ltac:(vm_compute; discriminate)) as C1.
  pose proof (proj2 (B H0 H1 2%nat 0) ltac:(vm_compute; discriminate)) as C2.
  exact (conj A (conj C0 (conj C1 C2))).
Defined.

(** ** Per-packet statistics: the branches of [UpdateStatistics] *)

Lemma UpdateStatistics_bootstrap e rtp_header bytes old_packet r :
  bootstrap r = true ->
  UpdateStatistics e rtp_header bytes old_packet r =
  set_local_time_last_received_timestamp_ (now_rtp e)
    (set_received_inorder_packet_count_ 1
       (set_received_seq_max_ (sequenceNumber rtp_header)
          (set_received_seq_first_ (sequenceNumber rtp_header)
             (set_received_byte_count_
                (u32 (received_byte_count_ r + bytes)) r)))).
Proof.
  unfold bootstrap, UpdateStatistics. simpl. intros ->. reflexivity.
Qed.

(** The sequence-tracking members after an in-order packet outside the
    bootstrap branch. *)
Lemma UpdateStatistics_in_order e rtp_header bytes old_packet r :
  bootstrap r = false ->
  InOrderPacket r (sequenceNumber rtp_header) = true ->
  let r' := UpdateStatistics e rtp_header bytes old_packet r in
  received_seq_first_ r' = received_seq_first_ r /\
  received_seq_max_ r' = sequenceNumber rtp_header /\
  received_seq_wraps_ r' =
    (if sequenceNumber rtp_header - received_seq_max_ r <? 0
     then u32 (received_seq_wraps_ r + 1) else received_seq_wraps_ r) /\
  received_inorder_packet_count_ r' =
    u32 (received_inorder_packet_count_ r + 1).
Proof.
  unfold bootstrap. intros Hb Hi. unfold UpdateStatistics.
  simpl. rewrite Hb.
  change (InOrderPacket
            (set_received_byte_count_ (u32 (received_byte_count_ r + bytes)) r)
            (sequenceNumber rtp_header))
    with (InOrderPacket r (sequenceNumber rtp_header)).
  rewrite Hi.
  split_ifs; repeat split; reflexivity.
Qed.

Lemma bootstrap_false_max (r : RTPReceiver) :
  received_seq_max_ r <> 0 -> bootstrap r = false.
Proof.
  intros H. unfold bootstrap.
  destruct (received_seq_max_ r =? 0) eqn:E; [lia | reflexivity].
Qed.

Lemma bootstrap_false_wraps (r : RTPReceiver) :
  received_seq_wraps_ r <> 0 -> bootstrap r = false.
Proof.
  intros H. unfold bootstrap.
  destruct (received_seq_wraps_ r =? 0) eqn:E; [lia | apply andb_false_r].
Qed.

(** A sequence number above [received_seq_max_] is in order unless it looks
    like the tail of the previous cycle. *)
Lemma InOrderPacket_ahead (r : RTPReceiver) (sequence_number : Z) :
  received_seq_max_ r < sequence_number ->
  sequence_number <= 0xff00 \/ 0x0ff <= received_seq_max_ r ->
  InOrderPacket r sequence_number = true.
Proof.
  intros H1 H2. unfold InOrderPacket.
  destruct (received_seq_max_ r >=? sequence_number) eqn:E; [lia |].
  destruct (sequence_number >? 65280) eqn:E1;
    destruct (received_seq_max_ r <? 255) eqn:E2; simpl; try reflexivity.
  lia.
Qed.

(** A small sequence number after a large [received_seq_max_] is a wrap. *)
Lemma InOrderPacket_wrap (r : RTPReceiver) (sequence_number : Z) :
  0xff00 < received_seq_max_ r ->
  sequence_number < 0x0ff ->
  InOrderPacket r sequence_number = true.
Proof.
  intros H1 H2. unfold InOrderPacket.
  destruct (received_seq_max_ r >=? sequence_number) eqn:E; [| lia].
  destruct (received_seq_max_ r >? 65280) eqn:E1; [| lia].
  destruct (sequence_number <? 255) eqn:E2; [| lia].
  reflexivity.
Qed.

(** C9.  The bootstrap branch of [UpdateStatistics] is taken in every state
    with [received_seq_max_ == 0] and [received_seq_wraps_ == 0], whatever the
    packet count: [received_seq_first_] and [received_seq_max_] become the
    packet's sequence number and [received_inorder_packet_count_] becomes 1.
    In particular, when the packet before carried sequence number 0, so that
    [received_seq_max_] is still 0, the count is reset to 1 and not raised
    to 2. *)
Theorem bootstrap_branch_taken_again
        (e : Env) (rtp_header : WebRtcRTPHeader) (bytes : Z)
        (old_packet : bool) (r : RTPReceiver) :
  received_seq_max_ r = 0 ->
  received_seq_wraps_ r = 0 ->
  let r' := UpdateStatistics e rtp_header bytes old_packet r in
  received_seq_first_ r' = sequenceNumber rtp_header /\
  received_seq_max_ r' = sequenceNumber rtp_header /\
  received_inorder_packet_count_ r' = 1.
Proof.
  intros Hm Hw. simpl.
  rewrite UpdateStatistics_bootstrap
    by (unfold bootstrap; rewrite Hm, Hw; reflexivity).
  simpl. auto.
Qed.

Lemma bootstrap_branch_taken_again_witness :
  let r1 := after Example.registry [Example.ingest 1000 0 1000] in
  let r2 := UpdateStatistics (Example.env_at 1020) (Example.header 1 1 1160)
                             160 false r1 in
  received_inorder_packet_count_ r1 = 1 /\
  received_seq_first_ r2 = 1 /\
  received_seq_max_ r2 = 1 /\
  received_inorder_packet_count_ r2 = 1.
Proof.
  intros r1 r2. split; [vm_compute; reflexivity |].
  apply (bootstrap_branch_taken_again
           (Example.env_at 1020) (Example.header 1 1 1160) 160 false r1);
    vm_compute; reflexivity.
Defined.

(** The same through the whole ingress path: after the packets 0 and 1 of one
    stream the receiver counts one packet and takes 1 as first sequence
    number. *)
Example second_packet_after_sequence_number_zero :
  let r := after Example.registry
             [Example.ingest 1000 0 1000; Example.ingest 1020 1 1160] in
  received_seq_first_ r = 1 /\
  received_seq_max_ r = 1 /\
  received_inorder_packet_count_ r = 1.
Proof. vm_compute. auto. Qed.

(** ** Sequence-number wrap *)

Lemma Statistics_reset_extended_high (out : Report) (r : RTPReceiver) :
  packets_received r = true ->
  let '(code, out', r') := Statistics out true r in
  code = 0 /\
  ext_max out' =
    u32 (Z.shiftl (received_seq_wraps_ r) 16 + received_seq_max_ r) /\
  last_report_extended_high_seq_num_ r' = ext_max out'.
Proof.
  unfold packets_received, Statistics, first_report_init. intros H.
  apply negb_true_iff in H. rewrite H. simpl.
  split_ifs; repeat split; reflexivity.
Qed.

Ltac destruct_steps steps H :=
  repeat (let e := fresh "e" in
          let h := fresh "h" in
          let b := fresh "b" in
          let o := fresh "o" in
          destruct steps as [| [[[e h] b] o] steps];
          [discriminate H |]);
  destruct steps; [| discriminate H].

(** C2.  From a state in which the bootstrap branch is due, statistics
    updates for the sequence numbers 0xFFFE, 0xFFFF, 0x0000, 0x0001 (whatever
    the rest of the packets, the clock readings and the reordering
    threshold) leave one wrap, [received_seq_max_ = 1] and four in-order
    packets; updates for 0xFFFF, 0x0000 leave one wrap, and the report then
    generated carries the extended highest sequence number 0x10000.  The same
    figures come out of the whole ingress path for two such streams of
    well-formed packets on a fresh receiver. *)
Theorem sequence_number_wrap_scenarios :
  (forall steps r,
      bootstrap r = true ->
      sequence_numbers steps = [0xFFFE; 0xFFFF; 0x0000; 0x0001] ->
      let r' := update_all steps r in
      received_seq_wraps_ r' = 1 /\
      received_seq_max_ r' = 0x0001 /\
      received_inorder_packet_count_ r' = 4) /\
  (forall steps r out,
      bootstrap r = true ->
      sequence_numbers steps = [0xFFFF; 0x0000] ->
      let r' := update_all steps r in
      received_seq_wraps_ r' = 1 /\
      fst (fst (Statistics out true r')) = 0 /\
      ext_max (snd (fst (Statistics out true r'))) = 0x10000) /\
  (let r := after Example.registry
              [Example.ingest 1000 0xFFFE 1000; Example.ingest 1020 0xFFFF 1160;
               Example.ingest 1040 0x0000 1320; Example.ingest 1060 0x0001 1480]
   in
   received_seq_wraps_ r = 1 /\
   received_seq_max_ r = 0x0001 /\
   received_inorder_packet_count_ r = 4) /\
  (let r := after Example.registry
              [Example.ingest 1000 0xFFFF 1000; Example.ingest 1020 0x0000 1160]
   in
   received_seq_wraps_ r = 1 /\
   fst (fst (Statistics Example.no_report true r)) = 0 /\
   ext_max (snd (fst (Statistics Example.no_report true r))) = 0x10000).
Proof.
  split; [| split; [| split; vm_compute; auto]].
  - intros steps r Hb Hs.
    destruct_steps steps Hs. injection Hs as E1 E2 E3 E4.
    assert (Hw : received_seq_wraps_ r = 0)
      by (unfold bootstrap in Hb; apply andb_prop in Hb; lia).
    unfold update_all. cbn [fold_left].
    set (r1 := UpdateStatistics e h b o r).
    assert (H1 : received_seq_max_ r1 = 0xFFFE /\ received_seq_wraps_ r1 = 0
                 /\ received_inorder_packet_count_ r1 = 1).
    { subst r1. rewrite UpdateStatistics_bootstrap by exact Hb.
      simpl. auto. }
    destruct H1 as (M1 & W1 & C1).
    set (r2 := UpdateStatistics e0 h0 b0 o0 r1).
    destruct (UpdateStatistics_in_order e0 h0 b0 o0 r1) as (_ & M2 & W2 & C2).
    { apply bootstrap_false_max. lia. }
    { apply InOrderPacket_ahead; lia. }
    fold r2 in M2, W2, C2. rewrite M1, W1, C1, E2 in *.
    set (r3 := UpdateStatistics e1 h1 b1 o1 r2).
    destruct (UpdateStatistics_in_order e1 h1 b1 o1 r2) as (_ & M3 & W3 & C3).
    { apply bootstrap_false_max. lia. }
    { apply InOrderPacket_wrap; lia. }
    fold r3 in M3, W3, C3. rewrite M2, W2, C2, E3 in *.
    destruct (UpdateStatistics_in_order e2 h2 b2 o2 r3) as (_ & M4 & W4 & C4).
    { apply bootstrap_false_wraps. rewrite W3. discriminate. }
    { apply InOrderPacket_ahead; lia. }
    rewrite M3, W3, C3, E4 in *.
    rewrite M4, W4, C4. repeat split.
  - intros steps r out Hb Hs.
    destruct_steps steps Hs. injection Hs as E1 E2.
    assert (Hw : received_seq_wraps_ r = 0)
      by (unfold bootstrap in Hb; apply andb_prop in Hb; lia).
    unfold update_all. cbn [fold_left].
    set (r1 := UpdateStatistics e h b o r).
    assert (H1 : received_seq_max_ r1 = 0xFFFF /\ received_seq_wraps_ r1 = 0
                 /\ received_seq_first_ r1 = 0xFFFF).
    { subst r1. rewrite UpdateStatistics_bootstrap by exact Hb.
      simpl. auto. }
    destruct H1 as (M1 & W1 & F1).
    set (r2 := UpdateStatistics e0 h0 b0 o0 r1).
    destruct (UpdateStatistics_in_order e0 h0 b0 o0 r1) as (F2 & M2 & W2 & _).
    { apply bootstrap_false_max. lia. }
    { apply InOrderPacket_wrap; lia. }
    fold r2 in F2, M2, W2. rewrite M1, W1, F1, E2 in *.
    assert (P : packets_received r2 = true).
    { unfold packets_received. rewrite F2. reflexivity. }
    pose proof (Statistics_reset_extended_high out r2 P) as S.
    destruct (Statistics out true r2) as [[code out'] r']. cbn [fst snd].
    destruct S as (S1 & S2 & _). rewrite S2, W2, M2. auto.
Qed.

Lemma sequence_number_wrap_scenarios_witness :
  let steps :=
    [(Example.env_at 1000, Example.header 1 0xFFFE 1000, 160, false);
     (Example.env_at 1020, Example.header 1 0xFFFF 1160, 160, false);
     (Example.env_at 1040, Example.header 1 0x0000 1320, 160, false);
     (Example.env_at 1060, Example.header 1 0x0001 1480, 160, false)] in
  let r' := update_all steps (RTPReceiver_new Example.registry) in
  received_seq_wraps_ r' = 1 /\
  received_seq_max_ r' = 0x0001 /\
  received_inorder_packet_count_ r' = 4.
Proof.
  intros steps.
  apply (proj1 sequence_number_wrap_scenarios steps
               (RTPReceiver_new Example.registry));
    vm_compute; reflexivity.
Defined.

(** ** Expected packets since the last report *)

(** What a resetting report computes from [exp_since_last]. *)
Lemma Statistics_reset_missing (out : Report) (r : RTPReceiver) :
  packets_received r = true ->
  let r1 := first_report_init r in
  let '(code, out', r') := Statistics out true r in
  code = 0 /\
  missing out' = Z.max 0 (exp_since_last r1 - rec_since_last r1) /\
  fraction_lost out' =
    (if exp_since_last r1 =? 0 then 0
     else u8 (255 * missing out' / exp_since_last r1)) /\
  last_report_seq_max_ r' = received_seq_max_ r.
Proof.
  unfold packets_received, Statistics. intros H.
  apply negb_true_iff in H. rewrite H. cbn [negb].
  set (r1 := first_report_init r).
  assert (M : received_seq_max_ r1 = received_seq_max_ r)
    by (subst r1; unfold first_report_init; split_ifs; reflexivity).
  set (E := exp_since_last r1). set (R := rec_since_last r1).
  cbv zeta. split; [reflexivity |]. split; [| split].
  - cbn [missing]. destruct (E >? R) eqn:C; lia.
  - cbn [fraction_lost missing]. reflexivity.
  - split_ifs; exact M.
Qed.

(** C1, as stated, fails: stream 1 delivers 0xFFFF, a report is generated,
    then sequence number 3 arrives (the numbers wrap; 0, 1 and 2 are lost).
    [last_report_seq_max_] is 0xFFFF and [received_seq_max_] is 3, whose
    unsigned 16-bit difference is 4, yet [exp_since_last] is 0 and the report
    says that nothing is missing. *)
Lemma expected_since_last_wrap_counterexample :
  let r := after Example.registry
             [Example.ingest 1000 0xFFFF 1000;
              CallStatistics Example.no_report true;
              Example.ingest 1020 3 1160] in
  let r1 := first_report_init r in
  packets_received r = true /\
  last_report_seq_max_ r1 = 0xFFFF /\
  received_seq_max_ r1 = 3 /\
  u16 (received_seq_max_ r1 - last_report_seq_max_ r1) = 4 /\
  exp_since_last r1 = 0 /\
  exp_since_last r1 <> u16 (received_seq_max_ r1 - last_report_seq_max_ r1) /\
  missing (snd (fst (Statistics Example.no_report true r))) = 0.
Proof. vm_compute. repeat split; discriminate. Qed.

(** C1, amended.  In a resetting report, [last_report_seq_max_] is first set
    to [received_seq_first_ - 1] (as an unsigned 16-bit value) when no report
    was generated before and left alone otherwise; then [exp_since_last] is
    the unsigned 16-bit difference [received_seq_max_ - last_report_seq_max_]
    when [last_report_seq_max_ <= received_seq_max_], and 0 when
    [last_report_seq_max_ > received_seq_max_].  The report's [missing] and
    [fraction_lost] are computed from that value. *)
Theorem expected_since_last_guarded (out : Report) (r : RTPReceiver) :
  packets_received r = true ->
  let r1 := first_report_init r in
  let expected :=
    if last_report_seq_max_ r1 <=? received_seq_max_ r
    then u16 (received_seq_max_ r - last_report_seq_max_ r1) else 0 in
  (last_report_inorder_packets_ r = 0 ->
   last_report_seq_max_ r1 = u16 (received_seq_first_ r - 1)) /\
  (last_report_inorder_packets_ r <> 0 ->
   last_report_seq_max_ r1 = last_report_seq_max_ r) /\
  exp_since_last r1 = expected /\
  fst (fst (Statistics out true r)) = 0 /\
  missing (snd (fst (Statistics out true r)))
    = Z.max 0 (expected - rec_since_last r) /\
  fraction_lost (snd (fst (Statistics out true r)))
    = (if expected =? 0 then 0
       else u8 (255 * Z.max 0 (expected - rec_since_last r) / expected)).
Proof.
  intros P r1 expected.
  assert (M : received_seq_max_ r1 = received_seq_max_ r)
    by (subst r1; unfold first_report_init; split_ifs; reflexivity).
  assert (R : rec_since_last r1 = rec_since_last r)
    by (subst r1; unfold first_report_init, rec_since_last; split_ifs;
        reflexivity).
  assert (E : exp_since_last r1 = expected).
  { subst expected. unfold exp_since_last. rewrite M.
    destruct (last_report_seq_max_ r1 >? received_seq_max_ r) eqn:C1;
      destruct (last_report_seq_max_ r1 <=? received_seq_max_ r) eqn:C2;
      try reflexivity; lia. }
  pose proof (Statistics_reset_missing out r P) as S. cbv zeta in S.
  fold r1 in S. rewrite E, R in S.
  destruct (Statistics out true r) as [[code out'] r']. cbn [fst snd].
  destruct S as (S1 & S2 & S3 & _).
  repeat split; try assumption.
  - intros Z0. subst r1. unfold first_report_init.
    rewrite Z0. reflexivity.
  - intros NZ. subst r1. unfold first_report_init.
    destruct (last_report_inorder_packets_ r =? 0) eqn:C; [lia | reflexivity].
  - rewrite S3, S2. reflexivity.
Qed.

Lemma expected_since_last_guarded_witness :
  let r := after Example.registry
             [Example.ingest 1000 100 1000; Example.ingest 1020 103 1160] in
  exp_since_last (first_report_init r) = 4 /\
  missing (snd (fst (Statistics Example.no_report true r))) = 2 /\
  fraction_lost (snd (fst (Statistics Example.no_report true r))) = 127.
Proof.
  intros r.
  assert (P : packets_received r = true) by (vm_compute; reflexivity).
  destruct (expected_since_last_guarded Example.no_report r P)
    as (_ & _ & E & _ & M & F).
  split; [exact E | split; [exact M | exact F]].
Defined.

(** ** RTX remapping *)

(** The header an ingress call leaves in the caller's object. *)
Lemma IncomingRTPPacket_header e rtp_header packet packet_length r :
  header_after (IncomingRTPPacket e rtp_header packet packet_length r) =
  if packet_length - paddingLength rtp_header - headerLength rtp_header <? 0
  then rtp_header
  else if rtx_ r && (ssrc_rtx_ r =? ssrc rtp_header) then
    if headerLength rtp_header + 2 >? packet_length then rtp_header
    else
      rtx_rewrite
        (ssrc_ r)
        (u16 (Z.shiftl (nth (Z.to_nat (headerLength rtp_header)) packet 0) 8
              + nth (Z.to_nat (1 + headerLength rtp_header)) packet 0))
        (u16 (headerLength rtp_header + 2))
        rtp_header
  else rtp_header.
Proof.
  unfold IncomingRTPPacket.
  destruct (packet_length - paddingLength rtp_header
            - headerLength rtp_header <? 0); [reflexivity |].
  destruct (rtx_ r && (ssrc_rtx_ r =? ssrc rtp_header)).
  - destruct (headerLength rtp_header + 2 >? packet_length); [reflexivity |].
    match goal with
    | |- context [rtx_rewrite ?a ?b ?c ?d] => generalize (rtx_rewrite a b c d)
    end.
    intros h'.
    destruct (CheckSSRCChanged h' r) as [r2 c2].
    destruct (CheckPayloadChanged e h' _ false (Audio 0 0 0) r2)
      as [[[[code is_red] specific] r3] c3].
    destruct (CheckCSRC e h' r3) as [r4 c4].
    split_ifs; reflexivity.
  - destruct (CheckSSRCChanged rtp_header r) as [r2 c2].
    destruct (CheckPayloadChanged e rtp_header _ false (Audio 0 0 0) r2)
      as [[[[code is_red] specific] r3] c3].
    destruct (CheckCSRC e rtp_header r3) as [r4 c4].
    split_ifs; reflexivity.
Qed.

(** A packet the first sanity check rejects, or an RTX packet too short for
    the original sequence number, is dropped with nothing changed. *)
Lemma IncomingRTPPacket_rejected_early e rtp_header packet packet_length r :
  packet_length - paddingLength rtp_header - headerLength rtp_header < 0 \/
  (rtx_ r = true /\ ssrc_rtx_ r = ssrc rtp_header /\
   headerLength rtp_header + 2 > packet_length) ->
  IncomingRTPPacket e rtp_header packet packet_length r =
  {| ret := -1; header_after := rtp_header; receiver_after := r;
     callbacks := [] |}.
Proof.
  intros H. unfold IncomingRTPPacket.
  destruct (packet_length - paddingLength rtp_header
            - headerLength rtp_header <? 0) eqn:C; [reflexivity |].
  destruct H as [H | (H1 & H2 & H3)]; [lia |].
  rewrite H1, H2, Z.eqb_refl. cbn [andb].
  destruct (headerLength rtp_header + 2 >? packet_length) eqn:C2;
    [reflexivity | lia].
Qed.

(** C4, as stated, fails: with RTX over stream 9 switched on, a packet of
    stream 9 whose 12-byte header leaves room for the two bytes
    ([12 + 2 <= 172]) but whose padding length (200) exceeds the packet is
    rejected by the first sanity check; the header keeps SSRC 9, sequence
    number 7 and header length 12. *)
Lemma rtx_remapping_counterexample :
  let r := Example.rtx_receiver in
  let rtp_header := Example.rtx_header 200 in
  let i := IncomingRTPPacket (Example.env_at 1020) rtp_header
                             Example.rtx_packet 172 r in
  rtx_ r = true /\
  ssrc_rtx_ r = ssrc rtp_header /\
  ssrc_ r = 1 /\
  headerLength rtp_header + 2 <= 172 /\
  ret i = -1 /\
  header_after i = rtp_header /\
  ssrc (header_after i) <> ssrc_ r /\
  headerLength (header_after i) <> headerLength rtp_header + 2.
Proof. vm_compute. repeat split; discriminate. Qed.

(** C4, amended.  For every incoming packet, when RTX is enabled and the
    header's SSRC equals [ssrc_rtx_]: if the packet fails the first sanity
    check ([packet_length - padding_length - header_length < 0], whatever
    [header_length + 2] is) or [header_length + 2 > packet_length], the call
    returns -1 with the header, the receiver and the callbacks untouched;
    otherwise the header's SSRC becomes the primary [ssrc_], its sequence
    number the big-endian 16-bit value of the packet bytes at
    [header_length] and [header_length + 1], its header length grows by
    exactly 2, and no other header field changes.  (Lengths are 16-bit
    values and the buffer holds bytes.) *)
Theorem rtx_remapping
        (e : Env) (rtp_header : WebRtcRTPHeader) (packet : list Z)
        (packet_length : Z) (r : RTPReceiver) :
  rtx_ r = true ->
  ssrc_rtx_ r = ssrc rtp_header ->
  0 <= headerLength rtp_header ->
  packet_length < 2 ^ 16 ->
  Forall (fun byte => 0 <= byte < 256) packet ->
  let i := IncomingRTPPacket e rtp_header packet packet_length r in
  let hi := nth (Z.to_nat (headerLength rtp_header)) packet 0 in
  let lo := nth (Z.to_nat (headerLength rtp_header + 1)) packet 0 in
  (packet_length - paddingLength rtp_header - headerLength rtp_header < 0 \/
   headerLength rtp_header + 2 > packet_length ->
   ret i = -1 /\ header_after i = rtp_header /\ receiver_after i = r /\
   callbacks i = []) /\
  (0 <= packet_length - paddingLength rtp_header - headerLength rtp_header ->
   headerLength rtp_header + 2 <= packet_length ->
   (ssrc (header_after i) = ssrc_ r /\
    sequenceNumber (header_after i) = 256 * hi + lo /\
    headerLength (header_after i) = headerLength rtp_header + 2) /\
   (payloadType (header_after i) = payloadType rtp_header /\
    timestamp (header_after i) = timestamp rtp_header /\
    numCSRCs (header_after i) = numCSRCs rtp_header /\
    arrOfCSRCs (header_after i) = arrOfCSRCs rtp_header /\
    paddingLength (header_after i) = paddingLength rtp_header /\
    transmissionTimeOffset (header_after i)
    = transmissionTimeOffset rtp_header /\
    numEnergy (header_after i) = numEnergy rtp_header /\
    arrOfEnergy (header_after i) = arrOfEnergy rtp_header)).
Proof.
  intros Hrtx Hssrc Hhl Hpl Hbytes i hi lo. split.
  - intros Hshort. subst i.
    rewrite IncomingRTPPacket_rejected_early
      by (destruct Hshort as [S | S]; [left; exact S | right; auto]).
    cbn [ret header_after receiver_after callbacks]. auto.
  - intros Hlen Hroom. subst i. rewrite IncomingRTPPacket_header.
    destruct (packet_length - paddingLength rtp_header
              - headerLength rtp_header <? 0) eqn:C; [lia |].
    rewrite Hrtx, Hssrc, Z.eqb_refl. cbn [andb].
    destruct (headerLength rtp_header + 2 >? packet_length) eqn:C2; [lia |].
    assert (Hbyte : forall n, 0 <= nth n packet 0 < 256).
    { intros n. destruct (Nat.lt_ge_cases n (List.length packet)) as [L | L].
      - rewrite Forall_forall in Hbytes. apply Hbytes, nth_In, L.
      - rewrite nth_overflow by exact L. lia. }
    replace (1 + headerLength rtp_header) with (headerLength rtp_header + 1)
      by lia.
    fold hi lo.
    pose proof (Hbyte (Z.to_nat (headerLength rtp_header))) as Bhi.
    pose proof (Hbyte (Z.to_nat (headerLength rtp_header + 1))) as Blo.
    fold hi in Bhi. fold lo in Blo.
    unfold rtx_rewrite.
    cbn [ssrc sequenceNumber headerLength payloadType timestamp numCSRCs
         arrOfCSRCs paddingLength transmissionTimeOffset numEnergy
         arrOfEnergy].
    rewrite Z.shiftl_mul_pow2 by lia.
    change (2 ^ 8) with 256.
    rewrite !u16_small by lia.
    split; [split; [reflexivity | split; [lia | reflexivity]] |].
    repeat match goal with |- _ /\ _ => split end; reflexivity.
Qed.

Lemma rtx_remapping_witness :
  let i := IncomingRTPPacket (Example.env_at 1020) (Example.rtx_header 0)
                             Example.rtx_packet 172 Example.rtx_receiver in
  let rejected :=
    IncomingRTPPacket (Example.env_at 1020) (Example.rtx_header 200)
                      Example.rtx_packet 172 Example.rtx_receiver in
  (ssrc (Example.rtx_header 0) = 9 /\
   sequenceNumber (Example.rtx_header 0) = 7 /\
   headerLength (Example.rtx_header 0) = 12) /\
  (ssrc (header_after i) = 1 /\
   sequenceNumber (header_after i) = 100 /\
   headerLength (header_after i) = 14) /\
  (ret rejected = -1 /\ header_after rejected = Example.rtx_header 200).
Proof.
  intros i rejected.
  assert (B : Forall (fun byte => 0 <= byte < 256) Example.rtx_packet).
  { unfold Example.rtx_packet.
    repeat (apply Forall_app; split);
      try (apply Forall_forall; intros x Hx; apply repeat_spec in Hx;
           subst x; lia).
    repeat constructor; lia. }
  split; [repeat split |].
  split.
  - destruct (proj2 (rtx_remapping (Example.env_at 1020)
                       (Example.rtx_header 0) Example.rtx_packet 172
                       Example.rtx_receiver eq_refl eq_refl
                       ltac:(vm_compute; discriminate)
                       ltac:(vm_compute; reflexivity) B)
                    ltac:(vm_compute; discriminate)
                    ltac:(vm_compute; discriminate))
      as ((E1 & E2 & E3) & _).
    split; [exact E1 |]. split; [exact E2 | exact E3].
  - destruct (proj1 (rtx_remapping (Example.env_at 1020)
                       (Example.rtx_header 200) Example.rtx_packet 172
                       Example.rtx_receiver eq_refl eq_refl
                       ltac:(vm_compute; discriminate)
                       ltac:(vm_compute; reflexivity) B)
                    ltac:(left; vm_compute; reflexivity))
      as (E1 & E2 & _).
    split; [exact E1 | exact E2].
Defined.

(** ** SSRC-change detection *)

(** On a trigger the step resets the statistics and clears the last-received
    members; unless the trigger is a restart with an unresolvable payload
    type it then stores the new SSRC and calls [SetRemoteSSRC] followed by
    [OnIncomingSSRCChanged], both outside the critical section. *)
Lemma CheckSSRCChanged_trigger (rtp_header : WebRtcRTPHeader) (r : RTPReceiver) :
  ssrc_changed rtp_header r = true ->
  restart_unresolvable rtp_header r = false ->
  fst (CheckSSRCChanged rtp_header r)
  = set_ssrc_ (ssrc rtp_header) (ssrc_change_reset r) /\
  exists rest,
    snd (CheckSSRCChanged rtp_header r)
    = SetRemoteSSRC (ssrc rtp_header)
      :: OnIncomingSSRCChanged (ssrc rtp_header) :: rest.
Proof.
  unfold ssrc_changed, restart_unresolvable, CheckSSRCChanged,
    ssrc_change_reset.
  intros T U. rewrite T.
  change (payload_type_map_
            (rtp_payload_registry_
               (set_last_received_frame_time_ms_ 0
                  (set_last_received_transmission_time_offset_ 0
                     (set_last_received_sequence_number_ 0
                        (set_last_received_timestamp_ 0
                           (ResetStatistics r)))))))
    with (payload_type_map_ (rtp_payload_registry_ r)).
  destruct (negb (ssrc_ r =? 0)
            && (payloadType rtp_header
                =? last_received_payload_type_ (rtp_payload_registry_ r)))
    eqn:C.
  - cbn [andb] in U.
    destruct (Registry.PayloadTypeToPayload
                (payload_type_map_ (rtp_payload_registry_ r))
                (payloadType rtp_header)) as [payload |]; [| discriminate U].
    destruct (audio payload); cbn [fst snd app]; split; eauto.
  - cbn [fst snd]. split; eauto.
Qed.

Lemma CheckSSRCChanged_early_return (rtp_header : WebRtcRTPHeader)
                                    (r : RTPReceiver) :
  ssrc_changed rtp_header r = true ->
  restart_unresolvable rtp_header r = true ->
  CheckSSRCChanged rtp_header r = (ssrc_change_reset r, []).
Proof.
  unfold ssrc_changed, restart_unresolvable, CheckSSRCChanged,
    ssrc_change_reset.
  intros T U. rewrite T.
  change (payload_type_map_
            (rtp_payload_registry_
               (set_last_received_frame_time_ms_ 0
                  (set_last_received_transmission_time_offset_ 0
                     (set_last_received_sequence_number_ 0
                        (set_last_received_timestamp_ 0
                           (ResetStatistics r)))))))
    with (payload_type_map_ (rtp_payload_registry_ r)).
  apply andb_prop in U. destruct U as [U1 U2]. rewrite U1.
  destruct (Registry.PayloadTypeToPayload
              (payload_type_map_ (rtp_payload_registry_ r))
              (payloadType rtp_header)); [discriminate U2 | reflexivity].
Qed.

Lemma CheckSSRCChanged_no_trigger (rtp_header : WebRtcRTPHeader)
                                  (r : RTPReceiver) :
  ssrc_changed rtp_header r = false ->
  CheckSSRCChanged rtp_header r = (r, []).
Proof.
  unfold ssrc_changed, CheckSSRCChanged. intros T. rewrite T. reflexivity.
Qed.

(** C6: the code at the failing input.  Stream 1 has bound payload type 0,
    which is then deregistered; a packet of stream 2 with payload type 0
    arrives.  The header triggers the detection, the statistics are reset and
    the last-received members cleared, but the step returns before it stores
    the new SSRC and before any callback: [ssrc_] is still 1 and neither
    [SetRemoteSSRC] nor [OnIncomingSSRCChanged] is called, also not by the
    ingress call as a whole, which goes on to count the packet. *)
Theorem CheckSSRCChanged_unresolvable_restart :
  let r := Example.deregistered_receiver in
  let rtp_header := Example.header 2 500 9000 in
  let i := IncomingRTPPacket (Example.env_at 1020) rtp_header
                             Example.packet 172 r in
  ssrc_changed rtp_header r = true /\
  payloadType rtp_header
  = last_received_payload_type_ (rtp_payload_registry_ r) /\
  Registry.PayloadTypeToPayload
    (payload_type_map_ (rtp_payload_registry_ r)) (payloadType rtp_header)
  = None /\
  CheckSSRCChanged rtp_header r = (ssrc_change_reset r, []) /\
  ssrc_ (fst (CheckSSRCChanged rtp_header r)) = 1 /\
  received_inorder_packet_count_ r = 1 /\
  received_inorder_packet_count_ (fst (CheckSSRCChanged rtp_header r)) = 0 /\
  ret i = 0 /\
  callbacks i = [] /\
  ssrc_ (receiver_after i) = 1 /\
  received_inorder_packet_count_ (receiver_after i) = 1 /\
  received_seq_max_ (receiver_after i) = 500.
Proof. vm_compute. repeat split; reflexivity. Qed.
(** ** How each step of the ingress path changes the receiver *)

Lemma CheckSSRCChanged_receiver (rtp_header : WebRtcRTPHeader) (r : RTPReceiver) :
  fst (CheckSSRCChanged rtp_header r) = r \/
  fst (CheckSSRCChanged rtp_header r) = ssrc_change_reset r \/
  fst (CheckSSRCChanged rtp_header r)
  = set_ssrc_ (ssrc rtp_header) (ssrc_change_reset r).
Proof.
  destruct (ssrc_changed rtp_header r) eqn:T.
  - destruct (restart_unresolvable rtp_header r) eqn:U.
    + rewrite CheckSSRCChanged_early_return by assumption.
      right; left; reflexivity.
    + destruct (CheckSSRCChanged_trigger rtp_header r T U) as [E _].
      right; right; exact E.
  - rewrite CheckSSRCChanged_no_trigger by assumption. left; reflexivity.
Qed.

(** A payload check changes the registry and the strategy's last payload,
    and may reset the statistics; nothing else. *)
Lemma CheckPayloadChanged_receiver e rtp_header first_payload_byte is_red
                                   specific_payload r :
  let r' := payload_check_receiver
              (CheckPayloadChanged e rtp_header first_payload_byte is_red
                                   specific_payload r) in
  r' = rebind r' r \/ r' = rebind r' (ResetStatistics r).
Proof.
  unfold CheckPayloadChanged, payload_check_receiver, REDPayloadType,
    VideoCodecType, Registry.ReportMediaPayloadType.
  split_matches; unfold rebind;
    destruct r; receiver_normalize;
    (left; reflexivity) || (right; reflexivity).
Qed.

(** [CheckCSRC] changes the CSRC and energy members only. *)
Lemma CheckCSRC_receiver e rtp_header r :
  fst (CheckCSRC e rtp_header r) = retrack (fst (CheckCSRC e rtp_header r)) r.
Proof.
  unfold CheckCSRC.
  repeat match goal with
         | |- context [if ?c then _ else _] =>
             lazymatch c with
             | context [if _ then _ else _] => fail
             | _ => destruct c eqn:?
             end
         end;
    cbn [fst]; unfold retrack; receiver_eq r.
Qed.

(** An invariant of the four steps of [IncomingRTPPacket] is an invariant of
    the call. *)
Lemma IncomingRTPPacket_invariant (P : RTPReceiver -> Prop)
      e rtp_header packet packet_length r :
  P r ->
  (forall h r, P r -> P (fst (CheckSSRCChanged h r))) ->
  (forall h first_payload_byte r,
      P r ->
      P (payload_check_receiver
           (CheckPayloadChanged e h first_payload_byte false (Audio 0 0 0) r)))
  ->
  (forall h r, P r -> P (fst (CheckCSRC e h r))) ->
  (forall h old_packet r,
      P r ->
      P (record_reception e h packet_length old_packet
           (UpdateStatistics e h (GetPayloadDataLength h packet_length)
                             old_packet r))) ->
  P (receiver_after (IncomingRTPPacket e rtp_header packet packet_length r)).
Proof.
  intros H0 H1 H2 H3 H4. unfold IncomingRTPPacket.
  destruct (packet_length - paddingLength rtp_header
            - headerLength rtp_header <? 0); [exact H0 |].
  match goal with
  | |- context [match ?x with Some _ => _ | None => _ end] =>
      destruct x as [h' |]
  end; [| exact H0].
  destruct (use_ssrc_filter_ r && negb (ssrc h' =? ssrc_filter_ r));
    [exact H0 |].
  pose proof (H1 h' r H0) as P2.
  destruct (CheckSSRCChanged h' r) as [r2 c2]. cbn [fst] in P2.
  match goal with
  | |- context [CheckPayloadChanged e h' ?b false (Audio 0 0 0) r2] =>
      pose proof (H2 h' b r2 P2) as P3;
      destruct (CheckPayloadChanged e h' b false (Audio 0 0 0) r2)
        as [[[[code is_red] specific] r3] c3]
  end.
  cbn [payload_check_receiver] in P3.
  destruct (code =? -1); [exact P3 |].
  pose proof (H3 h' r3 P3) as P4.
  destruct (CheckCSRC e h' r3) as [r4 c4]. cbn [fst] in P4.
  match goal with
  | |- context [if ?c then _ else _] => destruct c
  end; [exact P4 |].
  cbn [receiver_after].
  apply (H4 h' _ r4 P4).
Qed.

Lemma run_invariant (P : RTPReceiver -> Prop) :
  (forall c r, P r -> P (fst (call c r))) ->
  forall cs r, P r -> P (fst (run cs r)).
Proof.
  intros Step cs. induction cs as [| c cs IH]; intros r H; [exact H |].
  cbn [run]. pose proof (Step c r H) as H1.
  destruct (call c r) as [r1 t1]. cbn [fst] in H1.
  pose proof (IH r1 H1) as H2.
  destruct (run cs r1) as [r2 t2]. exact H2.
Qed.

Lemma reachable_invariant (P : RTPReceiver -> Prop) :
  (forall registry, P (RTPReceiver_new registry)) ->
  (forall c r, P r -> P (fst (call c r))) ->
  forall r, reachable r -> P r.
Proof.
  intros New Step r (registry & cs & <-).
  apply run_invariant; [exact Step | apply New].
Qed.

(** ** Interarrival jitter *)

Lemma reachable_after (registry : RTPPayloadRegistry) (cs : list Call) :
  reachable (after registry cs).
Proof. exists registry. exists cs. reflexivity. Qed.

Lemma s32_range (x : Z) : - 2 ^ 31 <= s32 x < 2 ^ 31.
Proof. unfold s32. pose proof (Z.mod_pos_bound (x + 2 ^ 31) (2 ^ 32)). lia. Qed.

Lemma abs32_cases (y : Z) :
  (s32 y = INT32_MIN /\ abs32 (s32 y) = INT32_MIN) \/
  (s32 y <> INT32_MIN /\ abs32 (s32 y) = Z.abs (s32 y)
   /\ 0 <= Z.abs (s32 y) < 2 ^ 31).
Proof.
  pose proof (s32_range y) as R. unfold INT32_MIN.
  destruct (Z.eq_dec (s32 y) (- 2 ^ 31)) as [E | N].
  - left. split; [exact E |]. rewrite E. reflexivity.
  - right. split; [exact N |]. unfold abs32.
    assert (0 <= Z.abs (s32 y) < 2 ^ 31) by lia.
    split; [apply s32_small; lia | assumption].
Qed.

Lemma jitter_update_exact (d j : Z) :
  0 <= d < 2 ^ 31 -> 0 <= j <= jitter_q4_max ->
  jitter_update d j = jitter_filter_spec d j /\
  0 <= jitter_update d j <= jitter_q4_max.
Proof.
  unfold jitter_q4_max. intros Hd Hj. unfold jitter_update, jitter_filter_spec.
  destruct (d <? 450000) eqn:C; destruct (450000 <=? d) eqn:C'; try lia.
  unfold shl4, sar4. rewrite Z.shiftl_mul_pow2 by lia.
  change (2 ^ 4) with 16.
  rewrite (s32_small (d * 16)) by lia.
  rewrite (s32_small (d * 16 - j)) by lia.
  rewrite (s32_small (d * 16 - j + 8)) by lia.
  rewrite Z.shiftr_div_pow2 by lia. change (2 ^ 4) with 16.
  assert (B : 0 <= j + (d * 16 - j + 8) / 16 <= 16 * 449999).
  { pose proof (Z.div_mod (d * 16 - j + 8) 16 ltac:(lia)).
    pose proof (Z.mod_pos_bound (d * 16 - j + 8) 16 ltac:(lia)). lia. }
  rewrite u32_small by lia. split; [reflexivity | exact B].
Qed.

Lemma jitter_update_int_min (j : Z) :
  0 <= j <= jitter_q4_max ->
  0 <= jitter_update INT32_MIN j <= jitter_q4_max.
Proof.
  unfold jitter_q4_max, INT32_MIN. intros Hj. unfold jitter_update.
  change (- 2 ^ 31 <? 450000) with true. cbv iota.
  change (shl4 (- 2 ^ 31)) with 0. unfold sar4.
  rewrite (s32_small (0 - j)) by lia.
  rewrite (s32_small (0 - j + 8)) by lia.
  rewrite Z.shiftr_div_pow2 by lia. change (2 ^ 4) with 16.
  assert (B : 0 <= j + (0 - j + 8) / 16 <= 16 * 449999).
  { pose proof (Z.div_mod (0 - j + 8) 16 ltac:(lia)).
    pose proof (Z.mod_pos_bound (0 - j + 8) 16 ltac:(lia)). lia. }
  rewrite u32_small by lia. exact B.
Qed.

Lemma jitter_update_bounded (y j : Z) :
  0 <= j <= jitter_q4_max ->
  0 <= jitter_update (abs32 (s32 y)) j <= jitter_q4_max.
Proof.
  intros Hj. destruct (abs32_cases y) as [[_ E] | (_ & E & R)]; rewrite E.
  - apply jitter_update_int_min, Hj.
  - apply jitter_update_exact; assumption.
Qed.

(** The jitter members after an in-order packet outside the bootstrap
    branch. *)
Lemma UpdateStatistics_in_order_jitter e rtp_header bytes old_packet r :
  bootstrap r = false ->
  InOrderPacket r (sequenceNumber rtp_header) = true ->
  let r' := UpdateStatistics e rtp_header bytes old_packet r in
  let measured :=
    negb (timestamp rtp_header =? last_received_timestamp_ r)
    && (u32 (received_inorder_packet_count_ r + 1) >? 1) in
  jitter_q4_ r' =
    (if measured
     then jitter_update (abs32 (time_diff_samples (now_rtp e) rtp_header r))
                        (jitter_q4_ r)
     else jitter_q4_ r) /\
  jitter_q4_transmission_time_offset_ r' =
    (if measured
     then jitter_update
            (abs32 (time_diff_samples_ext (now_rtp e) rtp_header r))
            (jitter_q4_transmission_time_offset_ r)
     else jitter_q4_transmission_time_offset_ r).
Proof.
  unfold bootstrap. intros Hb Hi. unfold UpdateStatistics.
  simpl. rewrite Hb.
  change (InOrderPacket
            (set_received_byte_count_ (u32 (received_byte_count_ r + bytes)) r)
            (sequenceNumber rtp_header))
    with (InOrderPacket r (sequenceNumber rtp_header)).
  rewrite Hi.
  split_ifs; unfold time_diff_samples, time_diff_samples_ext; simpl;
    split; reflexivity.
Qed.

(** Whatever the branch, each jitter member is left alone or passed through
    one filter step on a difference that [abs] has produced. *)
Lemma UpdateStatistics_jitter e rtp_header bytes old_packet r :
  let r' := UpdateStatistics e rtp_header bytes old_packet r in
  (jitter_q4_ r' = jitter_q4_ r \/
   exists y, jitter_q4_ r' = jitter_update (abs32 (s32 y)) (jitter_q4_ r)) /\
  (jitter_q4_transmission_time_offset_ r'
   = jitter_q4_transmission_time_offset_ r \/
   exists y, jitter_q4_transmission_time_offset_ r'
             = jitter_update (abs32 (s32 y))
                             (jitter_q4_transmission_time_offset_ r)).
Proof.
  unfold UpdateStatistics.
  split_ifs; unfold time_diff_samples, time_diff_samples_ext; simpl;
    split; (left; reflexivity) || (right; eexists; reflexivity).
Qed.

Lemma jitter_bounded_zero (r : RTPReceiver) :
  jitter_q4_ r = 0 -> jitter_q4_transmission_time_offset_ r = 0 ->
  jitter_bounded r.
Proof.
  unfold jitter_bounded, jitter_q4_max. intros -> ->. lia.
Qed.

Lemma jitter_bounded_same (r r' : RTPReceiver) :
  jitter_q4_ r' = jitter_q4_ r ->
  jitter_q4_transmission_time_offset_ r'
  = jitter_q4_transmission_time_offset_ r ->
  jitter_bounded r -> jitter_bounded r'.
Proof. unfold jitter_bounded. intros -> ->. auto. Qed.

Lemma record_reception_jitter e h packet_length old_packet r :
  jitter_q4_ (record_reception e h packet_length old_packet r) = jitter_q4_ r /\
  jitter_q4_transmission_time_offset_
    (record_reception e h packet_length old_packet r)
  = jitter_q4_transmission_time_offset_ r.
Proof. unfold record_reception. split_ifs; split; reflexivity. Qed.

Lemma call_jitter_bounded (c : Call) (r : RTPReceiver) :
  jitter_bounded r -> jitter_bounded (fst (call c r)).
Proof.
  intros H. destruct c; cbn [call fst].
  - apply IncomingRTPPacket_invariant; [exact H | | | |].
    + intros h r0 H0.
      destruct (CheckSSRCChanged_receiver h r0) as [E | [E | E]]; rewrite E.
      * exact H0.
      * apply jitter_bounded_zero; reflexivity.
      * apply jitter_bounded_zero; reflexivity.
    + intros h b r0 H0.
      destruct (CheckPayloadChanged_receiver e h b false (Audio 0 0 0) r0)
        as [E | E]; rewrite E.
      * apply (jitter_bounded_same r0); [reflexivity | reflexivity | exact H0].
      * apply jitter_bounded_zero; reflexivity.
    + intros h r0 H0. rewrite CheckCSRC_receiver.
      apply (jitter_bounded_same r0); [reflexivity | reflexivity | exact H0].
    + intros h old r0 [H1 H2].
      destruct (record_reception_jitter e h packet_length old
                  (UpdateStatistics e h (GetPayloadDataLength h packet_length)
                                    old r0)) as [E1 E2].
      destruct (UpdateStatistics_jitter e h
                  (GetPayloadDataLength h packet_length) old r0) as [J1 J2].
      cbv zeta in J1, J2.
      unfold jitter_bounded. rewrite E1, E2. split.
      * destruct J1 as [-> | [y ->]];
          [exact H1 | apply jitter_update_bounded, H1].
      * destruct J2 as [-> | [y ->]];
          [exact H2 | apply jitter_update_bounded, H2].
  - apply (jitter_bounded_same r); [| | exact H];
      unfold PacketTimeout, HaveNotReceivedPackets; split_ifs; reflexivity.
  - apply (jitter_bounded_same r); [| | exact H];
      unfold Statistics, first_report_init; split_ifs; reflexivity.
  - apply jitter_bounded_zero; reflexivity.
  - apply (jitter_bounded_same r); [reflexivity | reflexivity | exact H].
  - apply (jitter_bounded_same r); [reflexivity | reflexivity | exact H].
  - apply (jitter_bounded_same r); [| | exact H];
      unfold SetNACKStatus; split_ifs; reflexivity.
  - apply (jitter_bounded_same r); [reflexivity | reflexivity | exact H].
  - apply (jitter_bounded_same r); [| | exact H];
      unfold SetSSRCFilter; split_ifs; reflexivity.
  - apply (jitter_bounded_same r); [reflexivity | reflexivity | exact H].
  - apply (jitter_bounded_same r); [reflexivity | reflexivity | exact H].
Qed.

Lemma reachable_jitter_bounded (r : RTPReceiver) :
  reachable r -> jitter_bounded r.
Proof.
  apply reachable_invariant.
  - intros registry. apply jitter_bounded_zero; reflexivity.
  - exact call_jitter_bounded.
Qed.

(** C3, as stated, fails: after one packet of stream 1 the host calls
    [ResetDataCounters]; the next packet (sequence number 101, a new
    timestamp) is in order and outside the bootstrap branch, its interarrival
    difference is 80 samples, far below 450000, and the filter would give
    [0 + ((80 << 4) - 0 + 8 >> 4) = 80]; yet [jitter_q4_] stays 0, because
    [received_inorder_packet_count_] is 1 after its increment. *)
Lemma jitter_filter_step_counterexample :
  let r := after Example.registry
             [Example.ingest 1000 100 1000; CallResetDataCounters] in
  let e := Example.env_at 1020 in
  let rtp_header := Example.header 1 101 1240 in
  reachable r /\
  bootstrap r = false /\
  InOrderPacket r (sequenceNumber rtp_header) = true /\
  timestamp rtp_header <> last_received_timestamp_ r /\
  Z.abs (time_diff_samples (now_rtp e) rtp_header r) = 80 /\
  jitter_q4_ r = 0 /\
  jitter_filter_spec 80 0 = 80 /\
  jitter_q4_ (UpdateStatistics e rtp_header 160 false r) = 0 /\
  jitter_q4_
    (after Example.registry
       [Example.ingest 1000 100 1000; CallResetDataCounters;
        Example.ingest 1020 101 1240]) = 0.
Proof.
  split; [apply reachable_after |].
  vm_compute. repeat split; discriminate.
Qed.

(** C3, amended.  In every reachable state, for every in-order packet
    outside the bootstrap branch whose RTP timestamp differs from the last
    received timestamp and for which [received_inorder_packet_count_]
    exceeds 1 after its increment: with [d] the absolute interarrival
    difference in samples, [jitter_q4_] is left unchanged if [d >= 450000]
    and otherwise replaced by
    [jitter_q4_ + (((d << 4) - jitter_q4_ + 8) >> 4)], with no wrap-around
    anywhere; the same holds of [jitter_q4_transmission_time_offset_] with
    the difference corrected by the transmission time offsets.  (The signed
    difference [INT_MIN], on which [abs] is undefined, is left out.) *)
Theorem jitter_filter_step
        (e : Env) (rtp_header : WebRtcRTPHeader) (bytes : Z)
        (old_packet : bool) (r : RTPReceiver) :
  reachable r ->
  bootstrap r = false ->
  InOrderPacket r (sequenceNumber rtp_header) = true ->
  timestamp rtp_header <> last_received_timestamp_ r ->
  1 < u32 (received_inorder_packet_count_ r + 1) ->
  let r' := UpdateStatistics e rtp_header bytes old_packet r in
  let diff := time_diff_samples (now_rtp e) rtp_header r in
  let diff_ext := time_diff_samples_ext (now_rtp e) rtp_header r in
  (diff <> INT32_MIN ->
   jitter_q4_ r' = jitter_filter_spec (Z.abs diff) (jitter_q4_ r)) /\
  (diff_ext <> INT32_MIN ->
   jitter_q4_transmission_time_offset_ r'
   = jitter_filter_spec (Z.abs diff_ext)
                        (jitter_q4_transmission_time_offset_ r)).
Proof.
  intros Hreach Hb Hi Hts Hcount r' diff diff_ext.
  destruct (reachable_jitter_bounded r Hreach) as [B1 B2].
  destruct (UpdateStatistics_in_order_jitter e rtp_header bytes old_packet r
              Hb Hi) as [J1 J2].
  fold r' in J1, J2. fold diff in J1. fold diff_ext in J2.
  assert (M : negb (timestamp rtp_header =? last_received_timestamp_ r)
              && (u32 (received_inorder_packet_count_ r + 1) >? 1) = true).
  { apply andb_true_intro. split.
    - apply negb_true_iff. apply Z.eqb_neq. exact Hts.
    - lia. }
  rewrite M in J1, J2. split.
  - intros N. rewrite J1.
    unfold diff, time_diff_samples in *.
    match goal with
    | |- context [abs32 (s32 ?y)] => destruct (abs32_cases y)
                                       as [[E _] | (_ & E & R)]
    end; [contradiction |].
    rewrite E. apply jitter_update_exact; assumption.
  - intros N. rewrite J2.
    unfold diff_ext, time_diff_samples_ext in *.
    match goal with
    | |- context [abs32 (s32 ?y)] => destruct (abs32_cases y)
                                       as [[E _] | (_ & E & R)]
    end; [contradiction |].
    rewrite E. apply jitter_update_exact; assumption.
Qed.

Lemma jitter_filter_step_witness :
  let r := after Example.registry [Example.ingest 1000 100 1000] in
  let r' := UpdateStatistics (Example.env_at 1020)
                             (Example.header 1 101 1240) 160 false r in
  jitter_q4_ r' = 80 /\ jitter_q4_transmission_time_offset_ r' = 80.
Proof.
  intros r r'.
  assert (Hreach : reachable r) by apply reachable_after.
  assert (Hb : bootstrap r = false) by (vm_compute; reflexivity).
  assert (Hi : InOrderPacket r (sequenceNumber (Example.header 1 101 1240))
               = true) by (vm_compute; reflexivity).
  assert (Hts : timestamp (Example.header 1 101 1240)
                <> last_received_timestamp_ r) by (vm_compute; discriminate).
  assert (Hc : 1 < u32 (received_inorder_packet_count_ r + 1))
    by (vm_compute; reflexivity).
  pose proof (jitter_filter_step (Example.env_at 1020)
                (Example.header 1 101 1240) 160 false r Hreach Hb Hi Hts Hc)
    as [J1 J2].
  split.
  - refine (eq_trans (J1 _) _); [vm_compute; discriminate |].
    vm_compute. reflexivity.
  - refine (eq_trans (J2 _) _); [vm_compute; discriminate |].
    vm_compute. reflexivity.
Defined.

(** ** Idle receivers *)

Lemma record_reception_last_receive_time e h packet_length old_packet r :
  last_receive_time_ (record_reception e h packet_length old_packet r)
  = now_receive_ms e.
Proof. unfold record_reception. split_ifs; reflexivity. Qed.

Lemma counters_zero_ssrc_change_reset (r : RTPReceiver) :
  counters_zero (ssrc_change_reset r).
Proof. reflexivity. Qed.

Lemma counters_zero_ssrc_stored (new_ssrc : Z) (r : RTPReceiver) :
  counters_zero (set_ssrc_ new_ssrc (ssrc_change_reset r)).
Proof. reflexivity. Qed.

(** A statistics reset keeps an idle receiver's counters at zero. *)
Lemma counters_zero_ResetStatistics (r : RTPReceiver) :
  counters_zero r -> counters_zero (ResetStatistics r).
Proof.
  unfold counters_zero, counters, ResetStatistics. simpl.
  intros H. congruence.
Qed.

Lemma counters_zero_ResetDataCounters (r : RTPReceiver) :
  counters_zero r -> counters_zero (ResetDataCounters r).
Proof.
  unfold counters_zero, counters, ResetDataCounters. simpl.
  intros H. congruence.
Qed.

(** A resetting report on a receiver whose counters are zero is refused and
    changes nothing. *)
Lemma Statistics_counters_zero (out : Report) (reset : bool) (r : RTPReceiver) :
  counters_zero r -> snd (Statistics out reset r) = r.
Proof.
  unfold counters_zero, counters. intros H.
  assert (F : received_seq_first_ r = 0) by congruence.
  assert (B : received_byte_count_ r = 0) by congruence.
  unfold Statistics. rewrite F, B. reflexivity.
Qed.

Lemma Statistics_last_receive_time (out : Report) (reset : bool)
                                   (r : RTPReceiver) :
  last_receive_time_ (snd (Statistics out reset r)) = last_receive_time_ r.
Proof.
  unfold Statistics, first_report_init. split_ifs; reflexivity.
Qed.

(** [PacketTimeout] either does nothing or fires: it then clears
    [last_receive_time_] and the registry's last payload types, and makes
    one callback. *)
Lemma PacketTimeout_cases (now : Z) (r : RTPReceiver) :
  PacketTimeout now r = (r, []) \/
  PacketTimeout now r =
  (set_rtp_payload_registry_
     (Registry.ResetLastReceivedPayloadTypes (rtp_payload_registry_ r))
     (set_last_receive_time_ 0 r),
   [OnPacketTimeout]).
Proof.
  unfold PacketTimeout, HaveNotReceivedPackets.
  destruct (packet_timeout_ms_ r =? 0); [left; reflexivity |].
  destruct (last_receive_time_ r =? 0); [left; reflexivity |].
  destruct (now - last_receive_time_ r >? packet_timeout_ms_ r);
    [right; reflexivity | left; reflexivity].
Qed.

(** The idle invariant only looks at [last_receive_time_] and the
    counters. *)
Lemma idle_invariant_transfer (r r' : RTPReceiver) :
  last_receive_time_ r' = last_receive_time_ r ->
  counters r' = counters r ->
  (last_receive_time_ r = 0 -> counters_zero r) ->
  last_receive_time_ r' = 0 -> counters_zero r'.
Proof.
  unfold counters_zero. intros -> ->. auto.
Qed.

Lemma rebind_counters (r' r : RTPReceiver) :
  last_receive_time_ (rebind r' r) = last_receive_time_ r /\
  counters (rebind r' r) = counters r.
Proof. split; reflexivity. Qed.

Lemma retrack_counters (r' r : RTPReceiver) :
  last_receive_time_ (retrack r' r) = last_receive_time_ r /\
  counters (retrack r' r) = counters r.
Proof. split; reflexivity. Qed.

Lemma ResetStatistics_last_receive_time (r : RTPReceiver) :
  last_receive_time_ (ResetStatistics r) = last_receive_time_ r.
Proof. reflexivity. Qed.

Lemma call_idle_counters_zero (c : Call) (r : RTPReceiver) :
  call_without_timeout c r ->
  (last_receive_time_ r = 0 -> counters_zero r) ->
  last_receive_time_ (fst (call c r)) = 0 -> counters_zero (fst (call c r)).
Proof.
  intros L H. destruct c; cbn [call fst call_without_timeout] in L |- *.
  - apply (IncomingRTPPacket_invariant
             (fun r => last_receive_time_ r = 0 -> counters_zero r));
      [exact H | | | |].
    + intros h r0 H0.
      destruct (CheckSSRCChanged_receiver h r0) as [E | [E | E]]; rewrite E.
      * exact H0.
      * intros _. exact (counters_zero_ssrc_change_reset r0).
      * intros _. exact (counters_zero_ssrc_stored (ssrc h) r0).
    + intros h b r0 H0.
      pose proof (CheckPayloadChanged_receiver e h b false (Audio 0 0 0) r0)
        as E. cbv zeta in E. revert E.
      generalize (payload_check_receiver
                    (CheckPayloadChanged e h b false (Audio 0 0 0) r0)).
      intros r' [E | E]; rewrite E.
      * apply (idle_invariant_transfer r0);
          [apply rebind_counters | apply rebind_counters | exact H0].
      * apply (idle_invariant_transfer (ResetStatistics r0));
          [apply rebind_counters | apply rebind_counters |].
        rewrite ResetStatistics_last_receive_time.
        intros I. apply counters_zero_ResetStatistics, H0, I.
    + intros h r0 H0.
      pose proof (CheckCSRC_receiver e h r0) as E. revert E.
      generalize (fst (CheckCSRC e h r0)). intros r' E. rewrite E.
      apply (idle_invariant_transfer r0);
        [apply retrack_counters | apply retrack_counters | exact H0].
    + intros h old r0 _. rewrite record_reception_last_receive_time.
      intros Z0. contradiction.
  - destruct (PacketTimeout_cases now r) as [E | E]; rewrite E in L |- *.
    + exact H.
    + discriminate L.
  - rewrite Statistics_last_receive_time. intros I.
    rewrite Statistics_counters_zero by (apply H, I). apply H, I.
  - rewrite ResetStatistics_last_receive_time.
    intros I. apply counters_zero_ResetStatistics, H, I.
  - apply (idle_invariant_transfer (ResetDataCounters r));
      [reflexivity | reflexivity |].
    change (last_receive_time_ (ResetDataCounters r))
      with (last_receive_time_ r).
    intros I. apply counters_zero_ResetDataCounters, H, I.
  - exact H.
  - unfold SetNACKStatus.
    destruct (max_reordering_threshold <? 0); [exact H |].
    destruct (NACKMethod_eqb method kNackRtcp); exact H.
  - exact H.
  - unfold SetSSRCFilter. destruct enable; exact H.
  - exact H.
  - exact H.
Qed.

(** C5, as stated, fails: a packet of stream 1 arrives at time 1000, the
    timeout is set to 500 ms and checked at time 2000.  The check clears
    [last_receive_time_] and nothing else of the counters: the receiver is
    idle with one in-order packet, 160 bytes and sequence number 100 on
    record. *)
Lemma idle_counters_zero_counterexample :
  let r := after Example.registry
             [Example.ingest 1000 100 1000; CallSetPacketTimeout 500;
              CallPacketTimeout 2000] in
  reachable r /\
  last_receive_time_ r = 0 /\
  received_inorder_packet_count_ r = 1 /\
  received_byte_count_ r = 160 /\
  received_seq_first_ r = 100 /\
  received_seq_max_ r = 100 /\
  last_received_timestamp_ r = 1000 /\
  ~ counters_zero r.
Proof.
  split; [apply reachable_after |].
  vm_compute. repeat split; discriminate.
Qed.

(** A clock that reads 0 when a packet is received leaves the receiver idle
    with the packet counted. *)
Example reception_at_clock_zero :
  let r := after Example.registry [Example.ingest 0 100 1000] in
  last_receive_time_ r = 0 /\ received_inorder_packet_count_ r = 1.
Proof. vm_compute. split; reflexivity. Qed.

(** C5, amended.  In every state reached from construction by calls among
    which no packet timeout fires and no packet is received while the clock
    reads 0, an idle receiver ([last_receive_time_ == 0]) has all its
    sequence, timestamp and jitter counters at zero.  A packet timeout that
    fires clears [last_receive_time_] and leaves every one of these counters
    as it was. *)
Theorem idle_counters_zero_without_timeout :
  (forall r,
      reachable_without_timeout r ->
      last_receive_time_ r = 0 -> counters_zero r) /\
  (forall now r,
      snd (PacketTimeout now r) = [OnPacketTimeout] ->
      last_receive_time_ (fst (PacketTimeout now r)) = 0 /\
      counters (fst (PacketTimeout now r)) = counters r).
Proof.
  split.
  - intros r R. induction R as [registry | c r R IH L].
    + intros _. reflexivity.
    + apply call_idle_counters_zero; assumption.
  - intros now r F.
    destruct (PacketTimeout_cases now r) as [E | E]; rewrite E in *.
    + discriminate F.
    + split; reflexivity.
Qed.

Lemma idle_counters_zero_without_timeout_witness :
  let c := CallIncomingRTPPacket (Example.env_at 1000)
                                 (Example.header 1 100 1000)
                                 Example.packet 172 in
  let r := fst (call c (RTPReceiver_new Registry.empty)) in
  ssrc_ r = 1 /\
  last_receive_time_ r = 0 /\
  counters_zero r.
Proof.
  intros c r. repeat (split; [vm_compute; reflexivity |]).
  assert (R : reachable_without_timeout r).
  { exact (without_timeout_call c (RTPReceiver_new Registry.empty)
             (without_timeout_new Registry.empty)
             ltac:(vm_compute; discriminate)). }
  apply (proj1 idle_counters_zero_without_timeout r R).
  vm_compute. reflexivity.
Defined.

(** ** Pairing of CSRC callbacks *)

Lemma paired_or_app (Q P : Z -> Prop) (t u : list Callback) :
  paired_or Q t ->
  paired_or P u ->
  (forall csrc, csrc <> 0 -> Q csrc ->
                In (OnIncomingCSRCChanged csrc false) u \/ P csrc) ->
  paired_or P (t ++ u).
Proof.
  intros Ht Hu HQ. induction t as [| ev t IH]; [exact Hu |].
  destruct ev as [| | | | | csrc added | |]; cbn [app paired_or] in *;
    try (apply IH; exact Ht).
  destruct added; [| apply IH; exact Ht].
  destruct Ht as [H1 H2]. split; [| apply IH; exact H2].
  intros N. destruct (H1 N) as [I | I].
  - left. apply in_or_app. left. exact I.
  - destruct (HQ csrc N I) as [J | J].
    + left. apply in_or_app. right. exact J.
    + right. exact J.
Qed.

Lemma paired_or_no_csrc_added (P : Z -> Prop) (t : list Callback) :
  no_csrc_added t -> paired_or P t.
Proof.
  unfold no_csrc_added. induction 1 as [| ev t H _ IH]; [exact I |].
  destruct ev as [| | | | | csrc added | |]; cbn [paired_or]; try exact IH.
  destruct added; [contradiction | exact IH].
Qed.

Lemma paired_or_split (P : Z -> Prop) (t before later : list Callback)
                      (csrc : Z) :
  paired_or P t ->
  t = before ++ OnIncomingCSRCChanged csrc true :: later ->
  csrc <> 0 ->
  In (OnIncomingCSRCChanged csrc false) later \/ P csrc.
Proof.
  revert t. induction before as [| ev before IH]; intros t Ht E N; subst t.
  - cbn [app paired_or] in Ht. destruct Ht as [H _]. exact (H N).
  - apply (IH (before ++ OnIncomingCSRCChanged csrc true :: later));
      [| reflexivity | exact N].
    cbn [app paired_or] in Ht.
    destruct ev as [| | | | | c a | |]; try exact Ht.
    destruct a; [exact (proj2 Ht) | exact Ht].
Qed.

Lemma csrc_step_refl (r : RTPReceiver) : csrc_step r r [].
Proof. split; [exact I | intros; right; assumption]. Qed.

Lemma csrc_step_trans (r1 r2 r3 : RTPReceiver) (t u : list Callback) :
  csrc_step r1 r2 t -> csrc_step r2 r3 u -> csrc_step r1 r3 (t ++ u).
Proof.
  intros [A1 A2] [B1 B2]. split.
  - apply (paired_or_app (fun csrc => In csrc (tracked_csrcs r2)));
      assumption.
  - intros csrc N I. destruct (A2 csrc N I) as [J | J].
    + left. apply in_or_app. left. exact J.
    + destruct (B2 csrc N J) as [K | K].
      * left. apply in_or_app. right. exact K.
      * right. exact K.
Qed.

(** A step that tracks the same CSRCs and adds none. *)
Lemma csrc_step_silent (r r' : RTPReceiver) (t : list Callback) :
  tracked_csrcs r' = tracked_csrcs r -> no_csrc_added t -> csrc_step r r' t.
Proof.
  intros E H. split.
  - apply paired_or_no_csrc_added, H.
  - intros csrc _ I. right. rewrite E. exact I.
Qed.

Lemma rebind_tracked (r' r : RTPReceiver) :
  tracked_csrcs (rebind r' r) = tracked_csrcs r.
Proof. reflexivity. Qed.

Lemma ResetStatistics_tracked (r : RTPReceiver) :
  tracked_csrcs (ResetStatistics r) = tracked_csrcs r.
Proof. reflexivity. Qed.

Lemma ssrc_change_reset_tracked (r : RTPReceiver) :
  tracked_csrcs (ssrc_change_reset r) = tracked_csrcs r.
Proof. reflexivity. Qed.

Lemma ssrc_stored_tracked (new_ssrc : Z) (r : RTPReceiver) :
  tracked_csrcs (set_ssrc_ new_ssrc (ssrc_change_reset r)) = tracked_csrcs r.
Proof. reflexivity. Qed.

Lemma CheckSSRCChanged_callbacks (rtp_header : WebRtcRTPHeader)
                                 (r : RTPReceiver) :
  no_csrc_added (snd (CheckSSRCChanged rtp_header r)).
Proof.
  unfold CheckSSRCChanged, no_csrc_added.
  split_matches; repeat constructor.
Qed.

Lemma CheckSSRCChanged_csrc_step (rtp_header : WebRtcRTPHeader)
                                 (r : RTPReceiver) :
  csrc_step r (fst (CheckSSRCChanged rtp_header r))
            (snd (CheckSSRCChanged rtp_header r)).
Proof.
  apply csrc_step_silent; [| apply CheckSSRCChanged_callbacks].
  destruct (CheckSSRCChanged_receiver rtp_header r) as [E | [E | E]];
    rewrite E.
  - reflexivity.
  - exact (ssrc_change_reset_tracked r).
  - exact (ssrc_stored_tracked (ssrc rtp_header) r).
Qed.

Lemma CheckPayloadChanged_callbacks e rtp_header first_payload_byte is_red
                                    specific_payload r :
  no_csrc_added
    (payload_check_callbacks
       (CheckPayloadChanged e rtp_header first_payload_byte is_red
                            specific_payload r)).
Proof.
  unfold CheckPayloadChanged, payload_check_callbacks, REDPayloadType,
    VideoCodecType, Registry.ReportMediaPayloadType, no_csrc_added.
  split_matches; repeat constructor.
Qed.

Lemma CheckPayloadChanged_csrc_step e rtp_header first_payload_byte is_red
                                    specific_payload r :
  let x := CheckPayloadChanged e rtp_header first_payload_byte is_red
                               specific_payload r in
  csrc_step r (payload_check_receiver x) (payload_check_callbacks x).
Proof.
  cbv zeta. apply csrc_step_silent; [| apply CheckPayloadChanged_callbacks].
  pose proof (CheckPayloadChanged_receiver e rtp_header first_payload_byte
                is_red specific_payload r) as E.
  cbv zeta in E. revert E.
  generalize (payload_check_receiver
                (CheckPayloadChanged e rtp_header first_payload_byte is_red
                                     specific_payload r)).
  intros r' [E | E]; rewrite E.
  - exact (rebind_tracked r' r).
  - exact (rebind_tracked r' (ResetStatistics r)).
Qed.

Lemma found_match_In (csrc : Z) (l : list Z) :
  found_match csrc l = true <-> In csrc l.
Proof.
  unfold found_match. rewrite existsb_exists. split.
  - intros (x & I & E). apply Z.eqb_eq in E. subst x. exact I.
  - intros I. exists csrc. split; [exact I | apply Z.eqb_refl].
Qed.

Lemma In_unmatched (csrc : Z) (l others : list Z) :
  In csrc (unmatched l others) <->
  In csrc l /\ ~ In csrc others /\ csrc <> 0.
Proof.
  unfold unmatched. rewrite filter_In, andb_true_iff, !negb_true_iff.
  rewrite Z.eqb_neq.
  assert (F : found_match csrc others = false <-> ~ In csrc others).
  { rewrite <- found_match_In.
    destruct (found_match csrc others); split; intros H;
      try reflexivity; try discriminate; try (exfalso; apply H; reflexivity). }
  rewrite F. tauto.
Qed.

Lemma no_csrc_added_removed (l : list Z) :
  no_csrc_added (map (fun csrc => OnIncomingCSRCChanged csrc false) l).
Proof.
  unfold no_csrc_added. apply Forall_forall. intros ev I.
  apply in_map_iff in I. destruct I as (c & <- & _). exact I.
Qed.

Lemma paired_or_added (P : Z -> Prop) (l : list Z) (t : list Callback) :
  (forall csrc, In csrc l -> P csrc) ->
  paired_or P t ->
  paired_or P (map (fun csrc => OnIncomingCSRCChanged csrc true) l ++ t).
Proof.
  intros H Ht. induction l as [| c l IH]; [exact Ht |].
  cbn [map app paired_or]. split.
  - intros _. right. apply H. left. reflexivity.
  - apply IH. intros csrc I. apply H. right. exact I.
Qed.

(** The callbacks of the two scans and the sentinel. *)
Lemma scan_csrc_step (P : Z -> Prop) (old_csrcs new_csrcs : list Z)
                     (sentinel : list Callback) :
  (forall csrc, In csrc new_csrcs -> P csrc) ->
  (sentinel = [] \/ exists added, sentinel = [OnIncomingCSRCChanged 0 added])
  ->
  let t := map (fun csrc => OnIncomingCSRCChanged csrc true)
               (unmatched new_csrcs old_csrcs)
           ++ map (fun csrc => OnIncomingCSRCChanged csrc false)
                  (unmatched old_csrcs new_csrcs)
           ++ sentinel in
  paired_or P t /\
  forall csrc, csrc <> 0 -> In csrc old_csrcs ->
               In (OnIncomingCSRCChanged csrc false) t \/ In csrc new_csrcs.
Proof.
  intros HP Hs t. subst t. split.
  - apply paired_or_added.
    + intros csrc I. apply HP. apply In_unmatched in I. tauto.
    + apply (paired_or_app P).
      * apply paired_or_no_csrc_added, no_csrc_added_removed.
      * destruct Hs as [-> | [added ->]]; [exact I |].
        destruct added; cbn [paired_or]; [| exact I].
        split; [intros N; contradiction N; reflexivity | exact I].
      * intros csrc _ Q. right. exact Q.
  - intros csrc N I.
    destruct (found_match csrc new_csrcs) eqn:F.
    + right. apply found_match_In. exact F.
    + left. apply in_or_app. right. apply in_or_app. left.
      apply in_map_iff. exists csrc. split; [reflexivity |].
      apply In_unmatched. repeat split; try assumption.
      intros J. apply found_match_In in J. congruence.
Qed.

#[local] Arguments memcpy : simpl never.
#[local] Arguments unmatched : simpl never.
#[local] Arguments firstn : simpl never.
#[local] Arguments tracked_csrcs : simpl never.

(** [CheckCSRC] either leaves the tracked CSRCs alone and calls nothing, or
    tracks the CSRCs of the header and calls back for the differences. *)
Lemma CheckCSRC_cases e rtp_header r :
  csrcs_well_formed rtp_header ->
  let old_csrcs := tracked_csrcs r in
  let new_csrcs :=
    firstn (Z.to_nat (numCSRCs rtp_header)) (arrOfCSRCs rtp_header) in
  (tracked_csrcs (fst (CheckCSRC e rtp_header r)) = old_csrcs /\
   snd (CheckCSRC e rtp_header r) = []) \/
  (tracked_csrcs (fst (CheckCSRC e rtp_header r)) = new_csrcs /\
   exists sentinel,
     (sentinel = [] \/
      exists added, sentinel = [OnIncomingCSRCChanged 0 added]) /\
     snd (CheckCSRC e rtp_header r)
     = map (fun csrc => OnIncomingCSRCChanged csrc true)
           (unmatched new_csrcs old_csrcs)
       ++ map (fun csrc => OnIncomingCSRCChanged csrc false)
              (unmatched old_csrcs new_csrcs)
       ++ sentinel).
Proof.
  intros [W1 W2]. cbv zeta. unfold CheckCSRC.
  destruct (ShouldReportCsrcChanges (rtp_media_receiver_ e)
                                    (payloadType rtp_header));
    cbn [negb]; [| left; split; reflexivity].
  set (r1 := if (numEnergy rtp_header >? 0)
                && (numEnergy rtp_header <=? kRtpCsrcSize)
             then _ else _).
  assert (T1 : tracked_csrcs r1 = tracked_csrcs r)
    by (subst r1; destruct ((numEnergy rtp_header >? 0)
                            && (numEnergy rtp_header <=? kRtpCsrcSize));
        reflexivity).
  assert (N1 : num_csrcs_ r1 = num_csrcs_ r)
    by (subst r1; destruct ((numEnergy rtp_header >? 0)
                            && (numEnergy rtp_header <=? kRtpCsrcSize));
        reflexivity).
  rewrite T1, N1. clearbody r1.
  destruct ((numCSRCs rtp_header >? 0) || (num_csrcs_ r >? 0)) eqn:Any.
  - right. cbn [fst snd]. split.
    + unfold tracked_csrcs.
      destruct ((numCSRCs rtp_header >? 0)
                && (numCSRCs rtp_header <=? kRtpCsrcSize)) eqn:Copy;
        cbn [num_csrcs_ current_remote_csrc_ set_num_csrcs_
             set_current_remote_csrc_].
      * apply firstn_memcpy. lia.
      * assert (Z0 : numCSRCs rtp_header = 0).
        { apply andb_false_iff in Copy. destruct Copy as [C | C]; lia. }
        rewrite Z0. reflexivity.
    + eexists. split; [| reflexivity].
      destruct (negb _); [left; reflexivity |].
      destruct (numCSRCs rtp_header - num_csrcs_ r >? 0);
        [right; eexists; reflexivity |].
      destruct (numCSRCs rtp_header - num_csrcs_ r <? 0);
        [right; eexists; reflexivity | left; reflexivity].
  - left. cbn [fst snd]. split; [| reflexivity].
    apply orb_false_iff in Any. destruct Any as [A1 A2].
    rewrite A1. cbn [andb]. exact T1.
Qed.

Lemma CheckCSRC_csrc_step e rtp_header r :
  csrcs_well_formed rtp_header ->
  csrc_step r (fst (CheckCSRC e rtp_header r))
            (snd (CheckCSRC e rtp_header r)).
Proof.
  intros W. pose proof (CheckCSRC_cases e rtp_header r W) as C.
  cbv zeta in C. revert C.
  generalize (fst (CheckCSRC e rtp_header r)).
  generalize (snd (CheckCSRC e rtp_header r)).
  intros t r' [[T E] | [T (sentinel & S & E)]]; subst t.
  - apply csrc_step_silent; [exact T | constructor].
  - unfold csrc_step. rewrite T.
    apply scan_csrc_step; [auto | exact S].
Qed.

Lemma UpdateStatistics_tracked e rtp_header bytes old_packet r :
  tracked_csrcs (UpdateStatistics e rtp_header bytes old_packet r)
  = tracked_csrcs r.
Proof.
  unfold tracked_csrcs, UpdateStatistics. split_ifs; reflexivity.
Qed.

Lemma record_reception_tracked e rtp_header packet_length old_packet r :
  tracked_csrcs (record_reception e rtp_header packet_length old_packet r)
  = tracked_csrcs r.
Proof.
  unfold tracked_csrcs, record_reception. split_ifs; reflexivity.
Qed.

Lemma csrc_step_same_tracked (r r' r'' : RTPReceiver) (t : list Callback) :
  tracked_csrcs r'' = tracked_csrcs r' ->
  csrc_step r r' t -> csrc_step r r'' t.
Proof. unfold csrc_step. intros ->. auto. Qed.

Lemma IncomingRTPPacket_csrc_step e rtp_header packet packet_length r :
  csrcs_well_formed rtp_header ->
  let i := IncomingRTPPacket e rtp_header packet packet_length r in
  csrc_step r (receiver_after i) (callbacks i).
Proof.
  intros W. cbv zeta. unfold IncomingRTPPacket.
  destruct (packet_length - paddingLength rtp_header
            - headerLength rtp_header <? 0); [apply csrc_step_refl |].
  match goal with
  | |- context [match ?x with Some _ => _ | None => _ end] =>
      assert (W' : match x with
                   | Some h' => csrcs_well_formed h'
                   | None => True
                   end)
        by (destruct (rtx_ r && (ssrc_rtx_ r =? ssrc rtp_header));
            [destruct (headerLength rtp_header + 2 >? packet_length);
             [exact I | exact W]
            | exact W]);
      destruct x as [h' |]
  end; [| apply csrc_step_refl].
  destruct (use_ssrc_filter_ r && negb (ssrc h' =? ssrc_filter_ r));
    [apply csrc_step_refl |].
  match goal with
  | |- context [if last_receive_time_ r =? 0 then ?a else ?b] =>
      set (c1 := if last_receive_time_ r =? 0 then a else b)
  end.
  assert (S1 : csrc_step r r c1).
  { apply csrc_step_silent; [reflexivity |]. subst c1.
    destruct (last_receive_time_ r =? 0); [| constructor].
    match goal with
    | |- context [if ?c then _ else _] => destruct c
    end; repeat constructor. }
  clearbody c1.
  pose proof (CheckSSRCChanged_csrc_step h' r) as S2.
  destruct (CheckSSRCChanged h' r) as [r2 c2]. cbn [fst snd] in S2.
  match goal with
  | |- context [CheckPayloadChanged e h' ?b false (Audio 0 0 0) r2] =>
      pose proof (CheckPayloadChanged_csrc_step e h' b false (Audio 0 0 0) r2)
        as S3;
      destruct (CheckPayloadChanged e h' b false (Audio 0 0 0) r2)
        as [[[[code is_red] specific] r3] c3]
  end.
  cbn [payload_check_receiver payload_check_callbacks] in S3.
  pose proof (csrc_step_trans _ _ _ _ _ S2 S3) as S23.
  destruct (code =? -1).
  { cbn [receiver_after callbacks].
    exact (csrc_step_trans _ _ _ _ _ S1 S23). }
  pose proof (CheckCSRC_csrc_step e h' r3 W') as S4.
  destruct (CheckCSRC e h' r3) as [r4 c4]. cbn [fst snd] in S4.
  pose proof (csrc_step_trans _ _ _ _ _ S2
                (csrc_step_trans _ _ _ _ _ S3 S4)) as S234.
  pose proof (csrc_step_trans _ _ _ _ _ S1 S234) as S1234.
  match goal with
  | |- context [if ?c then _ else _] => destruct c
  end; cbn [receiver_after callbacks]; [exact S1234 |].
  refine (csrc_step_same_tracked r r4 _ _ _ S1234).
  match goal with
  | |- context [UpdateStatistics e h' ?bytes ?old r4] =>
      exact (eq_trans
               (record_reception_tracked e h' packet_length old
                  (UpdateStatistics e h' bytes old r4))
               (UpdateStatistics_tracked e h' bytes old r4))
  end.
Qed.

Lemma call_csrc_step (c : Call) (r : RTPReceiver) :
  call_well_formed c -> csrc_step r (fst (call c r)) (snd (call c r)).
Proof.
  intros W. destruct c; cbn [call fst snd call_well_formed] in *;
    try (apply csrc_step_silent; [reflexivity | constructor]).
  - apply IncomingRTPPacket_csrc_step, W.
  - destruct (PacketTimeout_cases now r) as [E | E]; rewrite E;
      cbn [fst snd]; apply csrc_step_silent;
      try reflexivity; repeat constructor.
  - apply csrc_step_silent; [| constructor].
    unfold tracked_csrcs, Statistics, first_report_init.
    split_ifs; reflexivity.
  - apply csrc_step_silent; [| constructor].
    unfold tracked_csrcs, SetNACKStatus. split_ifs; reflexivity.
  - apply csrc_step_silent; [| constructor].
    unfold tracked_csrcs, SetSSRCFilter. split_ifs; reflexivity.
Qed.

Lemma run_csrc_step (cs : list Call) (r : RTPReceiver) :
  Forall call_well_formed cs ->
  csrc_step r (fst (run cs r)) (snd (run cs r)).
Proof.
  intros W. revert r. induction W as [| c cs Wc _ IH]; intros r.
  - apply csrc_step_refl.
  - cbn [run]. pose proof (call_csrc_step c r Wc) as S1.
    destruct (call c r) as [r1 t1]. cbn [fst snd] in S1.
    pose proof (IH r1) as S2.
    destruct (run cs r1) as [r2 t2]. cbn [fst snd] in *.
    exact (csrc_step_trans _ _ _ _ _ S1 S2).
Qed.

(** C8, as stated, fails: a packet lists the CSRC 5, the next one lists it
    twice.  The second scan finds nothing new and nothing gone, the count
    has grown, and the sentinel [OnIncomingCSRCChanged (0, true)] is
    emitted; destruction then removes the two tracked entries, both 5.  No
    [OnIncomingCSRCChanged (0, false)] is ever emitted. *)
Lemma csrc_pairing_counterexample :
  let t := lifetime Example.registry
             [Example.ingest_with_csrcs 1000 100 1000 [5];
              Example.ingest_with_csrcs 1020 101 1160 [5; 5]] in
  csrc_callbacks t = [(5, true); (0, true); (5, false); (5, false)] /\
  In (OnIncomingCSRCChanged 0 true) t /\
  ~ In (OnIncomingCSRCChanged 0 false) t.
Proof.
  vm_compute. split; [reflexivity |]. split.
  - do 5 right. left. reflexivity.
  - intros H.
    repeat (destruct H as [H | H]; [discriminate H |]). exact H.
Qed.

(** C8, amended.  Over every receiver lifetime (any sequence of calls with
    headers whose CSRC count fits the array, followed by destruction), each
    [OnIncomingCSRCChanged] callback with [added = true] and a non-zero
    CSRC is followed by an [OnIncomingCSRCChanged] callback with
    [added = false] for the same CSRC, emitted at or before destruction;
    and destruction emits a removal callback for every tracked CSRC entry.
    (Nothing is claimed of the sentinel with CSRC 0.) *)
Theorem csrc_added_is_removed
        (registry : RTPPayloadRegistry) (cs : list Call) :
  Forall call_well_formed cs ->
  (forall before csrc later,
      lifetime registry cs
      = before ++ OnIncomingCSRCChanged csrc true :: later ->
      csrc <> 0 ->
      In (OnIncomingCSRCChanged csrc false) later) /\
  lifetime registry cs
  = snd (run cs (RTPReceiver_new registry))
    ++ RTPReceiver_delete (after registry cs) /\
  (forall csrc,
      In csrc (tracked_csrcs (after registry cs)) ->
      In (OnIncomingCSRCChanged csrc false)
         (RTPReceiver_delete (after registry cs))).
Proof.
  intros W.
  assert (D : forall r csrc,
             In csrc (tracked_csrcs r) ->
             In (OnIncomingCSRCChanged csrc false) (RTPReceiver_delete r)).
  { intros r csrc I. unfold RTPReceiver_delete.
    apply in_map_iff. exists csrc. split; [reflexivity | exact I]. }
  assert (L : lifetime registry cs
              = snd (run cs (RTPReceiver_new registry))
                ++ RTPReceiver_delete (after registry cs)).
  { unfold lifetime, after.
    destruct (run cs (RTPReceiver_new registry)) as [r t]. reflexivity. }
  split; [| split; [exact L | apply D]].
  intros before csrc later E N.
  pose proof (run_csrc_step cs (RTPReceiver_new registry) W) as [S _].
  fold (after registry cs) in S.
  assert (P : paired_or (fun _ => False) (lifetime registry cs)).
  { rewrite L.
    apply (paired_or_app
             (fun csrc => In csrc (tracked_csrcs (after registry cs))));
      [exact S | |].
    - apply paired_or_no_csrc_added. unfold RTPReceiver_delete.
      apply no_csrc_added_removed.
    - intros c _ I. left. apply D, I. }
  destruct (paired_or_split _ _ _ _ _ P E N) as [I | []]. exact I.
Qed.

Lemma csrc_added_is_removed_witness :
  let cs := [Example.ingest_with_csrcs 1000 100 1000 [5; 7];
             Example.ingest_with_csrcs 1020 101 1160 [7; 9]] in
  let t := lifetime Example.registry cs in
  csrc_callbacks (firstn 5 t) = [(5, true)] /\
  In (OnIncomingCSRCChanged 5 false) (skipn 5 t).
Proof.
  intros cs t. split; [vm_compute; reflexivity |].
  assert (W : Forall call_well_formed cs).
  { repeat constructor; vm_compute; discriminate. }
  assert (E : lifetime Example.registry cs
              = firstn 4 t ++ OnIncomingCSRCChanged 5 true :: skipn 5 t)
    by (vm_compute; reflexivity).
  refine (proj1 (csrc_added_is_removed Example.registry cs W)
                (firstn 4 t) 5 (skipn 5 t) E _).
  discriminate.
Defined.

(** ** Reading the last report *)

Lemma Statistics_no_reset_receiver (out : Report) (r : RTPReceiver) :
  snd (Statistics out false r) = r.
Proof. unfold Statistics. split_ifs; reflexivity. Qed.

(** A second non-resetting call on the variables the first one filled
    returns what the first returned. *)
Lemma Statistics_no_reset_idempotent (out : Report) (r : RTPReceiver) :
  fst (Statistics (snd (fst (Statistics out false r))) false r)
  = fst (Statistics out false r).
Proof. unfold Statistics. split_ifs; reflexivity. Qed.

Lemma Statistics_again_spec (n : nat) (out : Report) (r : RTPReceiver) :
  snd (Statistics_again n out r) = r /\
  Forall (fun x => x = fst (Statistics out false r))
         (fst (Statistics_again n out r)).
Proof.
  revert out. induction n as [| n IH]; intros out.
  - split; [reflexivity | constructor].
  - cbn [Statistics_again].
    pose proof (Statistics_no_reset_receiver out r) as Hr.
    pose proof (Statistics_no_reset_idempotent out r) as Hi.
    destruct (Statistics out false r) as [[code out'] r'].
    cbn [fst snd] in Hr, Hi. subst r'.
    destruct (IH out') as [IH1 IH2].
    destruct (Statistics_again n out' r) as [rest r''].
    cbn [fst snd] in *. split; [exact IH1 |].
    constructor; [reflexivity |].
    rewrite Hi in IH2. exact IH2.
Qed.

(** A successful call with [reset = false] hands out the snapshot and leaves
    [missing] alone; it succeeds when packets were received and a report has
    been generated. *)
Lemma Statistics_no_reset_values (out : Report) (r : RTPReceiver) :
  (fst (fst (Statistics out false r)) = 0 ->
   report_values (snd (fst (Statistics out false r))) = stored_report r /\
   missing (snd (fst (Statistics out false r))) = missing out /\
   last_report_inorder_packets_ r <> 0) /\
  (packets_received r = true ->
   last_report_inorder_packets_ r <> 0 ->
   fst (fst (Statistics out false r)) = 0).
Proof.
  unfold packets_received, Statistics.
  destruct ((received_seq_first_ r =? 0) && (received_byte_count_ r =? 0));
    cbn [negb fst snd];
    [split; [discriminate | discriminate] |].
  destruct (last_report_inorder_packets_ r =? 0) eqn:C; cbn [fst snd].
  - split; [discriminate | lia].
  - split; [| reflexivity]. intros _.
    split; [reflexivity |]. split; [reflexivity | lia].
Qed.

(** What a resetting report returns is what it stores. *)
Lemma Statistics_reset_stores_report (out : Report) (r : RTPReceiver) :
  packets_received r = true ->
  let '(code, out', r') := Statistics out true r in
  code = 0 /\
  stored_report r' = report_values out' /\
  last_report_inorder_packets_ r' = received_inorder_packet_count_ r /\
  packets_received r' = true.
Proof.
  unfold packets_received, Statistics, first_report_init, stored_report,
    report_values.
  intros H. apply negb_true_iff in H. rewrite H. simpl.
  split_ifs; (split; [reflexivity |]); (split; [reflexivity |]);
    (split; [reflexivity |]); simpl; rewrite H; reflexivity.
Qed.

Lemma report_kept_transfer (r0 r r' : RTPReceiver) :
  stored_report r' = stored_report r ->
  last_report_inorder_packets_ r' = last_report_inorder_packets_ r ->
  report_kept r0 r -> report_kept r0 r'.
Proof. unfold report_kept. intros -> ->. auto. Qed.

Lemma record_reception_report e h packet_length old_packet r :
  stored_report (record_reception e h packet_length old_packet r)
  = stored_report r /\
  last_report_inorder_packets_
    (record_reception e h packet_length old_packet r)
  = last_report_inorder_packets_ r.
Proof.
  unfold stored_report, record_reception. split_ifs; split; reflexivity.
Qed.

Lemma UpdateStatistics_report e h bytes old_packet r :
  stored_report (UpdateStatistics e h bytes old_packet r) = stored_report r /\
  last_report_inorder_packets_ (UpdateStatistics e h bytes old_packet r)
  = last_report_inorder_packets_ r.
Proof.
  unfold stored_report, UpdateStatistics. split_ifs; split; reflexivity.
Qed.

Lemma rebind_report (r' r : RTPReceiver) :
  stored_report (rebind r' r) = stored_report r /\
  last_report_inorder_packets_ (rebind r' r) = last_report_inorder_packets_ r.
Proof. split; reflexivity. Qed.

Lemma retrack_report (r' r : RTPReceiver) :
  stored_report (retrack r' r) = stored_report r /\
  last_report_inorder_packets_ (retrack r' r) = last_report_inorder_packets_ r.
Proof. split; reflexivity. Qed.

Lemma no_report_ssrc_change_reset (r : RTPReceiver) :
  last_report_inorder_packets_ (ssrc_change_reset r) = 0.
Proof. reflexivity. Qed.

Lemma no_report_ssrc_stored (new_ssrc : Z) (r : RTPReceiver) :
  last_report_inorder_packets_ (set_ssrc_ new_ssrc (ssrc_change_reset r)) = 0.
Proof. reflexivity. Qed.

Lemma no_report_ResetStatistics (r : RTPReceiver) :
  last_report_inorder_packets_ (ResetStatistics r) = 0.
Proof. reflexivity. Qed.

(** No call but a resetting report writes the snapshot; a call that resets
    the statistics or the data counters leaves no report behind. *)
Lemma call_report_kept (r0 : RTPReceiver) (c : Call) (r : RTPReceiver) :
  not_resetting_report c ->
  report_kept r0 r -> report_kept r0 (fst (call c r)).
Proof.
  intros N H. destruct c; cbn [call fst not_resetting_report] in N |- *.
  - apply IncomingRTPPacket_invariant; [exact H | | | |].
    + intros h r1 H1.
      destruct (CheckSSRCChanged_receiver h r1) as [E | [E | E]]; rewrite E.
      * exact H1.
      * right. exact (no_report_ssrc_change_reset r1).
      * right. exact (no_report_ssrc_stored (ssrc h) r1).
    + intros h b r1 H1.
      pose proof (CheckPayloadChanged_receiver e h b false (Audio 0 0 0) r1)
        as E. cbv zeta in E. revert E.
      generalize (payload_check_receiver
                    (CheckPayloadChanged e h b false (Audio 0 0 0) r1)).
      intros r' [E | E]; rewrite E.
      * apply (report_kept_transfer r0 r1);
          [apply rebind_report | apply rebind_report | exact H1].
      * right.
        exact (eq_trans (proj2 (rebind_report r' (ResetStatistics r1)))
                        (no_report_ResetStatistics r1)).
    + intros h r1 H1.
      pose proof (CheckCSRC_receiver e h r1) as E. revert E.
      generalize (fst (CheckCSRC e h r1)). intros r' E. rewrite E.
      apply (report_kept_transfer r0 r1);
        [apply retrack_report | apply retrack_report | exact H1].
    + intros h old r1 H1.
      apply (report_kept_transfer r0 r1); [| | exact H1].
      * exact (eq_trans (proj1 (record_reception_report _ _ _ _ _))
                        (proj1 (UpdateStatistics_report _ _ _ _ _))).
      * exact (eq_trans (proj2 (record_reception_report _ _ _ _ _))
                        (proj2 (UpdateStatistics_report _ _ _ _ _))).
  - destruct (PacketTimeout_cases now r) as [E | E]; rewrite E.
    + exact H.
    + apply (report_kept_transfer r0 r);
        [reflexivity | reflexivity | exact H].
  - destruct reset; [contradiction |].
    rewrite Statistics_no_reset_receiver. exact H.
  - right. exact (no_report_ResetStatistics r).
  - right. reflexivity.
  - exact H.
  - unfold SetNACKStatus.
    destruct (max_reordering_threshold <? 0); [exact H |].
    destruct (NACKMethod_eqb method kNackRtcp); exact H.
  - exact H.
  - unfold SetSSRCFilter. destruct enable; exact H.
  - exact H.
  - exact H.
Qed.

Lemma run_report_kept (r0 : RTPReceiver) (cs : list Call) (r : RTPReceiver) :
  Forall not_resetting_report cs ->
  report_kept r0 r -> report_kept r0 (fst (run cs r)).
Proof.
  intros N. revert r. induction N as [| c cs Nc _ IH]; intros r H.
  - exact H.
  - cbn [run]. pose proof (call_report_kept r0 c r Nc H) as H1.
    destruct (call c r) as [r1 t1]. cbn [fst] in H1.
    pose proof (IH r1 H1) as H2.
    destruct (run cs r1) as [r2 t2]. exact H2.
Qed.

(** When a call with [reset = false] succeeds, and what it does
    otherwise. *)
Lemma Statistics_no_reset_code (out : Report) (r : RTPReceiver) :
  (fst (fst (Statistics out false r)) = 0 <->
   packets_received r = true /\ last_report_inorder_packets_ r <> 0) /\
  (fst (fst (Statistics out false r)) <> 0 ->
   Statistics out false r = (-1, out, r)).
Proof.
  unfold packets_received, Statistics.
  destruct ((received_seq_first_ r =? 0) && (received_byte_count_ r =? 0));
    cbn [negb fst snd].
  - split; [| reflexivity]. split; [discriminate |].
    intros [H _]. discriminate H.
  - destruct (last_report_inorder_packets_ r =? 0) eqn:C; cbn [fst snd].
    + split; [| reflexivity]. split; [discriminate |].
      intros [_ H]. lia.
    + split; [| intros H; exfalso; apply H; reflexivity].
      split; [| reflexivity]. intros _. split; [reflexivity | lia].
Qed.

(** C7, as stated, fails: stream 1 delivers a packet with sequence number
    100, the host calls [ResetDataCounters], and a report is generated with
    [reset = true]: the call returns 0 and hands out and stores the values
    255, 1, 100, 0, 0, 0.  It records the in-order packet count, which is 0,
    in [last_report_inorder_packets_], the member by which a call with
    [reset = false] recognises that a report exists; so the next call with
    [reset = false] returns -1 and hands out nothing, although a report has
    been generated. *)
Lemma Statistics_without_reset_counterexample :
  let r := after Example.registry
             [Example.ingest 1000 100 1000; CallResetDataCounters] in
  let first := Statistics Example.no_report true r in
  fst (fst first) = 0 /\
  report_values (snd (fst first)) = [255; 1; 100; 0; 0; 0] /\
  stored_report (snd first) = [255; 1; 100; 0; 0; 0] /\
  last_report_inorder_packets_ (snd first) = 0 /\
  fst (fst (Statistics Example.no_report false (snd first))) = -1 /\
  snd (fst (Statistics Example.no_report false (snd first)))
  = Example.no_report.
Proof. vm_compute. repeat split; reflexivity. Qed.

(** C7, amended.  [Statistics] with [reset = false] leaves the receiver as
    it is; any number of consecutive such calls return the same code and
    values.  The call succeeds exactly when packets have been received and
    [last_report_inorder_packets_] is not 0, and otherwise returns -1 and
    hands out nothing; a call that succeeds returns the stored last-report
    snapshot.  A report with [reset = true] stores the in-order packet count
    in [last_report_inorder_packets_], so that the report it generates can
    be read back right afterwards exactly when that count is not 0 (it is 0,
    for instance, right after [ResetDataCounters]).  Whenever a call with
    [reset = false] succeeds, the snapshot it returns is, value by value,
    what the most recent call with [reset = true] returned, whatever calls
    other than a resetting report came in between. *)
Theorem Statistics_without_reset_reads_last_report :
  (forall out r, snd (Statistics out false r) = r) /\
  (forall n out r,
      snd (Statistics_again n out r) = r /\
      Forall (fun x => x = fst (Statistics out false r))
             (fst (Statistics_again n out r))) /\
  (forall out r,
      (fst (fst (Statistics out false r)) = 0 <->
       packets_received r = true /\ last_report_inorder_packets_ r <> 0) /\
      (fst (fst (Statistics out false r)) <> 0 ->
       Statistics out false r = (-1, out, r)) /\
      (fst (fst (Statistics out false r)) = 0 ->
       report_values (snd (fst (Statistics out false r))) = stored_report r /\
       missing (snd (fst (Statistics out false r))) = missing out)) /\
  (forall out0 out r,
      packets_received r = true ->
      let '(_, _, r1) := Statistics out0 true r in
      last_report_inorder_packets_ r1 = received_inorder_packet_count_ r /\
      (fst (fst (Statistics out false r1)) = 0 <->
       received_inorder_packet_count_ r <> 0)) /\
  (forall out0 out r cs,
      packets_received r = true ->
      Forall not_resetting_report cs ->
      let '(_, reported, r1) := Statistics out0 true r in
      let r2 := fst (run cs r1) in
      fst (fst (Statistics out false r2)) = 0 ->
      same_values (snd (fst (Statistics out false r2))) reported).
Proof.
  split; [exact Statistics_no_reset_receiver |].
  split; [exact Statistics_again_spec |].
  split; [| split].
  - intros out r.
    destruct (Statistics_no_reset_code out r) as [C F].
    split; [exact C |]. split; [exact F |].
    intros Z0. destruct (Statistics_no_reset_values out r) as [V _].
    destruct (V Z0) as (V1 & V2 & _). auto.
  - intros out0 out r P.
    pose proof (Statistics_reset_stores_report out0 r P) as S.
    destruct (Statistics out0 true r) as [[code reported] r1].
    destruct S as (_ & _ & S2 & S3).
    split; [exact S2 |].
    destruct (Statistics_no_reset_code out r1) as [C _].
    rewrite C, S2. split; [intros [_ H]; exact H | intros H; auto].
  - intros out0 out r cs P N.
    pose proof (Statistics_reset_stores_report out0 r P) as S.
    destruct (Statistics out0 true r) as [[code reported] r1].
    destruct S as (_ & S1 & _ & _). cbv zeta. intros Z0.
    destruct (Statistics_no_reset_values out (fst (run cs r1))) as [V _].
    destruct (V Z0) as (V1 & _ & V3).
    assert (K : report_kept r1 (fst (run cs r1))).
    { apply run_report_kept; [exact N | left; reflexivity]. }
    destruct K as [K | K]; [| contradiction].
    unfold same_values. rewrite V1, K. exact S1.
Qed.

Lemma Statistics_without_reset_reads_last_report_witness :
  let r := after Example.registry
             [Example.ingest 1000 100 1000; Example.ingest 1020 103 1160] in
  let r2 := fst (run [Example.ingest 1040 104 1320]
                     (snd (Statistics Example.no_report true r))) in
  report_values (snd (fst (Statistics Example.no_report true r)))
  = [127; 2; 103; 0; 0; 0] /\
  fst (fst (Statistics Example.no_report false r2)) = 0 /\
  same_values (snd (fst (Statistics Example.no_report false r2)))
              (snd (fst (Statistics Example.no_report true r))).
Proof.
  intros r r2. split; [vm_compute; reflexivity |].
  assert (P : packets_received r = true) by (vm_compute; reflexivity).
  assert (N : Forall not_resetting_report [Example.ingest 1040 104 1320])
    by (repeat constructor).
  assert (Z0 : fst (fst (Statistics Example.no_report false r2)) = 0).
  { pose proof (proj1 (proj2 (proj2
                         Statistics_without_reset_reads_last_report))
                      Example.no_report r2) as (C & _).
    apply (proj2 C). vm_compute. split; [reflexivity | discriminate]. }
  split; [exact Z0 |].
  pose proof (proj2 (proj2 (proj2 (proj2
                Statistics_without_reset_reads_last_report)))
                    Example.no_report Example.no_report r
                    [Example.ingest 1040 104 1320] P N) as H.
  vm_compute in H. vm_compute. apply H. reflexivity.
Defined.

(** ** Settings *)

Lemma CheckSSRCChanged_configuration (h : WebRtcRTPHeader) (r : RTPReceiver) :
  configuration (fst (CheckSSRCChanged h r)) = configuration r.
Proof.
  destruct (CheckSSRCChanged_receiver h r) as [E | [E | E]]; rewrite E;
    reflexivity.
Qed.

Lemma CheckPayloadChanged_configuration e h first_payload_byte is_red
                                        specific_payload r :
  configuration
    (payload_check_receiver
       (CheckPayloadChanged e h first_payload_byte is_red specific_payload r))
  = configuration r.
Proof.
  pose proof (CheckPayloadChanged_receiver e h first_payload_byte is_red
                specific_payload r) as E.
  cbv zeta in E. revert E.
  generalize (payload_check_receiver
                (CheckPayloadChanged e h first_payload_byte is_red
                                     specific_payload r)).
  intros r' [E | E]; rewrite E; reflexivity.
Qed.

Lemma CheckCSRC_configuration e h r :
  configuration (fst (CheckCSRC e h r)) = configuration r.
Proof. rewrite CheckCSRC_receiver. reflexivity. Qed.

Lemma UpdateStatistics_configuration e h bytes old_packet r :
  configuration (UpdateStatistics e h bytes old_packet r) = configuration r.
Proof. unfold UpdateStatistics. split_ifs; reflexivity. Qed.

Lemma record_reception_configuration e h packet_length old_packet r :
  configuration (record_reception e h packet_length old_packet r)
  = configuration r.
Proof. unfold record_reception. split_ifs; reflexivity. Qed.

Lemma IncomingRTPPacket_configuration e rtp_header packet packet_length r :
  configuration
    (receiver_after (IncomingRTPPacket e rtp_header packet packet_length r))
  = configuration r.
Proof.
  apply (IncomingRTPPacket_invariant
           (fun r' => configuration r' = configuration r)).
  - reflexivity.
  - intros h r0 H. rewrite CheckSSRCChanged_configuration. exact H.
  - intros h b r0 H. rewrite CheckPayloadChanged_configuration. exact H.
  - intros h r0 H. rewrite CheckCSRC_configuration. exact H.
  - intros h old r0 H.
    rewrite record_reception_configuration, UpdateStatistics_configuration.
    exact H.
Qed.

Lemma call_configuration (c : Call) (r : RTPReceiver) :
  is_setter c = false -> configuration (fst (call c r)) = configuration r.
Proof.
  destruct c; cbn [is_setter call fst]; intros S; try discriminate S.
  - apply IncomingRTPPacket_configuration.
  - unfold PacketTimeout, HaveNotReceivedPackets. split_ifs; reflexivity.
  - unfold Statistics, first_report_init. split_ifs; reflexivity.
  - reflexivity.
  - reflexivity.
  - reflexivity.
  - reflexivity.
Qed.

(** X1.  Only the four setters change a setting: an ingress call (whatever
    the packet and whatever the collaborators answer), a timeout check, a
    report, a reset of the statistics or of the data counters, and a payload
    registration or deregistration leave the NACK method, the reordering
    threshold, the SSRC filter, the RTX status and the packet timeout as
    they are. *)
Theorem settings_change_only_through_setters (c : Call) (r : RTPReceiver) :
  is_setter c = false ->
  NACK (fst (call c r)) = NACK r /\
  max_reordering_threshold_ (fst (call c r)) = max_reordering_threshold_ r /\
  SSRCFilter 0 (fst (call c r)) = SSRCFilter 0 r /\
  RTXStatus (fst (call c r)) = RTXStatus r /\
  packet_timeout_ms_ (fst (call c r)) = packet_timeout_ms_ r.
Proof.
  intros S. pose proof (call_configuration c r S) as E. revert E.
  generalize (fst (call c r)). intros r'.
  unfold configuration, NACK, SSRCFilter, RTXStatus. intros E.
  injection E as E1 E2 E3 E4 E5 E6 E7.
  rewrite E1, E2, E3, E4, E5, E6, E7. repeat split; reflexivity.
Qed.

Lemma settings_change_only_through_setters_witness :
  let c := Example.ingest 1000 100 1000 in
  let r := snd (SetNACKStatus kNackRtcp 7
                  (SetSSRCFilter true 1 (RTPReceiver_new Example.registry))) in
  NACK (fst (call c r)) = kNackRtcp /\
  max_reordering_threshold_ (fst (call c r)) = 7 /\
  SSRCFilter 0 (fst (call c r)) = (0, 1).
Proof.
  intros c r.
  destruct (settings_change_only_through_setters c r eq_refl)
    as (E1 & E2 & E3 & _).
  rewrite E1, E2, E3. vm_compute. repeat split; reflexivity.
Defined.

Lemma call_configuration_consistent (c : Call) (r : RTPReceiver) :
  configuration_consistent r -> configuration_consistent (fst (call c r)).
Proof.
  intros H. destruct (is_setter c) eqn:S.
  - destruct H as (H1 & H2 & H3).
    destruct c; cbn [is_setter] in S; try discriminate S; cbn [call fst snd];
      unfold configuration_consistent.
    + repeat split; assumption.
    + unfold SetNACKStatus.
      destruct (max_reordering_threshold <? 0) eqn:C; cbn [snd];
        [repeat split; assumption |].
      destruct method; simpl; unfold kDefaultMaxReorderingThreshold;
        repeat split; try lia; try discriminate; auto.
    + repeat split; assumption.
    + unfold SetSSRCFilter. destruct enable; simpl;
        repeat split; try assumption; try discriminate; auto.
  - pose proof (call_configuration c r S) as E. revert E.
    generalize (fst (call c r)). intros r'.
    unfold configuration, configuration_consistent. intros E.
    injection E as E1 E2 E3 E4 E5 E6 E7.
    rewrite E1, E2, E3, E4. exact H.
Qed.

Lemma reachable_consistent (r : RTPReceiver) :
  reachable r -> configuration_consistent r.
Proof.
  revert r. apply reachable_invariant.
  - intros registry. unfold configuration_consistent. simpl.
    unfold kDefaultMaxReorderingThreshold. repeat split; lia.
  - exact call_configuration_consistent.
Qed.

(** X2.  In every state a receiver can reach, the reordering threshold is
    not negative ([SetNACKStatus] refuses a negative one), it is the default
    of 50 whenever NACK is off, and the stored filter SSRC is 0 whenever the
    filter is off. *)
Theorem reachable_configuration_consistent (r : RTPReceiver) :
  reachable r ->
  0 <= max_reordering_threshold_ r /\
  (NACK r = kNackOff ->
   max_reordering_threshold_ r = kDefaultMaxReorderingThreshold) /\
  (fst (SSRCFilter 0 r) = -1 -> ssrc_filter_ r = 0).
Proof.
  intros R. destruct (reachable_consistent r R) as (H1 & H2 & H3).
  unfold NACK, SSRCFilter.
  repeat split; [exact H1 | exact H2 |].
  destruct (use_ssrc_filter_ r); cbn [fst]; [discriminate | auto].
Qed.

Lemma reachable_configuration_consistent_witness :
  let r := after Example.registry
                 [CallSetNACKStatus kNackRtcp 7; CallSetSSRCFilter true 5;
                  Example.ingest 1000 100 1000;
                  CallSetNACKStatus kNackOff 3; CallSetSSRCFilter false 5] in
  max_reordering_threshold_ r = 50 /\ ssrc_filter_ r = 0.
Proof.
  intros r.
  destruct (reachable_configuration_consistent r (reachable_after _ _))
    as (_ & H2 & H3).
  split; [apply H2 | apply H3]; vm_compute; reflexivity.
Defined.

(** ** Order of arrival *)

(** X3.  Whatever the reordering threshold, the sequence number that follows
    the highest one received (modulo 2^16, so 0 after 0xFFFF) is in order. *)
Theorem InOrderPacket_successor (r : RTPReceiver) :
  0 <= received_seq_max_ r < 2 ^ 16 ->
  InOrderPacket r (u16 (received_seq_max_ r + 1)) = true.
Proof.
  intros H. destruct (Z.eq_dec (received_seq_max_ r) 65535) as [E | N].
  - rewrite E. change (u16 (65535 + 1)) with 0.
    apply InOrderPacket_wrap; lia.
  - rewrite u16_small by lia. apply InOrderPacket_ahead; lia.
Qed.

Lemma InOrderPacket_successor_witness :
  InOrderPacket (set_received_seq_max_ 65535 (RTPReceiver_new Registry.empty))
                0 = true.
Proof.
  apply (InOrderPacket_successor
           (set_received_seq_max_ 65535 (RTPReceiver_new Registry.empty))).
  vm_compute. split; [discriminate | reflexivity].
Defined.

(** A sequence number at or below the highest one, outside the wrap-around
    zone, is in order exactly when it is more than the reordering threshold
    behind (what the code calls a restart of the remote side). *)
Lemma InOrderPacket_behind (r : RTPReceiver) (sequence_number : Z) :
  sequence_number <= received_seq_max_ r ->
  ~ wrap_zone (received_seq_max_ r) sequence_number ->
  InOrderPacket r sequence_number
  = (received_seq_max_ r - max_reordering_threshold_ r >? sequence_number).
Proof.
  unfold wrap_zone. intros H W. unfold InOrderPacket.
  destruct (received_seq_max_ r >=? sequence_number) eqn:C; [| lia].
  destruct (received_seq_max_ r >? 65280) eqn:C1;
    destruct (sequence_number <? 255) eqn:C2; cbn [andb negb];
    try (exfalso; apply W; lia);
    destruct (received_seq_max_ r - max_reordering_threshold_ r
              >? sequence_number); reflexivity.
Qed.

(** X4.  In every state a receiver can reach, a packet that repeats the
    highest sequence number received is not in order, and neither is any
    packet at most [max_reordering_threshold_] behind it outside the
    wrap-around zone; a packet further behind than that is in order (it is
    taken for a restart of the remote side). *)
Theorem InOrderPacket_reordering_window (r : RTPReceiver)
                                        (sequence_number : Z) :
  reachable r ->
  InOrderPacket r (received_seq_max_ r) = false /\
  (sequence_number <= received_seq_max_ r ->
   ~ wrap_zone (received_seq_max_ r) sequence_number ->
   (received_seq_max_ r - max_reordering_threshold_ r <= sequence_number ->
    InOrderPacket r sequence_number = false) /\
   (sequence_number < received_seq_max_ r - max_reordering_threshold_ r ->
    InOrderPacket r sequence_number = true)).
Proof.
  intros R. destruct (reachable_consistent r R) as (T & _). split.
  - rewrite InOrderPacket_behind; [lia | lia | unfold wrap_zone; lia].
  - intros H W. rewrite InOrderPacket_behind by assumption. split; lia.
Qed.

Lemma InOrderPacket_reordering_window_witness :
  let r := after Example.registry
                 [Example.ingest 1000 1000 1000; Example.ingest 1020 1001 1160]
  in
  InOrderPacket r 1001 = false /\ InOrderPacket r 951 = false /\
  InOrderPacket r 950 = true.
Proof.
  intros r.
  destruct (InOrderPacket_reordering_window r 951 (reachable_after _ _))
    as (D & B).
  destruct (InOrderPacket_reordering_window r 950 (reachable_after _ _))
    as (_ & B').
  split; [exact D | split].
  - apply B; vm_compute; try discriminate. intros [_ H]. discriminate H.
  - apply B'; vm_compute; try discriminate; try reflexivity.
    intros [_ H]. discriminate H.
Defined.

(** ** Per-packet counters *)

Lemma shiftr_4_div (x : Z) : Z.shiftr x 4 = x / 16.
Proof. rewrite Z.shiftr_div_pow2 by lia. reflexivity. Qed.

Lemma UpdateStatistics_overhead_bootstrap e h bytes old_packet r :
  bootstrap r = true ->
  received_packet_oh_ (UpdateStatistics e h bytes old_packet r)
  = received_packet_oh_ r.
Proof.
  intros B. rewrite UpdateStatistics_bootstrap by exact B. reflexivity.
Qed.

Lemma UpdateStatistics_overhead_filter e h bytes old_packet r :
  bootstrap r = false ->
  received_packet_oh_ (UpdateStatistics e h bytes old_packet r)
  = u16 (Z.shiftr (15 * received_packet_oh_ r
                   + u16 (headerLength h + paddingLength h)) 4).
Proof.
  unfold bootstrap. intros B. unfold UpdateStatistics. simpl. rewrite B.
  split_ifs; reflexivity.
Qed.

(** X5.  The overhead estimate.  The first packet of a stream (bootstrap
    branch) leaves [received_packet_oh_] alone.  Every other packet moves it
    by the sixteenth of its distance to the packet's own overhead
    [p = headerLength + paddingLength], rounded down:
    [oh + floor((p - oh) / 16)].  So the estimate stays between its old
    value and [p], it does not move while [p] exceeds it by less than 16,
    and it drops by at least one whenever [p] is below it. *)
Theorem UpdateStatistics_overhead
        (e : Env) (rtp_header : WebRtcRTPHeader) (bytes : Z)
        (old_packet : bool) (r : RTPReceiver) :
  0 <= received_packet_oh_ r < 2 ^ 16 ->
  let oh := received_packet_oh_ r in
  let p := u16 (headerLength rtp_header + paddingLength rtp_header) in
  let oh' :=
    received_packet_oh_ (UpdateStatistics e rtp_header bytes old_packet r) in
  (bootstrap r = true -> oh' = oh) /\
  (bootstrap r = false ->
   oh' = oh + (p - oh) / 16 /\
   Z.min oh p <= oh' <= Z.max oh p /\
   (oh <= p < oh + 16 -> oh' = oh) /\
   (p < oh -> oh' < oh)).
Proof.
  intros H oh p oh'. split.
  - intros B. subst oh'. apply UpdateStatistics_overhead_bootstrap, B.
  - intros B. subst oh'. rewrite UpdateStatistics_overhead_filter by exact B.
    fold oh p. pose proof (u16_range (headerLength rtp_header
                                      + paddingLength rtp_header)) as P.
    fold p in P. rewrite shiftr_4_div.
    assert (E : (15 * oh + p) / 16 = oh + (p - oh) / 16).
    { replace (15 * oh + p) with ((p - oh) + oh * 16) by lia.
      rewrite Z.div_add by lia. lia. }
    rewrite E.
    assert (D : 16 * ((p - oh) / 16) <= p - oh < 16 * ((p - oh) / 16) + 16).
    { pose proof (Z.div_mod (p - oh) 16 ltac:(lia)).
      pose proof (Z.mod_pos_bound (p - oh) 16 ltac:(lia)). lia. }
    rewrite u16_small by lia.
    repeat split; lia.
Qed.

Lemma UpdateStatistics_overhead_witness :
  let fresh := RTPReceiver_new Example.registry in
  let r := after Example.registry [Example.ingest 1000 100 1000] in
  let h := Example.header_with_csrcs 1 101 1160 [7; 8] in
  received_packet_oh_
    (UpdateStatistics (Example.env_at 1000) h 160 false fresh) = 12 /\
  received_packet_oh_ (UpdateStatistics (Example.env_at 1020) h 160 false r)
  = 12 + (20 - 12) / 16.
Proof.
  intros fresh r h. split.
  - refine (proj1 (UpdateStatistics_overhead (Example.env_at 1000) h 160
                     false fresh _) _).
    + vm_compute. split; [discriminate | reflexivity].
    + reflexivity.
  - refine (proj1 (proj2 (UpdateStatistics_overhead (Example.env_at 1020) h
                            160 false r _) _)).
    + vm_compute. split; [discriminate | reflexivity].
    + reflexivity.
Defined.

Lemma UpdateStatistics_byte_count e h bytes old_packet r :
  received_byte_count_ (UpdateStatistics e h bytes old_packet r)
  = u32 (received_byte_count_ r + bytes).
Proof. unfold UpdateStatistics. split_ifs; reflexivity. Qed.

Lemma UpdateStatistics_packet_counts e h bytes old_packet r :
  bootstrap r = false ->
  let r' := UpdateStatistics e h bytes old_packet r in
  if negb (InOrderPacket r (sequenceNumber h)) && old_packet
  then received_inorder_packet_count_ r' = received_inorder_packet_count_ r /\
       received_old_packet_count_ r'
       = u32 (received_old_packet_count_ r + 1)
  else received_inorder_packet_count_ r'
       = u32 (received_inorder_packet_count_ r + 1) /\
       received_old_packet_count_ r' = received_old_packet_count_ r.
Proof.
  unfold bootstrap. intros B. unfold UpdateStatistics. simpl. rewrite B.
  change (InOrderPacket
            (set_received_byte_count_ (u32 (received_byte_count_ r + bytes)) r)
            (sequenceNumber h))
    with (InOrderPacket r (sequenceNumber h)).
  destruct (InOrderPacket r (sequenceNumber h)); cbn [negb andb].
  - split_ifs; split; reflexivity.
  - destruct old_packet; split; reflexivity.
Qed.

Lemma u32_add_l (a b : Z) : u32 (u32 a + b) = u32 (a + b).
Proof. unfold u32. apply Zplus_mod_idemp_l. Qed.

Lemma u32_add_r (a b : Z) : u32 (a + u32 b) = u32 (a + b).
Proof. unfold u32. apply Zplus_mod_idemp_r. Qed.

(** X6.  What one packet adds to the data counters.  [UpdateStatistics]
    always adds the payload length to the byte count (modulo 2^32).  Outside
    the bootstrap branch it raises exactly one of the two packet counters by
    one: [received_old_packet_count_] when the packet is out of order and
    flagged as a retransmission, [received_inorder_packet_count_] otherwise;
    so the packet count of [DataCounters] grows by one.  In the bootstrap
    branch the in-order count is set to 1 whatever it was. *)
Theorem UpdateStatistics_data_counters
        (e : Env) (rtp_header : WebRtcRTPHeader) (bytes : Z)
        (old_packet : bool) (r : RTPReceiver) :
  let r' := UpdateStatistics e rtp_header bytes old_packet r in
  fst (DataCounters r') = u32 (fst (DataCounters r) + bytes) /\
  (bootstrap r = true ->
   PacketCountReceived r' = 1 /\
   received_old_packet_count_ r' = received_old_packet_count_ r) /\
  (bootstrap r = false ->
   PacketCountReceived r'
   = (if negb (InOrderPacket r (sequenceNumber rtp_header)) && old_packet
      then PacketCountReceived r else u32 (PacketCountReceived r + 1)) /\
   received_old_packet_count_ r'
   = (if negb (InOrderPacket r (sequenceNumber rtp_header)) && old_packet
      then u32 (received_old_packet_count_ r + 1)
      else received_old_packet_count_ r) /\
   snd (DataCounters r') = u32 (snd (DataCounters r) + 1)).
Proof.
  cbv zeta. unfold DataCounters, PacketCountReceived. cbn [fst snd].
  split; [apply UpdateStatistics_byte_count |]. split.
  - intros B. rewrite UpdateStatistics_bootstrap by exact B.
    split; reflexivity.
  - intros B.
    pose proof (UpdateStatistics_packet_counts e rtp_header bytes old_packet
                  r B) as C.
    cbv zeta in C.
    destruct (negb (InOrderPacket r (sequenceNumber rtp_header))
              && old_packet);
      destruct C as [C1 C2]; rewrite C1, C2;
      (split; [reflexivity | split; [reflexivity |]]).
    + rewrite u32_add_l, u32_add_l. f_equal. lia.
    + rewrite u32_add_r, u32_add_l. f_equal. lia.
Qed.

Lemma UpdateStatistics_data_counters_witness :
  let fresh := RTPReceiver_new Example.registry in
  let r := after Example.registry [Example.ingest 1000 100 1000] in
  let r' := UpdateStatistics (Example.env_at 1020) (Example.header 1 90 840)
                             160 true r in
  PacketCountReceived
    (UpdateStatistics (Example.env_at 1000) (Example.header 1 100 1000)
                      160 false fresh) = 1 /\
  DataCounters r = (160, 1) /\ DataCounters r' = (320, 2) /\
  PacketCountReceived r' = 1 /\ received_old_packet_count_ r' = 1.
Proof.
  intros fresh r r'.
  pose proof (UpdateStatistics_data_counters (Example.env_at 1000)
                (Example.header 1 100 1000) 160 false fresh) as (_ & H0 & _).
  pose proof (UpdateStatistics_data_counters (Example.env_at 1020)
                (Example.header 1 90 840) 160 true r) as (H1 & _ & H3).
  specialize (H3 eq_refl). destruct H3 as (H3 & H4 & H5).
  fold r' in H1, H3, H4, H5.
  assert (E : DataCounters r = (160, 1)) by reflexivity.
  split; [exact (proj1 (H0 eq_refl)) |].
  split; [exact E |]. rewrite E in H1, H5. cbn [fst snd] in H1, H5.
  split; [| split].
  - rewrite (surjective_pairing (DataCounters r')), H1, H5. reflexivity.
  - rewrite H3. reflexivity.
  - rewrite H4. reflexivity.
Defined.

Lemma UpdateStatistics_out_of_order e h bytes old_packet r :
  bootstrap r = false ->
  InOrderPacket r (sequenceNumber h) = false ->
  let r' := UpdateStatistics e h bytes old_packet r in
  [received_seq_first_ r'; received_seq_max_ r'; received_seq_wraps_ r';
   jitter_q4_ r'; jitter_q4_transmission_time_offset_ r';
   local_time_last_received_timestamp_ r']
  = [received_seq_first_ r; received_seq_max_ r; received_seq_wraps_ r;
     jitter_q4_ r; jitter_q4_transmission_time_offset_ r;
     local_time_last_received_timestamp_ r].
Proof.
  unfold bootstrap. intros B I. unfold UpdateStatistics. simpl. rewrite B.
  change (InOrderPacket
            (set_received_byte_count_ (u32 (received_byte_count_ r + bytes)) r)
            (sequenceNumber h))
    with (InOrderPacket r (sequenceNumber h)).
  rewrite I. destruct old_packet; reflexivity.
Qed.

(** X7.  A packet that is not in order never moves the sequence state: outside
    the bootstrap branch it leaves the first and the highest sequence number,
    the wrap count, both jitter estimates and the local time of the last
    in-order packet as they are.  In a state the receiver can reach this
    holds in particular for a packet that repeats the highest sequence
    number. *)
Theorem UpdateStatistics_out_of_order_keeps_sequence
        (e : Env) (rtp_header : WebRtcRTPHeader) (bytes : Z)
        (old_packet : bool) (r : RTPReceiver) :
  bootstrap r = false ->
  InOrderPacket r (sequenceNumber rtp_header) = false \/
  (reachable r /\ sequenceNumber rtp_header = received_seq_max_ r) ->
  let r' := UpdateStatistics e rtp_header bytes old_packet r in
  received_seq_first_ r' = received_seq_first_ r /\
  received_seq_max_ r' = received_seq_max_ r /\
  received_seq_wraps_ r' = received_seq_wraps_ r /\
  jitter_q4_ r' = jitter_q4_ r /\
  jitter_q4_transmission_time_offset_ r'
  = jitter_q4_transmission_time_offset_ r /\
  local_time_last_received_timestamp_ r'
  = local_time_last_received_timestamp_ r.
Proof.
  intros B H.
  assert (I : InOrderPacket r (sequenceNumber rtp_header) = false).
  { destruct H as [I | [R E]]; [exact I |]. rewrite E.
    destruct (reachable_consistent r R) as (T & _).
    rewrite InOrderPacket_behind; [lia | lia | unfold wrap_zone; lia]. }
  pose proof (UpdateStatistics_out_of_order e rtp_header bytes old_packet r
                B I) as E.
  cbv zeta in *. injection E as E1 E2 E3 E4 E5 E6.
  repeat split; assumption.
Qed.

Lemma UpdateStatistics_out_of_order_keeps_sequence_witness :
  let r := after Example.registry
                 [Example.ingest 1000 100 1000; Example.ingest 1020 101 1160]
  in
  received_seq_max_
    (UpdateStatistics (Example.env_at 1040) (Example.header 1 101 1160)
                      160 false r) = 101.
Proof.
  intros r.
  refine (eq_trans
            (proj1 (proj2 (UpdateStatistics_out_of_order_keeps_sequence
                             (Example.env_at 1040) (Example.header 1 101 1160)
                             160 false r _ _))) _).
  - reflexivity.
  - right. split; [apply reachable_after | reflexivity].
  - reflexivity.
Defined.

(** ** Reports: edge cases and composition *)

Lemma Statistics_nothing_received (out : Report) (reset : bool)
                                  (r : RTPReceiver) :
  received_seq_first_ r = 0 -> received_byte_count_ r = 0 ->
  Statistics out reset r = (-1, out, r).
Proof. intros F B. unfold Statistics. rewrite F, B. reflexivity. Qed.

Lemma Statistics_no_report (out : Report) (r : RTPReceiver) :
  last_report_inorder_packets_ r = 0 ->
  Statistics out false r = (-1, out, r).
Proof.
  intros L. unfold Statistics. rewrite L. cbn [negb Z.eqb].
  destruct ((received_seq_first_ r =? 0) && (received_byte_count_ r =? 0));
    reflexivity.
Qed.

(** X8.  A report on a receiver that has received nothing fails with -1 and
    touches neither the caller's variables nor the receiver, whatever the
    [reset] flag: so on a fresh receiver and right after [ResetStatistics].
    Right after [ResetDataCounters] a call with [reset = false] fails in the
    same way, because the stored report is forgotten. *)
Theorem Statistics_fails_when_nothing_to_report
        (out : Report) (reset : bool) (registry : RTPPayloadRegistry)
        (r : RTPReceiver) :
  Statistics out reset (RTPReceiver_new registry)
  = (-1, out, RTPReceiver_new registry) /\
  Statistics out reset (ResetStatistics r) = (-1, out, ResetStatistics r) /\
  Statistics out false (ResetDataCounters r) = (-1, out, ResetDataCounters r).
Proof.
  split; [| split].
  - apply Statistics_nothing_received; reflexivity.
  - apply Statistics_nothing_received; reflexivity.
  - apply Statistics_no_report; reflexivity.
Qed.

Lemma exp_since_last_range (r : RTPReceiver) : 0 <= exp_since_last r < 2 ^ 16.
Proof.
  unfold exp_since_last.
  pose proof (u16_range (received_seq_max_ r - last_report_seq_max_ r)).
  destruct (last_report_seq_max_ r >? received_seq_max_ r); lia.
Qed.

Lemma rec_since_last_range (r : RTPReceiver) : 0 <= rec_since_last r.
Proof.
  unfold rec_since_last.
  destruct (NACKMethod_eqb (nack_method_ r) kNackOff); apply u32_range.
Qed.

Lemma rec_since_last_first_report_init (r : RTPReceiver) :
  rec_since_last (first_report_init r) = rec_since_last r.
Proof.
  unfold first_report_init, rec_since_last. split_ifs; reflexivity.
Qed.

(** X9.  The loss fraction of a resetting report.  With [expected] the
    number of packets expected since the last report (at most 65535) and
    [missing] the number of those not received, [0 <= missing <= expected];
    [fraction_lost] is 0 when nothing was expected and otherwise
    [floor (255 * missing / expected)], which never exceeds 255, so that the
    cast to 8 bits loses nothing; it is 255 exactly when nothing has been
    received since the last report. *)
Theorem Statistics_fraction_lost (out : Report) (r : RTPReceiver) :
  packets_received r = true ->
  let expected := exp_since_last (first_report_init r) in
  let out' := snd (fst (Statistics out true r)) in
  0 <= missing out' <= expected /\
  expected < 2 ^ 16 /\
  (expected = 0 -> fraction_lost out' = 0) /\
  (0 < expected ->
   fraction_lost out' = 255 * missing out' / expected /\
   0 <= fraction_lost out' <= 255 /\
   (fraction_lost out' = 255 <-> rec_since_last r = 0)).
Proof.
  intros P expected out'.
  pose proof (Statistics_reset_missing out r P) as S. cbv zeta in S.
  rewrite rec_since_last_first_report_init in S. fold expected in S.
  subst out'. destruct (Statistics out true r) as [[code o] r'].
  cbn [fst snd]. destruct S as (_ & M & F & _).
  pose proof (exp_since_last_range (first_report_init r)) as E.
  fold expected in E. pose proof (rec_since_last_range r) as R.
  split; [lia |]. split; [lia |]. split.
  - intros Z0. rewrite F, Z0. reflexivity.
  - intros Pos. rewrite F.
    destruct (expected =? 0) eqn:C; [lia |].
    assert (B : 0 <= 255 * missing o / expected <= 255).
    { split; [apply Z.div_pos; lia |].
      apply Z.div_le_upper_bound; lia. }
    rewrite u8_small by lia.
    split; [reflexivity |]. split; [exact B |].
    split.
    + intros Q.
      pose proof (Z.mul_div_le (255 * missing o) expected ltac:(lia)) as L.
      rewrite Q in L. lia.
    + intros Z0. rewrite M, Z0.
      replace (Z.max 0 (expected - 0)) with expected by lia.
      rewrite Z.div_mul by lia. reflexivity.
Qed.

Lemma Statistics_fraction_lost_witness :
  let r := after Example.registry
             [Example.ingest 1000 100 1000; Example.ingest 1020 103 1160] in
  let out' := snd (fst (Statistics Example.no_report true r)) in
  let again :=
    snd (fst (Statistics Example.no_report true
                (snd (Statistics Example.no_report true r)))) in
  fraction_lost out' = 255 * missing out' / 4 /\
  0 <= fraction_lost out' <= 255 /\
  fraction_lost again = 0.
Proof.
  intros r out' again.
  destruct (Statistics_fraction_lost Example.no_report r eq_refl)
    as (_ & _ & _ & H).
  destruct (H eq_refl) as (H1 & H2 & _).
  destruct (Statistics_fraction_lost Example.no_report
              (snd (Statistics Example.no_report true r)) eq_refl)
    as (_ & _ & Z0 & _).
  split; [exact H1 |]. split; [exact H2 | exact (Z0 eq_refl)].
Defined.

(** What a resetting report returns and leaves behind, member by member. *)
Lemma Statistics_reset_state (out : Report) (r : RTPReceiver) :
  packets_received r = true ->
  let '(code, out', r') := Statistics out true r in
  (received_seq_first_ r' = received_seq_first_ r /\
   received_byte_count_ r' = received_byte_count_ r /\
   received_seq_max_ r' = received_seq_max_ r /\
   received_seq_wraps_ r' = received_seq_wraps_ r /\
   received_inorder_packet_count_ r' = received_inorder_packet_count_ r /\
   received_old_packet_count_ r' = received_old_packet_count_ r /\
   nack_method_ r' = nack_method_ r /\
   jitter_q4_ r' = jitter_q4_ r /\
   jitter_q4_transmission_time_offset_ r'
   = jitter_q4_transmission_time_offset_ r) /\
  (last_report_inorder_packets_ r' = received_inorder_packet_count_ r /\
   last_report_old_packets_ r' = received_old_packet_count_ r /\
   last_report_seq_max_ r' = received_seq_max_ r /\
   cumulative_loss_ r' = cum_lost out' /\
   jitter_max_q4_ r' = Z.max (jitter_q4_ r) (jitter_max_q4_ r)) /\
  (cum_lost out' = u32 (cumulative_loss_ r + missing out') /\
   ext_max out'
   = u32 (Z.shiftl (received_seq_wraps_ r) 16 + received_seq_max_ r) /\
   jitter out' = Z.shiftr (jitter_q4_ r) 4 /\
   max_jitter out' = Z.shiftr (Z.max (jitter_q4_ r) (jitter_max_q4_ r)) 4 /\
   jitter_transmission_time_offset out'
   = Z.shiftr (jitter_q4_transmission_time_offset_ r) 4).
Proof.
  unfold packets_received, Statistics, first_report_init.
  intros H. apply negb_true_iff in H. rewrite H. cbn [negb].
  cbv zeta.
  destruct (last_report_inorder_packets_ r =? 0);
    simpl;
    destruct (jitter_q4_ r >? jitter_max_q4_ r) eqn:C; simpl;
    repeat match goal with |- _ /\ _ => split end;
    try reflexivity;
    try (rewrite Z.max_l by lia; reflexivity);
    try (rewrite Z.max_r by lia; reflexivity).
Qed.

Lemma u32_idem (x : Z) : u32 (u32 x) = u32 x.
Proof. apply u32_small, u32_range. Qed.

(** X10.  Two resetting reports in a row.  When at least one in-order packet
    has been counted, a second report with [reset = true] made right after a
    first one succeeds, finds nothing expected and nothing missing, reports
    a loss fraction of 0, and repeats the cumulative loss, the extended
    highest sequence number and the three jitter values of the first. *)
Theorem Statistics_reset_twice (out out_again : Report) (r : RTPReceiver) :
  packets_received r = true ->
  received_inorder_packet_count_ r <> 0 ->
  let first := Statistics out true r in
  let second := Statistics out_again true (snd first) in
  fst (fst second) = 0 /\
  missing (snd (fst second)) = 0 /\
  fraction_lost (snd (fst second)) = 0 /\
  cum_lost (snd (fst second)) = cum_lost (snd (fst first)) /\
  ext_max (snd (fst second)) = ext_max (snd (fst first)) /\
  jitter (snd (fst second)) = jitter (snd (fst first)) /\
  max_jitter (snd (fst second)) = max_jitter (snd (fst first)) /\
  jitter_transmission_time_offset (snd (fst second))
  = jitter_transmission_time_offset (snd (fst first)).
Proof.
  intros P N first second. subst second first.
  pose proof (Statistics_reset_state out r P) as S.
  destruct (Statistics out true r) as [[code1 out1] r1]. cbn [fst snd].
  destruct S as ((F1 & F2 & F3 & F4 & F5 & F6 & F7 & F8 & F9)
                 & (L1 & L2 & L3 & L4 & L5) & (O1 & O2 & O3 & O4 & O5)).
  assert (P1 : packets_received r1 = true)
    by (unfold packets_received in *; rewrite F1, F2; exact P).
  assert (I1 : first_report_init r1 = r1).
  { unfold first_report_init.
    destruct (last_report_inorder_packets_ r1 =? 0) eqn:C;
      [lia | reflexivity]. }
  assert (E1 : exp_since_last r1 = 0).
  { unfold exp_since_last. rewrite L3, F3, Z.sub_diag.
    destruct (received_seq_max_ r >? received_seq_max_ r); reflexivity. }
  pose proof (Statistics_reset_missing out_again r1 P1) as M.
  pose proof (Statistics_reset_state out_again r1 P1) as S.
  cbv zeta in M. rewrite I1, E1 in M.
  pose proof (rec_since_last_range r1) as R.
  destruct (Statistics out_again true r1) as [[code2 out2] r2].
  cbn [fst snd].
  destruct M as (M1 & M2 & M3 & _).
  destruct S as (_ & _ & (Q1 & Q2 & Q3 & Q4 & Q5)).
  assert (M0 : missing out2 = 0) by lia.
  split; [exact M1 |]. split; [exact M0 |]. split; [exact M3 |].
  split; [| split; [| split; [| split]]].
  - rewrite Q1, M0, L4, O1, Z.add_0_r. apply u32_idem.
  - rewrite Q2, O2, F3, F4. reflexivity.
  - rewrite Q3, O3, F8. reflexivity.
  - rewrite Q4, O4, F8, L5. f_equal. lia.
  - rewrite Q5, O5, F9. reflexivity.
Qed.

Lemma Statistics_reset_twice_witness :
  let r := after Example.registry
             [Example.ingest 1000 100 1000; Example.ingest 1020 103 1160] in
  let first := Statistics Example.no_report true r in
  let second := Statistics Example.no_report true (snd first) in
  missing (snd (fst first)) = 2 /\
  missing (snd (fst second)) = 0 /\
  cum_lost (snd (fst second)) = 2.
Proof.
  intros r first second.
  destruct (Statistics_reset_twice Example.no_report Example.no_report r
              eq_refl ltac:(vm_compute; discriminate))
    as (_ & M & _ & C & _).
  split; [reflexivity |]. split; [exact M |].
  exact (eq_trans C eq_refl).
Defined.

(** ** Resets *)

(** X11.  [ResetStatistics] subsumes [ResetDataCounters]: in either order
    the two together leave the receiver as [ResetStatistics] alone does;
    each reset is idempotent; and after either one [DataCounters] reads 0
    bytes and 0 packets. *)
Theorem resets_compose (r : RTPReceiver) :
  ResetStatistics (ResetDataCounters r) = ResetStatistics r /\
  ResetDataCounters (ResetStatistics r) = ResetStatistics r /\
  ResetStatistics (ResetStatistics r) = ResetStatistics r /\
  ResetDataCounters (ResetDataCounters r) = ResetDataCounters r /\
  DataCounters (ResetDataCounters r) = (0, 0) /\
  DataCounters (ResetStatistics r) = (0, 0).
Proof.
  split; [receiver_eq r |]. split; [receiver_eq r |].
  split; [receiver_eq r |]. split; [receiver_eq r |].
  split; receiver_eq r.
Qed.

(** ** Jitter in reports *)

Lemma report_jitter_consistent_same (r r' : RTPReceiver) :
  last_report_jitter_ r' = last_report_jitter_ r ->
  jitter_max_q4_ r' = jitter_max_q4_ r ->
  report_jitter_consistent r -> report_jitter_consistent r'.
Proof. unfold report_jitter_consistent. intros -> ->. auto. Qed.

Lemma report_jitter_consistent_zero (r : RTPReceiver) :
  last_report_jitter_ r = 0 -> jitter_max_q4_ r = 0 ->
  report_jitter_consistent r.
Proof.
  unfold report_jitter_consistent. intros -> ->. rewrite Z.shiftr_0_l. lia.
Qed.

Lemma shiftr_4_le (a b : Z) : a <= b -> Z.shiftr a 4 <= Z.shiftr b 4.
Proof.
  intros H. rewrite !shiftr_4_div. apply Z.div_le_mono; lia.
Qed.

Lemma Statistics_report_jitter_consistent (out : Report) (reset : bool)
                                          (r : RTPReceiver) :
  report_jitter_consistent r ->
  report_jitter_consistent (snd (Statistics out reset r)).
Proof.
  intros H. destruct (packets_received r) eqn:P.
  - destruct reset.
    + pose proof (Statistics_reset_state out r P) as S.
      pose proof (Statistics_reset_stores_report out r P) as T.
      destruct (Statistics out true r) as [[code out'] r'].
      cbn [fst snd] in *.
      destruct S as (_ & (_ & _ & _ & _ & L5) & (_ & _ & O3 & _)).
      destruct T as (_ & T & _).
      unfold stored_report, report_values in T.
      injection T as _ _ _ T4 _ _.
      unfold report_jitter_consistent. rewrite T4, O3, L5.
      apply shiftr_4_le. lia.
    + rewrite Statistics_no_reset_receiver. exact H.
  - unfold packets_received in P. apply negb_false_iff in P.
    unfold Statistics. rewrite P. exact H.
Qed.

Lemma call_report_jitter_consistent (c : Call) (r : RTPReceiver) :
  report_jitter_consistent r -> report_jitter_consistent (fst (call c r)).
Proof.
  intros H. destruct c; cbn [call fst].
  - apply IncomingRTPPacket_invariant; [exact H | | | |].
    + intros h r0 H0.
      destruct (CheckSSRCChanged_receiver h r0) as [E | [E | E]]; rewrite E.
      * exact H0.
      * apply report_jitter_consistent_zero; reflexivity.
      * apply report_jitter_consistent_zero; reflexivity.
    + intros h b r0 H0.
      destruct (CheckPayloadChanged_receiver e h b false (Audio 0 0 0) r0)
        as [E | E]; rewrite E.
      * apply (report_jitter_consistent_same r0);
          [reflexivity | reflexivity | exact H0].
      * apply report_jitter_consistent_zero; reflexivity.
    + intros h r0 H0. rewrite CheckCSRC_receiver.
      apply (report_jitter_consistent_same r0);
        [reflexivity | reflexivity | exact H0].
    + intros h old r0 H0.
      apply (report_jitter_consistent_same r0); [| | exact H0].
      * unfold record_reception, UpdateStatistics. split_ifs; reflexivity.
      * unfold record_reception, UpdateStatistics. split_ifs; reflexivity.
  - apply (report_jitter_consistent_same r); [| | exact H];
      unfold PacketTimeout, HaveNotReceivedPackets; split_ifs; reflexivity.
  - apply Statistics_report_jitter_consistent, H.
  - apply report_jitter_consistent_zero; reflexivity.
  - apply (report_jitter_consistent_same r);
      [reflexivity | reflexivity | exact H].
  - apply (report_jitter_consistent_same r);
      [reflexivity | reflexivity | exact H].
  - apply (report_jitter_consistent_same r); [| | exact H];
      unfold SetNACKStatus; split_ifs; reflexivity.
  - apply (report_jitter_consistent_same r);
      [reflexivity | reflexivity | exact H].
  - apply (report_jitter_consistent_same r); [| | exact H];
      unfold SetSSRCFilter; split_ifs; reflexivity.
  - apply (report_jitter_consistent_same r);
      [reflexivity | reflexivity | exact H].
  - apply (report_jitter_consistent_same r);
      [reflexivity | reflexivity | exact H].
Qed.

(** X12.  No report shows more jitter than maximum jitter.  In every state a
    receiver can reach, a call of [Statistics] that succeeds, with either
    value of [reset], hands out [jitter <= max_jitter]: a resetting report
    raises the stored maximum to the current jitter before it reads it, and
    the stored report is only ever written together with that maximum or
    cleared together with it. *)
Theorem Statistics_jitter_below_maximum
        (out : Report) (reset : bool) (r : RTPReceiver) :
  reachable r ->
  fst (fst (Statistics out reset r)) = 0 ->
  jitter (snd (fst (Statistics out reset r)))
  <= max_jitter (snd (fst (Statistics out reset r))).
Proof.
  intros R.
  assert (H : report_jitter_consistent r).
  { revert r R. apply reachable_invariant.
    - intros registry. apply report_jitter_consistent_zero; reflexivity.
    - exact call_report_jitter_consistent. }
  destruct reset.
  - destruct (packets_received r) eqn:P.
    + intros _.
      pose proof (Statistics_reset_state out r P) as S.
      destruct (Statistics out true r) as [[code out'] r'].
      cbn [fst snd].
      destruct S as (_ & _ & (_ & _ & O3 & O4 & _)).
      rewrite O3, O4. apply shiftr_4_le. lia.
    + unfold packets_received in P. apply negb_false_iff in P.
      unfold Statistics. rewrite P. cbn [fst snd]. discriminate.
  - intros C.
    destruct (proj1 (Statistics_no_reset_values out r) C) as (V & _).
    unfold report_values, stored_report in V.
    injection V as _ _ _ V4 V5 _. rewrite V4, V5. exact H.
Qed.

Lemma Statistics_jitter_below_maximum_witness :
  let r := after Example.registry
             [Example.ingest 1000 100 1000; Example.ingest 1020 101 1160;
              Example.ingest 1050 102 1320;
              CallStatistics Example.no_report true;
              Example.ingest 1060 103 1480] in
  let out' := snd (fst (Statistics Example.no_report false r)) in
  jitter out' <= max_jitter out'.
Proof.
  intros r out'.
  apply (Statistics_jitter_below_maximum Example.no_report false r
           (reachable_after _ _)).
  vm_compute. reflexivity.
Defined.

(** ** Packet timeout *)

Lemma PacketTimeout_due (now : Z) (r : RTPReceiver) :
  PacketTimeout now r =
  if timeout_due now r
  then (set_rtp_payload_registry_
          (Registry.ResetLastReceivedPayloadTypes (rtp_payload_registry_ r))
          (set_last_receive_time_ 0 r),
        [OnPacketTimeout])
  else (r, []).
Proof.
  unfold PacketTimeout, HaveNotReceivedPackets, timeout_due.
  destruct (packet_timeout_ms_ r =? 0); [reflexivity |].
  destruct (last_receive_time_ r =? 0); [reflexivity |].
  destruct (now - last_receive_time_ r >? packet_timeout_ms_ r); reflexivity.
Qed.

(** X13.  The packet timeout fires at most once per silence.  [PacketTimeout]
    calls [OnPacketTimeout] exactly when a timeout is configured, a packet has
    been received, and more than [packet_timeout_ms_] milliseconds have
    passed since; it then marks the receiver as not having received packets
    and makes the registry forget the last payload types, so that a further
    check, at whatever time, does nothing at all. *)
Theorem PacketTimeout_fires_once (now later : Z) (r : RTPReceiver) :
  let r' := fst (PacketTimeout now r) in
  (timeout_due now r = false -> PacketTimeout now r = (r, [])) /\
  (timeout_due now r = true ->
   snd (PacketTimeout now r) = [OnPacketTimeout] /\
   HaveNotReceivedPackets r' = true /\
   last_received_payload_type_ (rtp_payload_registry_ r') = -1 /\
   last_received_media_payload_type_ (rtp_payload_registry_ r') = -1 /\
   PacketTimeout later r' = (r', [])).
Proof.
  cbv zeta. rewrite PacketTimeout_due. split; intros D; rewrite D.
  - reflexivity.
  - cbn [fst snd]. repeat match goal with |- _ /\ _ => split end;
      try reflexivity.
    rewrite PacketTimeout_due.
    assert (N : timeout_due later
                  (set_rtp_payload_registry_
                     (Registry.ResetLastReceivedPayloadTypes
                        (rtp_payload_registry_ r))
                     (set_last_receive_time_ 0 r)) = false).
    { unfold timeout_due. simpl. rewrite andb_false_r. reflexivity. }
    rewrite N. reflexivity.
Qed.

Lemma PacketTimeout_fires_once_witness :
  let r := after Example.registry
             [CallSetPacketTimeout 500; Example.ingest 1000 100 1000] in
  snd (PacketTimeout 1600 r) = [OnPacketTimeout] /\
  snd (PacketTimeout 1700 (fst (PacketTimeout 1600 r))) = [] /\
  PacketTimeout 1400 r = (r, []).
Proof.
  intros r.
  pose proof (PacketTimeout_fires_once 1600 1700 r) as (_ & F).
  pose proof (PacketTimeout_fires_once 1400 0 r) as (Q & _).
  cbv zeta in F. destruct (F eq_refl) as (F1 & _ & _ & _ & F5).
  split; [exact F1 |]. split; [rewrite F5; reflexivity |].
  apply Q. reflexivity.
Defined.

(** ** The checks at the head of the ingress path *)

(** X14.  The SSRC filter.  With the filter on, a packet whose SSRC is not
    the allowed one, and which is not of the RTX stream, is dropped with -1:
    header, receiver and callbacks are untouched.  A packet of the RTX
    stream is tested after its header has been rewritten, so it is the
    primary SSRC that must equal the allowed one; when it does not, the
    packet is dropped with the receiver untouched and no callback, but the
    caller's header has already been rewritten. *)
Theorem IncomingRTPPacket_ssrc_filter
        (e : Env) (rtp_header : WebRtcRTPHeader) (packet : list Z)
        (packet_length : Z) (r : RTPReceiver) :
  use_ssrc_filter_ r = true ->
  let i := IncomingRTPPacket e rtp_header packet packet_length r in
  (on_rtx_stream rtp_header r = false ->
   ssrc rtp_header <> ssrc_filter_ r ->
   i = {| ret := -1; header_after := rtp_header; receiver_after := r;
          callbacks := [] |}) /\
  (on_rtx_stream rtp_header r = true ->
   ssrc_ r <> ssrc_filter_ r ->
   ret i = -1 /\ receiver_after i = r /\ callbacks i = [] /\
   (0 <= packet_length - paddingLength rtp_header - headerLength rtp_header ->
    headerLength rtp_header + 2 <= packet_length ->
    ssrc (header_after i) = ssrc_ r /\
    headerLength (header_after i) = u16 (headerLength rtp_header + 2))).
Proof.
  intros F. cbv zeta. unfold on_rtx_stream. split.
  - intros X N. unfold IncomingRTPPacket. rewrite X, F.
    destruct (packet_length - paddingLength rtp_header
              - headerLength rtp_header <? 0); [reflexivity |].
    assert (C : (ssrc rtp_header =? ssrc_filter_ r) = false)
      by (apply Z.eqb_neq; exact N).
    rewrite C. reflexivity.
  - intros X N. unfold IncomingRTPPacket. rewrite X, F.
    destruct (packet_length - paddingLength rtp_header
              - headerLength rtp_header <? 0) eqn:L.
    { cbn [ret receiver_after callbacks header_after].
      repeat match goal with |- _ /\ _ => split end; try reflexivity. lia. }
    destruct (headerLength rtp_header + 2 >? packet_length) eqn:S.
    { cbn [ret receiver_after callbacks header_after].
      repeat match goal with |- _ /\ _ => split end; try reflexivity. lia. }
    assert (C : (ssrc (rtx_rewrite (ssrc_ r)
                         (u16 (Z.shiftl
                                 (nth (Z.to_nat (headerLength rtp_header))
                                      packet 0) 8
                               + nth (Z.to_nat (1 + headerLength rtp_header))
                                     packet 0))
                         (u16 (headerLength rtp_header + 2)) rtp_header)
                 =? ssrc_filter_ r) = false)
      by (apply Z.eqb_neq; exact N).
    rewrite C. cbn [andb negb ret receiver_after callbacks header_after].
    repeat match goal with |- _ /\ _ => split end; try reflexivity.
    intros _ _. split; reflexivity.
Qed.

Lemma IncomingRTPPacket_ssrc_filter_witness :
  let r := SetSSRCFilter true 1 Example.rtx_receiver in
  let i := IncomingRTPPacket (Example.env_at 1020) (Example.header 2 100 1160)
                             Example.packet 172 r in
  let r5 := SetSSRCFilter true 5 Example.rtx_receiver in
  let i5 := IncomingRTPPacket (Example.env_at 1020) (Example.rtx_header 0)
                              Example.rtx_packet 172 r5 in
  (ret i = -1 /\ receiver_after i = r /\ callbacks i = []) /\
  (ret i5 = -1 /\ receiver_after i5 = r5 /\ ssrc (header_after i5) = 1).
Proof.
  intros r i r5 i5. split.
  - pose proof (proj1 (IncomingRTPPacket_ssrc_filter (Example.env_at 1020)
                         (Example.header 2 100 1160) Example.packet 172 r
                         eq_refl) eq_refl ltac:(vm_compute; discriminate))
      as E.
    subst i. rewrite E. repeat split.
  - destruct (proj2 (IncomingRTPPacket_ssrc_filter (Example.env_at 1020)
                       (Example.rtx_header 0) Example.rtx_packet 172 r5
                       eq_refl) eq_refl ltac:(vm_compute; discriminate))
      as (E1 & E2 & _ & E4).
    destruct (E4 ltac:(vm_compute; discriminate)
                 ltac:(vm_compute; discriminate)) as (E5 & _).
    split; [exact E1 |]. split; [exact E2 | exact (eq_trans E5 eq_refl)].
Defined.

(** ** What an ingress call records *)

(** The two ways an ingress call ends: without recording a reception (the
    return code is then negative, or 0 for a keep-alive packet of an unknown
    payload type), or with the packet counted and the reception recorded
    (the return code is then that of the parser, not negative).  [P] is any
    property that the three checks before the parser preserve. *)
Lemma IncomingRTPPacket_outcome (P : RTPReceiver -> Prop)
      e rtp_header packet packet_length r :
  P r ->
  (forall h r, P r -> P (fst (CheckSSRCChanged h r))) ->
  (forall h first_payload_byte r,
      P r ->
      P (payload_check_receiver
           (CheckPayloadChanged e h first_payload_byte false (Audio 0 0 0) r)))
  ->
  (forall h r, P r -> P (fst (CheckCSRC e h r))) ->
  let i := IncomingRTPPacket e rtp_header packet packet_length r in
  (ret i <= 0 /\ P (receiver_after i)) \/
  (0 <= ret i /\
   exists old_packet r4,
     P r4 /\
     receiver_after i
     = record_reception e (header_after i) packet_length old_packet
         (UpdateStatistics e (header_after i)
            (GetPayloadDataLength (header_after i) packet_length)
            old_packet r4)).
Proof.
  intros H0 H1 H2 H3. cbv zeta. unfold IncomingRTPPacket.
  destruct (packet_length - paddingLength rtp_header
            - headerLength rtp_header <? 0);
    [left; split; [cbn [ret]; lia | exact H0] |].
  match goal with
  | |- context [match ?x with Some _ => _ | None => _ end] =>
      destruct x as [h' |]
  end; [| left; split; [cbn [ret]; lia | exact H0]].
  destruct (use_ssrc_filter_ r && negb (ssrc h' =? ssrc_filter_ r));
    [left; split; [cbn [ret]; lia | exact H0] |].
  pose proof (H1 h' r H0) as P2.
  destruct (CheckSSRCChanged h' r) as [r2 c2]. cbn [fst] in P2.
  match goal with
  | |- context [CheckPayloadChanged e h' ?b false (Audio 0 0 0) r2] =>
      pose proof (H2 h' b r2 P2) as P3;
      destruct (CheckPayloadChanged e h' b false (Audio 0 0 0) r2)
        as [[[[code is_red] specific] r3] c3]
  end.
  cbn [payload_check_receiver] in P3.
  destruct (code =? -1).
  { left. cbn [ret receiver_after]. split; [| exact P3].
    match goal with
    | |- context [if ?c then _ else _] => destruct c
    end; lia. }
  pose proof (H3 h' r3 P3) as P4.
  destruct (CheckCSRC e h' r3) as [r4 c4]. cbn [fst] in P4.
  match goal with
  | |- context [if ?v <? 0 then _ else _] => destruct (v <? 0) eqn:V
  end.
  { left. cbn [ret receiver_after]. split; [lia | exact P4]. }
  right. cbn [ret receiver_after header_after]. split; [lia |].
  eexists. exists r4. split; [exact P4 |]. reflexivity.
Qed.

Lemma CheckSSRCChanged_reception_record (h : WebRtcRTPHeader)
                                        (r : RTPReceiver) :
  reception_record (fst (CheckSSRCChanged h r)) = reception_record r.
Proof.
  destruct (CheckSSRCChanged_receiver h r) as [E | [E | E]]; rewrite E;
    reflexivity.
Qed.

Lemma CheckPayloadChanged_reception_record e h first_payload_byte is_red
                                           specific_payload r :
  reception_record
    (payload_check_receiver
       (CheckPayloadChanged e h first_payload_byte is_red specific_payload r))
  = reception_record r.
Proof.
  pose proof (CheckPayloadChanged_receiver e h first_payload_byte is_red
                specific_payload r) as E.
  cbv zeta in E. revert E.
  generalize (payload_check_receiver
                (CheckPayloadChanged e h first_payload_byte is_red
                                     specific_payload r)).
  intros r' [E | E]; rewrite E; reflexivity.
Qed.

Lemma CheckCSRC_reception_record e h r :
  reception_record (fst (CheckCSRC e h r)) = reception_record r.
Proof. rewrite CheckCSRC_receiver. reflexivity. Qed.

Lemma record_reception_times e h packet_length old_packet r :
  last_receive_time_ (record_reception e h packet_length old_packet r)
  = now_receive_ms e /\
  last_received_payload_length_
    (record_reception e h packet_length old_packet r)
  = GetPayloadDataLength h packet_length.
Proof. unfold record_reception. split_ifs; split; reflexivity. Qed.

(** X15.  A call that fails records nothing.  When [IncomingRTPPacket]
    returns a negative code, the time and the payload length of the last
    reception, the overhead estimate and the local time of the last in-order
    packet are what they were before the call.  When it returns a positive
    code the reception has been recorded: [last_receive_time_] is the clock
    reading and [last_received_payload_length_] the payload length of the
    packet. *)
Theorem IncomingRTPPacket_failure_records_nothing
        (e : Env) (rtp_header : WebRtcRTPHeader) (packet : list Z)
        (packet_length : Z) (r : RTPReceiver) :
  let i := IncomingRTPPacket e rtp_header packet packet_length r in
  (ret i < 0 ->
   last_receive_time_ (receiver_after i) = last_receive_time_ r /\
   last_received_payload_length_ (receiver_after i)
   = last_received_payload_length_ r /\
   PacketOHReceived (receiver_after i) = PacketOHReceived r /\
   local_time_last_received_timestamp_ (receiver_after i)
   = local_time_last_received_timestamp_ r) /\
  (0 < ret i ->
   last_receive_time_ (receiver_after i) = now_receive_ms e /\
   last_received_payload_length_ (receiver_after i)
   = GetPayloadDataLength (header_after i) packet_length).
Proof.
  cbv zeta.
  pose proof (IncomingRTPPacket_outcome
                (fun r' => reception_record r' = reception_record r)
                e rtp_header packet packet_length r eq_refl) as O.
  cbv zeta in O.
  destruct O as [[C E] | (C & old & r4 & _ & E)].
  - intros h r0 H. rewrite CheckSSRCChanged_reception_record. exact H.
  - intros h b r0 H. rewrite CheckPayloadChanged_reception_record. exact H.
  - intros h r0 H. rewrite CheckCSRC_reception_record. exact H.
  - split; [| lia]. intros _. unfold reception_record in E.
    injection E as E1 E2 E3 E4. unfold PacketOHReceived. auto.
  - split; [lia |]. intros _. rewrite E. apply record_reception_times.
Qed.

Lemma IncomingRTPPacket_failure_records_nothing_witness :
  let r := after Example.registry [Example.ingest 1000 100 1000] in
  let h := Example.header 1 101 1160 in
  let rejected :=
    IncomingRTPPacket (env_parsing_at 1020) h Example.packet 5 r in
  let accepted :=
    IncomingRTPPacket (env_parsing_at 1020) h Example.packet 172 r in
  (ret rejected = -1 /\ last_receive_time_ (receiver_after rejected) = 1000) /\
  (ret accepted = 172 /\ last_receive_time_ (receiver_after accepted) = 1020).
Proof.
  intros r h rejected accepted. split; (split; [reflexivity |]).
  - refine (eq_trans
              (proj1 (proj1 (IncomingRTPPacket_failure_records_nothing
                               (env_parsing_at 1020) h Example.packet 5 r) _))
              _).
    + vm_compute. reflexivity.
    + reflexivity.
  - refine (eq_trans
              (proj1 (proj2 (IncomingRTPPacket_failure_records_nothing
                               (env_parsing_at 1020) h Example.packet 172 r)
                            _))
              _).
    + vm_compute. reflexivity.
    + reflexivity.
Defined.

(** ** The callbacks of an ingress call *)

Lemma CheckSSRCChanged_callback_shape (h : WebRtcRTPHeader) (r : RTPReceiver) :
  ssrc_change_callbacks (ssrc h) (snd (CheckSSRCChanged h r)).
Proof.
  unfold CheckSSRCChanged, ssrc_change_callbacks.
  split_matches; cbn [snd app];
    try (left; reflexivity);
    try (right; left; reflexivity);
    right; right; repeat eexists.
Qed.

Lemma CheckPayloadChanged_callback_shape e h first_payload_byte is_red
                                         specific_payload r :
  let t := payload_check_callbacks
             (CheckPayloadChanged e h first_payload_byte is_red
                                  specific_payload r) in
  t = [] \/
  exists payload_type payload_name specific,
    t = [InvokeOnInitializeDecoder payload_type payload_name specific].
Proof.
  unfold CheckPayloadChanged, payload_check_callbacks, REDPayloadType,
    VideoCodecType, Registry.ReportMediaPayloadType.
  split_matches; try (left; reflexivity); right; repeat eexists.
Qed.

Lemma CheckCSRC_callback_shape e h r :
  forallb is_OnIncomingCSRCChanged (snd (CheckCSRC e h r)) = true.
Proof.
  unfold CheckCSRC.
  destruct (negb (ShouldReportCsrcChanges (rtp_media_receiver_ e)
                                          (payloadType h))); [reflexivity |].
  cbv zeta.
  match goal with
  | |- context [if ?c then (_, _) else (_, _)] => destruct c
  end; [| reflexivity].
  cbn [snd]. rewrite !forallb_app.
  repeat (apply andb_true_intro; split).
  - apply forallb_forall. intros x Hx. apply in_map_iff in Hx.
    destruct Hx as (c & <- & _). reflexivity.
  - apply forallb_forall. intros x Hx. apply in_map_iff in Hx.
    destruct Hx as (c & <- & _). reflexivity.
  - repeat match goal with
           | |- context [if ?c then _ else _] => destruct c
           end; reflexivity.
Qed.

Lemma IncomingRTPPacket_callback_groups e rtp_header packet packet_length r :
  let i := IncomingRTPPacket e rtp_header packet packet_length r in
  exists c1 c2 c3 c4,
    callbacks i = c1 ++ c2 ++ c3 ++ c4 /\
    (c1 = [] \/
     last_receive_time_ r = 0 /\
     c1 = [OnReceivedPacket (announced_type (header_after i) packet_length)])
    /\
    ssrc_change_callbacks (ssrc (header_after i)) c2 /\
    (c3 = [] \/
     exists payload_type payload_name specific,
       c3 = [InvokeOnInitializeDecoder payload_type payload_name specific]) /\
    forallb is_OnIncomingCSRCChanged c4 = true.
Proof.
  cbv zeta.
  assert (Nothing :
            forall h,
              exists c1 c2 c3 c4 : list Callback,
                [] = c1 ++ c2 ++ c3 ++ c4 /\
                (c1 = [] \/
                 last_receive_time_ r = 0 /\
                 c1 = [OnReceivedPacket (announced_type h packet_length)]) /\
                ssrc_change_callbacks (ssrc h) c2 /\
                (c3 = [] \/
                 exists payload_type payload_name specific,
                   c3 = [InvokeOnInitializeDecoder payload_type payload_name
                                                   specific]) /\
                forallb is_OnIncomingCSRCChanged c4 = true).
  { intros h. exists [], [], [], [].
    repeat match goal with |- _ /\ _ => split end;
      try reflexivity; left; reflexivity. }
  unfold IncomingRTPPacket.
  destruct (packet_length - paddingLength rtp_header
            - headerLength rtp_header <? 0); [apply Nothing |].
  match goal with
  | |- context [match ?x with Some _ => _ | None => _ end] =>
      assert (Pad : match x with
                    | Some h' => paddingLength h' = paddingLength rtp_header
                    | None => True
                    end)
        by (destruct (rtx_ r && (ssrc_rtx_ r =? ssrc rtp_header));
            [destruct (headerLength rtp_header + 2 >? packet_length);
             [exact I | reflexivity]
            | reflexivity]);
      destruct x as [h' |]
  end; [| apply Nothing].
  destruct (use_ssrc_filter_ r && negb (ssrc h' =? ssrc_filter_ r));
    [apply Nothing |].
  match goal with
  | |- context [if last_receive_time_ r =? 0 then ?a else ?b] =>
      set (c1 := if last_receive_time_ r =? 0 then a else b)
  end.
  assert (S1 : c1 = [] \/
               last_receive_time_ r = 0 /\
               c1 = [OnReceivedPacket (announced_type h' packet_length)]).
  { subst c1. destruct (last_receive_time_ r =? 0) eqn:L;
      [| left; reflexivity].
    right. split; [lia |]. unfold announced_type. rewrite Pad.
    destruct (packet_length - paddingLength rtp_header - headerLength h' =? 0);
      reflexivity. }
  clearbody c1.
  pose proof (CheckSSRCChanged_callback_shape h' r) as S2.
  destruct (CheckSSRCChanged h' r) as [r2 c2]. cbn [snd] in S2.
  match goal with
  | |- context [CheckPayloadChanged e h' ?b false (Audio 0 0 0) r2] =>
      pose proof (CheckPayloadChanged_callback_shape e h' b false
                    (Audio 0 0 0) r2) as S3;
      destruct (CheckPayloadChanged e h' b false (Audio 0 0 0) r2)
        as [[[[code is_red] specific] r3] c3]
  end.
  cbv zeta in S3. cbn [payload_check_callbacks] in S3.
  destruct (code =? -1).
  { cbn [callbacks header_after]. exists c1, c2, c3, [].
    rewrite app_nil_r.
    repeat match goal with |- _ /\ _ => split end;
      try assumption; reflexivity. }
  pose proof (CheckCSRC_callback_shape e h' r3) as S4.
  destruct (CheckCSRC e h' r3) as [r4 c4]. cbn [snd] in S4.
  match goal with
  | |- context [if ?c then _ else _] => destruct c
  end; cbn [callbacks header_after]; exists c1, c2, c3, c4;
    repeat match goal with |- _ /\ _ => split end;
    try assumption; reflexivity.
Qed.

(** X16.  The order of the callbacks of one ingress call.  Whatever the
    packet, the callbacks come in four groups, in this order: at most one
    [OnReceivedPacket], and only when no reception is on record; the pair
    [SetRemoteSSRC], [OnIncomingSSRCChanged] for the SSRC of the header as
    the call leaves it, possibly followed by [OnInitializeDecoder]; at most
    one [InvokeOnInitializeDecoder]; and then only [OnIncomingCSRCChanged]
    callbacks. *)
Theorem IncomingRTPPacket_callback_order
        (e : Env) (rtp_header : WebRtcRTPHeader) (packet : list Z)
        (packet_length : Z) (r : RTPReceiver) :
  let i := IncomingRTPPacket e rtp_header packet packet_length r in
  exists c1 c2 c3 c4,
    callbacks i = c1 ++ c2 ++ c3 ++ c4 /\
    (c1 = [] \/
     last_receive_time_ r = 0 /\
     c1 = [OnReceivedPacket (announced_type (header_after i) packet_length)])
    /\
    ssrc_change_callbacks (ssrc (header_after i)) c2 /\
    (c3 = [] \/
     exists payload_type payload_name specific,
       c3 = [InvokeOnInitializeDecoder payload_type payload_name specific]) /\
    forallb is_OnIncomingCSRCChanged c4 = true.
Proof. apply IncomingRTPPacket_callback_groups. Qed.

Lemma ssrc_change_callbacks_not_received (new_ssrc : Z) (t : list Callback) :
  ssrc_change_callbacks new_ssrc t ->
  forallb (fun ev => negb (is_OnReceivedPacket ev)) t = true.
Proof.
  intros [-> | [-> | (pt & n & f & c & rt & ->)]]; reflexivity.
Qed.

Lemma csrc_callbacks_not_received (t : list Callback) :
  forallb is_OnIncomingCSRCChanged t = true ->
  forallb (fun ev => negb (is_OnReceivedPacket ev)) t = true.
Proof.
  intros H. apply forallb_forall. intros ev Hev.
  rewrite forallb_forall in H. specialize (H ev Hev).
  destruct ev; try discriminate H; reflexivity.
Qed.

(** X17.  [OnReceivedPacket] announces the first packet after silence, and
    nothing else.  While a reception is on record ([last_receive_time_] not
    0) no ingress call makes the callback.  When none is on record, every
    packet that passes the checks at the head of the call is announced
    before any other callback, as a keep-alive when it has no payload and as
    RTP otherwise, and is announced once. *)
Theorem OnReceivedPacket_after_silence
        (e : Env) (rtp_header : WebRtcRTPHeader) (packet : list Z)
        (packet_length : Z) (r : RTPReceiver) :
  let i := IncomingRTPPacket e rtp_header packet packet_length r in
  (last_receive_time_ r <> 0 ->
   forallb (fun ev => negb (is_OnReceivedPacket ev)) (callbacks i) = true) /\
  (last_receive_time_ r = 0 ->
   passes_checks rtp_header packet_length r ->
   exists rest,
     callbacks i
     = OnReceivedPacket (announced_type rtp_header packet_length) :: rest /\
     forallb (fun ev => negb (is_OnReceivedPacket ev)) rest = true).
Proof.
  cbv zeta.
  destruct (IncomingRTPPacket_callback_groups e rtp_header packet
              packet_length r)
    as (c1 & c2 & c3 & c4 & E & S1 & S2 & S3 & S4).
  cbv zeta in E, S1, S2.
  assert (Rest : forallb (fun ev => negb (is_OnReceivedPacket ev))
                         (c2 ++ c3 ++ c4) = true).
  { rewrite !forallb_app.
    rewrite (ssrc_change_callbacks_not_received _ _ S2).
    rewrite (csrc_callbacks_not_received _ S4).
    destruct S3 as [-> | (pt & n & sp & ->)]; reflexivity. }
  split.
  - intros N. rewrite E. destruct S1 as [-> | [Z0 _]]; [exact Rest | lia].
  - intros Z0 (A1 & A2 & A3).
    assert (H : header_after
                  (IncomingRTPPacket e rtp_header packet packet_length r)
                = rtp_header).
    { rewrite IncomingRTPPacket_header. unfold on_rtx_stream in A2.
      rewrite A2. destruct (_ <? 0); reflexivity. }
    rewrite H in S1.
    assert (C : c1 = [OnReceivedPacket
                        (announced_type rtp_header packet_length)]).
    { destruct S1 as [-> | [_ C]]; [| exact C]. exfalso.
      revert E. unfold IncomingRTPPacket. unfold on_rtx_stream in A2.
      destruct (packet_length - paddingLength rtp_header
                - headerLength rtp_header <? 0) eqn:L; [lia |].
      rewrite A2.
      assert (F : use_ssrc_filter_ r
                  && negb (ssrc rtp_header =? ssrc_filter_ r) = false).
      { destruct (use_ssrc_filter_ r); [| reflexivity].
        rewrite (A3 eq_refl), Z.eqb_refl. reflexivity. }
      rewrite F, Z0. cbn [Z.eqb].
      destruct (CheckSSRCChanged rtp_header r) as [r2 k2].
      match goal with
      | |- context [CheckPayloadChanged e rtp_header ?b false (Audio 0 0 0)
                                         r2] =>
          destruct (CheckPayloadChanged e rtp_header b false (Audio 0 0 0) r2)
            as [[[[code is_red] specific] r3] k3]
      end.
      destruct (CheckCSRC e rtp_header r3) as [r4 k4].
      assert (Q : forall t u : list Callback,
                 (if packet_length - paddingLength rtp_header
                     - headerLength rtp_header =? 0
                  then [OnReceivedPacket kPacketKeepAlive]
                  else [OnReceivedPacket kPacketRtp]) ++ t = [] ++ u ->
                 forallb (fun ev => negb (is_OnReceivedPacket ev)) u = true ->
                 False).
      { intros t u Q1 Q2. destruct (_ =? 0); cbn [app] in Q1; subst u;
          discriminate Q2. }
      repeat match goal with
             | |- context [if ?c then {| ret := _ |} else _] => destruct c
             end;
        cbn [callbacks]; intros E; exact (Q _ _ E Rest). }
    exists (c2 ++ c3 ++ c4). rewrite E, C. split; [reflexivity | exact Rest].
Qed.

Lemma OnReceivedPacket_after_silence_witness :
  let r := after Example.registry [] in
  let first := IncomingRTPPacket (Example.env_at 1000)
                 (Example.header 1 100 1000) Example.packet 172 r in
  let second := IncomingRTPPacket (Example.env_at 1020)
                  (Example.header 1 101 1160) Example.packet 172
                  (receiver_after first) in
  (exists rest, callbacks first = OnReceivedPacket kPacketRtp :: rest) /\
  forallb (fun ev => negb (is_OnReceivedPacket ev)) (callbacks second) = true.
Proof.
  intros r first second. split.
  - destruct (proj2 (OnReceivedPacket_after_silence (Example.env_at 1000)
                       (Example.header 1 100 1000) Example.packet 172 r)
                    eq_refl) as (rest & E & _).
    + unfold passes_checks. vm_compute.
      repeat match goal with |- _ /\ _ => split end;
        try reflexivity; discriminate.
    + exists rest. exact E.
  - apply (proj1 (OnReceivedPacket_after_silence (Example.env_at 1020)
                    (Example.header 1 101 1160) Example.packet 172
                    (receiver_after first))).
    vm_compute. discriminate.
Defined.

(** ** Contributing sources: storing and reading back *)

Lemma length_memcpy_ge (dst src : list Z) (n : Z) :
  0 <= n <= Z.of_nat (List.length src) ->
  n <= Z.of_nat (List.length (memcpy dst src n)).
Proof.
  intros H. unfold memcpy.
  rewrite length_app, firstn_length_le by lia. lia.
Qed.

Lemma skipn_memcpy (dst src : list Z) (n : Z) :
  0 <= n <= Z.of_nat (List.length src) ->
  skipn (Z.to_nat n) (memcpy dst src n) = skipn (Z.to_nat n) dst.
Proof.
  intros H. unfold memcpy.
  assert (L : List.length (firstn (Z.to_nat n) src) = Z.to_nat n)
    by (rewrite firstn_length_le; lia).
  rewrite skipn_app, L, Nat.sub_diag.
  rewrite skipn_all2 by lia. reflexivity.
Qed.

(** What [CheckCSRC] leaves in the CSRC members when the strategy reports
    CSRC changes. *)
Lemma CheckCSRC_stored e h r :
  ShouldReportCsrcChanges (rtp_media_receiver_ e) (payloadType h) = true ->
  csrcs_well_formed h ->
  let r' := fst (CheckCSRC e h r) in
  (0 < numCSRCs h ->
   num_csrcs_ r' = numCSRCs h /\
   current_remote_csrc_ r'
   = memcpy (current_remote_csrc_ r) (arrOfCSRCs h) (numCSRCs h)) /\
  (numCSRCs h = 0 ->
   current_remote_csrc_ r' = current_remote_csrc_ r /\
   (if num_csrcs_ r >? 0 then num_csrcs_ r' = 0
    else num_csrcs_ r' = num_csrcs_ r)).
Proof.
  intros S [W1 W2]. cbv zeta. unfold CheckCSRC. rewrite S. cbn [negb].
  set (r1 := if (numEnergy h >? 0) && (numEnergy h <=? kRtpCsrcSize)
             then _ else _).
  assert (N1 : num_csrcs_ r1 = num_csrcs_ r)
    by (subst r1; destruct ((numEnergy h >? 0)
                            && (numEnergy h <=? kRtpCsrcSize));
        reflexivity).
  assert (C1 : current_remote_csrc_ r1 = current_remote_csrc_ r)
    by (subst r1; destruct ((numEnergy h >? 0)
                            && (numEnergy h <=? kRtpCsrcSize));
        reflexivity).
  clearbody r1. cbv zeta. rewrite N1. split.
  - intros Pos.
    assert (A : (numCSRCs h >? 0) && (numCSRCs h <=? kRtpCsrcSize) = true)
      by (apply andb_true_intro; split; lia).
    assert (B : (numCSRCs h >? 0) = true) by lia.
    rewrite A, B. cbn [orb fst]. split; [reflexivity |].
    change (current_remote_csrc_
              (set_num_csrcs_ (numCSRCs h)
                 (set_current_remote_csrc_
                    (memcpy (current_remote_csrc_ r1) (arrOfCSRCs h)
                            (numCSRCs h)) r1)))
      with (memcpy (current_remote_csrc_ r1) (arrOfCSRCs h) (numCSRCs h)).
    rewrite C1. reflexivity.
  - intros Z0. rewrite Z0. cbn [Z.gtb Z.compare andb orb].
    destruct (num_csrcs_ r >? 0); cbn [fst]; split;
      try exact C1; try exact N1; reflexivity.
Qed.

(** X18.  Storing and reading back the CSRC list.  After [CheckCSRC] has
    processed a header with [n] CSRCs, [0 < n <= 15], for a payload type
    whose CSRC changes are reported, [CSRCs] returns [n], the first [n]
    cells of the caller's array are the CSRCs of the header, in order, and
    the cells from [n] on are what they were. *)
Theorem CSRCs_reads_back_header
        (e : Env) (rtp_header : WebRtcRTPHeader) (r : RTPReceiver)
        (array_of_csrcs : list Z) :
  ShouldReportCsrcChanges (rtp_media_receiver_ e) (payloadType rtp_header)
  = true ->
  0 < numCSRCs rtp_header <= kRtpCsrcSize ->
  numCSRCs rtp_header <= Z.of_nat (List.length (arrOfCSRCs rtp_header)) ->
  let n := Z.to_nat (numCSRCs rtp_header) in
  let result := CSRCs array_of_csrcs (fst (CheckCSRC e rtp_header r)) in
  fst result = numCSRCs rtp_header /\
  firstn n (snd result) = firstn n (arrOfCSRCs rtp_header) /\
  skipn n (snd result) = skipn n array_of_csrcs.
Proof.
  intros S N L n result.
  destruct (CheckCSRC_stored e rtp_header r S) as [St _];
    [split; lia |].
  destruct (St ltac:(lia)) as [E1 E2]. subst result n. revert E1 E2.
  generalize (fst (CheckCSRC e rtp_header r)). intros r' E1 E2.
  unfold CSRCs. rewrite E1, E2. cbn [fst snd].
  assert (P : (numCSRCs rtp_header >? 0) = true) by lia. rewrite P.
  split; [reflexivity |].
  pose proof (length_memcpy_ge (current_remote_csrc_ r)
                (arrOfCSRCs rtp_header) (numCSRCs rtp_header)
                ltac:(lia)) as G.
  split.
  - rewrite firstn_memcpy by lia. apply firstn_memcpy. lia.
  - apply skipn_memcpy. lia.
Qed.

Lemma CSRCs_reads_back_header_witness :
  let r := after Example.registry [Example.ingest 1000 100 1000] in
  let h := Example.header_with_csrcs 1 101 1160 [7; 8; 9] in
  let result :=
    CSRCs [1; 2; 3; 4; 5] (fst (CheckCSRC (Example.env_at 1020) h r)) in
  fst result = 3 /\ snd result = [7; 8; 9; 4; 5].
Proof.
  intros r h result.
  destruct (CSRCs_reads_back_header (Example.env_at 1020) h r [1; 2; 3; 4; 5]
              eq_refl)
    as (E1 & E2 & E3).
  - vm_compute. split; [reflexivity | discriminate].
  - vm_compute. discriminate.
  - split; [exact E1 |].
    rewrite <- (firstn_skipn (Z.to_nat (numCSRCs h)) (snd result)).
    unfold result. rewrite E2, E3. reflexivity.
Defined.

Lemma unmatched_self (l : list Z) : unmatched l l = [].
Proof.
  destruct (unmatched l l) as [| x t] eqn:E; [reflexivity |].
  assert (I : In x (unmatched l l)) by (rewrite E; left; reflexivity).
  apply In_unmatched in I. destruct I as (I & N & _). contradiction.
Qed.

(** A header whose CSRC list is the tracked one triggers no callback. *)
Lemma CheckCSRC_same_list e h r :
  0 <= numCSRCs h ->
  (0 < numCSRCs h ->
   num_csrcs_ r = numCSRCs h /\
   tracked_csrcs r = firstn (Z.to_nat (numCSRCs h)) (arrOfCSRCs h)) ->
  (numCSRCs h = 0 -> num_csrcs_ r <= 0) ->
  snd (CheckCSRC e h r) = [].
Proof.
  intros N Pos Zero. unfold CheckCSRC.
  destruct (negb (ShouldReportCsrcChanges (rtp_media_receiver_ e)
                                          (payloadType h))); [reflexivity |].
  set (r1 := if (numEnergy h >? 0) && (numEnergy h <=? kRtpCsrcSize)
             then _ else _).
  assert (T1 : tracked_csrcs r1 = tracked_csrcs r)
    by (subst r1; destruct ((numEnergy h >? 0)
                            && (numEnergy h <=? kRtpCsrcSize));
        reflexivity).
  assert (N1 : num_csrcs_ r1 = num_csrcs_ r)
    by (subst r1; destruct ((numEnergy h >? 0)
                            && (numEnergy h <=? kRtpCsrcSize));
        reflexivity).
  clearbody r1. cbv zeta. rewrite N1, T1.
  destruct (Z.eq_dec (numCSRCs h) 0) as [Z0 | NZ].
  - specialize (Zero Z0).
    assert (A : (numCSRCs h >? 0) = false) by lia.
    assert (B : (num_csrcs_ r >? 0) = false) by lia.
    rewrite A, B. reflexivity.
  - destruct (Pos ltac:(lia)) as [E1 E2].
    assert (A : (numCSRCs h >? 0) = true) by lia.
    rewrite A. cbn [orb snd]. rewrite E1, E2, unmatched_self, Z.sub_diag.
    reflexivity.
Qed.

(** X19.  An unchanged CSRC list is silent.  Once [CheckCSRC] has processed
    a header (for a payload type whose CSRC changes are reported), a header
    that carries the same CSRC list, whatever its other fields and whatever
    the strategy then answers, triggers no [OnIncomingCSRCChanged] callback,
    not even the one with CSRC 0. *)
Theorem CheckCSRC_unchanged_list_is_silent
        (e e_next : Env) (rtp_header next : WebRtcRTPHeader)
        (r : RTPReceiver) :
  ShouldReportCsrcChanges (rtp_media_receiver_ e) (payloadType rtp_header)
  = true ->
  csrcs_well_formed rtp_header ->
  numCSRCs next = numCSRCs rtp_header ->
  firstn (Z.to_nat (numCSRCs next)) (arrOfCSRCs next)
  = firstn (Z.to_nat (numCSRCs rtp_header)) (arrOfCSRCs rtp_header) ->
  snd (CheckCSRC e_next next (fst (CheckCSRC e rtp_header r))) = [].
Proof.
  intros S W En El.
  pose proof (CheckCSRC_stored e rtp_header r S W) as St. cbv zeta in St.
  destruct W as [W1 W2]. destruct St as [St1 St0].
  revert St1 St0. generalize (fst (CheckCSRC e rtp_header r)).
  intros r' St1 St0.
  apply CheckCSRC_same_list.
  - lia.
  - intros Pos. rewrite En in Pos. destruct (St1 Pos) as [E1 E2].
    split; [lia |]. unfold tracked_csrcs. rewrite E1, E2, El.
    apply firstn_memcpy. lia.
  - intros Z0. rewrite En in Z0. destruct (St0 Z0) as [_ C].
    destruct (num_csrcs_ r >? 0) eqn:G; lia.
Qed.

Lemma CheckCSRC_unchanged_list_is_silent_witness :
  let r := after Example.registry [Example.ingest 1000 100 1000] in
  let h := Example.header_with_csrcs 1 101 1160 [7; 8; 9] in
  let next := Example.header_with_csrcs 1 102 1320 [7; 8; 9] in
  snd (CheckCSRC (Example.env_at 1020) h r)
  = [OnIncomingCSRCChanged 7 true; OnIncomingCSRCChanged 8 true;
     OnIncomingCSRCChanged 9 true] /\
  snd (CheckCSRC (Example.env_at 1040) next
         (fst (CheckCSRC (Example.env_at 1020) h r))) = [].
Proof.
  intros r h next. split; [reflexivity |].
  apply (CheckCSRC_unchanged_list_is_silent
           (Example.env_at 1020) (Example.env_at 1040) h next r).
  - reflexivity.
  - unfold csrcs_well_formed. vm_compute.
    repeat match goal with |- _ /\ _ => split end; discriminate.
  - reflexivity.
  - reflexivity.
Defined.

(** ** Payload-type changes *)

(** A payload check that initialises the decoder has bound the resolved
    payload type in the registry. *)
Lemma CheckPayloadChanged_bound e h first_payload_byte is_red specific_payload
                                r :
  let x := CheckPayloadChanged e h first_payload_byte is_red specific_payload
                               r in
  payload_check_callbacks x <> [] ->
  last_received_payload_type_ (rtp_payload_registry_ (payload_check_receiver x))
  = resolved_payload_type h first_payload_byte r /\
  red_payload_type_ (rtp_payload_registry_ (payload_check_receiver x))
  = red_payload_type_ (rtp_payload_registry_ r) /\
  REDPayloadType r (resolved_payload_type h first_payload_byte r) = false.
Proof.
  unfold CheckPayloadChanged, payload_check_callbacks, payload_check_receiver,
    resolved_payload_type, REDPayloadType, VideoCodecType,
    Registry.ReportMediaPayloadType.
  split_matches; intros N; try (exfalso; apply N; reflexivity);
    repeat match goal with |- _ /\ _ => split end;
    try reflexivity; try assumption.
Qed.

(** A packet whose resolved payload type is the bound one passes the check
    without any change. *)
Lemma CheckPayloadChanged_known e h first_payload_byte is_red specific_payload
                                r :
  last_received_payload_type_ (rtp_payload_registry_ r)
  = resolved_payload_type h first_payload_byte r ->
  REDPayloadType r (resolved_payload_type h first_payload_byte r) = false ->
  CheckPayloadChanged e h first_payload_byte is_red specific_payload r
  = (0, REDPayloadType r (payloadType h), last_media_specific_payload_ r, r,
     []).
Proof.
  unfold resolved_payload_type. intros L N. unfold CheckPayloadChanged.
  cbv zeta.
  destruct (REDPayloadType r (payloadType h)) eqn:R.
  - destruct (payloadType h
              =? last_received_payload_type_ (rtp_payload_registry_ r)) eqn:C.
    + apply Z.eqb_eq in C. rewrite L in C. rewrite C in R. congruence.
    + cbn [negb]. rewrite N, L, Z.eqb_refl. reflexivity.
  - rewrite L, Z.eqb_refl. reflexivity.
Qed.

(** X20.  The decoder is initialised once per payload-type change.  When a
    payload check has called [InvokeOnInitializeDecoder], whatever the call
    returned, the registry remembers the payload type: the check of a
    further packet with the same payload type (and, for RED, the same first
    payload byte) returns 0, leaves the receiver as it is and makes no
    callback, whatever the strategy answers. *)
Theorem CheckPayloadChanged_initialises_once
        (e e_next : Env) (rtp_header : WebRtcRTPHeader)
        (first_payload_byte : Z) (is_red is_red_next : bool)
        (specific_payload specific_next : PayloadUnion) (r : RTPReceiver) :
  let first := CheckPayloadChanged e rtp_header first_payload_byte is_red
                                   specific_payload r in
  let r' := payload_check_receiver first in
  payload_check_callbacks first <> [] ->
  CheckPayloadChanged e_next rtp_header first_payload_byte is_red_next
                      specific_next r'
  = (0, REDPayloadType r (payloadType rtp_header),
     last_media_specific_payload_ r', r', []).
Proof.
  intros first r' N.
  pose proof (CheckPayloadChanged_bound e rtp_header first_payload_byte is_red
                specific_payload r N) as B.
  cbv zeta in B. fold first in B. fold r' in B. clearbody r'.
  destruct B as (B1 & B2 & B3).
  assert (Red : forall pt, REDPayloadType r' pt = REDPayloadType r pt)
    by (intros pt; unfold REDPayloadType; rewrite B2; reflexivity).
  assert (Res : resolved_payload_type rtp_header first_payload_byte r'
                = resolved_payload_type rtp_header first_payload_byte r)
    by (unfold resolved_payload_type; rewrite Red; reflexivity).
  rewrite <- (Red (payloadType rtp_header)).
  apply CheckPayloadChanged_known.
  - rewrite Res. exact B1.
  - rewrite Res, Red. exact B3.
Qed.

Lemma CheckPayloadChanged_initialises_once_witness :
  let h := Example.header 1 100 1000 in
  let r := RTPReceiver_new Example.registry in
  let first := CheckPayloadChanged (Example.env_at 1000) h 0 false
                                   (Audio 0 0 0) r in
  payload_check_callbacks first
  = [InvokeOnInitializeDecoder 0 "PCMU"%string (Audio 8000 1 64000)] /\
  payload_check_callbacks
    (CheckPayloadChanged (Example.env_at 1020) h 0 false (Audio 0 0 0)
                         (payload_check_receiver first)) = [].
Proof.
  intros h r first. split; [reflexivity |]. unfold first.
  rewrite (CheckPayloadChanged_initialises_once
             (Example.env_at 1000) (Example.env_at 1020) h 0 false false
             (Audio 0 0 0) (Audio 0 0 0) r).
  - reflexivity.
  - vm_compute. discriminate.
Defined.

Lemma CheckSSRCChanged_registry (h : WebRtcRTPHeader) (r : RTPReceiver) :
  rtp_payload_registry_ (fst (CheckSSRCChanged h r)) = rtp_payload_registry_ r.
Proof.
  destruct (CheckSSRCChanged_receiver h r) as [E | [E | E]]; rewrite E;
    reflexivity.
Qed.




(** ** SSRC changes *)

(** X22.  An SSRC change is reported once.  After [CheckSSRCChanged] has
    processed a header with a non-zero SSRC, unless it met a restart with an
    unresolvable payload type, [SSRC] returns the SSRC of the header, and a
    further header with the same SSRC changes nothing and triggers no
    callback. *)
Theorem CheckSSRCChanged_reports_once
        (rtp_header next : WebRtcRTPHeader) (r : RTPReceiver) :
  restart_unresolvable rtp_header r = false ->
  ssrc rtp_header <> 0 ->
  ssrc next = ssrc rtp_header ->
  SSRC (fst (CheckSSRCChanged rtp_header r)) = ssrc rtp_header /\
  CheckSSRCChanged next (fst (CheckSSRCChanged rtp_header r))
  = (fst (CheckSSRCChanged rtp_header r), []).
Proof.
  intros U N S. unfold SSRC.
  assert (E : ssrc_ (fst (CheckSSRCChanged rtp_header r)) = ssrc rtp_header).
  { destruct (ssrc_changed rtp_header r) eqn:T.
    - destruct (CheckSSRCChanged_trigger rtp_header r T U) as [E _].
      rewrite E. reflexivity.
    - rewrite CheckSSRCChanged_no_trigger by exact T. cbn [fst].
      unfold ssrc_changed in T. apply orb_false_elim in T.
      destruct T as [T _]. apply negb_false_iff, Z.eqb_eq in T. exact T. }
  revert E. generalize (fst (CheckSSRCChanged rtp_header r)). intros r' E.
  split; [exact E |].
  apply CheckSSRCChanged_no_trigger. unfold ssrc_changed.
  rewrite E, S, Z.eqb_refl. cbn [negb orb].
  assert (Z0 : (ssrc rtp_header =? 0) = false) by (apply Z.eqb_neq; exact N).
  rewrite Z0. apply andb_false_r.
Qed.

Lemma CheckSSRCChanged_reports_once_witness :
  let r := after Example.registry [Example.ingest 1000 100 1000] in
  let h := Example.header 2 500 9000 in
  let next := Example.header 2 501 9160 in
  snd (CheckSSRCChanged h r)
  = [SetRemoteSSRC 2; OnIncomingSSRCChanged 2;
     OnInitializeDecoder 0 "PCMU"%string 8000 1 64000] /\
  snd (CheckSSRCChanged next (fst (CheckSSRCChanged h r))) = [].
Proof.
  intros r h next. split; [reflexivity |].
  rewrite (proj2 (CheckSSRCChanged_reports_once h next r eq_refl
                    ltac:(vm_compute; discriminate) eq_refl)).
  reflexivity.
Defined.

(** ** Packets of the current stream *)

Lemma CheckPayloadChanged_same e h first_payload_byte is_red specific_payload
                               r :
  payloadType h = last_received_payload_type_ (rtp_payload_registry_ r) ->
  CheckPayloadChanged e h first_payload_byte is_red specific_payload r
  = (0, false, last_media_specific_payload_ r, r, []).
Proof.
  intros H. unfold CheckPayloadChanged. cbv zeta.
  rewrite H, Z.eqb_refl. reflexivity.
Qed.

Lemma RetransmitOfOldPacket_retrack e r' r sequence_number rtp_time_stamp :
  RetransmitOfOldPacket e (retrack r' r) sequence_number rtp_time_stamp
  = RetransmitOfOldPacket e r sequence_number rtp_time_stamp.
Proof. reflexivity. Qed.

(** The receiver that an ingress call of such a packet leaves when the
    parser accepts it. *)
Lemma IncomingRTPPacket_steady e h packet packet_length r :
  of_current_stream h packet_length r ->
  let i := IncomingRTPPacket e h packet packet_length r in
  let old_packet :=
    RetransmitOfOldPacket e r (sequenceNumber h) (timestamp h) in
  0 <= ret i ->
  header_after i = h /\
  receiver_after i
  = record_reception e h packet_length old_packet
      (UpdateStatistics e h (GetPayloadDataLength h packet_length) old_packet
         (fst (CheckCSRC e h r))).
Proof.
  intros ((A1 & A2 & A3) & T & B). cbv zeta. unfold IncomingRTPPacket.
  unfold on_rtx_stream in A2.
  destruct (packet_length - paddingLength h - headerLength h <? 0) eqn:L;
    [lia |].
  rewrite A2.
  assert (F : use_ssrc_filter_ r && negb (ssrc h =? ssrc_filter_ r) = false).
  { destruct (use_ssrc_filter_ r); [| reflexivity].
    rewrite (A3 eq_refl), Z.eqb_refl. reflexivity. }
  rewrite F, (CheckSSRCChanged_no_trigger h r T).
  rewrite (CheckPayloadChanged_same e h _ false (Audio 0 0 0) r B).
  cbn [Z.eqb].
  rewrite <- (RetransmitOfOldPacket_retrack e (fst (CheckCSRC e h r)) r).
  rewrite <- (CheckCSRC_receiver e h r).
  destruct (CheckCSRC e h r) as [r4 c4]. cbn [fst].
  match goal with
  | |- context [if ?v <? 0 then _ else _] => destruct (v <? 0) eqn:V
  end; cbn [ret header_after receiver_after].
  - intros R. lia.
  - intros _. split; reflexivity.
Qed.

Lemma record_reception_new_packet e h packet_length r :
  let r' := record_reception e h packet_length false r in
  last_received_sequence_number_ r' = sequenceNumber h /\
  last_received_timestamp_ r' = timestamp h /\
  last_received_frame_time_ms_ r'
  = (if last_received_timestamp_ r =? timestamp h
     then last_received_frame_time_ms_ r else now_frame_ms e) /\
  received_seq_max_ r' = received_seq_max_ r /\
  received_byte_count_ r' = received_byte_count_ r.
Proof.
  cbv zeta. unfold record_reception. cbn [negb].
  change (last_received_timestamp_
            (set_last_received_payload_length_
               (GetPayloadDataLength h packet_length)
               (set_last_receive_time_ (now_receive_ms e) r)))
    with (last_received_timestamp_ r).
  destruct (last_received_timestamp_ r =? timestamp h) eqn:C; cbn [negb].
  - apply Z.eqb_eq in C.
    repeat match goal with |- _ /\ _ => split end; try reflexivity.
    exact C.
  - repeat match goal with |- _ /\ _ => split end; reflexivity.
Qed.

Lemma record_reception_old_packet e h packet_length r :
  let r' := record_reception e h packet_length true r in
  last_received_sequence_number_ r' = last_received_sequence_number_ r /\
  last_received_timestamp_ r' = last_received_timestamp_ r /\
  last_received_frame_time_ms_ r' = last_received_frame_time_ms_ r /\
  received_seq_max_ r' = received_seq_max_ r /\
  received_old_packet_count_ r' = received_old_packet_count_ r.
Proof.
  cbv zeta. unfold record_reception. cbn [negb].
  repeat match goal with |- _ /\ _ => split end; reflexivity.
Qed.

Lemma UpdateStatistics_last_received e h bytes old_packet r :
  let r' := UpdateStatistics e h bytes old_packet r in
  last_received_timestamp_ r' = last_received_timestamp_ r /\
  last_received_frame_time_ms_ r' = last_received_frame_time_ms_ r /\
  last_received_sequence_number_ r' = last_received_sequence_number_ r.
Proof.
  cbv zeta. unfold UpdateStatistics.
  split_ifs; repeat match goal with |- _ /\ _ => split end; reflexivity.
Qed.

Lemma UpdateStatistics_seq_max_in_order e h bytes old_packet r :
  InOrderPacket r (sequenceNumber h) = true ->
  received_seq_max_ (UpdateStatistics e h bytes old_packet r)
  = sequenceNumber h.
Proof.
  intros I. destruct (bootstrap r) eqn:B.
  - rewrite UpdateStatistics_bootstrap by exact B. reflexivity.
  - apply (UpdateStatistics_in_order e h bytes old_packet r B I).
Qed.

(** X23.  An in-order packet of the current stream becomes the last received
    packet.  When a packet of the bound stream and payload type passes the
    checks, is in order, and is accepted by the parser, then after the call
    [SequenceNumber] and [TimeStamp] return its sequence number and
    timestamp, it is the highest sequence number received, the byte count
    has grown by its payload length, [last_receive_time_] is the clock
    reading, and the frame time is the clock reading unless the packet
    carries the timestamp of the packet before (it then belongs to the same
    frame, whose time is kept). *)
Theorem IncomingRTPPacket_in_order_packet
        (e : Env) (rtp_header : WebRtcRTPHeader) (packet : list Z)
        (packet_length : Z) (r : RTPReceiver) :
  of_current_stream rtp_header packet_length r ->
  InOrderPacket r (sequenceNumber rtp_header) = true ->
  let i := IncomingRTPPacket e rtp_header packet packet_length r in
  0 <= ret i ->
  SequenceNumber (receiver_after i) = sequenceNumber rtp_header /\
  TimeStamp (receiver_after i) = timestamp rtp_header /\
  received_seq_max_ (receiver_after i) = sequenceNumber rtp_header /\
  ByteCountReceived (receiver_after i)
  = u32 (ByteCountReceived r
         + GetPayloadDataLength rtp_header packet_length) /\
  last_receive_time_ (receiver_after i) = now_receive_ms e /\
  last_received_frame_time_ms_ (receiver_after i)
  = (if TimeStamp r =? timestamp rtp_header
     then last_received_frame_time_ms_ r else now_frame_ms e).
Proof.
  intros C I i R.
  destruct (IncomingRTPPacket_steady e rtp_header packet packet_length r C R)
    as [_ E].
  fold i in E. rewrite E. clear E.
  assert (O : RetransmitOfOldPacket e r (sequenceNumber rtp_header)
                                    (timestamp rtp_header) = false)
    by (unfold RetransmitOfOldPacket; rewrite I; reflexivity).
  rewrite O.
  pose proof (CheckCSRC_receiver e rtp_header r) as K. revert K.
  generalize (fst (CheckCSRC e rtp_header r)). intros r4 K.
  set (bytes := GetPayloadDataLength rtp_header packet_length).
  pose proof (record_reception_new_packet e rtp_header packet_length
                (UpdateStatistics e rtp_header bytes false r4))
    as (N1 & N2 & N3 & N4 & N5).
  pose proof (record_reception_times e rtp_header packet_length false
                (UpdateStatistics e rtp_header bytes false r4)) as (N6 & _).
  pose proof (UpdateStatistics_last_received e rtp_header bytes false r4)
    as (U1 & U2 & _).
  cbv zeta in U1, U2.
  assert (I4 : InOrderPacket r4 (sequenceNumber rtp_header) = true)
    by (rewrite K; exact I).
  unfold SequenceNumber, TimeStamp, ByteCountReceived.
  rewrite N1, N2, N3, N4, N5, N6, U1, U2.
  rewrite (UpdateStatistics_seq_max_in_order e rtp_header bytes false r4 I4).
  rewrite UpdateStatistics_byte_count.
  rewrite K.
  repeat match goal with |- _ /\ _ => split end; reflexivity.
Qed.

Lemma IncomingRTPPacket_in_order_packet_witness :
  let r := after Example.registry [Example.ingest 1000 100 1000] in
  let i := IncomingRTPPacket (Example.env_at 1020) (Example.header 1 101 1160)
                             Example.packet 172 r in
  SequenceNumber (receiver_after i) = 101 /\
  TimeStamp (receiver_after i) = 1160 /\
  ByteCountReceived (receiver_after i) = 320.
Proof.
  intros r i.
  assert (C : of_current_stream (Example.header 1 101 1160) 172 r).
  { unfold of_current_stream, passes_checks.
    repeat match goal with |- _ /\ _ => split end;
      try reflexivity.
    - vm_compute. discriminate.
    - intros Q. discriminate Q. }
  destruct (IncomingRTPPacket_in_order_packet (Example.env_at 1020)
              (Example.header 1 101 1160) Example.packet 172 r C eq_refl
              ltac:(vm_compute; discriminate))
    as (E1 & E2 & _ & E4 & _).
  split; [exact E1 |]. split; [exact E2 |].
  exact (eq_trans E4 eq_refl).
Defined.

Lemma RetransmitOfOldPacket_not_in_order e r sequence_number rtp_time_stamp :
  RetransmitOfOldPacket e r sequence_number rtp_time_stamp = true ->
  InOrderPacket r sequence_number = false.
Proof.
  unfold RetransmitOfOldPacket.
  destruct (InOrderPacket r sequence_number); [discriminate | reflexivity].
Qed.

(** X24.  A retransmission of an old packet is counted but does not become
    the last received packet.  When a packet of the bound stream and payload
    type is classified by [RetransmitOfOldPacket] as a retransmission
    (outside the bootstrap branch) and the parser accepts it, the call
    raises the old-packet count by one and the byte count by the payload
    length and records the time of reception; it leaves [SequenceNumber],
    [TimeStamp], the frame time, the highest sequence number, the wrap
    count, the in-order count and the jitter as they were. *)
Theorem IncomingRTPPacket_retransmission
        (e : Env) (rtp_header : WebRtcRTPHeader) (packet : list Z)
        (packet_length : Z) (r : RTPReceiver) :
  of_current_stream rtp_header packet_length r ->
  RetransmitOfOldPacket e r (sequenceNumber rtp_header) (timestamp rtp_header)
  = true ->
  bootstrap r = false ->
  let i := IncomingRTPPacket e rtp_header packet packet_length r in
  0 <= ret i ->
  (received_old_packet_count_ (receiver_after i)
   = u32 (received_old_packet_count_ r + 1) /\
   ByteCountReceived (receiver_after i)
   = u32 (ByteCountReceived r
          + GetPayloadDataLength rtp_header packet_length) /\
   last_receive_time_ (receiver_after i) = now_receive_ms e) /\
  (SequenceNumber (receiver_after i) = SequenceNumber r /\
   TimeStamp (receiver_after i) = TimeStamp r /\
   last_received_frame_time_ms_ (receiver_after i)
   = last_received_frame_time_ms_ r /\
   received_seq_max_ (receiver_after i) = received_seq_max_ r /\
   received_seq_wraps_ (receiver_after i) = received_seq_wraps_ r /\
   PacketCountReceived (receiver_after i) = PacketCountReceived r /\
   jitter_q4_ (receiver_after i) = jitter_q4_ r).
Proof.
  intros C O B i R.
  destruct (IncomingRTPPacket_steady e rtp_header packet packet_length r C R)
    as [_ E].
  fold i in E. rewrite E. clear E. rewrite O.
  pose proof (RetransmitOfOldPacket_not_in_order _ _ _ _ O) as I.
  pose proof (CheckCSRC_receiver e rtp_header r) as K. revert K.
  generalize (fst (CheckCSRC e rtp_header r)). intros r4 K.
  set (bytes := GetPayloadDataLength rtp_header packet_length).
  assert (I4 : InOrderPacket r4 (sequenceNumber rtp_header) = false)
    by (rewrite K; exact I).
  assert (B4 : bootstrap r4 = false) by (rewrite K; exact B).
  pose proof (record_reception_old_packet e rtp_header packet_length
                (UpdateStatistics e rtp_header bytes true r4))
    as (N1 & N2 & N3 & N4 & N5).
  pose proof (record_reception_times e rtp_header packet_length true
                (UpdateStatistics e rtp_header bytes true r4)) as (N6 & _).
  pose proof (UpdateStatistics_last_received e rtp_header bytes true r4)
    as (U1 & U2 & U3).
  pose proof (UpdateStatistics_out_of_order e rtp_header bytes true r4 B4 I4)
    as Q.
  pose proof (UpdateStatistics_packet_counts e rtp_header bytes true r4 B4)
    as P.
  cbv zeta in U1, U2, U3, Q, P, N1, N2, N3, N4, N5. rewrite I4 in P.
  cbn [negb andb] in P. destruct P as [P1 P2].
  injection Q as Q1 Q2 Q3 Q4 Q5 Q6.
  assert (J : jitter_q4_ (record_reception e rtp_header packet_length true
                            (UpdateStatistics e rtp_header bytes true r4))
              = jitter_q4_ (UpdateStatistics e rtp_header bytes true r4))
    by apply record_reception_jitter.
  assert (W : received_seq_wraps_
                (record_reception e rtp_header packet_length true
                   (UpdateStatistics e rtp_header bytes true r4))
              = received_seq_wraps_
                  (UpdateStatistics e rtp_header bytes true r4))
    by reflexivity.
  assert (G : received_inorder_packet_count_
                (record_reception e rtp_header packet_length true
                   (UpdateStatistics e rtp_header bytes true r4))
              = received_inorder_packet_count_
                  (UpdateStatistics e rtp_header bytes true r4))
    by reflexivity.
  assert (Y : received_byte_count_
                (record_reception e rtp_header packet_length true
                   (UpdateStatistics e rtp_header bytes true r4))
              = received_byte_count_
                  (UpdateStatistics e rtp_header bytes true r4))
    by reflexivity.
  unfold SequenceNumber, TimeStamp, ByteCountReceived, PacketCountReceived.
  rewrite N1, N2, N3, N4, N5, N6, J, W, G, Y, U1, U2, U3, Q2, Q3, Q4, P1, P2.
  rewrite UpdateStatistics_byte_count. rewrite K.
  split; repeat match goal with |- _ /\ _ => split end; reflexivity.
Qed.

Lemma IncomingRTPPacket_retransmission_witness :
  let r := after Example.registry
             [Example.ingest 1000 100 1000; Example.ingest 1020 101 1160] in
  let i := IncomingRTPPacket (Example.env_at 1500) (Example.header 1 100 1160)
                             Example.packet 172 r in
  received_old_packet_count_ (receiver_after i) = 1 /\
  SequenceNumber (receiver_after i) = 101 /\
  TimeStamp (receiver_after i) = 1160.
Proof.
  intros r i.
  assert (C : of_current_stream (Example.header 1 100 1160) 172 r).
  { unfold of_current_stream, passes_checks.
    repeat match goal with |- _ /\ _ => split end;
      try reflexivity.
    - vm_compute. discriminate.
    - intros Q. discriminate Q. }
  destruct (IncomingRTPPacket_retransmission (Example.env_at 1500)
              (Example.header 1 100 1160) Example.packet 172 r C eq_refl
              eq_refl ltac:(vm_compute; discriminate))
    as ((E1 & _) & (E2 & E3 & _)).
  split; [exact (eq_trans E1 eq_refl) |].
  split; [exact (eq_trans E2 eq_refl) | exact (eq_trans E3 eq_refl)].
Defined.

(** ** Liveness *)

(** X25.  [ProcessDeadOrAlive] always makes exactly one callback.  For a full
    second after a reception was recorded (an ingress call that returned a
    positive code) it reports the receiver alive, whatever the RTCP state;
    without a packet in the last second and without RTCP it reports it
    dead; with RTCP it hands the decision to the media strategy. *)
Theorem ProcessDeadOrAlive_after_reception
        (e : Env) (rtp_header : WebRtcRTPHeader) (packet : list Z)
        (packet_length : Z) (r : RTPReceiver)
        (media : RTPReceiverStrategy) (rtcp_alive : bool) (now : Z) :
  let i := IncomingRTPPacket e rtp_header packet packet_length r in
  List.length (ProcessDeadOrAlive media rtcp_alive now r) = 1%nat /\
  (0 < ret i -> now < now_receive_ms e + 1000 ->
   ProcessDeadOrAlive media rtcp_alive now (receiver_after i)
   = [OnPeriodicDeadOrAlive kRtpAlive]) /\
  (last_receive_time_ r + 1000 <= now ->
   ProcessDeadOrAlive media false now r = [OnPeriodicDeadOrAlive kRtpDead] /\
   ProcessDeadOrAlive media true now r
   = [OnPeriodicDeadOrAlive
        (ProcessDeadOrAlive_strategy media (last_received_payload_length_ r))]).
Proof.
  cbv zeta. split; [reflexivity |]. split.
  - intros R N.
    pose proof (IncomingRTPPacket_outcome
                  (fun _ => True) e rtp_header packet packet_length r I
                  (fun _ _ _ => I) (fun _ _ _ _ => I) (fun _ _ _ => I)) as O.
    cbv zeta in O. destruct O as [[C _] | (_ & old & r4 & _ & E)]; [lia |].
    unfold ProcessDeadOrAlive. rewrite E.
    rewrite (proj1 (record_reception_times _ _ _ _ _)).
    destruct (now_receive_ms e + 1000 >? now) eqn:G; [reflexivity | lia].
  - intros N. unfold ProcessDeadOrAlive.
    destruct (last_receive_time_ r + 1000 >? now) eqn:G; [lia |].
    split; reflexivity.
Qed.

Lemma ProcessDeadOrAlive_after_reception_witness :
  let r := after Example.registry [Example.ingest 1000 100 1000] in
  let i := IncomingRTPPacket (env_parsing_at 1020) (Example.header 1 101 1160)
                             Example.packet 172 r in
  ProcessDeadOrAlive Example.audio_strategy false 2019 (receiver_after i)
  = [OnPeriodicDeadOrAlive kRtpAlive] /\
  ProcessDeadOrAlive Example.audio_strategy false 2020 (receiver_after i)
  = [OnPeriodicDeadOrAlive kRtpDead].
Proof.
  intros r i. split.
  - apply (proj1 (proj2 (ProcessDeadOrAlive_after_reception
                    (env_parsing_at 1020) (Example.header 1 101 1160)
                    Example.packet 172 r Example.audio_strategy false 2019))).
    + vm_compute. reflexivity.
    + vm_compute. reflexivity.
  - apply (proj2 (proj2 (ProcessDeadOrAlive_after_reception
                    (env_parsing_at 1020) (Example.header 1 101 1160)
                    Example.packet 172 (receiver_after i)
                    Example.audio_strategy false 2020))).
    vm_compute. discriminate.
Defined.

(** ** The estimated remote timestamp *)

(** X26.  [EstimatedRemoteTimeStamp] fails with -1, leaving the caller's
    variable alone, exactly when [local_time_last_received_timestamp_] is 0,
    as on a fresh receiver.  Otherwise it succeeds; read at the local time
    of the last in-order packet it gives the timestamp of the last received
    packet, and it then advances with the local RTP clock, sample by
    sample, modulo 2^32. *)
Theorem EstimatedRemoteTimeStamp_follows_clock
        (now elapsed timestamp : Z) (registry : RTPPayloadRegistry)
        (r : RTPReceiver) :
  EstimatedRemoteTimeStamp now timestamp (RTPReceiver_new registry)
  = (-1, timestamp) /\
  (local_time_last_received_timestamp_ r = 0 ->
   EstimatedRemoteTimeStamp now timestamp r = (-1, timestamp)) /\
  (local_time_last_received_timestamp_ r <> 0 ->
   EstimatedRemoteTimeStamp (local_time_last_received_timestamp_ r)
                            timestamp r
   = (0, u32 (last_received_timestamp_ r)) /\
   EstimatedRemoteTimeStamp (u32 (now + elapsed)) timestamp r
   = (0, u32 (snd (EstimatedRemoteTimeStamp now timestamp r) + elapsed))).
Proof.
  split; [reflexivity |]. split.
  - intros Z0. unfold EstimatedRemoteTimeStamp. rewrite Z0. reflexivity.
  - intros N. unfold EstimatedRemoteTimeStamp.
    assert (C : (local_time_last_received_timestamp_ r =? 0) = false)
      by (apply Z.eqb_neq; exact N).
    rewrite C. cbn [snd]. split.
    + rewrite Z.sub_diag. change (u32 0) with 0. rewrite Z.add_0_r.
      reflexivity.
    + f_equal.
      rewrite u32_add_r, u32_add_l.
      replace (last_received_timestamp_ r
               + (u32 (now + elapsed)
                  - local_time_last_received_timestamp_ r))
        with (u32 (now + elapsed)
              + (last_received_timestamp_ r
                 - local_time_last_received_timestamp_ r)) by lia.
      rewrite u32_add_l.
      replace (last_received_timestamp_ r
               + u32 (now - local_time_last_received_timestamp_ r) + elapsed)
        with (last_received_timestamp_ r + elapsed
              + u32 (now - local_time_last_received_timestamp_ r)) by lia.
      rewrite u32_add_r. f_equal. lia.
Qed.

Lemma EstimatedRemoteTimeStamp_follows_clock_witness :
  let r := after Example.registry [Example.ingest 1000 100 1000] in
  EstimatedRemoteTimeStamp 8000 0 r = (0, 1000) /\
  EstimatedRemoteTimeStamp 8160 0 r = (0, 1160) /\
  EstimatedRemoteTimeStamp 8160 5 (ResetStatistics (after Example.registry []))
  = (-1, 5).
Proof.
  intros r.
  destruct (proj2 (proj2 (EstimatedRemoteTimeStamp_follows_clock
                            8000 160 0 Registry.empty r))
              ltac:(vm_compute; discriminate)) as [E1 E2].
  split; [exact (eq_trans E1 eq_refl) |].
  split; [exact (eq_trans E2 eq_refl) |].
  apply (proj1 (proj2 (EstimatedRemoteTimeStamp_follows_clock
                         8160 0 5 Registry.empty
                         (ResetStatistics (after Example.registry []))))).
  reflexivity.
Defined.

(** ** RED packets *)

(** X27.  RED unwrapping.  The first payload byte matters only for a packet
    of the RED payload type, and then only through its low seven bits, the
    payload type of the primary encoding.  If that type is again the RED
    type, the check fails with -1 and changes nothing; if it is the payload
    type bound last, the check succeeds with [is_red] set and changes
    nothing. *)
Theorem CheckPayloadChanged_red
        (e : Env) (rtp_header : WebRtcRTPHeader)
        (first_payload_byte other_byte : Z) (is_red : bool)
        (specific_payload : PayloadUnion) (r : RTPReceiver) :
  let check b :=
    CheckPayloadChanged e rtp_header b is_red specific_payload r in
  let primary := Z.land first_payload_byte 0x7f in
  (REDPayloadType r (payloadType rtp_header) = false ->
   check first_payload_byte = check other_byte) /\
  (Z.land other_byte 0x7f = primary ->
   check first_payload_byte = check other_byte) /\
  (REDPayloadType r (payloadType rtp_header) = true ->
   payloadType rtp_header
   <> last_received_payload_type_ (rtp_payload_registry_ r) ->
   (REDPayloadType r primary = true ->
    check first_payload_byte = (-1, true, specific_payload, r, [])) /\
   (REDPayloadType r primary = false ->
    primary = last_received_payload_type_ (rtp_payload_registry_ r) ->
    check first_payload_byte
    = (0, true, last_media_specific_payload_ r, r, []))).
Proof.
  cbv zeta. split; [| split].
  - intros R. unfold CheckPayloadChanged. cbv zeta. rewrite R. reflexivity.
  - intros E. unfold CheckPayloadChanged. cbv zeta. rewrite E. reflexivity.
  - intros R N.
    assert (C : (payloadType rtp_header
                 =? last_received_payload_type_ (rtp_payload_registry_ r))
                = false) by (apply Z.eqb_neq; exact N).
    split.
    + intros R2. unfold CheckPayloadChanged. cbv zeta.
      rewrite C, R, R2. reflexivity.
    + intros R2 L. unfold CheckPayloadChanged. cbv zeta.
      rewrite C, R, R2, L, Z.eqb_refl. reflexivity.
Qed.

Lemma CheckPayloadChanged_red_witness :
  let g := {| payload_type_map_ := payload_type_map_ Example.registry;
              red_payload_type_ := 96;
              last_received_payload_type_ := 0;
              last_received_media_payload_type_ := -1 |} in
  let r := RTPReceiver_new g in
  let h := Example.header_with_csrcs 1 100 1000 [] in
  let red := {| payloadType := 96; sequenceNumber := 100; timestamp := 1000;
                ssrc := 1; numCSRCs := 0; arrOfCSRCs := arrOfCSRCs h;
                paddingLength := 0; headerLength := 12;
                transmissionTimeOffset := 0; numEnergy := 0;
                arrOfEnergy := arrOfEnergy h |} in
  CheckPayloadChanged (Example.env_at 1000) red 96 false (Audio 0 0 0) r
  = (-1, true, Audio 0 0 0, r, []) /\
  CheckPayloadChanged (Example.env_at 1000) red 128 false (Audio 0 0 0) r
  = (0, true, Audio 0 0 0, r, []) /\
  CheckPayloadChanged (Example.env_at 1000) h 5 false (Audio 0 0 0) r
  = CheckPayloadChanged (Example.env_at 1000) h 77 false (Audio 0 0 0) r.
Proof.
  intros g r h red.
  pose proof (CheckPayloadChanged_red (Example.env_at 1000) red 96 224 false
                (Audio 0 0 0) r) as (_ & _ & A).
  pose proof (CheckPayloadChanged_red (Example.env_at 1000) red 128 0 false
                (Audio 0 0 0) r) as (_ & _ & B).
  pose proof (CheckPayloadChanged_red (Example.env_at 1000) h 5 77 false
                (Audio 0 0 0) r) as (D & _).
  cbv zeta in A, B, D.
  split; [| split].
  - apply A; [reflexivity | vm_compute; discriminate | reflexivity].
  - apply B; [reflexivity | vm_compute; discriminate | reflexivity
              | reflexivity].
  - apply D. reflexivity.
Defined.

(** ** Setters and getters *)

(** X28.  Each setting reads back as it was set.  [SetNACKStatus] succeeds
    exactly when the threshold is not negative, after which [NACK] returns
    the method; a refused call changes nothing.  [RTXStatus] returns what
    [SetRTXStatus] stored.  [SSRCFilter] returns 0 and the allowed SSRC
    after the filter was switched on, and -1 without touching the caller's
    variable after it was switched off.  A packet timeout of 0 switches
    the timeout check off. *)
Theorem settings_read_back
        (method : NACKMethod) (max_reordering_threshold : Z)
        (enable : bool) (new_ssrc allowed_ssrc now : Z) (r : RTPReceiver) :
  (0 <= max_reordering_threshold ->
   fst (SetNACKStatus method max_reordering_threshold r) = 0 /\
   NACK (snd (SetNACKStatus method max_reordering_threshold r)) = method) /\
  (max_reordering_threshold < 0 ->
   SetNACKStatus method max_reordering_threshold r = (-1, r)) /\
  RTXStatus (SetRTXStatus enable new_ssrc r) = (enable, new_ssrc) /\
  SSRCFilter allowed_ssrc (SetSSRCFilter true new_ssrc r) = (0, new_ssrc) /\
  SSRCFilter allowed_ssrc (SetSSRCFilter false new_ssrc r)
  = (-1, allowed_ssrc) /\
  PacketTimeout now (SetPacketTimeout 0 r) = (SetPacketTimeout 0 r, []).
Proof.
  split; [| split; [| split; [| split; [| split]]]].
  - intros H. unfold SetNACKStatus.
    destruct (max_reordering_threshold <? 0) eqn:C; [lia |].
    cbn [fst snd]. split; reflexivity.
  - intros H. unfold SetNACKStatus.
    destruct (max_reordering_threshold <? 0) eqn:C; [reflexivity | lia].
  - reflexivity.
  - reflexivity.
  - reflexivity.
  - reflexivity.
Qed.

Lemma settings_read_back_witness :
  let r := RTPReceiver_new Example.registry in
  NACK (snd (SetNACKStatus kNackRtcp 7 r)) = kNackRtcp /\
  SetNACKStatus kNackRtcp (-1) r = (-1, r).
Proof.
  intros r.
  destruct (settings_read_back kNackRtcp 7 true 0 0 0 r) as (A & _).
  destruct (settings_read_back kNackRtcp (-1) true 0 0 0 r) as (_ & B & _).
  split; [apply A; lia | apply B; lia].
Defined.

(** ** Payload-type changes restart the statistics *)

(** A check that binds a registered audio payload type resets the statistics
    and initialises the decoder. *)
Lemma CheckPayloadChanged_rebinds e h first_payload_byte specific_payload r
                                  payload :
  REDPayloadType r (payloadType h) = false ->
  payloadType h <> last_received_payload_type_ (rtp_payload_registry_ r) ->
  (forall specific,
      snd (CheckPayloadChanged_strategy (rtp_media_receiver_ e)
             (payloadType h) specific) = false) ->
  Registry.PayloadTypeToPayload (payload_type_map_ (rtp_payload_registry_ r))
                                (payloadType h) = Some payload ->
  audio payload = true ->
  InvokeOnInitializeDecoder_ret (rtp_media_receiver_ e) (payloadType h)
    (name payload) (typeSpecific payload) <> -1 ->
  exists r',
    CheckPayloadChanged e h first_payload_byte false specific_payload r
    = (0, false, typeSpecific payload, r',
       [InvokeOnInitializeDecoder (payloadType h) (name payload)
                                  (typeSpecific payload)]) /\
    stream_statistics r' = [0; 0; 0; 0; 0; 0; 0; 0; 0; 0] /\
    last_received_payload_type_ (rtp_payload_registry_ r') = payloadType h /\
    last_media_specific_payload_ r' = typeSpecific payload /\
    reception_record r' = reception_record r /\
    configuration r' = configuration r.
Proof.
  intros R N D U A V. unfold CheckPayloadChanged. cbv zeta.
  assert (C : (payloadType h
               =? last_received_payload_type_ (rtp_payload_registry_ r))
              = false) by (apply Z.eqb_neq; exact N).
  rewrite C, R. cbn [negb].
  pose proof (D specific_payload) as D1.
  destruct (CheckPayloadChanged_strategy (rtp_media_receiver_ e)
              (payloadType h) specific_payload) as [[specific reset] discard].
  cbn [snd] in D1. subst discard.
  assert (W : (InvokeOnInitializeDecoder_ret (rtp_media_receiver_ e)
                 (payloadType h) (name payload) (typeSpecific payload)
               =? -1) = false) by (apply Z.eqb_neq; exact V).
  destruct reset.
  - change (payload_type_map_ (rtp_payload_registry_ (ResetStatistics r)))
      with (payload_type_map_ (rtp_payload_registry_ r)).
    rewrite U. simpl. rewrite A. simpl. rewrite W.
    eexists. split; [reflexivity |].
    repeat match goal with |- _ /\ _ => split end; reflexivity.
  - rewrite U. simpl. rewrite A. simpl. rewrite W.
    eexists. split; [reflexivity |].
    repeat match goal with |- _ /\ _ => split end; reflexivity.
Qed.

Lemma record_reception_stream_statistics e h packet_length old_packet r :
  stream_statistics (record_reception e h packet_length old_packet r)
  = stream_statistics r.
Proof. unfold record_reception. split_ifs; reflexivity. Qed.

Lemma record_reception_binding e h packet_length old_packet r :
  rtp_payload_registry_ (record_reception e h packet_length old_packet r)
  = rtp_payload_registry_ r /\
  last_media_specific_payload_
    (record_reception e h packet_length old_packet r)
  = last_media_specific_payload_ r.
Proof. unfold record_reception. split_ifs; split; reflexivity. Qed.

Lemma UpdateStatistics_binding e h bytes old_packet r :
  rtp_payload_registry_ (UpdateStatistics e h bytes old_packet r)
  = rtp_payload_registry_ r /\
  last_media_specific_payload_ (UpdateStatistics e h bytes old_packet r)
  = last_media_specific_payload_ r.
Proof. unfold UpdateStatistics. split_ifs; split; reflexivity. Qed.

(** X29.  A change of payload type restarts the statistics, unless the
    media strategy discards the change.  When a packet that passes the
    checks at the head of the call carries a payload type other than the
    bound one (not RED), registered for audio, and the media strategy does
    not ask to discard the change ([should_discard_changes] stays false for
    that payload type; when it is set the call returns before it looks the
    payload type up, and none of this happens), the call binds that payload
    type, calls [InvokeOnInitializeDecoder] with the registered name and
    parameters, and resets the statistics before it counts the packet:
    provided the decoder callback does not fail and the parser accepts the
    packet, the packet is afterwards the first and the highest of the
    stream, the only one counted, its payload the only bytes counted, the
    jitter and the cumulative loss are 0 and no report is stored. *)
Theorem IncomingRTPPacket_payload_type_change
        (e : Env) (rtp_header : WebRtcRTPHeader) (packet : list Z)
        (packet_length : Z) (r : RTPReceiver) (payload : Payload) :
  passes_checks rtp_header packet_length r ->
  REDPayloadType r (payloadType rtp_header) = false ->
  payloadType rtp_header
  <> last_received_payload_type_ (rtp_payload_registry_ r) ->
  (forall specific,
      snd (CheckPayloadChanged_strategy (rtp_media_receiver_ e)
             (payloadType rtp_header) specific) = false) ->
  Registry.PayloadTypeToPayload (payload_type_map_ (rtp_payload_registry_ r))
                                (payloadType rtp_header) = Some payload ->
  audio payload = true ->
  InvokeOnInitializeDecoder_ret (rtp_media_receiver_ e)
    (payloadType rtp_header) (name payload) (typeSpecific payload) <> -1 ->
  let i := IncomingRTPPacket e rtp_header packet packet_length r in
  0 <= ret i ->
  In (InvokeOnInitializeDecoder (payloadType rtp_header) (name payload)
                                (typeSpecific payload)) (callbacks i) /\
  last_received_payload_type_ (rtp_payload_registry_ (receiver_after i))
  = payloadType rtp_header /\
  last_media_specific_payload_ (receiver_after i) = typeSpecific payload /\
  received_seq_first_ (receiver_after i) = sequenceNumber rtp_header /\
  received_seq_max_ (receiver_after i) = sequenceNumber rtp_header /\
  received_seq_wraps_ (receiver_after i) = 0 /\
  DataCounters (receiver_after i)
  = (u32 (GetPayloadDataLength rtp_header packet_length), 1) /\
  jitter_q4_ (receiver_after i) = 0 /\
  cumulative_loss_ (receiver_after i) = 0 /\
  last_report_inorder_packets_ (receiver_after i) = 0.
Proof.
  intros (A1 & A2 & A3) R N D U A V. cbv zeta. unfold IncomingRTPPacket.
  unfold on_rtx_stream in A2.
  destruct (packet_length - paddingLength rtp_header
            - headerLength rtp_header <? 0) eqn:L; [lia |].
  rewrite A2.
  assert (F : use_ssrc_filter_ r
              && negb (ssrc rtp_header =? ssrc_filter_ r) = false).
  { destruct (use_ssrc_filter_ r); [| reflexivity].
    rewrite (A3 eq_refl), Z.eqb_refl. reflexivity. }
  rewrite F.
  match goal with
  | |- context [if last_receive_time_ r =? 0 then ?a else ?b] =>
      generalize (if last_receive_time_ r =? 0 then a else b)
  end.
  intros c1.
  pose proof (CheckSSRCChanged_registry rtp_header r) as G2.
  destruct (CheckSSRCChanged rtp_header r) as [r2 c2]. cbn [fst] in G2.
  match goal with
  | |- context [CheckPayloadChanged e rtp_header ?b false (Audio 0 0 0) r2] =>
      destruct (CheckPayloadChanged_rebinds e rtp_header b (Audio 0 0 0) r2
                  payload)
        as (r3 & E3 & S3 & B3 & M3 & _)
  end.
  - unfold REDPayloadType in *. rewrite G2. exact R.
  - rewrite G2. exact N.
  - exact D.
  - rewrite G2. exact U.
  - exact A.
  - exact V.
  - rewrite E3. cbn [Z.eqb].
    pose proof (CheckCSRC_receiver e rtp_header r3) as K.
    destruct (CheckCSRC e rtp_header r3) as [r4 c4]. cbn [fst] in K.
    assert (S4 : stream_statistics r4 = [0; 0; 0; 0; 0; 0; 0; 0; 0; 0])
      by (rewrite K; exact S3).
    assert (B4 : last_received_payload_type_ (rtp_payload_registry_ r4)
                 = payloadType rtp_header) by (rewrite K; exact B3).
    assert (M4 : last_media_specific_payload_ r4 = typeSpecific payload)
      by (rewrite K; exact M3).
    clear K.
    match goal with
    | |- context [if ?v <? 0 then _ else _] => destruct (v <? 0) eqn:P
    end; cbn [ret receiver_after callbacks]; intros Q; [lia |].
    split.
    { apply in_or_app. right. apply in_or_app. right.
      apply in_or_app. left. left. reflexivity. }
    cbv zeta.
    match goal with
    | |- context [RetransmitOfOldPacket e r4 ?s ?t] =>
        set (old' := RetransmitOfOldPacket e r4 s t)
    end.
    set (bytes' := GetPayloadDataLength rtp_header packet_length).
    match goal with
    | |- context [if negb old' then ?a else ?b] =>
        change (if negb old' then a else b)
          with (record_reception e rtp_header packet_length old'
                  (UpdateStatistics e rtp_header bytes' old' r4))
    end.
    unfold stream_statistics in S4.
    injection S4 as Z1 Z2 Z3 Z4 Z5 Z6 Z7 Z8 Z9 Z10.
    assert (Boot : bootstrap r4 = true)
      by (unfold bootstrap; rewrite Z2, Z3; reflexivity).
    pose proof (UpdateStatistics_bootstrap e rtp_header bytes' old' r4 Boot)
      as UB.
    pose proof (UpdateStatistics_binding e rtp_header bytes' old' r4)
      as (UG & UM).
    revert UB UG UM.
    generalize (UpdateStatistics e rtp_header bytes' old' r4).
    intros r5 UB UG UM.
    assert (S5 : stream_statistics r5
                 = [sequenceNumber rtp_header; sequenceNumber rtp_header; 0;
                    1; 0; u32 bytes'; 0; 0; 0; 0]).
    { rewrite UB. unfold stream_statistics. simpl.
      rewrite Z3, Z5, Z6, Z7, Z8, Z9, Z10. reflexivity. }
    clear UB.
    pose proof (record_reception_stream_statistics e rtp_header packet_length
                  old' r5) as RS.
    pose proof (record_reception_binding e rtp_header packet_length old' r5)
      as (RG & RM).
    revert RS RG RM.
    generalize (record_reception e rtp_header packet_length old' r5).
    intros r6 RS RG RM.
    rewrite S5 in RS. unfold stream_statistics in RS.
    injection RS as Y1 Y2 Y3 Y4 Y5 Y6 Y7 Y8 Y9 Y10.
    unfold DataCounters.
    rewrite RG, RM, UG, UM, B4, M4, Y1, Y2, Y3, Y4, Y5, Y6, Y7, Y9, Y10.
    repeat match goal with |- _ /\ _ => split end; try reflexivity.
Qed.

Lemma IncomingRTPPacket_payload_type_change_witness :
  let r := RTPReceiver_new Example.registry in
  let i := IncomingRTPPacket (Example.env_at 1000) (Example.header 1 100 1000)
                             Example.packet 172 r in
  In (InvokeOnInitializeDecoder 0 "PCMU"%string (Audio 8000 1 64000))
     (callbacks i) /\
  received_seq_first_ (receiver_after i) = 100 /\
  DataCounters (receiver_after i) = (160, 1).
Proof.
  intros r i.
  assert (A : passes_checks (Example.header 1 100 1000) 172 r).
  { unfold passes_checks.
    repeat match goal with |- _ /\ _ => split end.
    - vm_compute. discriminate.
    - reflexivity.
    - intros Q. discriminate Q. }
  destruct (IncomingRTPPacket_payload_type_change (Example.env_at 1000)
              (Example.header 1 100 1000) Example.packet 172 r Example.pcmu
              A eq_refl ltac:(vm_compute; discriminate)
              ltac:(intros sp; reflexivity) eq_refl eq_refl
              ltac:(vm_compute; discriminate)
              ltac:(vm_compute; discriminate))
    as (E1 & _ & _ & E4 & _ & _ & E7 & _).
  split; [exact E1 |]. split; [exact E4 | exact E7].
Defined.

(** ** Audio levels: storing and reading back *)

(** What [CheckCSRC] leaves in the energy members when the strategy reports
    CSRC changes. *)
Lemma CheckCSRC_stored_energy e h r :
  ShouldReportCsrcChanges (rtp_media_receiver_ e) (payloadType h) = true ->
  let r' := fst (CheckCSRC e h r) in
  num_energy_ r' = numEnergy h /\
  current_remote_energy_ r'
  = (if (numEnergy h >? 0) && (numEnergy h <=? kRtpCsrcSize)
     then memcpy (current_remote_energy_ r) (arrOfEnergy h) (numEnergy h)
     else current_remote_energy_ r).
Proof.
  intros S. cbv zeta. unfold CheckCSRC. rewrite S. cbn [negb]. cbv zeta.
  destruct ((numEnergy h >? 0) && (numEnergy h <=? kRtpCsrcSize));
    repeat match goal with
           | |- context [if ?c then (_, _) else (_, _)] => destruct c
           | |- context [if ?c then set_current_remote_csrc_ _ _ else _] =>
               destruct c
           end;
    cbn [fst]; split; reflexivity.
Qed.

Lemma firstn_memcpy_shorter (dst src : list Z) (n m : Z) :
  0 <= m <= n -> n <= Z.of_nat (List.length src) ->
  firstn (Z.to_nat m) (memcpy dst src n) = firstn (Z.to_nat m) src.
Proof.
  intros H L. unfold memcpy.
  assert (Len : List.length (firstn (Z.to_nat n) src) = Z.to_nat n)
    by (rewrite firstn_length_le; lia).
  rewrite firstn_app, Len.
  replace (Z.to_nat m - Z.to_nat n)%nat with 0%nat by lia.
  rewrite firstn_firstn. replace (Nat.min (Z.to_nat m) (Z.to_nat n))
    with (Z.to_nat m) by lia.
  cbn [firstn]. apply app_nil_r.
Qed.

(** X30.  Storing and reading back the audio levels.  After [CheckCSRC] has
    processed a header with [m] energy values, [0 < m <= 15], and [n <= m]
    CSRCs (for a payload type whose CSRC changes are reported), [Energy]
    returns [m], the first [n] cells of the caller's array are the first
    [n] energy values of the header, and the cells from [n] on are what
    they were: the levels are handed out for the CSRCs only. *)
Theorem Energy_reads_back_header
        (e : Env) (rtp_header : WebRtcRTPHeader) (r : RTPReceiver)
        (array_of_energy : list Z) :
  ShouldReportCsrcChanges (rtp_media_receiver_ e) (payloadType rtp_header)
  = true ->
  0 < numEnergy rtp_header <= kRtpCsrcSize ->
  numEnergy rtp_header <= Z.of_nat (List.length (arrOfEnergy rtp_header)) ->
  0 <= numCSRCs rtp_header <= numEnergy rtp_header ->
  numCSRCs rtp_header <= Z.of_nat (List.length (arrOfCSRCs rtp_header)) ->
  let n := Z.to_nat (numCSRCs rtp_header) in
  let result := Energy array_of_energy (fst (CheckCSRC e rtp_header r)) in
  fst result = numEnergy rtp_header /\
  firstn n (snd result) = firstn n (arrOfEnergy rtp_header) /\
  skipn n (snd result) = skipn n array_of_energy.
Proof.
  intros S M L N LC n result.
  pose proof (CheckCSRC_stored_energy e rtp_header r S) as En.
  pose proof (CheckCSRC_stored e rtp_header r S) as St.
  cbv zeta in En, St.
  assert (W : csrcs_well_formed rtp_header)
    by (unfold csrcs_well_formed; split; lia).
  specialize (St W). destruct St as [St1 St0]. destruct En as [E1 E2].
  assert (A : (numEnergy rtp_header >? 0)
              && (numEnergy rtp_header <=? kRtpCsrcSize) = true)
    by (apply andb_true_intro; split; lia).
  rewrite A in E2.
  subst result n. revert E1 E2 St1 St0.
  generalize (fst (CheckCSRC e rtp_header r)). intros r' E1 E2 St1 St0.
  unfold Energy. rewrite E1, E2. cbn [fst snd].
  assert (P : (numEnergy rtp_header >? 0) = true) by lia. rewrite P.
  split; [reflexivity |].
  pose proof (length_memcpy_ge (current_remote_energy_ r)
                (arrOfEnergy rtp_header) (numEnergy rtp_header)
                ltac:(lia)) as G.
  destruct (Z.eq_dec (numCSRCs rtp_header) 0) as [Z0 | NZ].
  - destruct (St0 Z0) as [_ C].
    assert (T : Z.to_nat (num_csrcs_ r') = 0%nat)
      by (destruct (num_csrcs_ r >? 0) eqn:Q; lia).
    rewrite Z0. unfold memcpy. rewrite T. cbn [Z.to_nat firstn skipn app].
    split; reflexivity.
  - destruct (St1 ltac:(lia)) as [C _]. rewrite C. split.
    + rewrite firstn_memcpy by lia.
      apply firstn_memcpy_shorter; lia.
    + apply skipn_memcpy. lia.
Qed.

Lemma Energy_reads_back_header_witness :
  let r := after Example.registry [Example.ingest 1000 100 1000] in
  let h := {| payloadType := 0; sequenceNumber := 101; timestamp := 1160;
              ssrc := 1; numCSRCs := 2;
              arrOfCSRCs := [7; 8; 0; 0; 0; 0; 0; 0; 0; 0; 0; 0; 0; 0; 0];
              paddingLength := 0; headerLength := 20;
              transmissionTimeOffset := 0; numEnergy := 3;
              arrOfEnergy :=
                [40; 50; 60; 0; 0; 0; 0; 0; 0; 0; 0; 0; 0; 0; 0] |} in
  let result :=
    Energy [1; 2; 3; 4; 5] (fst (CheckCSRC (Example.env_at 1020) h r)) in
  fst result = 3 /\ snd result = [40; 50; 3; 4; 5].
Proof.
  intros r h result.
  destruct (Energy_reads_back_header (Example.env_at 1020) h r [1; 2; 3; 4; 5]
              eq_refl)
    as (E1 & E2 & E3).
  - vm_compute. split; [reflexivity | discriminate].
  - vm_compute. discriminate.
  - vm_compute. split; discriminate.
  - vm_compute. discriminate.
  - split; [exact E1 |].
    rewrite <- (firstn_skipn (Z.to_nat (numCSRCs h)) (snd result)).
    unfold result. rewrite E2, E3. reflexivity.
Defined.
